(** * Connection resilience controller of rustplusplus-enhanced

    A shallow embedding of the three cooperating JavaScript classes that
    supervise the Rust+ connections of the bot, and of their callers:

    - [ReconnectionManager]   (src/util/scheduledScraper.js, lines 55-331)
    - [ConnectionHealthMonitor], basic version
                              (src/util/connectionHealthMonitor.js)
    - [ConnectionHealthMonitor], enhanced version with restart detection
                              (src/util/rusthelpScraper.js, lines 300-553)
    - [AutoReconnectManager]  (src/util/autoReconnectManager.js)
    - [triggerReconnection] and the error event of a connection
                              (src/discordEvents/error.js, lines 61-169)
    - the status, retry and auto-reconnect sub-commands and the uptime text
                              (src/commands/connection.js)
    - the crafting helper     (src/util/rusthelpScraper.js, lines 25-293)

    The JavaScript objects are mutable and shared; the embedding threads one
    [World] value through every operation.

    - Timers created with [setTimeout] are kept in the world as data, with
      their closure as a [Callback], and fire through [fireTimer].
    - The per-guild reconnection state objects live in a store indexed by
      locations, because the timer closure of [attemptReconnection] keeps a
      reference to the state object it was created for.
    - A handler or callback runs as one step, its [await]s included: what
      the awaited call yields is an input of the step ([CreateOutcome] for
      the connection factory, [ProbeOutcome] for the health request raced
      against its timeout).
    - The connection factory, [disconnect] and the other methods of the bot
      client are not part of these sources; a call to them is recorded in
      [calls].
    - [client.log] is kept as the list [log] of the messages written.
    - [Math.random()] reads the supply [rand]; milliseconds are integers
      and the jitter is computed in exact rational arithmetic.
    - The intervals created with [setInterval] by [start] of the monitor and
      of the auto-reconnect manager are kept in a [Host], apart from the
      world: starting and stopping a sweep does not touch the connections.
    - The recursion of [getBaseMaterials] is bounded by a depth; the visited
      array makes a depth of one more than the number of items enough. *)

From Stdlib Require Import ZArith QArith Qround Lia DecimalString.
From stdpp Require Import gmap strings list.

Local Open Scope string_scope.
Local Open Scope Z_scope.

(** ** Data *)

Abbreviation GuildId := string.
Abbreviation Loc := nat.
Abbreviation TimerId := nat.

(** The [config] object built by the constructor of [ReconnectionManager]. *)
Record Config := mkConfig {
  baseDelay : Z;
  maxDelay : Z;
  maxRetries : Z;
  backoffMultiplier : Z;
  resetAfterSuccess : Z
}.

(** The five optional entries of [Config.general] read by the constructor. *)
Record GeneralConfig := mkGeneral {
  reconnectIntervalMs : option Z;
  maxReconnectDelay : option Z;
  maxReconnectRetries : option Z;
  reconnectBackoffMultiplier : option Z;
  resetRetriesAfterSuccess : option Z
}.

(** [x || d] on an optional number: [undefined] and [0] are falsy. *)
Definition orDefault (x : option Z) (d : Z) : Z :=
  match x with
  | Some v => if v =? 0 then d else v
  | None => d
  end.

Definition newConfig (general : GeneralConfig) : Config :=
  {| baseDelay := orDefault (reconnectIntervalMs general) 15000;
     maxDelay := orDefault (maxReconnectDelay general) 300000;
     maxRetries := orDefault (maxReconnectRetries general) 10;
     backoffMultiplier := orDefault (reconnectBackoffMultiplier general) 2;
     resetAfterSuccess := orDefault (resetRetriesAfterSuccess general) 60000 |}.

Definition noGeneral : GeneralConfig := mkGeneral None None None None None.

Definition defaultConfig : Config := newConfig noGeneral.

(** The default configuration with another retry ceiling. *)
Definition configWithRetries (n : Z) : Config :=
  newConfig (mkGeneral None None (Some n) None None).

(** The object literal stored by [initializeState]. *)
Record ReconnectionState := mkState {
  isReconnecting : bool;
  retryCount : Z;
  currentDelay : Z;
  timer : option TimerId;
  lastAttempt : option Z;
  reconnectionReason : option string
}.

(** The [connectionParams] argument of [attemptReconnection]. *)
Record ConnectionParams := mkParams {
  server : string;
  port : Z;
  playerId : string;
  playerToken : string
}.

(** The server identity kept in [rustplus.lastServerInfo]. *)
Record ServerInfo := mkServerInfo {
  name : string;
  seed : Z;
  size : Z;
  wipeTime : Z
}.

(** The fields of a [RustPlus] connection object that the controller reads
    or writes. *)
Record Rustplus := mkRustplus {
  rp_guildId : GuildId;
  rp_server : string;
  rp_port : Z;
  rp_playerId : string;
  rp_playerToken : string;
  isOperational : bool;
  isDeleted : bool;
  lastServerInfo : option ServerInfo
}.

(** One entry of [instance.serverList]. *)
Record ServerEntry := mkServerEntry {
  serverIp : string;
  appPort : Z;
  steamId : string;
  se_playerToken : string
}.

(** The per-guild instance configuration returned by [client.getInstance]. *)
Record Instance := mkInstance {
  activeServer : option string;
  serverList : gmap string ServerEntry
}.

(** The three closures handed to [setTimeout] by [ReconnectionManager]. *)
Inductive Callback :=
  | CbReconnect (guildId : GuildId) (reason : string)
      (connectionParams : ConnectionParams) (state : Loc)
      (* attemptReconnection, lines 213-232; [state] is the captured object *)
  | CbRetry (guildId : GuildId) (reason : string)
      (connectionParams : ConnectionParams)
      (* the 1000 ms retry, lines 227-229 *)
  | CbResetCounter (guildId : GuildId).
      (* markSuccessfulConnection, lines 114-122 *)

Record Timer := mkTimer {
  tid : TimerId;
  delay : Z;      (* the second argument of setTimeout *)
  due : Z;        (* clock value at which the timer may fire *)
  cb : Callback
}.

Inductive Level := infoCap | warningCap | errorCap.

(** The messages passed to [client.log], one constructor per template. *)
Inductive Message :=
  | MsgRetryCounterReset (g : GuildId)
  | MsgAlreadyInProgress (g : GuildId)
  | MsgMaxAttempts (max : Z) (g : GuildId)
  | MsgRestartImmediate (g : GuildId)
  | MsgAttempting (count max : Z) (g : GuildId) (reason : string) (seconds : Z)
  | MsgAttemptFailed (g : GuildId)
  | MsgExecuting (count : Z) (g : GuildId)
  | MsgReconnectionSuccessful (g : GuildId) (count : Z)
  | MsgReconnectionFailed (g : GuildId) (reason : string)
  | MsgHealthPassed (g : GuildId) (duration : Z)
  | MsgHealthFailed (g : GuildId) (currentFailures max : Z) (error : string)
  | MsgHealthTrigger (max : Z) (g : GuildId)
  | MsgRestartDetected (g : GuildId)
  | MsgLikelyRestartTime (g : GuildId)
  | MsgAutoReconnecting (g : GuildId) (serverId : string)
  | MsgNoServerInfo (serverId : option string) (g : GuildId)
  | MsgStartingAuto (g : GuildId) (serverId : string) (ip : string) (port : Z)
  | MsgAutoInitiated (g : GuildId)
  | MsgAutoFailed (g : GuildId)
  | MsgForceReconnecting (g : GuildId).

(** Calls into collaborators whose code is outside the controller: the
    connection factory and helpers of the bot client, and [disconnect] of a
    connection object. *)
Inductive ExtCall :=
  | CallCreateRustplusInstance (g : GuildId) (ip : string) (port : Z)
      (steamId : string) (playerToken : string)
  | CallDisconnect (g : GuildId)
  | CallResetRustplusVariables (g : GuildId)
  | CallSetInstance (g : GuildId).

(** The whole mutable state.  [log] and [calls] are newest first.  [rand]
    is the supply of future results of [Math.random()]. *)
Record World := mkWorld {
  now : Z;
  timers : list Timer;
  nextTimerId : TimerId;
  rand : list Q;
  log : list (Level * Message);
  calls : list ExtCall;
  (* the bot client *)
  rustplusInstances : gmap GuildId Rustplus;
  activeRustplusInstances : gmap GuildId bool;
  rustplusReconnecting : gmap GuildId bool;
  instances : gmap GuildId Instance;
  (* ReconnectionManager *)
  heap : gmap Loc ReconnectionState;
  reconnectionStates : gmap GuildId Loc;
  successfulConnections : gmap GuildId Z;
  (* ConnectionHealthMonitor *)
  lastHealthCheck : gmap GuildId Z;
  consecutiveFailures : gmap GuildId Z;
  lastSuccessfulCheck : gmap GuildId Z
}.

Definition emptyWorld : World :=
  mkWorld 0 [] 0%nat [] [] [] ∅ ∅ ∅ ∅ ∅ ∅ ∅ ∅ ∅ ∅.

(** ** ReconnectionManager: pure helpers *)

(** [calculateDelay(retryCount)], lines 155-158.  The exponent is a retry
    count, which is never negative; with integer configuration values the
    product is an integer, and [Math.min] clamps it. *)
Definition calculateDelay (cfg : Config) (retryCount : Z) : Z :=
  let delay := baseDelay cfg * backoffMultiplier cfg ^ retryCount in
  Z.min delay (maxDelay cfg).

(** [addJitter(delay)], lines 165-169, with [rnd] the value of
    [Math.random()]; the arithmetic is exact rational arithmetic. *)
Definition addJitter (rnd : Q) (delay : Z) : Z :=
  let jitter := (rnd * (1 # 4) * inject_Z delay)%Q in
  Qfloor (inject_Z delay + jitter)%Q.

(** ** Field updates of the world *)

Definition set_now (v : Z) (w : World) : World :=
  mkWorld v (timers w) (nextTimerId w) (rand w) (log w) (calls w)
    (rustplusInstances w) (activeRustplusInstances w)
    (rustplusReconnecting w) (instances w) (heap w) (reconnectionStates w)
    (successfulConnections w) (lastHealthCheck w) (consecutiveFailures w)
    (lastSuccessfulCheck w).

Definition set_timers (v : list Timer) (w : World) : World :=
  mkWorld (now w) v (nextTimerId w) (rand w) (log w) (calls w)
    (rustplusInstances w) (activeRustplusInstances w)
    (rustplusReconnecting w) (instances w) (heap w) (reconnectionStates w)
    (successfulConnections w) (lastHealthCheck w) (consecutiveFailures w)
    (lastSuccessfulCheck w).

Definition set_nextTimerId (v : TimerId) (w : World) : World :=
  mkWorld (now w) (timers w) v (rand w) (log w) (calls w)
    (rustplusInstances w) (activeRustplusInstances w)
    (rustplusReconnecting w) (instances w) (heap w) (reconnectionStates w)
    (successfulConnections w) (lastHealthCheck w) (consecutiveFailures w)
    (lastSuccessfulCheck w).

Definition set_rand (v : list Q) (w : World) : World :=
  mkWorld (now w) (timers w) (nextTimerId w) v (log w) (calls w)
    (rustplusInstances w) (activeRustplusInstances w)
    (rustplusReconnecting w) (instances w) (heap w) (reconnectionStates w)
    (successfulConnections w) (lastHealthCheck w) (consecutiveFailures w)
    (lastSuccessfulCheck w).

Definition set_log (v : list (Level * Message)) (w : World) : World :=
  mkWorld (now w) (timers w) (nextTimerId w) (rand w) v (calls w)
    (rustplusInstances w) (activeRustplusInstances w)
    (rustplusReconnecting w) (instances w) (heap w) (reconnectionStates w)
    (successfulConnections w) (lastHealthCheck w) (consecutiveFailures w)
    (lastSuccessfulCheck w).

Definition set_calls (v : list ExtCall) (w : World) : World :=
  mkWorld (now w) (timers w) (nextTimerId w) (rand w) (log w) v
    (rustplusInstances w) (activeRustplusInstances w)
    (rustplusReconnecting w) (instances w) (heap w) (reconnectionStates w)
    (successfulConnections w) (lastHealthCheck w) (consecutiveFailures w)
    (lastSuccessfulCheck w).

Definition set_rustplusInstances (v : gmap GuildId Rustplus) (w : World)
    : World :=
  mkWorld (now w) (timers w) (nextTimerId w) (rand w) (log w) (calls w) v
    (activeRustplusInstances w) (rustplusReconnecting w) (instances w)
    (heap w) (reconnectionStates w) (successfulConnections w)
    (lastHealthCheck w) (consecutiveFailures w) (lastSuccessfulCheck w).

Definition set_activeRustplusInstances (v : gmap GuildId bool) (w : World)
    : World :=
  mkWorld (now w) (timers w) (nextTimerId w) (rand w) (log w) (calls w)
    (rustplusInstances w) v (rustplusReconnecting w) (instances w) (heap w)
    (reconnectionStates w) (successfulConnections w) (lastHealthCheck w)
    (consecutiveFailures w) (lastSuccessfulCheck w).

Definition set_rustplusReconnecting (v : gmap GuildId bool) (w : World)
    : World :=
  mkWorld (now w) (timers w) (nextTimerId w) (rand w) (log w) (calls w)
    (rustplusInstances w) (activeRustplusInstances w) v (instances w)
    (heap w) (reconnectionStates w) (successfulConnections w)
    (lastHealthCheck w) (consecutiveFailures w) (lastSuccessfulCheck w).

Definition set_instances (v : gmap GuildId Instance) (w : World) : World :=
  mkWorld (now w) (timers w) (nextTimerId w) (rand w) (log w) (calls w)
    (rustplusInstances w) (activeRustplusInstances w)
    (rustplusReconnecting w) v (heap w) (reconnectionStates w)
    (successfulConnections w) (lastHealthCheck w) (consecutiveFailures w)
    (lastSuccessfulCheck w).

Definition set_heap (v : gmap Loc ReconnectionState) (w : World) : World :=
  mkWorld (now w) (timers w) (nextTimerId w) (rand w) (log w) (calls w)
    (rustplusInstances w) (activeRustplusInstances w)
    (rustplusReconnecting w) (instances w) v (reconnectionStates w)
    (successfulConnections w) (lastHealthCheck w) (consecutiveFailures w)
    (lastSuccessfulCheck w).

Definition set_reconnectionStates (v : gmap GuildId Loc) (w : World) : World :=
  mkWorld (now w) (timers w) (nextTimerId w) (rand w) (log w) (calls w)
    (rustplusInstances w) (activeRustplusInstances w)
    (rustplusReconnecting w) (instances w) (heap w) v
    (successfulConnections w) (lastHealthCheck w) (consecutiveFailures w)
    (lastSuccessfulCheck w).

Definition set_successfulConnections (v : gmap GuildId Z) (w : World) : World :=
  mkWorld (now w) (timers w) (nextTimerId w) (rand w) (log w) (calls w)
    (rustplusInstances w) (activeRustplusInstances w)
    (rustplusReconnecting w) (instances w) (heap w) (reconnectionStates w) v
    (lastHealthCheck w) (consecutiveFailures w) (lastSuccessfulCheck w).

Definition set_lastHealthCheck (v : gmap GuildId Z) (w : World) : World :=
  mkWorld (now w) (timers w) (nextTimerId w) (rand w) (log w) (calls w)
    (rustplusInstances w) (activeRustplusInstances w)
    (rustplusReconnecting w) (instances w) (heap w) (reconnectionStates w)
    (successfulConnections w) v (consecutiveFailures w)
    (lastSuccessfulCheck w).

Definition set_consecutiveFailures (v : gmap GuildId Z) (w : World) : World :=
  mkWorld (now w) (timers w) (nextTimerId w) (rand w) (log w) (calls w)
    (rustplusInstances w) (activeRustplusInstances w)
    (rustplusReconnecting w) (instances w) (heap w) (reconnectionStates w)
    (successfulConnections w) (lastHealthCheck w) v (lastSuccessfulCheck w).

Definition set_lastSuccessfulCheck (v : gmap GuildId Z) (w : World) : World :=
  mkWorld (now w) (timers w) (nextTimerId w) (rand w) (log w) (calls w)
    (rustplusInstances w) (activeRustplusInstances w)
    (rustplusReconnecting w) (instances w) (heap w) (reconnectionStates w)
    (successfulConnections w) (lastHealthCheck w) (consecutiveFailures w) v.

(** ** The JavaScript runtime: log, clock, timers, random numbers *)

Definition clientLog (lv : Level) (m : Message) (w : World) : World :=
  set_log ((lv, m) :: log w) w.

Definition recordCall (c : ExtCall) (w : World) : World :=
  set_calls (c :: calls w) w.

(** [setTimeout(cb, delay)]: returns the handle and the new world.  The
    clamping of small delays by the runtime is not modelled: the timer is
    due [delay] milliseconds from now. *)
Definition setTimeout (c : Callback) (d : Z) (w : World) : TimerId * World :=
  let t := nextTimerId w in
  (t, set_nextTimerId (S t)
        (set_timers (timers w ++ [mkTimer t d (now w + d) c]) w)).

(** [clearTimeout(handle)]: a handle that is no longer pending is ignored. *)
Definition clearTimeout (t : TimerId) (w : World) : World :=
  set_timers (filter (fun x => tid x ≠ t) (timers w)) w.

(** [Math.random()]: the next value of the supply, 0 once it is used up. *)
Definition mathRandom (w : World) : Q * World :=
  match rand w with
  | [] => (0%Q, w)
  | r :: rs => (r, set_rand rs w)
  end.

(** JavaScript truthiness of the values the controller tests. *)
Definition truthyString (s : string) : bool := negb (String.eqb s "").

Definition truthyOptString (s : option string) : bool :=
  match s with Some x => truthyString x | None => false end.

Definition truthyFlag (b : option bool) : bool := default false b.

(** ** ReconnectionManager *)

(** Read and write a state object through its reference. *)
Definition writeState (l : Loc) (s : ReconnectionState) (w : World) : World :=
  set_heap (<[l := s]> (heap w)) w.

(** [this.reconnectionStates.get(guildId)], dereferenced. *)
Definition getState (g : GuildId) (w : World)
    : option (Loc * ReconnectionState) :=
  match reconnectionStates w !! g with
  | Some l => match heap w !! l with
              | Some s => Some (l, s)
              | None => None
              end
  | None => None
  end.

(** [initializeState(guildId)], lines 79-90: a new state object is
    allocated when the guild has none. *)
Definition initializeState (cfg : Config) (g : GuildId) (w : World) : World :=
  match reconnectionStates w !! g with
  | Some _ => w
  | None =>
      let l := fresh (dom (heap w)) in
      set_reconnectionStates (<[g := l]> (reconnectionStates w))
        (writeState l (mkState false 0 (baseDelay cfg) None None None) w)
  end.

(** [resetState(guildId)], lines 96-104. *)
Definition resetState (g : GuildId) (w : World) : World :=
  match getState g w with
  | Some (_, state) =>
      let w1 := match timer state with
                | Some t => clearTimeout t w
                | None => w
                end in
      set_reconnectionStates (delete g (reconnectionStates w1)) w1
  | None => w
  end.

(** [state.isReconnecting = false]. *)
Definition stopReconnecting (st : ReconnectionState) : ReconnectionState :=
  mkState false (retryCount st) (currentDelay st) (timer st) (lastAttempt st)
    (reconnectionReason st).

(** [state.retryCount = 0; state.currentDelay = this.config.baseDelay]. *)
Definition resetCounter (cfg : Config) (st : ReconnectionState)
    : ReconnectionState :=
  mkState (isReconnecting st) 0 (baseDelay cfg) (timer st) (lastAttempt st)
    (reconnectionReason st).

(** The body of the timer closure of [markSuccessfulConnection],
    lines 115-121. *)
Definition resetCounterCallback (cfg : Config) (g : GuildId) (w : World)
    : World :=
  match getState g w with
  | Some (l, state) =>
      clientLog infoCap (MsgRetryCounterReset g)
        (writeState l (resetCounter cfg state) w)
  | None => w
  end.

(** [markSuccessfulConnection(guildId)], lines 110-123.  The timer handle
    is dropped. *)
Definition markSuccessfulConnection (cfg : Config) (g : GuildId) (w : World)
    : World :=
  let w1 := set_successfulConnections
              (<[g := now w]> (successfulConnections w)) w in
  snd (setTimeout (CbResetCounter g) (resetAfterSuccess cfg) w1).

(** [shouldAttemptReconnection(guildId, reason)], lines 131-148. *)
Definition shouldAttemptReconnection (cfg : Config) (g : GuildId)
    (reason : string) (w : World) : bool * World :=
  let w1 := initializeState cfg g w in
  match getState g w1 with
  | Some (_, state) =>
      if isReconnecting state then
        (false, clientLog warningCap (MsgAlreadyInProgress g) w1)
      else if retryCount state >=? maxRetries cfg then
        (false, clientLog errorCap (MsgMaxAttempts (maxRetries cfg) g) w1)
      else (true, w1)
  | None => (false, w1)   (* not reached: initializeState has just run *)
  end.

Definition serverRestartDetected : string := "server_restart_detected".

(** Lines 185-232 of [attemptReconnection]: the request has passed the
    guard, [l] is the guild's state object and [state] its contents. *)
Definition scheduleAttempt (cfg : Config) (g : GuildId) (reason : string)
    (connectionParams : ConnectionParams) (l : Loc) (state : ReconnectionState)
    (w : World) : World :=
  let count := retryCount state + 1 in
  let base := calculateDelay cfg (count - 1) in
  let '(rnd, w1) := mathRandom w in
  let jittered := addJitter rnd base in
  let restart := String.eqb reason serverRestartDetected in
  let delayWithJitter := if restart then 0 else jittered in
  let w2 := if restart
            then clientLog infoCap (MsgRestartImmediate g) w1 else w1 in
  let w3 := clientLog infoCap
              (MsgAttempting count (maxRetries cfg) g reason
                 (delayWithJitter / 1000)) w2 in
  let w4 := match timer state with
            | Some t => clearTimeout t w3
            | None => w3
            end in
  let '(t, w5) := setTimeout (CbReconnect g reason connectionParams l)
                    delayWithJitter w4 in
  writeState l
    (mkState true count delayWithJitter (Some t) (Some (now w))
       (Some reason)) w5.

(** [attemptReconnection(guildId, reason, connectionParams)], lines 177-233,
    up to and including the [setTimeout]; the closure is [CbReconnect]. *)
Definition attemptReconnection (cfg : Config) (g : GuildId) (reason : string)
    (connectionParams : ConnectionParams) (w : World) : World :=
  let '(ok, w1) := shouldAttemptReconnection cfg g reason w in
  if negb ok then w1 else
  let w2 := initializeState cfg g w1 in
  match getState g w2 with
  | None => w2            (* not reached *)
  | Some (l, state) =>
      scheduleAttempt cfg g reason connectionParams l state w2
  end.

(** The outcome of the connection factory [client.createRustplusInstance],
    whose code belongs to the bot client: the call is recorded in [calls]
    and whether it returns or throws is an input of the model. *)
Inductive CreateOutcome := CreateReturns | CreateThrows.

(** [performReconnection(guildId, connectionParams)], lines 240-259.  The
    result is [true] when it completes and [false] when it throws; reading
    [state.retryCount] of a missing state is the first way to throw. *)
Definition performReconnection (g : GuildId)
    (connectionParams : ConnectionParams) (o : CreateOutcome) (w : World)
    : bool * World :=
  match getState g w with
  | None => (false, w)
  | Some (_, state) =>
      let w1 := clientLog infoCap (MsgExecuting (retryCount state) g) w in
      let w2 := match rustplusInstances w1 !! g with
                | Some _ =>
                    set_rustplusInstances (delete g (rustplusInstances w1)) w1
                | None => w1
                end in
      let w3 := recordCall
                  (CallCreateRustplusInstance g (server connectionParams)
                     (port connectionParams) (playerId connectionParams)
                     (playerToken connectionParams)) w2 in
      match o with
      | CreateReturns => (true, w3)
      | CreateThrows => (false, w3)
      end
  end.

(** The timer closure of [attemptReconnection], lines 213-232; [l] is the
    state object captured when the timer was set. *)
Definition reconnectCallback (cfg : Config) (g : GuildId) (reason : string)
    (connectionParams : ConnectionParams) (l : Loc) (o : CreateOutcome)
    (w : World) : World :=
  match performReconnection g connectionParams o w with
  | (true, w1) => w1
  | (false, w1) =>
      let w2 := clientLog errorCap (MsgAttemptFailed g) w1 in
      match heap w2 !! l with
      | None => w2        (* not reached: state objects are never freed *)
      | Some state =>
          let w3 := writeState l (stopReconnecting state) w2 in
          if retryCount state <? maxRetries cfg
          then snd (setTimeout (CbRetry g reason connectionParams) 1000 w3)
          else w3
      end
  end.

(** [handleSuccessfulReconnection(guildId)], lines 265-274. *)
Definition handleSuccessfulReconnection (cfg : Config) (g : GuildId)
    (w : World) : World :=
  match getState g w with
  | Some (l, state) =>
      let w1 := clientLog infoCap
                  (MsgReconnectionSuccessful g (retryCount state)) w in
      let w2 := writeState l (stopReconnecting state) w1 in
      markSuccessfulConnection cfg g w2
  | None => w
  end.

(** [handleFailedReconnection(guildId, reason)], lines 281-289. *)
Definition handleFailedReconnection (g : GuildId) (reason : string)
    (w : World) : World :=
  match getState g w with
  | Some (l, state) =>
      clientLog warningCap (MsgReconnectionFailed g reason)
        (writeState l (stopReconnecting state) w)
  | None => w
  end.

(** [getReconnectionStatus(guildId)], lines 296-314: the three fields that
    are present in both branches. *)
Definition getReconnectionStatus (cfg : Config) (g : GuildId) (w : World)
    : bool * Z * Z :=
  match getState g w with
  | None => (false, 0, maxRetries cfg)
  | Some (_, state) => (isReconnecting state, retryCount state, maxRetries cfg)
  end.

(** Run the callback of a timer. *)
Definition runCallback (cfg : Config) (c : Callback) (o : CreateOutcome)
    (w : World) : World :=
  match c with
  | CbReconnect g reason params l =>
      reconnectCallback cfg g reason params l o w
  | CbRetry g reason params => attemptReconnection cfg g reason params w
  | CbResetCounter g => resetCounterCallback cfg g w
  end.

Definition findTimer (t : TimerId) (w : World) : option Timer :=
  List.find (fun x => Nat.eqb (tid x) t) (timers w).

(** The timer [t] fires: the clock moves to its due time if that is
    later, the timer leaves the pending list and its callback runs.
    [None] when [t] is not pending. *)
Definition fireTimer (cfg : Config) (t : TimerId) (o : CreateOutcome)
    (w : World) : option World :=
  match findTimer t w with
  | None => None
  | Some x =>
      Some (runCallback cfg (cb x) o
              (set_now (Z.max (now w) (due x)) (clearTimeout t w)))
  end.

(** The pending timer that is due first; among equal due times the one
    that was set first. *)
Fixpoint earliest (ts : list Timer) : option Timer :=
  match ts with
  | [] => None
  | x :: rest =>
      match earliest rest with
      | Some y => if due y <? due x then Some y else Some x
      | None => Some x
      end
  end.

(** The timer that is due first fires. *)
Definition fireNext (cfg : Config) (o : CreateOutcome) (w : World)
    : option World :=
  match earliest (timers w) with
  | None => None
  | Some x => fireTimer cfg (tid x) o w
  end.

(** Let the clock reach [t] without any timer firing: refused when [t] is
    in the past or a pending timer is due before [t]. *)
Definition advanceClock (t : Z) (w : World) : option World :=
  if (now w <=? t) && forallb (fun x => t <=? due x) (timers w)
  then Some (set_now t w) else None.

(** ** ConnectionHealthMonitor *)

(** The constants set by the constructor of the monitor. *)
Record MonitorConfig := mkMonitor {
  checkInterval : Z;
  maxConsecutiveFailures : Z;
  healthCheckTimeout : Z
}.

(** What the race of the info request against the timeout promise yields.
    The probe is one atomic step of the model. *)
Inductive RequestOutcome :=
  | RequestRejected (message : string)    (* getInfoAsync throws *)
  | ResponseInvalid                       (* isResponseValid(info) is false *)
  | ResponseValid (info : option ServerInfo). (* a valid response; info.info *)

Inductive ProbeOutcome :=
  | ProbeTimeout                        (* the timeout promise rejects first *)
  | ProbeSettled (r : RequestOutcome).  (* the request settles first *)

Definition paramsOf (rustplus : Rustplus) : ConnectionParams :=
  mkParams (rp_server rustplus) (rp_port rustplus) (rp_playerId rustplus)
    (rp_playerToken rustplus).

Definition set_isOperational (b : bool) (r : Rustplus) : Rustplus :=
  mkRustplus (rp_guildId r) (rp_server r) (rp_port r) (rp_playerId r)
    (rp_playerToken r) b (isDeleted r) (lastServerInfo r).

Definition set_lastServerInfo (i : option ServerInfo) (r : Rustplus)
    : Rustplus :=
  mkRustplus (rp_guildId r) (rp_server r) (rp_port r) (rp_playerId r)
    (rp_playerToken r) (isOperational r) (isDeleted r) i.

(** [(this.consecutiveFailures.get(guildId) || 0)]. *)
Definition failureCount (g : GuildId) (w : World) : Z :=
  default 0 (consecutiveFailures w !! g).

(** [triggerHealthCheckReconnection(guildId, rustplus)]; the same text in
    both versions of the monitor.  The connection object is passed in and
    handed back with its fields updated. *)
Definition triggerHealthCheckReconnection (cfg : Config) (g : GuildId)
    (rustplus : Rustplus) (w : World) : Rustplus * World :=
  let rustplus1 := set_isOperational false rustplus in
  (rustplus1,
   attemptReconnection cfg g "health_check_failure" (paramsOf rustplus1) w).

(** [handleHealthCheckFailure(guildId, rustplus, error)]; the same text in
    both versions of the monitor. *)
Definition handleHealthCheckFailure (cfg : Config) (m : MonitorConfig)
    (g : GuildId) (rustplus : Rustplus) (error : string) (w : World)
    : Rustplus * World :=
  let currentFailures := failureCount g w + 1 in
  let w1 := set_consecutiveFailures
              (<[g := currentFailures]> (consecutiveFailures w)) w in
  let w2 := clientLog warningCap
              (MsgHealthFailed g currentFailures (maxConsecutiveFailures m)
                 error) w1 in
  if currentFailures >=? maxConsecutiveFailures m then
    let w3 := clientLog errorCap
                (MsgHealthTrigger (maxConsecutiveFailures m) g) w2 in
    let w4 := set_consecutiveFailures
                (<[g := 0]> (consecutiveFailures w3)) w3 in
    triggerHealthCheckReconnection cfg g rustplus w4
  else (rustplus, w2).

(** [resetHealthCheckData(guildId)] of the enhanced monitor; the basic one
    has no [lastSuccessfulCheck] map. *)
Definition resetHealthCheckData (g : GuildId) (w : World) : World :=
  set_lastSuccessfulCheck (delete g (lastSuccessfulCheck w))
    (set_consecutiveFailures (delete g (consecutiveFailures w))
       (set_lastHealthCheck (delete g (lastHealthCheck w)) w)).

(** The basic monitor, src/util/connectionHealthMonitor.js. *)
Module Basic.

Definition monitor (connectionHealthCheckInterval : option Z) : MonitorConfig :=
  mkMonitor (orDefault connectionHealthCheckInterval 60000) 3 10000.

(** [performHealthCheckRequest(rustplus)], lines 104-113: [None] when it
    returns, the error message when it throws. *)
Definition performHealthCheckRequest (r : RequestOutcome) : option string :=
  match r with
  | RequestRejected msg => Some msg
  | ResponseInvalid => Some "Invalid health check response"
  | ResponseValid _ => None
  end.

(** The [Promise.race] of lines 80-85: [None] when the request wins and
    returns, the message of the error that is thrown otherwise. *)
Definition race (o : ProbeOutcome) : option string :=
  match o with
  | ProbeTimeout => Some "Health check timeout"
  | ProbeSettled r => performHealthCheckRequest r
  end.

(** [checkConnectionHealth(guildId, rustplus)], lines 74-97. *)
Definition checkConnectionHealth (cfg : Config) (m : MonitorConfig)
    (g : GuildId) (rustplus : Rustplus) (o : ProbeOutcome) (w : World)
    : Rustplus * World :=
  let startTime := now w in
  let w1 := set_lastHealthCheck (<[g := startTime]> (lastHealthCheck w)) w in
  match race o with
  | None =>
      let w2 := set_consecutiveFailures (<[g := 0]> (consecutiveFailures w1)) w1 in
      (rustplus, clientLog infoCap (MsgHealthPassed g (now w2 - startTime)) w2)
  | Some error => handleHealthCheckFailure cfg m g rustplus error w1
  end.

(** Successive probes of one connection object. *)
Definition probes (cfg : Config) (m : MonitorConfig) (g : GuildId)
    (os : list ProbeOutcome) (s : Rustplus * World) : Rustplus * World :=
  fold_left (fun s o => checkConnectionHealth cfg m g (fst s) o (snd s)) os s.

End Basic.

(** The enhanced monitor, src/util/rusthelpScraper.js lines 300-553. *)
Module Enhanced.

Definition monitor (connectionHealthCheckInterval : option Z) : MonitorConfig :=
  mkMonitor (orDefault connectionHealthCheckInterval 30000) 2 8000.

(** [triggerServerRestartReconnection(guildId, rustplus)], lines 489-503. *)
Definition triggerServerRestartReconnection (cfg : Config) (g : GuildId)
    (rustplus : Rustplus) (w : World) : Rustplus * World :=
  let rustplus1 := set_isOperational false rustplus in
  let w1 := recordCall (CallDisconnect (rp_guildId rustplus1)) w in
  (rustplus1,
   attemptReconnection cfg g serverRestartDetected (paramsOf rustplus1) w1).

(** The comparison of lines 420-423. *)
Definition serverChanged (current last : ServerInfo) : bool :=
  negb (seed current =? seed last)
  || negb (size current =? size last)
  || negb (wipeTime current =? wipeTime last).

(** The test of line 407, [info.info && info.info.name && info.info.seed],
    for a present [info.info]. *)
Definition hasIdentity (i : ServerInfo) : bool :=
  truthyString (name i) && negb (seed i =? 0).

(** [performHealthCheckRequest(rustplus)], lines 398-438: the error
    message when it throws, and the connection object and world as it
    leaves them. *)
Definition performHealthCheckRequest (cfg : Config) (rustplus : Rustplus)
    (r : RequestOutcome) (w : World) : option string * Rustplus * World :=
  match r with
  | RequestRejected msg => (Some msg, rustplus, w)
  | ResponseInvalid => (Some "Invalid health check response", rustplus, w)
  | ResponseValid None => (None, rustplus, w)
  | ResponseValid (Some currentServerInfo) =>
      if hasIdentity currentServerInfo then
        match lastServerInfo rustplus with
        | None =>
            (None, set_lastServerInfo (Some currentServerInfo) rustplus, w)
        | Some last =>
            if serverChanged currentServerInfo last then
              let rustplus1 :=
                set_lastServerInfo (Some currentServerInfo) rustplus in
              let w1 := clientLog infoCap
                          (MsgRestartDetected (rp_guildId rustplus1)) w in
              let '(rustplus2, w2) :=
                triggerServerRestartReconnection cfg
                  (rp_guildId rustplus1) rustplus1 w1 in
              (Some "Server restart detected", rustplus2, w2)
            else (None, rustplus, w)
        end
      else (None, rustplus, w)
  end.

(** [checkConnectionHealth(guildId, rustplus)], lines 367-391. *)
Definition checkConnectionHealth (cfg : Config) (m : MonitorConfig)
    (g : GuildId) (rustplus : Rustplus) (o : ProbeOutcome) (w : World)
    : Rustplus * World :=
  let startTime := now w in
  let w1 := set_lastHealthCheck (<[g := startTime]> (lastHealthCheck w)) w in
  let '(raced, rustplus1, w2) :=
    match o with
    | ProbeTimeout => (Some "Health check timeout", rustplus, w1)
    | ProbeSettled r => performHealthCheckRequest cfg rustplus r w1
    end in
  match raced with
  | None =>
      let w3 := set_consecutiveFailures (<[g := 0]> (consecutiveFailures w2)) w2 in
      let w4 := set_lastSuccessfulCheck
                  (<[g := now w3]> (lastSuccessfulCheck w3)) w3 in
      (rustplus1, clientLog infoCap (MsgHealthPassed g (now w4 - startTime)) w4)
  | Some error => handleHealthCheckFailure cfg m g rustplus1 error w2
  end.

(** One iteration of the loop of [performHealthChecks], lines 346-359,
    for the key [g]; the connection object of the registry is the one
    that is probed, so its updated fields are stored back. *)
Definition healthCheckGuild (cfg : Config) (m : MonitorConfig)
    (probe : GuildId -> ProbeOutcome) (w : World) (g : GuildId) : World :=
  if truthyFlag (activeRustplusInstances w !! g) then
    match rustplusInstances w !! g with
    | Some rustplus =>
        if negb (isOperational rustplus)
           || truthyFlag (rustplusReconnecting w !! g)
        then w
        else
          let '(rustplus1, w1) :=
            checkConnectionHealth cfg m g rustplus (probe g) w in
          match rustplusInstances w1 !! g with
          | Some _ =>
              set_rustplusInstances
                (<[g := rustplus1]> (rustplusInstances w1)) w1
          | None => w1
          end
    | None => w
    end
  else w.

(** [performHealthChecks()]; [keys] is [Object.keys] of
    [activeRustplusInstances], in the insertion order of that object. *)
Definition performHealthChecks (cfg : Config) (m : MonitorConfig)
    (probe : GuildId -> ProbeOutcome) (keys : list GuildId) (w : World)
    : World :=
  fold_left (healthCheckGuild cfg m probe) keys w.

End Enhanced.

(** ** AutoReconnectManager, src/util/autoReconnectManager.js *)

(** [isLikelyServerRestartTime(now)], lines 114-123. *)
Definition isLikelyServerRestartTime (hour minute : Z) : bool :=
  ((0 <=? hour) && (hour <=? 6)) || ((0 <=? minute) && (minute <=? 5)).

(** [getHours()] and [getMinutes()] of the clock, for a host in UTC. *)
Definition hourOf (t : Z) : Z := (t / 3600000) mod 24.
Definition minuteOf (t : Z) : Z := (t / 60000) mod 60.

(** The value of [isCurrentlyConnected], lines 87-89. *)
Definition isCurrentlyConnected (g : GuildId) (w : World) : bool :=
  truthyFlag (activeRustplusInstances w !! g)
  && match rustplusInstances w !! g with
     | Some rustplus => isOperational rustplus
     | None => false
     end.

(** [instance.serverList[instance.activeServer]], for a lookup that the
    server list answers itself (see [ownServerLookup]): the properties
    that a server list inherits from [Object.prototype] are not entries of
    the map. *)
Definition activeServerInfo (instance : Instance) : option ServerEntry :=
  match activeServer instance with
  | Some serverId => serverList instance !! serverId
  | None => None
  end.

(** [reconnectGuild(guildId, instance)], lines 130-188.  Of the calls in
    the [try] block only the connection factory is taken to throw.  The
    flags [isDeleted] of the old connection object and [isNewConnection] of
    the new one are written on objects that have left, or not entered, the
    registry; a holder of the old object passes it on with [isDeleted]
    set (see [triggerReconnection]). *)
Definition reconnectGuild (g : GuildId) (instance : Instance)
    (o : CreateOutcome) (w : World) : World :=
  match activeServer instance, activeServerInfo instance with
  | Some serverId, Some serverInfo =>
      let w1 := clientLog infoCap
                  (MsgStartingAuto g serverId (serverIp serverInfo)
                     (appPort serverInfo)) w in
      let w2 := recordCall (CallResetRustplusVariables g) w1 in
      let rustplus := rustplusInstances w2 !! g in
      let w3 := recordCall (CallSetInstance g)
                  (set_instances (<[g := instance]> (instances w2)) w2) in
      let w4 := match rustplus with
                | Some _ =>
                    set_rustplusInstances (delete g (rustplusInstances w3))
                      (recordCall (CallDisconnect g) w3)
                | None => w3
                end in
      let w5 := set_rustplusReconnecting
                  (<[g := true]> (rustplusReconnecting w4)) w4 in
      let w6 := recordCall
                  (CallCreateRustplusInstance g (serverIp serverInfo)
                     (appPort serverInfo) (steamId serverInfo)
                     (se_playerToken serverInfo)) w5 in
      match o with
      | CreateReturns => clientLog infoCap (MsgAutoInitiated g) w6
      | CreateThrows =>
          set_rustplusReconnecting (<[g := false]> (rustplusReconnecting w6))
            (clientLog errorCap (MsgAutoFailed g) w6)
      end
  | _, _ => clientLog errorCap (MsgNoServerInfo (activeServer instance) g) w
  end.

(** [checkGuildConnection(guildId)], lines 68-106. *)
Definition checkGuildConnection (g : GuildId) (o : CreateOutcome) (w : World)
    : World :=
  if truthyFlag (rustplusReconnecting w !! g) then w else
  match instances w !! g with
  | None => w
  | Some instance =>
      if negb (truthyOptString (activeServer instance))
         || negb (bool_decide (is_Some (activeServerInfo instance)))
      then w
      else
        let shouldBeConnected := bool_decide (is_Some (activeServer instance)) in
        if shouldBeConnected && negb (isCurrentlyConnected g w) then
          let w1 := if isLikelyServerRestartTime (hourOf (now w)) (minuteOf (now w))
                    then clientLog infoCap (MsgLikelyRestartTime g) w else w in
          let w2 := clientLog infoCap
                      (MsgAutoReconnecting g (default "" (activeServer instance)))
                      w1 in
          reconnectGuild g instance o w2
        else w
  end.

(** [checkAndReconnect()], lines 49-62; [guilds] are the keys of
    [client.guilds.cache] in iteration order. *)
Definition checkAndReconnect (isRunning : bool) (o : GuildId -> CreateOutcome)
    (guilds : list GuildId) (w : World) : World :=
  if negb isRunning then w
  else fold_left (fun w g => checkGuildConnection g (o g) w) guilds w.

(** [forceReconnectGuild(guildId)], lines 194-201. *)
Definition forceReconnectGuild (g : GuildId) (o : CreateOutcome) (w : World)
    : World :=
  match instances w !! g with
  | Some instance =>
      if truthyOptString (activeServer instance)
      then reconnectGuild g instance o
             (clientLog infoCap (MsgForceReconnecting g) w)
      else w
  | None => w
  end.

(** ** Callers *)

(** [triggerReconnection(rustplus, client, reason)] of
    src/discordEvents/error.js, lines 156-169: the entry of every transport
    error handler. *)
Definition triggerReconnection (cfg : Config) (rustplus : Rustplus)
    (reason : string) (w : World) : World :=
  if isDeleted rustplus
     || negb (truthyFlag (activeRustplusInstances w !! rp_guildId rustplus))
  then w
  else attemptReconnection cfg (rp_guildId rustplus) reason
         (paramsOf rustplus) w.

(** [handleRetryCommand] of src/commands/connection.js, lines 121-143,
    without the replies to the interaction.  A guild without instance or
    without entry for its active server makes the handler throw; the world
    is then the one reached at the throw. *)
Definition handleRetryCommand (cfg : Config) (g : GuildId) (w : World)
    : World :=
  match instances w !! g with
  | None => w
  | Some instance =>
      if negb (truthyOptString (activeServer instance)) then w else
      let w1 := resetState g w in
      let w2 := set_rustplusReconnecting
                  (<[g := false]> (rustplusReconnecting w1)) w1 in
      match activeServerInfo instance with
      | None => w2
      | Some serverInfo =>
          attemptReconnection cfg g "manual_retry"
            (mkParams (serverIp serverInfo) (appPort serverInfo)
               (steamId serverInfo) (se_playerToken serverInfo)) w2
      end
  end.

(** [handleAutoReconnectCommand] of src/commands/connection.js,
    lines 176-218, without the reply: the forced reconnection and its
    guard. *)
Definition handleAutoReconnectCommand (g : GuildId) (o : CreateOutcome)
    (w : World) : World :=
  match instances w !! g with
  | None => w
  | Some instance =>
      if truthyOptString (activeServer instance) then
        if negb (isCurrentlyConnected g w)
        then forceReconnectGuild g o w
        else w
      else w
  end.

(** ** Vocabulary of the statements *)

(** The first value that [Math.random()] will return. *)
Definition headRandom (w : World) : Q := hd 0%Q (rand w).

(** The delay that [attemptReconnection] hands to [setTimeout] for the
    attempt number [count], lines 191-199. *)
Definition delayFor (cfg : Config) (reason : string) (rnd : Q) (count : Z)
    : Z :=
  if String.eqb reason serverRestartDetected then 0
  else addJitter rnd (calculateDelay cfg (count - 1)).

(** The pending timers once [state.timer] has been cleared, lines 208-210. *)
Definition pendingAfterClear (state : ReconnectionState) (w : World)
    : list Timer :=
  match timer state with
  | Some t => filter (fun x => tid x ≠ t) (timers w)
  | None => timers w
  end.

(** The factory call made by [performReconnection]. *)
Definition createCall (g : GuildId) (p : ConnectionParams) : ExtCall :=
  CallCreateRustplusInstance g (server p) (port p) (playerId p) (playerToken p).

Definition isCreateCall (c : ExtCall) : bool :=
  match c with CallCreateRustplusInstance _ _ _ _ _ => true | _ => false end.

(** The calls of the connection factory made so far, newest first. *)
Definition createCalls (w : World) : list ExtCall :=
  List.filter isCreateCall (calls w).

(** The world without its log: what a logged no-op leaves unchanged. *)
Definition eraseLog (w : World) : World := set_log [] w.

(** The next [k] timers fire, and every connection attempt among them
    fails. *)
Fixpoint fireFailing (cfg : Config) (k : nat) (w : World) : option World :=
  match k with
  | O => Some w
  | S k' => match fireNext cfg CreateThrows w with
            | Some w1 => fireFailing cfg k' w1
            | None => None
            end
  end.

(** A request followed by [maxRetries] failed attempts: the timer of each
    attempt and, between two attempts, the timer of the retry. *)
Definition failedEpisode (cfg : Config) (g : GuildId) (reason : string)
    (params : ConnectionParams) (w : World) : option World :=
  fireFailing cfg (2 * (Z.to_nat (maxRetries cfg) - 1) + 1)
    (attemptReconnection cfg g reason params w).

(** A sequence of requests for one guild. *)
Definition requests (cfg : Config) (g : GuildId)
    (rs : list (string * ConnectionParams)) (w : World) : World :=
  fold_left (fun w r => attemptReconnection cfg g (fst r) (snd r) w) rs w.

(** The guild has no episode behind it: no state object, or one that is
    idle with a retry count of 0. *)
Definition Fresh (g : GuildId) (w : World) : Prop :=
  reconnectionStates w !! g = None
  \/ exists l st,
       reconnectionStates w !! g = Some l /\ heap w !! l = Some st
       /\ retryCount st = 0 /\ isReconnecting st = false.

(** [k] attempts have been accepted, the timer of the last one is the only
    pending timer, and [c0] external calls had been made before the
    episode. *)
Definition Armed (g : GuildId) (reason : string) (params : ConnectionParams)
    (c0 k : nat) (w : World) : Prop :=
  exists l st x,
    reconnectionStates w !! g = Some l
    /\ heap w !! l = Some st
    /\ retryCount st = Z.of_nat k
    /\ isReconnecting st = true
    /\ timers w = [x]
    /\ cb x = CbReconnect g reason params l
    /\ length (calls w) = (c0 + (k - 1))%nat.

(** The [k]-th attempt has failed; its retry is pending unless the ceiling
    is reached. *)
Definition Failed (cfg : Config) (g : GuildId) (reason : string)
    (params : ConnectionParams) (c0 k : nat) (w : World) : Prop :=
  exists l st,
    reconnectionStates w !! g = Some l
    /\ heap w !! l = Some st
    /\ retryCount st = Z.of_nat k
    /\ isReconnecting st = false
    /\ (if Z.of_nat k <? maxRetries cfg
        then exists y, timers w = [y] /\ cb y = CbRetry g reason params
        else timers w = [])
    /\ length (calls w) = (c0 + k)%nat.

(** The episode is over: [maxRetries] attempts have failed, none is
    pending. *)
Definition Exhausted (cfg : Config) (g : GuildId) (c0 : nat) (w : World)
    : Prop :=
  exists l st,
    reconnectionStates w !! g = Some l
    /\ heap w !! l = Some st
    /\ retryCount st = maxRetries cfg
    /\ isReconnecting st = false
    /\ timers w = []
    /\ length (calls w) = (c0 + Z.to_nat (maxRetries cfg))%nat.

(** The delay before jitter of the attempt number [count], line 191. *)
Definition rawDelay (cfg : Config) (count : Z) : Z :=
  calculateDelay cfg (count - 1).

(** The part of the world that belongs neither to the reconnection manager
    nor to the timers, the random supply and the log. *)
Definition outsideManager (w : World)
    : Z * list ExtCall * gmap GuildId Rustplus * gmap GuildId bool
      * gmap GuildId bool * gmap GuildId Instance
      * gmap GuildId Z * gmap GuildId Z * gmap GuildId Z * gmap GuildId Z :=
  (now w, calls w, rustplusInstances w, activeRustplusInstances w,
   rustplusReconnecting w, instances w, successfulConnections w,
   lastHealthCheck w, consecutiveFailures w, lastSuccessfulCheck w).

(** The part of the world that belongs to the reconnection manager and to
    the timers. *)
Definition managerPart (w : World)
    : list Timer * TimerId * list Q * gmap Loc ReconnectionState
      * gmap GuildId Loc :=
  (timers w, nextTimerId w, rand w, heap w, reconnectionStates w).

(** The first two statements of [handleHealthCheckFailure]: the counter is
    incremented and the failure is logged. *)
Definition recordFailure (m : MonitorConfig) (g : GuildId) (error : string)
    (w : World) : World :=
  clientLog warningCap
    (MsgHealthFailed g (failureCount g w + 1) (maxConsecutiveFailures m) error)
    (set_consecutiveFailures
       (<[g := failureCount g w + 1]> (consecutiveFailures w)) w).

(** The first two statements inside the threshold test of
    [handleHealthCheckFailure]: the trigger is logged and the counter reset. *)
Definition resetFailures (m : MonitorConfig) (g : GuildId) (w : World)
    : World :=
  set_consecutiveFailures (<[g := 0]> (consecutiveFailures w))
    (clientLog errorCap (MsgHealthTrigger (maxConsecutiveFailures m) g) w).

(** [lastHealthCheck.set(guildId, startTime)]. *)
Definition stampCheck (g : GuildId) (w : World) : World :=
  set_lastHealthCheck (<[g := now w]> (lastHealthCheck w)) w.

(** A valid response carries an identity that differs from the one stored
    on the connection object: the test of lines 407 and 416-425. *)
Definition restartObserved (rustplus : Rustplus) (info : ServerInfo) : bool :=
  Enhanced.hasIdentity info
  && match lastServerInfo rustplus with
     | Some last => Enhanced.serverChanged info last
     | None => false
     end.

(** The probe whose round trip succeeds with the identity [info]. *)
Definition answered (info : ServerInfo) : ProbeOutcome :=
  ProbeSettled (ResponseValid (Some info)).

(** What the enhanced monitor does between noticing a restart and asking
    for the reconnection: time stamp, log line, forced disconnect. *)
Definition restartNoticed (g : GuildId) (w : World) : World :=
  recordCall (CallDisconnect g)
    (clientLog infoCap (MsgRestartDetected g) (stampCheck g w)).

(** The connection object after a restart has been noticed. *)
Definition afterRestart (info : ServerInfo) (rustplus : Rustplus) : Rustplus :=
  set_isOperational false (set_lastServerInfo (Some info) rustplus).

(** A pending attempt for [g] with reason server_restart_detected and a
    delay of zero. *)
Definition isRestartAttempt (g : GuildId) (x : Timer) : bool :=
  match cb x with
  | CbReconnect g' reason _ _ =>
      String.eqb g' g && String.eqb reason serverRestartDetected
      && (delay x =? 0)
  | _ => false
  end.

Definition restartEpisodeScheduled (g : GuildId) (w : World) : bool :=
  existsb (isRestartAttempt g) (timers w).

(** The retry count reported by [getReconnectionStatus]. *)
Definition retryCountOf (g : GuildId) (w : World) : Z :=
  match getState g w with
  | Some (_, st) => retryCount st
  | None => 0
  end.

(** The number of failed connection attempts of [g] that the log records. *)
Definition failedAttemptsLogged (g : GuildId) (w : World) : nat :=
  length (List.filter
            (fun e => match snd e with
                      | MsgAttemptFailed g' => String.eqb g' g
                      | _ => false
                      end) (log w)).

(** The condition under which a reconciliation sweep acts on [g]: the
    guild is not marked reconnecting, its instance names an active server
    that has an entry in the server list, and it is not observed
    operational. *)
Definition qualifies (g : GuildId) (w : World) : bool :=
  negb (truthyFlag (rustplusReconnecting w !! g))
  && match instances w !! g with
     | Some instance =>
         truthyOptString (activeServer instance)
         && bool_decide (is_Some (activeServerInfo instance))
         && negb (isCurrentlyConnected g w)
     | None => false
     end.

(** The factory call made by [reconnectGuild]. *)
Definition createCallFor (g : GuildId) (info : ServerEntry) : ExtCall :=
  CallCreateRustplusInstance g (serverIp info) (appPort info) (steamId info)
    (se_playerToken info).

(** The flag that [reconnectGuild] leaves in [rustplusReconnecting]. *)
Definition reconnectingAfter (o : CreateOutcome) : bool :=
  match o with CreateReturns => true | CreateThrows => false end.

(** The lines that [attemptReconnection] writes for [g]: one per call,
    from the guard when it rejects and from line 203 when it accepts. *)
Definition isRequestLine (g : GuildId) (e : Level * Message) : bool :=
  match snd e with
  | MsgAlreadyInProgress g' => String.eqb g' g
  | MsgMaxAttempts _ g' => String.eqb g' g
  | MsgAttempting _ _ g' _ _ => String.eqb g' g
  | _ => false
  end.

(** The number of requests for [g] that the log records. *)
Definition requestsLogged (g : GuildId) (w : World) : nat :=
  length (List.filter (isRequestLine g) (log w)).

(** The state object captured by the closure of a pending attempt is in
    the store. *)
Definition capturedAlive (w : World) (x : Timer) : Prop :=
  match cb x with
  | CbReconnect _ _ _ l => is_Some (heap w !! l)
  | _ => True
  end.

(** Every reference held by the manager or by a pending timer points to a
    state object. *)
Definition WellFormed (w : World) : Prop :=
  (forall g l, reconnectionStates w !! g = Some l -> is_Some (heap w !! l))
  /\ Forall (capturedAlive w) (timers w).

(** ** Sample data and scenarios *)

Definition guildA : GuildId := "1001".

Definition paramsA : ConnectionParams :=
  mkParams "203.0.113.7" 28082 "76561198000000001" "-1234567".

Definition serverA : ServerEntry :=
  mkServerEntry "203.0.113.7" 28082 "76561198000000001" "-1234567".

Definition instanceA : Instance :=
  mkInstance (Some "203.0.113.7-28082") {["203.0.113.7-28082" := serverA]}.

Definition rustplusA : Rustplus :=
  mkRustplus guildA "203.0.113.7" 28082 "76561198000000001" "-1234567"
    true false None.

Definition serverInfoOld : ServerInfo :=
  mkServerInfo "Rusty Moose" 1337 4250 1700000000.

Definition serverInfoNew : ServerInfo :=
  mkServerInfo "Rusty Moose" 4242 4250 1700600000.

(** Guild A after a request and ten failed attempts under the default
    configuration. *)
Definition exhaustedA : World :=
  default emptyWorld
    (failedEpisode defaultConfig guildA "connection_lost" paramsA emptyWorld).

(** A first probe of a fresh connection object stores the identity. *)
Definition capturedA : Rustplus * World :=
  Enhanced.checkConnectionHealth defaultConfig (Enhanced.monitor None) guildA
    rustplusA (answered serverInfoOld) exhaustedA.

(** The next probe sees another seed and wipe time. *)
Definition restartedA : Rustplus * World :=
  Enhanced.checkConnectionHealth defaultConfig (Enhanced.monitor None) guildA
    (fst capturedA) (answered serverInfoNew) (snd capturedA).

(** A flapping connection of guild A under the default configuration, with
    the clock in milliseconds.  At 0 a transport error asks for a
    reconnection; its attempt runs at 15000 and the connection comes up
    ([handleSuccessfulReconnection]), which opens the stability window that
    ends at 75000.  At 20000 the connection is lost again: the attempt of
    50000 fails, the one asked for at 51000 is pending. *)
Definition flappingA : option World :=
  w1 ← fireNext defaultConfig CreateReturns
         (attemptReconnection defaultConfig guildA "connection_lost" paramsA
            emptyWorld);
  w2 ← advanceClock 20000 (handleSuccessfulReconnection defaultConfig guildA w1);
  w3 ← fireNext defaultConfig CreateThrows
         (attemptReconnection defaultConfig guildA "connection_lost" paramsA w2);
  fireNext defaultConfig CreateThrows w3.

(** The next timer is the one of the stability window. *)
Definition windowEndA : option World :=
  flappingA ≫= fireNext defaultConfig CreateThrows.

Definition flappingWorldA : World := default emptyWorld flappingA.

(** Guild A is configured for its server and has no connection. *)
Definition disconnectedA : World :=
  set_instances {[guildA := instanceA]} emptyWorld.

(** Guild A is configured for its server and its connection is
    operational. *)
Definition operationalA : World :=
  set_activeRustplusInstances {[guildA := true]}
    (set_rustplusInstances {[guildA := rustplusA]} disconnectedA).

(** Guild A is configured, not operational, and marked reconnecting. *)
Definition reconnectingA : World :=
  set_rustplusReconnecting {[guildA := true]} disconnectedA.

(** ** ReconnectionManager: the remaining method *)

(** The body of the loop of [stopAllReconnections], lines 320-325, for the
    state object [l]. *)
Definition stopOne (w : World) (l : Loc) : World :=
  match heap w !! l with
  | Some state =>
      let w1 := match timer state with
                | Some t => clearTimeout t w
                | None => w
                end in
      writeState l (stopReconnecting state) w1
  | None => w
  end.

(** [stopAllReconnections()], lines 319-328.  The loop visits the entries
    of the map one after the other; its result does not depend on the
    order of the visits (see [stopAll_fields]). *)
Definition stopAllReconnections (w : World) : World :=
  let w1 := fold_left stopOne
              (snd <$> map_to_list (reconnectionStates w)) w in
  set_successfulConnections ∅ (set_reconnectionStates ∅ w1).

(** ** Runs of the controller *)

(** The entry points of the reconnection manager and the firing of a
    timer, as the steps of a run. *)
Inductive Event :=
  | EvRequest (g : GuildId) (reason : string) (params : ConnectionParams)
  | EvFire (t : TimerId) (o : CreateOutcome)
  | EvAdvance (t : Z)
  | EvReset (g : GuildId)
  | EvMarkSuccessful (g : GuildId)
  | EvSucceeded (g : GuildId)
  | EvFailed (g : GuildId) (reason : string)
  | EvStopAll.

(** One step; a timer that is not pending does not fire, and the clock
    does not move where [advanceClock] refuses. *)
Definition step (cfg : Config) (w : World) (e : Event) : World :=
  match e with
  | EvRequest g reason params => attemptReconnection cfg g reason params w
  | EvFire t o => default w (fireTimer cfg t o w)
  | EvAdvance t => default w (advanceClock t w)
  | EvReset g => resetState g w
  | EvMarkSuccessful g => markSuccessfulConnection cfg g w
  | EvSucceeded g => handleSuccessfulReconnection cfg g w
  | EvFailed g reason => handleFailedReconnection g reason w
  | EvStopAll => stopAllReconnections w
  end.

Definition run (cfg : Config) (es : list Event) (w : World) : World :=
  fold_left (step cfg) es w.

(** The handles, references and counters of the manager fit together:
    pending timers have distinct handles below the next one; the state map
    is injective and points into the store; a pending attempt belongs to the
    state object of its guild, which stores its handle; a stored handle is
    below the next one and, when still pending, the handle of an attempt for
    that state object; and retry counts lie between 0 and the ceiling when
    the ceiling is not negative. *)
Record ConsistentParts (cfg : Config) (ts : list Timer) (n : TimerId)
    (h : gmap Loc ReconnectionState) (s : gmap GuildId Loc) : Prop :=
  mkConsistent {
    handles_nodup : NoDup (tid <$> ts);
    handles_below : forall x, x ∈ ts -> (tid x < n)%nat;
    states_alive : forall g l, s !! g = Some l -> is_Some (h !! l);
    states_inj : forall g1 g2 l,
      s !! g1 = Some l -> s !! g2 = Some l -> g1 = g2;
    attempt_owned : forall x g r p l,
      x ∈ ts -> cb x = CbReconnect g r p l ->
      s !! g = Some l
      /\ exists st, h !! l = Some st /\ timer st = Some (tid x);
    stored_below : forall l st t,
      h !! l = Some st -> timer st = Some t -> (t < n)%nat;
    stored_attempt : forall l st x,
      h !! l = Some st -> timer st = Some (tid x) -> x ∈ ts ->
      exists g r p, cb x = CbReconnect g r p l;
    counts_bounded : forall l st,
      0 <= maxRetries cfg -> h !! l = Some st ->
      0 <= retryCount st <= maxRetries cfg
  }.

Definition Consistent (cfg : Config) (w : World) : Prop :=
  ConsistentParts cfg (timers w) (nextTimerId w) (heap w)
    (reconnectionStates w).

(** The pending connection attempts of a guild. *)
Definition isAttemptFor (g : GuildId) (x : Timer) : bool :=
  match cb x with
  | CbReconnect g' _ _ _ => String.eqb g' g
  | _ => false
  end.

Definition pendingAttempts (g : GuildId) (w : World) : list Timer :=
  List.filter (isAttemptFor g) (timers w).

Definition isAttempt (x : Timer) : bool :=
  match cb x with CbReconnect _ _ _ _ => true | _ => false end.

(** The timer handle stored in the state object [l], and the handles
    stored in the state objects of the map. *)
Definition storedHandle (h : gmap Loc ReconnectionState) (l : Loc)
    : option TimerId :=
  h !! l ≫= timer.

Definition storedHandles (w : World) : list TimerId :=
  omap (storedHandle (heap w)) (snd <$> map_to_list (reconnectionStates w)).

(** The guild of a timer closure and, where there is one, the guild that
    a step concerns. *)
Definition callbackGuild (c : Callback) : GuildId :=
  match c with
  | CbReconnect g _ _ _ => g
  | CbRetry g _ _ => g
  | CbResetCounter g => g
  end.

Definition eventGuild (w : World) (e : Event) : option GuildId :=
  match e with
  | EvRequest g _ _ => Some g
  | EvFire t _ => (fun x => callbackGuild (cb x)) <$> findTimer t w
  | EvAdvance _ => None
  | EvReset g => Some g
  | EvMarkSuccessful g => Some g
  | EvSucceeded g => Some g
  | EvFailed g _ => Some g
  | EvStopAll => None
  end.

Definition guildB : GuildId := "1002".

(** The first attempt of guild A has failed and its retry is pending; an
    attempt of guild B is pending. *)
Definition stoppingAB : World :=
  run defaultConfig
    [EvRequest guildA "connection_lost" paramsA;
     EvFire 0 CreateThrows;
     EvRequest guildB "connection_lost" paramsA] emptyWorld.

(** What the manager holds for the guild [g]: its state object and its
    pending attempts. *)
Definition guildView (g : GuildId) (w : World)
    : option (Loc * ReconnectionState) * list Timer :=
  (getState g w, pendingAttempts g w).

(** ** The error event of a connection, src/discordEvents/error.js *)

(** What the handler reads of the error object: [err.code], [err.syscall]
    and [err.toString()]. *)
Record TransportError := mkError {
  code : option string;
  syscall : option string;
  errorString : string
}.

(** [hay.includes(needle)]. *)
Fixpoint includes (needle hay : string) : bool :=
  String.prefix needle hay
  || match hay with
     | EmptyString => false
     | String _ rest => includes needle rest
     end.

(** The four helpers called by the [switch], lines 88-148: the reason that
    each hands to [triggerReconnection], or [None] when it returns without
    calling it.  The lines they write go to the logger of the connection
    object, which is not part of the world. *)
Definition errorTimedOut (err : TransportError) : option string :=
  if bool_decide (syscall err = Some "connect")
  then Some "connection_timeout" else None.

Definition errorNotFound (err : TransportError) : option string :=
  if bool_decide (syscall err = Some "getaddrinfo")
  then Some "dns_resolution_failure" else None.

Definition errorConnRefused (err : TransportError) : option string :=
  Some "connection_refused".

Definition errorOther (err : TransportError) : option string :=
  if String.eqb (errorString err)
       "Error: WebSocket was closed before the connection was established"
  then Some "websocket_closed"
  else if includes "WebSocket connection closed" (errorString err)
          || includes "Connection lost" (errorString err)
          || includes "socket hang up" (errorString err)
          || bool_decide (code err = Some "ECONNRESET")
          || bool_decide (code err = Some "EPIPE")
  then Some "connection_lost"
  else Some "unknown_error".

(** The [switch] on [err.code], lines 68-85. *)
Definition errorReason (err : TransportError) : option string :=
  match code err with
  | Some c =>
      if String.eqb c "ETIMEDOUT" then errorTimedOut err
      else if String.eqb c "ENOTFOUND" then errorNotFound err
      else if String.eqb c "ECONNREFUSED" then errorConnRefused err
      else errorOther err
  | None => errorOther err
  end.

(** [execute(rustplus, client, err)], lines 63-86.  [serverAvailable] is
    the result of [rustplus.isServerAvailable()]; when it is false the
    handler leaves the rest to [deleteThisRustplusInstance], whose code is
    outside the controller, and the result is [None]. *)
Definition execute (cfg : Config) (rustplus : Rustplus)
    (serverAvailable : bool) (err : TransportError) (w : World)
    : option World :=
  if negb serverAvailable then None
  else match errorReason err with
       | Some reason => Some (triggerReconnection cfg rustplus reason w)
       | None => Some w
       end.

(** The reasons that the error handler can give. *)
Definition transportReasons : list string :=
  ["connection_timeout"; "dns_resolution_failure"; "connection_refused";
   "websocket_closed"; "connection_lost"; "unknown_error"].

(** An [ECONNRESET] raised by a read on the socket. *)
Definition errorResetA : TransportError :=
  mkError (Some "ECONNRESET") (Some "read") "Error: read ECONNRESET".

(** ** The sweep of the basic monitor *)

(** [performHealthChecks()] of src/util/connectionHealthMonitor.js,
    lines 50-67; the text is that of the enhanced monitor. *)
Module BasicSweep.

(** One iteration of the loop for the key [g]. *)
Definition healthCheckGuild (cfg : Config) (m : MonitorConfig)
    (probe : GuildId -> ProbeOutcome) (w : World) (g : GuildId) : World :=
  if truthyFlag (activeRustplusInstances w !! g) then
    match rustplusInstances w !! g with
    | Some rustplus =>
        if negb (isOperational rustplus)
           || truthyFlag (rustplusReconnecting w !! g)
        then w
        else
          let '(rustplus1, w1) :=
            Basic.checkConnectionHealth cfg m g rustplus (probe g) w in
          match rustplusInstances w1 !! g with
          | Some _ =>
              set_rustplusInstances
                (<[g := rustplus1]> (rustplusInstances w1)) w1
          | None => w1
          end
    | None => w
    end
  else w.

Definition performHealthChecks (cfg : Config) (m : MonitorConfig)
    (probe : GuildId -> ProbeOutcome) (keys : list GuildId) (w : World)
    : World :=
  fold_left (healthCheckGuild cfg m probe) keys w.

End BasicSweep.

(** The sweep probes the connection of [g]: the guild is active, its
    connection is in the registry and operational, and it is not marked as
    reconnecting. *)
Definition probed (g : GuildId) (w : World) : bool :=
  truthyFlag (activeRustplusInstances w !! g)
  && match rustplusInstances w !! g with
     | Some rustplus =>
         isOperational rustplus
         && negb (truthyFlag (rustplusReconnecting w !! g))
     | None => false
     end.

(** Guild A is operational and two probes in a row have failed. *)
Definition failingA : World :=
  set_consecutiveFailures {[guildA := 2]} operationalA.

(** Guild A is operational and a first probe has stored the identity of
    its server. *)
Definition identifiedA : World :=
  set_rustplusInstances
    {[guildA := set_lastServerInfo (Some serverInfoOld) rustplusA]}
    operationalA.

Definition rustplusB : Rustplus :=
  mkRustplus guildB "203.0.113.7" 28082 "76561198000000001" "-1234567"
    true false None.

(** Guilds A and B are configured for the same server; B has an
    operational connection and A has none. *)
Definition twoGuildsAB : World :=
  set_activeRustplusInstances {[guildB := true]}
    (set_rustplusInstances {[guildB := rustplusB]}
       (set_instances {[guildA := instanceA; guildB := instanceA]} emptyWorld)).

(** The log without the lines about the likely restart time. *)
Definition withoutRestartTimeLines (l : list (Level * Message))
    : list (Level * Message) :=
  List.filter (fun e => match snd e with
                        | MsgLikelyRestartTime _ => false
                        | _ => true
                        end) l.

(** An instance whose active server has no entry in its server list. *)
Definition instanceNoEntry : Instance :=
  mkInstance (Some "203.0.113.7-28082") ∅.

(** Guild A is configured for a server that is missing from its server
    list, after an exhausted episode. *)
Definition noEntryA : World :=
  set_rustplusReconnecting {[guildA := true]}
    (set_instances {[guildA := instanceNoEntry]} exhaustedA).

(** ** The connection command, src/commands/connection.js *)

(** The numbers that [formatUptime] prints and the units it prints them
    with. *)
Inductive UptimeText :=
  | DaysHoursMinutes (d h m : Z)
  | HoursMinutes (h m : Z)
  | MinutesSeconds (m s : Z).

(** [formatUptime(startTime)], lines 218-233, up to the rendering of the
    numbers; [now] and [startTime] are in milliseconds.  [Math.floor] of a
    quotient is [/] and the remainder operator is [Z.rem]. *)
Definition uptimeText (now startTime : Z) : UptimeText :=
  let uptime := now - startTime in
  let seconds := uptime / 1000 in
  let minutes := seconds / 60 in
  let hours := minutes / 60 in
  let days := hours / 24 in
  if days >? 0 then DaysHoursMinutes days (Z.rem hours 24) (Z.rem minutes 60)
  else if hours >? 0 then HoursMinutes hours (Z.rem minutes 60)
  else MinutesSeconds minutes (Z.rem seconds 60).

(** The decimal numeral of an integer, as a template literal prints it. *)
Definition showZ (z : Z) : string :=
  DecimalString.NilZero.string_of_int (Z.to_int z).

Definition renderUptime (u : UptimeText) : string :=
  match u with
  | DaysHoursMinutes d h m =>
      showZ d ++ "d " ++ showZ h ++ "h " ++ showZ m ++ "m"
  | HoursMinutes h m => showZ h ++ "h " ++ showZ m ++ "m"
  | MinutesSeconds m s => showZ m ++ "m " ++ showZ s ++ "s"
  end.

Definition formatUptime (now startTime : Z) : string :=
  renderUptime (uptimeText now startTime).

(** The time that the text stands for, in milliseconds, and the size of
    its last unit. *)
Definition shownMillis (u : UptimeText) : Z :=
  match u with
  | DaysHoursMinutes d h m => ((d * 24 + h) * 60 + m) * 60000
  | HoursMinutes h m => (h * 60 + m) * 60000
  | MinutesSeconds m s => (m * 60 + s) * 1000
  end.

Definition lastUnit (u : UptimeText) : Z :=
  match u with
  | MinutesSeconds _ _ => 1000
  | _ => 60000
  end.

(** The part of the status embed that [handleStatusCommand], lines 72-119,
    derives from the state of the controller: the headline with the lines
    below it, and the colour. *)
Inductive StatusReport :=
  | ReportConnected (server : string) (port : Z) (attempts : option Z)
  | ReportReconnecting (count max : Z) (nextAttemptIn : option Z)
      (reason : option string)
  | ReportDisconnected (maxRetriesReached : bool).

(** The fields [currentDelay] and [reconnectionReason] of the object that
    [getReconnectionStatus] returns, lines 296-314; both are [undefined]
    for a guild without state. *)
Definition statusCurrentDelay (g : GuildId) (w : World) : option Z :=
  match getState g w with
  | Some (_, state) => Some (currentDelay state)
  | None => None
  end.

Definition statusReason (g : GuildId) (w : World) : option string :=
  match getState g w with
  | Some (_, state) => reconnectionReason state
  | None => None
  end.

Definition handleStatusCommand (cfg : Config) (g : GuildId) (w : World)
    : StatusReport :=
  let '(_, retryCount, maxRetries) := getReconnectionStatus cfg g w in
  match rustplusInstances w !! g with
  | Some rustplus =>
      if truthyFlag (activeRustplusInstances w !! g) && isOperational rustplus
      then ReportConnected (rp_server rustplus) (rp_port rustplus)
             (if retryCount >? 0 then Some retryCount else None)
      else if truthyFlag (rustplusReconnecting w !! g)
      then ReportReconnecting retryCount maxRetries
             (match statusCurrentDelay g w with
              | Some d => if d =? 0 then None else Some (d / 1000)
              | None => None
              end)
             (match statusReason g w with
              | Some r => if truthyString r then Some r else None
              | None => None
              end)
      else ReportDisconnected (retryCount >=? maxRetries)
  | None =>
      if truthyFlag (rustplusReconnecting w !! g)
      then ReportReconnecting retryCount maxRetries
             (match statusCurrentDelay g w with
              | Some d => if d =? 0 then None else Some (d / 1000)
              | None => None
              end)
             (match statusReason g w with
              | Some r => if truthyString r then Some r else None
              | None => None
              end)
      else ReportDisconnected (retryCount >=? maxRetries)
  end.

Definition reportColor (r : StatusReport) : Z :=
  match r with
  | ReportConnected _ _ _ => 65280          (* 0x00ff00 *)
  | ReportReconnecting _ _ _ _ => 16776960  (* 0xffff00 *)
  | ReportDisconnected _ => 16711680        (* 0xff0000 *)
  end.

(** ** The periodic sweeps: start, stop and reconfiguration *)

(** The two callbacks handed to [setInterval]. *)
Inductive Sweep := HealthSweep | ReconcileSweep.

Record Interval := mkInterval {
  handle : nat;
  period : Z;
  callback : Sweep
}.

(** The lines that the methods below write to [client.log]. *)
Inductive LifecycleLine :=
  | MonitorStarted (ms : Z)
  | MonitorStopped
  | AutoReconnectStarted (ms : Z)
  | AutoReconnectStopped.

(** The fields of the health monitor and of the auto-reconnection manager
    outside their maps, the intervals of the runtime, and the lines
    written, newest first. *)
Record Host := mkHost {
  monitorSettings : MonitorConfig;
  monitorIntervalId : option nat;
  autoCheckInterval : Z;
  autoIntervalId : option nat;
  autoIsRunning : bool;
  intervals : list Interval;
  nextIntervalId : nat;
  lifecycleLog : list LifecycleLine
}.

(** Both objects as their constructors leave them. *)
Definition newHost (m : MonitorConfig) : Host :=
  mkHost m None 30000 None false [] 0%nat [].

Definition clearInterval (i : nat) (ivs : list Interval) : list Interval :=
  List.filter (fun iv => negb (Nat.eqb (handle iv) i)) ivs.

(** The argument of [updateConfig]: each entry may be missing. *)
Record MonitorUpdate := mkUpdate {
  newCheckInterval : option Z;
  newMaxConsecutiveFailures : option Z;
  newHealthCheckTimeout : option Z
}.

(** The methods of the monitor; the two versions of the monitor have the
    same text (src/util/connectionHealthMonitor.js lines 22-45 and 189-205,
    src/util/rusthelpScraper.js lines 315-338 and 536-552). *)
Module MonitorLifecycle.

Definition stop (h : Host) : Host :=
  match monitorIntervalId h with
  | Some i =>
      mkHost (monitorSettings h) None (autoCheckInterval h) (autoIntervalId h)
        (autoIsRunning h) (clearInterval i (intervals h)) (nextIntervalId h)
        (MonitorStopped :: lifecycleLog h)
  | None => h
  end.

Definition start (h : Host) : Host :=
  let h1 := match monitorIntervalId h with
            | Some _ => stop h
            | None => h
            end in
  let i := nextIntervalId h1 in
  mkHost (monitorSettings h1) (Some i) (autoCheckInterval h1)
    (autoIntervalId h1) (autoIsRunning h1)
    (intervals h1
     ++ [mkInterval i (checkInterval (monitorSettings h1)) HealthSweep])
    (S i)
    (MonitorStarted (checkInterval (monitorSettings h1)) :: lifecycleLog h1).

Definition updateConfig (config : MonitorUpdate) (h : Host) : Host :=
  let old := monitorSettings h in
  let settings :=
    mkMonitor (orDefault (newCheckInterval config) (checkInterval old))
      (orDefault (newMaxConsecutiveFailures config)
         (maxConsecutiveFailures old))
      (orDefault (newHealthCheckTimeout config) (healthCheckTimeout old)) in
  let h1 := mkHost settings (monitorIntervalId h) (autoCheckInterval h)
              (autoIntervalId h) (autoIsRunning h) (intervals h)
              (nextIntervalId h) (lifecycleLog h) in
  match monitorIntervalId h1 with
  | Some _ => start (stop h1)
  | None => h1
  end.

(** The entry [activeMonitoring] of [getHealthCheckStats()]. *)
Definition activeMonitoring (h : Host) : bool :=
  bool_decide (monitorIntervalId h ≠ None).

End MonitorLifecycle.

(** The methods of [AutoReconnectManager], lines 19-44 and 207-213. *)
Module AutoReconnectLifecycle.

Definition stop (h : Host) : Host :=
  match autoIntervalId h with
  | Some i =>
      mkHost (monitorSettings h) (monitorIntervalId h) (autoCheckInterval h)
        None false (clearInterval i (intervals h)) (nextIntervalId h)
        (AutoReconnectStopped :: lifecycleLog h)
  | None => h
  end.

Definition start (h : Host) : Host :=
  let h1 := match autoIntervalId h with
            | Some _ => stop h
            | None => h
            end in
  let i := nextIntervalId h1 in
  mkHost (monitorSettings h1) (monitorIntervalId h1) (autoCheckInterval h1)
    (Some i) true
    (intervals h1 ++ [mkInterval i (autoCheckInterval h1) ReconcileSweep])
    (S i)
    (AutoReconnectStarted (autoCheckInterval h1) :: lifecycleLog h1).

(** [getStats()]: [isRunning], [checkInterval] and [nextCheck]. *)
Definition getStats (now : Z) (h : Host) : bool * Z * option Z :=
  (autoIsRunning h, autoCheckInterval h,
   match autoIntervalId h with
   | Some _ => Some (now + autoCheckInterval h)
   | None => None
   end).

End AutoReconnectLifecycle.

(** The calls of these methods, as the steps of a run. *)
Inductive LifecycleCall :=
  | MonitorStart
  | MonitorStop
  | MonitorUpdateConfig (config : MonitorUpdate)
  | AutoReconnectStart
  | AutoReconnectStop.

Definition lifecycleStep (h : Host) (c : LifecycleCall) : Host :=
  match c with
  | MonitorStart => MonitorLifecycle.start h
  | MonitorStop => MonitorLifecycle.stop h
  | MonitorUpdateConfig config => MonitorLifecycle.updateConfig config h
  | AutoReconnectStart => AutoReconnectLifecycle.start h
  | AutoReconnectStop => AutoReconnectLifecycle.stop h
  end.

Definition lifecycleRun (cs : list LifecycleCall) (h : Host) : Host :=
  fold_left lifecycleStep cs h.

(** The live intervals that run the sweep [s]. *)
Definition runsSweep (s : Sweep) (iv : Interval) : bool :=
  match callback iv, s with
  | HealthSweep, HealthSweep => true
  | ReconcileSweep, ReconcileSweep => true
  | _, _ => false
  end.

Definition liveSweeps (s : Sweep) (h : Host) : list Interval :=
  List.filter (runsSweep s) (intervals h).

(** The intervals of the runtime are the ones that the two objects hold,
    each with the period configured for it. *)
Definition Tidy (h : Host) : Prop :=
  (forall iv, In iv (intervals h) -> (handle iv < nextIntervalId h)%nat)
  /\ NoDup (map handle (intervals h))
  /\ liveSweeps HealthSweep h
     = match monitorIntervalId h with
       | Some i => [mkInterval i (checkInterval (monitorSettings h)) HealthSweep]
       | None => []
       end
  /\ liveSweeps ReconcileSweep h
     = match autoIntervalId h with
       | Some i => [mkInterval i (autoCheckInterval h) ReconcileSweep]
       | None => []
       end
  /\ autoIsRunning h = bool_decide (autoIntervalId h ≠ None).

(** No entry of [Config.general] is negative. *)
Definition nonNegative (x : option Z) : Prop :=
  match x with Some v => 0 <= v | None => True end.

Definition SensibleGeneral (general : GeneralConfig) : Prop :=
  nonNegative (reconnectIntervalMs general)
  /\ nonNegative (maxReconnectDelay general)
  /\ nonNegative (maxReconnectRetries general)
  /\ nonNegative (reconnectBackoffMultiplier general)
  /\ nonNegative (resetRetriesAfterSuccess general).

(** ** The crafting helper, src/util/rusthelpScraper.js lines 25-293 *)

(** Item ids are the keys of items.json, decimal integers. *)
Abbreviation ItemId := Z.

(** A JavaScript object whose keys are item ids, as the list of its
    properties in the order of their creation. *)
Definition JsObject (V : Type) : Type := list (ItemId * V).

(** [o[k]]. *)
Definition jsGet {V} (k : ItemId) (o : JsObject V) : option V :=
  snd <$> List.find (fun e => fst e =? k) o.

(** [o[k] = v]: an existing property keeps its place. *)
Fixpoint jsSet {V} (k : ItemId) (v : V) (o : JsObject V) : JsObject V :=
  match o with
  | [] => [(k, v)]
  | (k', v') :: rest =>
      if k' =? k then (k, v) :: rest else (k', v') :: jsSet k v rest
  end.

(** A key that is an array index: these come first in [Object.entries],
    in ascending order; the other keys follow in the order of their
    creation. *)
Definition isArrayIndex (k : ItemId) : bool :=
  (0 <=? k) && (k <? 4294967295).

Fixpoint insertEntry {V} (e : ItemId * V) (l : list (ItemId * V))
    : list (ItemId * V) :=
  match l with
  | [] => [e]
  | e' :: rest =>
      if fst e <=? fst e' then e :: l else e' :: insertEntry e rest
  end.

Definition sortEntries {V} (l : list (ItemId * V)) : list (ItemId * V) :=
  fold_right insertEntry [] l.

(** [Object.entries(o)]. *)
Definition jsEntries {V} (o : JsObject V) : list (ItemId * V) :=
  (sortEntries (List.filter (fun e => isArrayIndex (fst e)) o)
   ++ List.filter (fun e => negb (isArrayIndex (fst e))) o)%list.

(** The set [BASE_MATERIALS], lines 25-36. *)
Definition BASE_MATERIALS : list string :=
  ["Animal Fat"; "Bone Fragments"; "Charcoal"; "Cloth"; "Coal"; "Crude Oil";
   "Diesel Fuel"; "High Quality Metal Ore"; "Horse Dung"; "Leather";
   "Low Grade Fuel"; "Metal Fragments"; "Metal Ore"; "Plant Fiber";
   "Radioactive Water"; "Salt Water"; "Scrap"; "Stones"; "Sulfur";
   "Sulfur Ore"; "Water"; "Wood"; "High Quality Metal";
   "Gears"; "Metal Pipe"; "Metal Blade"; "Metal Spring"; "Road Signs";
   "Sheet Metal"; "Rope"; "Tarp"; "Sticks"; "Electric Fuse"; "Duct Tape";
   "Glue"; "Sewing Kit"; "Tech Trash"; "Empty Propane Tank"].

(** [isBaseMaterial(itemName)], lines 44-46. *)
Definition isBaseMaterial (itemName : string) : bool :=
  existsb (String.eqb itemName) BASE_MATERIALS.

(** [toLowerCase()] on the letters A to Z. *)
Definition lowerAscii (c : Ascii.ascii) : Ascii.ascii :=
  let n := Ascii.nat_of_ascii c in
  if (65 <=? n)%nat && (n <=? 90)%nat then Ascii.ascii_of_nat (n + 32) else c.

Fixpoint toLowerCase (s : string) : string :=
  match s with
  | EmptyString => EmptyString
  | String c rest => String (lowerAscii c) (toLowerCase rest)
  end.

(** The object literal [knownData], lines 105-130, as its entries. *)
Definition knownData : list (string * list (string * Z)) :=
  [("rocket",
    [("Metal Pipe", 2); ("Charcoal", 1950); ("Sulfur", 1400);
     ("Low Grade Fuel", 30); ("Metal Fragments", 100)]);
   ("gun powder", [("Charcoal", 3); ("Sulfur", 2)]);
   ("explosives",
    [("Gun Powder", 50); ("Low Grade Fuel", 3); ("Sulfur", 10);
     ("Metal Fragments", 10)]);
   ("timed explosive charge",
    [("Charcoal", 3000); ("Sulfur", 2200); ("Low Grade Fuel", 60);
     ("Metal Fragments", 200); ("Cloth", 5); ("Tech Trash", 2)])].

(** [getKnownRawMaterials(itemName)], lines 104-133: the entries of the
    object that is returned, [None] for [null].  The lookup
    [knownData[key]] also finds the two properties with a lower-case name
    that the literal inherits from [Object.prototype]; their values are
    truthy and have no entries. *)
Definition getKnownRawMaterials (itemName : string)
    : option (list (string * Z)) :=
  let key := toLowerCase itemName in
  match List.find (fun e => String.eqb (fst e) key) knownData with
  | Some e => Some (snd e)
  | None =>
      if String.eqb key "constructor" || String.eqb key "__proto__"
      then Some [] else None
  end.

(** One entry of items.json. *)
Record ItemData := mkItem {
  itemName : string;
  shortname : string
}.

(** The lines that the helper writes to [client.log]. *)
Inductive CraftLine :=
  | LineItemNotFound (itemId : ItemId)
  | LineNoItemId (materialName : string)
  | LineAttemptScrape (itemName : string)
  | LineFetchFailed (itemName : string) (status : Z)
  | LineNoParser (itemName : string)
  | LineScrapeFailed (itemName : string) (message : string).

(** What the request to rusthelp.com yields. *)
Inductive FetchOutcome :=
  | FetchResponse (status : Z)
  | FetchThrows (message : string).

(** A material with its quantity: the values of the objects that the
    helper builds.  Amounts are integers, and their products and sums are
    exact, as those of the code are below 2^53. *)
Abbreviation Material := (string * Z)%type.

(** [baseMaterials[id].quantity += quantity] when the property exists,
    [baseMaterials[id] = { ...data }] otherwise: lines 228-232, 258-262 and
    271-275. *)
Definition addMaterial (id : ItemId) (data : Material)
    (o : JsObject Material) : JsObject Material :=
  match jsGet id o with
  | Some (n, q) => jsSet id (n, q + snd data) o
  | None => jsSet id data o
  end.

Definition mergeMaterials (sub o : JsObject Material) : JsObject Material :=
  fold_left (fun acc e => addMaterial (fst e) (snd e) acc) (jsEntries sub) o.

Section Crafting.

(** The collaborators of the helper: the table [client.items.items], the
    recipes of [client.rustlabs] with the ingredients of [craftData], and
    the answer of rusthelp.com to the request for an item name. *)
Variable items : JsObject ItemData.
Variable getCraftDetailsById : ItemId -> option (list (ItemId * Z)).
Variable fetch : string -> FetchOutcome.

(** [client.items.getName(itemId)]: the name stored under the id. *)
Definition getName (itemId : ItemId) : option string :=
  itemName <$> jsGet itemId items.

(** [getItemShortname(client, itemName)], lines 54-62, and
    [getItemId(client, itemName)], lines 70-78. *)
Definition getItemShortname (name : string) : option string :=
  (fun e => shortname (snd e))
    <$> List.find (fun e => String.eqb (itemName (snd e)) name)
          (jsEntries items).

Definition getItemId (name : string) : option ItemId :=
  fst <$> List.find (fun e => String.eqb (itemName (snd e)) name)
            (jsEntries items).

(** The loop of lines 146-156 over the entries of the known data. *)
Definition collectKnown (known : list (string * Z))
    : JsObject Material * list CraftLine :=
  fold_left
    (fun acc e =>
       match getItemId (fst e) with
       | Some itemId => (jsSet itemId (fst e, snd e) (fst acc), snd acc)
       | None => (fst acc, (snd acc ++ [LineNoItemId (fst e)])%list)
       end)
    known ([], []).

(** [scrapeRawMaterials(client, itemName)], lines 141-192: the object
    that is returned, [None] for [null], and the lines written.  After a
    response with status 200 the page is loaded and dropped. *)
Definition scrapeRawMaterials (name : string)
    : option (JsObject Material) * list CraftLine :=
  match getKnownRawMaterials name with
  | Some known =>
      let '(rawMaterials, lines) := collectKnown known in
      (match rawMaterials with [] => None | _ => Some rawMaterials end, lines)
  | None =>
      match fetch name with
      | FetchResponse status =>
          if status =? 200
          then (None, [LineAttemptScrape name; LineNoParser name])
          else (None, [LineAttemptScrape name; LineFetchFailed name status])
      | FetchThrows message =>
          (None, [LineAttemptScrape name; LineScrapeFailed name message])
      end
  end.

(** [visited[itemId]] for the object [visited], whose properties all have
    the value [true]. *)
Definition isVisited (itemId : ItemId) (visited : list ItemId) : bool :=
  existsb (Z.eqb itemId) visited.

(** What the loops do with the result [sub] of a recursive call, lines
    226-234 and 268-277: a result that is an object is merged, [null] is
    skipped.  [None] is passed on. *)
Definition absorb
    (sub : option (option (JsObject Material) * list CraftLine))
    (baseMaterials : JsObject Material) (lines : list CraftLine)
    : option (JsObject Material * list CraftLine) :=
  match sub with
  | None => None
  | Some (Some subMaterials, lines') =>
      Some (mergeMaterials subMaterials baseMaterials, (lines ++ lines')%list)
  | Some (None, lines') => Some (baseMaterials, (lines ++ lines')%list)
  end.

(** [isBaseMaterial] of a name that may be [undefined]. *)
Definition isBaseName (name : option string) : bool :=
  match name with Some n => isBaseMaterial n | None => false end.

(** The body of [getBaseMaterials(client, itemId, quantity, visited)],
    lines 202-292: the object that is returned, [None] for [null], and the
    lines written.  [self] stands for the recursive calls
    [this.getBaseMaterials(client, id, quantity, { ...visited })]; an outer
    [None] of [self] is passed on. *)
Definition getBaseMaterialsBody
    (self : ItemId -> Z -> list ItemId
            -> option (option (JsObject Material) * list CraftLine))
    (itemId : ItemId) (quantity : Z) (visited : list ItemId)
    : option (option (JsObject Material) * list CraftLine) :=
  if isVisited itemId visited then Some (Some [], []) else
  let visited1 := itemId :: visited in
  match getName itemId with
  | None => Some (None, [LineItemNotFound itemId])
  | Some name =>
      if negb (truthyString name)
      then Some (None, [LineItemNotFound itemId])
      else if isBaseMaterial name
      then Some (Some [(itemId, (name, quantity))], [])
      else
        let '(scrapedMaterials, lines) := scrapeRawMaterials name in
        match scrapedMaterials with
        | Some materials =>
            (fun r => (Some (fst r), snd r))
              <$> fold_left
                    (fun acc e =>
                       match acc with
                       | None => None
                       | Some (baseMaterials, ls) =>
                           let materialId := fst e in
                           let materialName := fst (snd e) in
                           let totalQuantity := snd (snd e) * quantity in
                           if isBaseMaterial materialName
                           then Some (jsSet materialId
                                        (materialName, totalQuantity)
                                        baseMaterials, ls)
                           else absorb (self materialId totalQuantity visited1)
                                  baseMaterials ls
                       end)
                    (jsEntries materials) (Some ([], lines))
        | None =>
            match getCraftDetailsById itemId with
            | None => Some (Some [(itemId, (name, quantity))], lines)
            | Some ingredients =>
                (fun r => (Some (fst r), snd r))
                  <$> fold_left
                        (fun acc ingredient =>
                           match acc with
                           | None => None
                           | Some (baseMaterials, ls) =>
                               let ingredientId := fst ingredient in
                               let ingredientQuantity :=
                                 snd ingredient * quantity in
                               let ingredientName := getName ingredientId in
                               if isBaseName ingredientName
                               then Some (addMaterial ingredientId
                                            (default "" ingredientName,
                                             ingredientQuantity)
                                            baseMaterials, ls)
                               else absorb
                                      (self ingredientId ingredientQuantity
                                         visited1)
                                      baseMaterials ls
                           end)
                        ingredients (Some ([], lines))
            end
        end
  end.

(** [getBaseMaterials] with its recursion bounded by [fuel]; the result
    is [None] when the fuel runs out, which it does not when there is more
    fuel than items (see [getBaseMaterials_fuel]). *)
Fixpoint getBaseMaterials (fuel : nat) (itemId : ItemId) (quantity : Z)
    (visited : list ItemId)
    : option (option (JsObject Material) * list CraftLine) :=
  match fuel with
  | O => None
  | S fuel' => getBaseMaterialsBody (getBaseMaterials fuel') itemId quantity
                 visited
  end.

End Crafting.

(** Every quantity of an object multiplied by [k]. *)
Definition scaleMaterials (k : Z) (o : JsObject Material) : JsObject Material :=
  map (fun e => (fst e, (fst (snd e), snd (snd e) * k))) o.

(** The ids of the table that are not in [visited]. *)
Definition unvisited (items : JsObject ItemData) (visited : list ItemId)
    : list ItemId :=
  List.filter (fun k => negb (isVisited k visited))
    (nodup Z.eq_dec (map fst items)).

(** Two items whose recipes need each other, and wood. *)
Definition cyclicItems : JsObject ItemData :=
  [(1, mkItem "Alpha" "alpha"); (2, mkItem "Beta" "beta");
   (3, mkItem "Wood" "wood")].

Definition cyclicCraft (itemId : ItemId) : option (list (ItemId * Z)) :=
  if itemId =? 1 then Some [(2, 2); (3, 5)]
  else if itemId =? 2 then Some [(1, 1); (3, 1)]
  else None.

(** rusthelp.com cannot be reached. *)
Definition offline (name : string) : FetchOutcome := FetchThrows "offline".

(** A table with the items that the known recipe of explosives names. *)
Definition explosiveItems : JsObject ItemData :=
  [(-265876753, mkItem "Gun Powder" "gunpowder");
   (-1581843485, mkItem "Sulfur" "sulfur");
   (-1938052175, mkItem "Charcoal" "charcoal");
   (-946369541, mkItem "Low Grade Fuel" "lowgradefuel");
   (69511070, mkItem "Metal Fragments" "metal.fragments");
   (-592016202, mkItem "Explosives" "explosives")].

Definition noRecipes (itemId : ItemId) : option (list (ItemId * Z)) := None.

(** The result of [getBaseMaterials] with every quantity multiplied. *)
Definition scaleResult (k : Z)
    (r : option (JsObject Material) * list CraftLine)
    : option (JsObject Material) * list CraftLine :=
  (scaleMaterials k <$> fst r, snd r).


(** ** Episodes in arbitrary runs *)

(** The steps that start the count of a guild's attempts anew:
    [resetState] for the guild, [stopAllReconnections], and the closure of
    [markSuccessfulConnection] for the guild when it fires. *)
Definition resetsCount (g : GuildId) (w : World) (e : Event) : bool :=
  match e with
  | EvReset g' => String.eqb g' g
  | EvStopAll => true
  | EvFire t _ =>
      match findTimer t w with
      | Some x => match cb x with
                  | CbResetCounter g' => String.eqb g' g
                  | _ => false
                  end
      | None => false
      end
  | _ => false
  end.

(** No step of the run starts the count of [g] anew. *)
Fixpoint countKept (cfg : Config) (g : GuildId) (es : list Event) (w : World)
    : bool :=
  match es with
  | [] => true
  | e :: es' => negb (resetsCount g w e) && countKept cfg g es' (step cfg w e)
  end.

(** The accepted attempts of [g] that have neither failed nor are
    pending. *)
Definition attemptsSettled (g : GuildId) (w : World) : Z :=
  retryCountOf g w - Z.of_nat (length (pendingAttempts g w))
  - Z.of_nat (failedAttemptsLogged g w).

(** The default configuration with a ceiling of three attempts. *)
Definition threeRetries : Config := configWithRetries 3.

(** Guild A under a ceiling of three attempts.  The attempt of 15000
    brings the connection up ([handleSuccessfulReconnection]), which opens
    the stability window that ends at 75000; at 20000 the connection is
    lost again. *)
Definition lostAgainA : option World :=
  w1 ← fireNext threeRetries CreateReturns
         (attemptReconnection threeRetries guildA "connection_lost" paramsA
            emptyWorld);
  advanceClock 20000 (handleSuccessfulReconnection threeRetries guildA w1).

(** The request for the lost connection and the six timers that fire
    next, with every attempt failing: the attempt of 50000, its retry, the
    timer of the stability window at 75000, the attempt of 111000, its
    retry, and the attempt of 127000. *)
Definition threeFailuresA : option World :=
  w ← lostAgainA;
  fireFailing threeRetries 6
    (attemptReconnection threeRetries guildA "connection_lost" paramsA w).

(** A request of guild A under a ceiling of three attempts, and the
    timers of its three attempts and two retries firing, every attempt
    failing. *)
Definition threeFailedAttempts : list Event :=
  [EvRequest guildA "connection_lost" paramsA;
   EvFire 0 CreateThrows; EvFire 1 CreateThrows;
   EvFire 2 CreateThrows; EvFire 3 CreateThrows;
   EvFire 4 CreateThrows].

(** ** The error event and the reconciliation sweep: vocabulary *)

(** The connection object of guild A after [reconnectGuild] has replaced
    it: [isDeleted] is set. *)
Definition deletedA : Rustplus :=
  mkRustplus guildA "203.0.113.7" 28082 "76561198000000001" "-1234567"
    true true None.

(** The names of the properties that a plain object inherits from
    [Object.prototype]: for these names [serverList[name]] is not
    [undefined] even when the server list has no such entry. *)
Definition objectPrototypeNames : list string :=
  ["constructor"; "__defineGetter__"; "__defineSetter__"; "hasOwnProperty";
   "__lookupGetter__"; "__lookupSetter__"; "isPrototypeOf";
   "propertyIsEnumerable"; "toString"; "valueOf"; "__proto__";
   "toLocaleString"].

(** The lookup [instance.serverList[instance.activeServer]] is answered by
    the server list itself: the active server has an entry, or a name that
    [Object.prototype] does not answer.  [activeServerInfo] is the lookup
    of the code for these instances. *)
Definition ownServerLookup (instance : Instance) : bool :=
  match activeServer instance with
  | Some serverId =>
      bool_decide (is_Some (serverList instance !! serverId))
      || negb (existsb (String.eqb serverId) objectPrototypeNames)
  | None => true
  end.

(** The call of the connection factory that a reconciliation sweep makes
    for the guild [g], if it makes one. *)
Definition sweepCall (w : World) (g : GuildId) : option ExtCall :=
  if qualifies g w then
    instance ← instances w !! g;
    info ← activeServerInfo instance;
    Some (createCallFor g info)
  else None.

(** ** The crafting helper: vocabulary *)

(** What a result of [getBaseMaterials] lists: the ids and names of its
    materials, in their order, and the lines written. *)
Definition materialNames (o : JsObject Material) : list (ItemId * string) :=
  map (fun e => (fst e, fst (snd e))) o.

Definition listedBy (r : option (JsObject Material) * list CraftLine)
    : option (list (ItemId * string)) * list CraftLine :=
  (materialNames <$> fst r, snd r).

(** * Properties *)

(** ** The delay function *)

Lemma calculateDelay_le_maxDelay cfg n : calculateDelay cfg n <= maxDelay cfg.
Proof. unfold calculateDelay. lia. Qed.

Lemma calculateDelay_mono cfg n m :
  0 <= baseDelay cfg -> 1 <= backoffMultiplier cfg -> 0 <= n <= m ->
  calculateDelay cfg n <= calculateDelay cfg m.
Proof.
  intros Hb Hm Hnm. unfold calculateDelay.
  apply Z.min_le_compat_r, Z.mul_le_mono_nonneg_l; [done|].
  apply Z.pow_le_mono_r; lia.
Qed.

Lemma addJitter_0 d : addJitter 0 d = d.
Proof.
  unfold addJitter.
  assert (E : (inject_Z d + 0 * (1 # 4) * inject_Z d == inject_Z d)%Q) by ring.
  rewrite E. apply Qfloor_Z.
Qed.

(** C3: under the default configuration [calculateDelay] is non-decreasing
    on the retry counts [n >= 0] and never exceeds [maxDelay]. *)
Theorem calculateDelay_monotone_bounded (n m : Z) :
  0 <= n <= m ->
  calculateDelay defaultConfig n <= calculateDelay defaultConfig m
  /\ calculateDelay defaultConfig n <= maxDelay defaultConfig
  /\ calculateDelay defaultConfig m <= maxDelay defaultConfig.
Proof.
  intros H. split; [|split]; try apply calculateDelay_le_maxDelay.
  apply calculateDelay_mono; [done|done|done].
Qed.

Lemma calculateDelay_monotone_bounded_witness :
  calculateDelay defaultConfig 3 <= calculateDelay defaultConfig 7
  /\ calculateDelay defaultConfig 3 <= maxDelay defaultConfig
  /\ calculateDelay defaultConfig 7 <= maxDelay defaultConfig.
Proof. apply (calculateDelay_monotone_bounded 3 7). lia. Defined.

(** ** The reconnection manager *)

Lemma getState_Some g w l st :
  getState g w = Some (l, st) <->
  reconnectionStates w !! g = Some l /\ heap w !! l = Some st.
Proof.
  unfold getState. split.
  - destruct (reconnectionStates w !! g) as [l'|]; [|done].
    destruct (heap w !! l') as [s|] eqn:E; [|done].
    by intros [= -> ->].
  - by intros [-> ->].
Qed.

Lemma initializeState_known cfg g w l :
  reconnectionStates w !! g = Some l -> initializeState cfg g w = w.
Proof. intros H. unfold initializeState. by rewrite H. Qed.

Lemma initializeState_new cfg g w :
  reconnectionStates w !! g = None ->
  initializeState cfg g w
  = set_reconnectionStates (<[g := fresh (dom (heap w))]> (reconnectionStates w))
      (writeState (fresh (dom (heap w)))
         (mkState false 0 (baseDelay cfg) None None None) w).
Proof. intros H. unfold initializeState. by rewrite H. Qed.

Lemma initializeState_idem cfg g w :
  initializeState cfg g (initializeState cfg g w) = initializeState cfg g w.
Proof.
  destruct (reconnectionStates w !! g) as [l|] eqn:E.
  - by rewrite !(initializeState_known _ _ _ _ E).
  - rewrite (initializeState_new _ _ _ E).
    apply (initializeState_known _ _ _ (fresh (dom (heap w)))).
    simpl. apply lookup_insert_eq.
Qed.

Lemma getState_initializeState_new cfg g w :
  reconnectionStates w !! g = None ->
  getState g (initializeState cfg g w)
  = Some (fresh (dom (heap w)), mkState false 0 (baseDelay cfg) None None None).
Proof.
  intros E. rewrite (initializeState_new _ _ _ E).
  apply getState_Some. simpl. by rewrite !lookup_insert_eq.
Qed.

(** A request for a guild that is reconnecting, or whose retry count has
    reached the ceiling, only writes a line to the log. *)
Lemma attemptReconnection_rejected cfg g reason params w l st :
  reconnectionStates w !! g = Some l ->
  heap w !! l = Some st ->
  isReconnecting st = true \/ maxRetries cfg <= retryCount st ->
  attemptReconnection cfg g reason params w
  = if isReconnecting st
    then clientLog warningCap (MsgAlreadyInProgress g) w
    else clientLog errorCap (MsgMaxAttempts (maxRetries cfg) g) w.
Proof.
  intros Hl Hs Hor.
  unfold attemptReconnection, shouldAttemptReconnection.
  rewrite (initializeState_known _ _ _ _ Hl).
  unfold getState. rewrite Hl, Hs.
  destruct (isReconnecting st); [done|].
  destruct Hor as [?|Hle]; [done|].
  by destruct (Z.geb_spec (retryCount st) (maxRetries cfg)); [|lia].
Qed.

Lemma attemptReconnection_accepted cfg g reason params w l st :
  reconnectionStates w !! g = Some l ->
  heap w !! l = Some st ->
  isReconnecting st = false ->
  retryCount st < maxRetries cfg ->
  attemptReconnection cfg g reason params w
  = scheduleAttempt cfg g reason params l st w.
Proof.
  intros Hl Hs Hr Hlt.
  unfold attemptReconnection, shouldAttemptReconnection.
  rewrite (initializeState_known _ _ _ _ Hl).
  unfold getState. rewrite Hl, Hs, Hr.
  destruct (Z.geb_spec (retryCount st) (maxRetries cfg)); [lia|].
  simpl. rewrite (initializeState_known _ _ _ _ Hl).
  by rewrite Hl, Hs.
Qed.

(** What the guard accepts, and what [attemptReconnection] then does. *)
Lemma attemptReconnection_guard cfg g reason params w :
  fst (shouldAttemptReconnection cfg g reason w) = true ->
  exists l st,
    getState g (initializeState cfg g w) = Some (l, st)
    /\ isReconnecting st = false
    /\ retryCount st < maxRetries cfg
    /\ attemptReconnection cfg g reason params w
       = scheduleAttempt cfg g reason params l st (initializeState cfg g w).
Proof.
  unfold attemptReconnection, shouldAttemptReconnection.
  destruct (getState g (initializeState cfg g w)) as [[l st]|] eqn:E; [|done].
  destruct (isReconnecting st) eqn:Hr; [done|].
  destruct (Z.geb_spec (retryCount st) (maxRetries cfg)); [done|].
  intros _. exists l, st. simpl.
  by rewrite initializeState_idem, E.
Qed.

Ltac schedule_cases w reason st :=
  unfold scheduleAttempt, delayFor, headRandom, mathRandom, pendingAfterClear;
  destruct (rand w), (String.eqb reason serverRestartDetected), (timer st);
  reflexivity.

Lemma scheduleAttempt_heap cfg g reason params l st w :
  heap (scheduleAttempt cfg g reason params l st w)
  = <[l := mkState true (retryCount st + 1)
             (delayFor cfg reason (headRandom w) (retryCount st + 1))
             (Some (nextTimerId w)) (Some (now w)) (Some reason)]> (heap w).
Proof. schedule_cases w reason st. Qed.

Lemma scheduleAttempt_timers cfg g reason params l st w :
  timers (scheduleAttempt cfg g reason params l st w)
  = (pendingAfterClear st w
     ++ [mkTimer (nextTimerId w)
           (delayFor cfg reason (headRandom w) (retryCount st + 1))
           (now w + delayFor cfg reason (headRandom w) (retryCount st + 1))
           (CbReconnect g reason params l)])%list.
Proof. schedule_cases w reason st. Qed.

Lemma scheduleAttempt_states cfg g reason params l st w :
  reconnectionStates (scheduleAttempt cfg g reason params l st w)
  = reconnectionStates w.
Proof. schedule_cases w reason st. Qed.

Lemma scheduleAttempt_calls cfg g reason params l st w :
  calls (scheduleAttempt cfg g reason params l st w) = calls w.
Proof. schedule_cases w reason st. Qed.

Lemma eraseLog_clientLog lv m w : eraseLog (clientLog lv m w) = eraseLog w.
Proof. reflexivity. Qed.

Lemma reconnectCallback_throws cfg g reason params l st w :
  reconnectionStates w !! g = Some l ->
  heap w !! l = Some st ->
  let w' := reconnectCallback cfg g reason params l CreateThrows w in
  heap w' = <[l := stopReconnecting st]> (heap w)
  /\ reconnectionStates w' = reconnectionStates w
  /\ timers w'
     = (timers w ++
        if retryCount st <? maxRetries cfg
        then [mkTimer (nextTimerId w) 1000 (now w + 1000)
                (CbRetry g reason params)]
        else [])%list
  /\ calls w' = createCall g params :: calls w.
Proof.
  intros Hl Hs. unfold reconnectCallback, performReconnection, getState.
  rewrite Hl, Hs.
  destruct (rustplusInstances _ !! g); simpl; rewrite Hs;
    destruct (retryCount st <? maxRetries cfg); simpl;
    rewrite ?app_nil_r; done.
Qed.

Lemma fireNext_single cfg o w x :
  timers w = [x] ->
  fireNext cfg o w
  = Some (runCallback cfg (cb x) o
            (set_now (Z.max (now w) (due x)) (set_timers [] w))).
Proof.
  intros Ht. unfold fireNext, fireTimer, findTimer, clearTimeout.
  rewrite Ht. simpl. rewrite Nat.eqb_refl. simpl.
  rewrite filter_cons, filter_nil.
  by destruct (decide (tid x ≠ tid x)).
Qed.

Section Episode.
Variables (cfg : Config) (g : GuildId) (reason : string)
          (params : ConnectionParams).

Lemma fresh_arms w :
  1 <= maxRetries cfg -> timers w = [] -> Fresh g w ->
  Armed g reason params (length (calls w)) 1
    (attemptReconnection cfg g reason params w).
Proof.
  intros Hmax Ht [E | (l & st & Hl & Hs & Hc & Hr)].
  - destruct (attemptReconnection_guard cfg g reason params w)
      as (l & st & Hg & _ & _ & ->).
    { unfold shouldAttemptReconnection.
      rewrite (getState_initializeState_new _ _ _ E). simpl.
      by destruct (Z.geb_spec 0 (maxRetries cfg)); [lia|]. }
    rewrite (getState_initializeState_new _ _ _ E) in Hg.
    injection Hg as <- <-.
    exists (fresh (dom (heap w))). eexists. eexists.
    rewrite scheduleAttempt_states, scheduleAttempt_heap,
      scheduleAttempt_timers, scheduleAttempt_calls.
    rewrite (initializeState_new _ _ _ E). simpl.
    rewrite !lookup_insert_eq. unfold pendingAfterClear. simpl. rewrite Ht.
    split; [done|]. split; [done|]. split; [done|]. split; [done|].
    split; [done|]. split; [done|]. simpl. by rewrite Nat.add_0_r.
  - rewrite (attemptReconnection_accepted cfg g reason params w l st);
      [|done|done|done|lia].
    exists l. eexists. eexists.
    rewrite scheduleAttempt_states, scheduleAttempt_heap,
      scheduleAttempt_timers, scheduleAttempt_calls, lookup_insert_eq.
    unfold pendingAfterClear. rewrite Ht. simpl.
    split; [done|]. split; [done|]. split; [by rewrite Hc|]. split; [done|].
    split. { by destruct (timer st). }
    split; [done|lia].
Qed.

Lemma armed_fails c0 k w :
  Armed g reason params c0 k w -> (0 < k)%nat ->
  exists w1, fireNext cfg CreateThrows w = Some w1
             /\ Failed cfg g reason params c0 k w1.
Proof.
  intros (l & st & x & Hl & Hs & Hc & Hr & Ht & Hcb & Hn) Hk.
  eexists. split; [by apply fireNext_single|].
  rewrite Hcb. simpl.
  set (w0 := set_now _ _).
  destruct (reconnectCallback_throws cfg g reason params l st w0 Hl Hs)
    as (Hh & Hst & Htm & Hca).
  exists l, (stopReconnecting st).
  rewrite Hh, Hst, Htm, Hca, lookup_insert_eq. simpl.
  rewrite Hc. repeat split; try done.
  - destruct (Z.of_nat k <? maxRetries cfg); [|done]. by eexists.
  - rewrite Hn. lia.
Qed.

Lemma failed_retries c0 k w :
  Failed cfg g reason params c0 k w -> Z.of_nat k < maxRetries cfg ->
  exists w1, fireNext cfg CreateThrows w = Some w1
             /\ Armed g reason params c0 (S k) w1.
Proof.
  intros (l & st & Hl & Hs & Hc & Hr & Ht & Hn) Hk.
  destruct (Z.ltb_spec (Z.of_nat k) (maxRetries cfg)); [|lia].
  destruct Ht as (y & Ht & Hcb).
  eexists. split; [by apply fireNext_single|].
  rewrite Hcb. simpl.
  set (w0 := set_now _ _).
  rewrite (attemptReconnection_accepted cfg g reason params w0 l st);
    [|done|done|done|lia].
  exists l. eexists. eexists.
  rewrite scheduleAttempt_states, scheduleAttempt_heap, scheduleAttempt_timers.
  rewrite lookup_insert_eq.
  split; [done|]. split; [done|]. simpl.
  split; [lia|]. split; [done|].
  split. { unfold pendingAfterClear. simpl. by destruct (timer st). }
  split; [done|].
  rewrite scheduleAttempt_calls. simpl. rewrite Hn. lia.
Qed.

Lemma armed_exhausts m : forall c0 k w,
  (0 < k)%nat ->
  Z.of_nat k + Z.of_nat m = maxRetries cfg ->
  Armed g reason params c0 k w ->
  exists w', fireFailing cfg (2 * m + 1) w = Some w' /\ Exhausted cfg g c0 w'.
Proof.
  induction m as [|m IH]; intros c0 k w Hk Hkm Ha.
  - destruct (armed_fails c0 k w Ha Hk)
      as (w1 & Hf & l & st & Hl & Hs & Hc & Hr & Ht & Hn).
    exists w1. simpl. rewrite Hf. split; [done|].
    destruct (Z.ltb_spec (Z.of_nat k) (maxRetries cfg)); [lia|].
    exists l, st. repeat split; try done; [lia|].
    rewrite Hn. lia.
  - destruct (armed_fails c0 k w Ha Hk) as (w1 & Hf1 & HF).
    destruct (failed_retries c0 k w1 HF) as (w2 & Hf2 & HA); [lia|].
    destruct (IH c0 (S k) w2) as (w' & Hf' & HE); [lia|lia|done|].
    exists w'. split; [|done].
    replace (2 * S m + 1)%nat with (S (S (2 * m + 1))) by lia.
    simpl fireFailing at 1. rewrite Hf1.
    simpl fireFailing at 1. by rewrite Hf2.
Qed.

(** Once the ceiling is reached, any number of further requests leaves the
    world as it is, the log apart. *)
Lemma exhausted_rejects c0 rs : forall w,
  Exhausted cfg g c0 w ->
  eraseLog (requests cfg g rs w) = eraseLog w.
Proof.
  induction rs as [|[r p] rs IH]; intros w HE; [done|].
  pose proof HE as (l & st & Hl & Hs & Hc & Hr & Ht & Hn).
  change (requests cfg g ((r, p) :: rs) w)
    with (requests cfg g rs (attemptReconnection cfg g r p w)).
  rewrite (attemptReconnection_rejected cfg g r p w l st Hl Hs); [|lia].
  rewrite Hr.
  rewrite IH; [done|].
  by exists l, st.
Qed.

End Episode.

Lemma exhausted_eraseLog cfg g c0 w w2 :
  Exhausted cfg g c0 w -> eraseLog w2 = eraseLog w -> Exhausted cfg g c0 w2.
Proof.
  intros (l & st & Hl & Hs & Hc & Hr & Ht & Hn) HE.
  exists l, st.
  pose proof (f_equal reconnectionStates HE) as E1.
  pose proof (f_equal heap HE) as E2.
  pose proof (f_equal timers HE) as E3.
  pose proof (f_equal calls HE) as E4.
  simpl in E1, E2, E3, E4. by rewrite E1, E2, E3, E4.
Qed.

Lemma resetState_exhausted cfg g c0 w :
  Exhausted cfg g c0 w ->
  timers (resetState g w) = [] /\ Fresh g (resetState g w)
  /\ calls (resetState g w) = calls w.
Proof.
  intros (l & st & Hl & Hs & Hc & Hr & Ht & Hn).
  unfold resetState, getState, Fresh. rewrite Hl, Hs.
  destruct (timer st); simpl; rewrite Ht, lookup_delete_eq; auto.
Qed.

(** The retry command of the front end is the reset of an exhausted
    episode: it removes the state of the guild and its request is
    accepted. *)
Lemma manual_retry_restarts_episode cfg g c0 w instance serverId info :
  1 <= maxRetries cfg ->
  Exhausted cfg g c0 w ->
  instances w !! g = Some instance ->
  activeServer instance = Some serverId ->
  truthyString serverId = true ->
  serverList instance !! serverId = Some info ->
  Armed g "manual_retry"
    (mkParams (serverIp info) (appPort info) (steamId info)
       (se_playerToken info))
    (length (calls w)) 1 (handleRetryCommand cfg g w).
Proof.
  intros Hmax HE Hi Ha Ht Hs.
  destruct (resetState_exhausted cfg g c0 w HE) as (Htm & Hf & Hc).
  unfold handleRetryCommand, activeServerInfo. rewrite Hi, Ha, Hs. simpl.
  rewrite Ht. simpl. rewrite <- Hc.
  by apply (fresh_arms cfg g "manual_retry" _
              (set_rustplusReconnecting _ (resetState g w)) Hmax).
Qed.

Lemma initializeState_frame cfg g w :
  headRandom (initializeState cfg g w) = headRandom w
  /\ now (initializeState cfg g w) = now w
  /\ nextTimerId (initializeState cfg g w) = nextTimerId w
  /\ timers (initializeState cfg g w) = timers w.
Proof. unfold initializeState. by destruct (reconnectionStates w !! g). Qed.

(** What an accepted request leaves behind: the state object of the guild
    and the timer that was set last. *)
Lemma attemptReconnection_accepted_state cfg g reason params w :
  fst (shouldAttemptReconnection cfg g reason w) = true ->
  exists l old x,
    getState g (initializeState cfg g w) = Some (l, old)
    /\ retryCount old < maxRetries cfg
    /\ getState g (attemptReconnection cfg g reason params w)
       = Some (l, mkState true (retryCount old + 1)
                    (delayFor cfg reason (headRandom w) (retryCount old + 1))
                    (Some (tid x)) (Some (now w)) (Some reason))
    /\ last (timers (attemptReconnection cfg g reason params w)) = Some x
    /\ delay x = delayFor cfg reason (headRandom w) (retryCount old + 1)
    /\ cb x = CbReconnect g reason params l.
Proof.
  intros Hok.
  destruct (attemptReconnection_guard cfg g reason params w Hok)
    as (l & old & Hg & Hr & Hlt & ->).
  destruct (initializeState_frame cfg g w) as (Hrnd & Hnow & Hnext & _).
  exists l, old.
  exists (mkTimer (nextTimerId w)
            (delayFor cfg reason (headRandom w) (retryCount old + 1))
            (now w + delayFor cfg reason (headRandom w) (retryCount old + 1))
            (CbReconnect g reason params l)).
  split; [done|]. split; [done|].
  apply getState_Some in Hg as [Hl Hs].
  split.
  - apply getState_Some.
    rewrite scheduleAttempt_states, scheduleAttempt_heap, lookup_insert_eq.
    by rewrite Hrnd, Hnow, Hnext.
  - rewrite scheduleAttempt_timers, last_snoc.
    by rewrite Hrnd, Hnow, Hnext.
Qed.

(** C2: an accepted request that makes the retry count [n] has the raw
    delay [min (baseDelay * backoffMultiplier ^ (n - 1), maxDelay)], whose
    jittered value it stores and schedules (0 for a detected restart); with base
    delay 15000, multiplier 2 and ceiling 300000 the raw delays of retry
    counts 1, 2, 3, 4 are 15000, 30000, 60000, 120000 and that of retry
    count 6 is the clamped 300000. *)
Theorem accepted_request_raw_delay :
  (forall cfg g reason params w,
     fst (shouldAttemptReconnection cfg g reason w) = true ->
     exists l st x,
       getState g (attemptReconnection cfg g reason params w) = Some (l, st)
       /\ isReconnecting st = true
       /\ retryCount st = snd (fst (getReconnectionStatus cfg g w)) + 1
       /\ rawDelay cfg (retryCount st)
          = Z.min (baseDelay cfg * backoffMultiplier cfg ^ (retryCount st - 1))
              (maxDelay cfg)
       /\ currentDelay st
          = (if String.eqb reason serverRestartDetected then 0
             else addJitter (headRandom w) (rawDelay cfg (retryCount st)))
       /\ last (timers (attemptReconnection cfg g reason params w)) = Some x
       /\ cb x = CbReconnect g reason params l
       /\ delay x = currentDelay st)
  /\ (forall cfg,
        baseDelay cfg = 15000 -> backoffMultiplier cfg = 2 ->
        maxDelay cfg = 300000 ->
        rawDelay cfg 1 = 15000 /\ rawDelay cfg 2 = 30000
        /\ rawDelay cfg 3 = 60000 /\ rawDelay cfg 4 = 120000
        /\ rawDelay cfg 6 = 300000).
Proof.
  split.
  - intros cfg g reason params w Hok.
    destruct (attemptReconnection_accepted_state cfg g reason params w Hok)
      as (l & old & x & Hg & Hlt & Hst & Hlast & Hd & Hcb).
    unfold delayFor in Hst, Hd.
    eexists l, _, x. split; [exact Hst|]. simpl.
    split; [done|]. split; [|done].
    unfold getReconnectionStatus.
    destruct (reconnectionStates w !! g) as [l0|] eqn:E.
    + rewrite (initializeState_known _ _ _ _ E) in Hg. by rewrite Hg.
    + rewrite (getState_initializeState_new _ _ _ E) in Hg.
      injection Hg as <- <-. unfold getState. by rewrite E.
  - intros cfg Hb Hm Hx. unfold rawDelay, calculateDelay.
    rewrite Hb, Hm, Hx. repeat split; reflexivity.
Qed.

Lemma accepted_request_raw_delay_witness :
  (exists l st x,
     getState guildA (attemptReconnection defaultConfig guildA "connection_lost"
                        paramsA emptyWorld) = Some (l, st)
     /\ retryCount st = 1
     /\ rawDelay defaultConfig (retryCount st) = 15000
     /\ currentDelay st = 15000
     /\ delay x = 15000
     /\ last (timers (attemptReconnection defaultConfig guildA "connection_lost"
                        paramsA emptyWorld)) = Some x)
  /\ rawDelay defaultConfig 1 = 15000 /\ rawDelay defaultConfig 6 = 300000.
Proof.
  split.
  - destruct (proj1 accepted_request_raw_delay defaultConfig guildA
                "connection_lost" paramsA emptyWorld)
      as (l & st & x & H1 & H2 & H3 & H4 & H5 & H6 & H7 & H8).
    + vm_compute. reflexivity.
    + exists l, st, x. split; [exact H1|].
      assert (E3 : retryCount st = 1) by exact H3.
      assert (E4 : rawDelay defaultConfig (retryCount st) = 15000)
        by (rewrite E3; reflexivity).
      assert (E5 : currentDelay st = 15000)
        by (rewrite H5, E4; reflexivity).
      split; [exact E3|]. split; [exact E4|]. split; [exact E5|].
      split; [by rewrite H8|exact H6].
  - destruct (proj2 accepted_request_raw_delay defaultConfig)
      as (H1 & _ & _ & _ & H6); [reflexivity|reflexivity|reflexivity|].
    split; [exact H1 | exact H6].
Defined.

(** ** Requests leave the rest of the world alone *)

Lemma scheduleAttempt_outside cfg g reason params l st w :
  outsideManager (scheduleAttempt cfg g reason params l st w) = outsideManager w.
Proof.
  unfold scheduleAttempt, mathRandom.
  destruct (rand w), (String.eqb reason serverRestartDetected), (timer st);
    reflexivity.
Qed.

Lemma initializeState_outside cfg g w :
  outsideManager (initializeState cfg g w) = outsideManager w.
Proof. unfold initializeState. by destruct (reconnectionStates w !! g). Qed.

Lemma attemptReconnection_outside cfg g reason params w :
  outsideManager (attemptReconnection cfg g reason params w) = outsideManager w.
Proof.
  unfold attemptReconnection, shouldAttemptReconnection.
  destruct (getState g (initializeState cfg g w)) as [[l st]|] eqn:E;
    [|apply initializeState_outside].
  destruct (isReconnecting st); [apply initializeState_outside|].
  destruct (retryCount st >=? maxRetries cfg); [apply initializeState_outside|].
  simpl. rewrite initializeState_idem, E, scheduleAttempt_outside.
  apply initializeState_outside.
Qed.

Lemma attemptReconnection_failureCount cfg g reason params g' w :
  failureCount g' (attemptReconnection cfg g reason params w) = failureCount g' w.
Proof.
  unfold failureCount.
  pose proof (attemptReconnection_outside cfg g reason params w) as H.
  by injection H as _ _ _ _ _ _ _ _ ->.
Qed.

(** ** The failure counter of the health monitor *)

Lemma handleHealthCheckFailure_unfold cfg m g rustplus error w :
  handleHealthCheckFailure cfg m g rustplus error w
  = if failureCount g w + 1 >=? maxConsecutiveFailures m
    then (set_isOperational false rustplus,
          attemptReconnection cfg g "health_check_failure" (paramsOf rustplus)
            (resetFailures m g (recordFailure m g error w)))
    else (rustplus, recordFailure m g error w).
Proof. reflexivity. Qed.

Lemma failureCount_recordFailure m g error w :
  failureCount g (recordFailure m g error w) = failureCount g w + 1.
Proof. unfold failureCount at 1. simpl. by rewrite lookup_insert_eq. Qed.

Lemma failureCount_resetFailures m g w :
  failureCount g (resetFailures m g w) = 0.
Proof. unfold failureCount. simpl. by rewrite lookup_insert_eq. Qed.

Lemma failureCount_handleHealthCheckFailure cfg m g rustplus error w :
  failureCount g (snd (handleHealthCheckFailure cfg m g rustplus error w))
  = if failureCount g w + 1 >=? maxConsecutiveFailures m then 0
    else failureCount g w + 1.
Proof.
  rewrite handleHealthCheckFailure_unfold.
  destruct (failureCount g w + 1 >=? maxConsecutiveFailures m); simpl.
  - by rewrite attemptReconnection_failureCount, failureCount_resetFailures.
  - apply failureCount_recordFailure.
Qed.

Lemma failureCount_stampCheck g w : failureCount g (stampCheck g w) = failureCount g w.
Proof. reflexivity. Qed.

Lemma basic_check_failureCount cfg m g rustplus o w :
  failureCount g (snd (Basic.checkConnectionHealth cfg m g rustplus o w))
  = match Basic.race o with
    | None => 0
    | Some _ => if failureCount g w + 1 >=? maxConsecutiveFailures m then 0
                else failureCount g w + 1
    end.
Proof.
  unfold Basic.checkConnectionHealth.
  destruct (Basic.race o) as [error|].
  - apply (failureCount_handleHealthCheckFailure cfg m g rustplus error
             (stampCheck g w)).
  - unfold failureCount. simpl. by rewrite lookup_insert_eq.
Qed.

Lemma basic_probes_below cfg m g os : forall s,
  0 <= failureCount g (snd s) < maxConsecutiveFailures m ->
  0 <= failureCount g (snd (Basic.probes cfg m g os s)) < maxConsecutiveFailures m.
Proof.
  induction os as [|o os IH]; intros s Hs; [done|].
  change (Basic.probes cfg m g (o :: os) s)
    with (Basic.probes cfg m g os
            (Basic.checkConnectionHealth cfg m g (fst s) o (snd s))).
  apply IH. rewrite basic_check_failureCount.
  destruct (Basic.race o); [|lia].
  destruct (Z.geb_spec (failureCount g (snd s) + 1) (maxConsecutiveFailures m));
    lia.
Qed.

Lemma basic_check_below cfg m g rustplus o error w :
  Basic.race o = Some error ->
  failureCount g w + 1 < maxConsecutiveFailures m ->
  Basic.checkConnectionHealth cfg m g rustplus o w
  = (rustplus, recordFailure m g error (stampCheck g w)).
Proof.
  intros Hrace Hlt. unfold Basic.checkConnectionHealth. rewrite Hrace.
  rewrite handleHealthCheckFailure_unfold.
  change (failureCount g (set_lastHealthCheck _ w)) with (failureCount g w).
  by destruct (Z.geb_spec (failureCount g w + 1) (maxConsecutiveFailures m));
    [lia|].
Qed.

Lemma basic_check_reached cfg m g rustplus o error w :
  Basic.race o = Some error ->
  maxConsecutiveFailures m <= failureCount g w + 1 ->
  Basic.checkConnectionHealth cfg m g rustplus o w
  = (set_isOperational false rustplus,
     attemptReconnection cfg g "health_check_failure" (paramsOf rustplus)
       (resetFailures m g (recordFailure m g error (stampCheck g w)))).
Proof.
  intros Hrace Hlt. unfold Basic.checkConnectionHealth. rewrite Hrace.
  rewrite handleHealthCheckFailure_unfold.
  change (failureCount g (set_lastHealthCheck _ w)) with (failureCount g w).
  by destruct (Z.geb_spec (failureCount g w + 1) (maxConsecutiveFailures m));
    [|lia].
Qed.

(** ** Requests depend on the manager's part of the world only *)

Lemma attemptReconnection_unfold cfg g reason params w :
  attemptReconnection cfg g reason params w
  = match getState g (initializeState cfg g w) with
    | None => initializeState cfg g w
    | Some (l, st) =>
        if isReconnecting st
        then clientLog warningCap (MsgAlreadyInProgress g)
               (initializeState cfg g w)
        else if retryCount st >=? maxRetries cfg
        then clientLog errorCap (MsgMaxAttempts (maxRetries cfg) g)
               (initializeState cfg g w)
        else scheduleAttempt cfg g reason params l st (initializeState cfg g w)
    end.
Proof.
  unfold attemptReconnection, shouldAttemptReconnection.
  destruct (getState g (initializeState cfg g w)) as [[l st]|] eqn:E; [|done].
  destruct (isReconnecting st); [done|].
  destruct (retryCount st >=? maxRetries cfg); [done|].
  simpl. by rewrite initializeState_idem, E.
Qed.

Lemma managerPart_fields w w' :
  managerPart w' = managerPart w <->
  timers w' = timers w /\ nextTimerId w' = nextTimerId w /\ rand w' = rand w
  /\ heap w' = heap w /\ reconnectionStates w' = reconnectionStates w.
Proof.
  unfold managerPart. split.
  - by intros [= -> -> -> -> ->].
  - by intros (-> & -> & -> & -> & ->).
Qed.

Lemma getState_congr g w w' :
  managerPart w' = managerPart w -> getState g w' = getState g w.
Proof.
  intros (_ & _ & _ & Hh & Hs)%managerPart_fields.
  unfold getState. by rewrite Hh, Hs.
Qed.

Lemma initializeState_congr cfg g w w' :
  managerPart w' = managerPart w ->
  managerPart (initializeState cfg g w') = managerPart (initializeState cfg g w).
Proof.
  intros H. pose proof H as (Ht & Hn & Hr & Hh & Hs)%managerPart_fields.
  unfold initializeState. rewrite Hs.
  destruct (reconnectionStates w !! g); [done|].
  apply managerPart_fields. simpl. by rewrite ?Ht, ?Hn, ?Hr, ?Hh, ?Hs.
Qed.

Lemma scheduleAttempt_next cfg g reason params l st w :
  nextTimerId (scheduleAttempt cfg g reason params l st w) = S (nextTimerId w)
  /\ rand (scheduleAttempt cfg g reason params l st w) = tail (rand w)
  /\ now (scheduleAttempt cfg g reason params l st w) = now w.
Proof.
  unfold scheduleAttempt, mathRandom.
  destruct (rand w) eqn:E, (String.eqb reason serverRestartDetected),
    (timer st); simpl; by rewrite ?E.
Qed.

Lemma scheduleAttempt_congr cfg g reason params l st w w' :
  managerPart w' = managerPart w -> now w' = now w ->
  managerPart (scheduleAttempt cfg g reason params l st w')
  = managerPart (scheduleAttempt cfg g reason params l st w).
Proof.
  intros (Ht & Hn & Hr & Hh & Hs)%managerPart_fields Hnow.
  apply managerPart_fields.
  destruct (scheduleAttempt_next cfg g reason params l st w) as (-> & -> & _).
  destruct (scheduleAttempt_next cfg g reason params l st w') as (-> & -> & _).
  rewrite !scheduleAttempt_timers, !scheduleAttempt_heap,
    !scheduleAttempt_states.
  unfold pendingAfterClear, headRandom.
  by rewrite ?Ht, ?Hn, ?Hr, ?Hh, ?Hs, ?Hnow.
Qed.

Lemma attemptReconnection_congr cfg g reason params w w' :
  managerPart w' = managerPart w -> now w' = now w ->
  managerPart (attemptReconnection cfg g reason params w')
  = managerPart (attemptReconnection cfg g reason params w).
Proof.
  intros H Hnow.
  pose proof (initializeState_congr cfg g w w' H) as Hi.
  assert (Hnow' : now (initializeState cfg g w') = now (initializeState cfg g w)).
  { destruct (initializeState_frame cfg g w) as (_ & -> & _).
    by destruct (initializeState_frame cfg g w') as (_ & -> & _). }
  rewrite !attemptReconnection_unfold, (getState_congr g _ _ Hi).
  destruct (getState g (initializeState cfg g w)) as [[l st]|]; [|done].
  destruct (isReconnecting st); [done|].
  destruct (retryCount st >=? maxRetries cfg); [done|].
  by apply scheduleAttempt_congr.
Qed.

(** A second request for the same guild, whatever else happened outside
    the manager in between, is rejected: the first one has left the guild
    reconnecting, or was itself rejected. *)
Lemma second_request_rejected cfg g reason1 params1 reason2 params2 w w3 :
  managerPart w3 = managerPart (attemptReconnection cfg g reason1 params1 w) ->
  eraseLog (attemptReconnection cfg g reason2 params2 w3) = eraseLog w3.
Proof.
  intros (_ & _ & _ & Hh & Hs)%managerPart_fields.
  rewrite attemptReconnection_unfold in Hh, Hs.
  destruct (getState g (initializeState cfg g w)) as [[l st]|] eqn:E.
  - apply getState_Some in E as [El Es].
    destruct (isReconnecting st) eqn:Hr;
      [|destruct (Z.geb_spec (retryCount st) (maxRetries cfg))].
    + simpl in Hh, Hs. rewrite <- Hs in El. rewrite <- Hh in Es.
      rewrite (attemptReconnection_rejected cfg g reason2 params2 w3 l st El Es);
        [|by left].
      by rewrite Hr.
    + simpl in Hh, Hs. rewrite <- Hs in El. rewrite <- Hh in Es.
      rewrite (attemptReconnection_rejected cfg g reason2 params2 w3 l st El Es);
        [|right; lia].
      by rewrite Hr.
    + rewrite scheduleAttempt_states in Hs. rewrite scheduleAttempt_heap in Hh.
      rewrite <- Hs in El.
      erewrite (attemptReconnection_rejected cfg g reason2 params2 w3 l);
        [|done| rewrite Hh; apply lookup_insert_eq | by left].
      done.
  - assert (exists l, reconnectionStates w !! g = Some l) as [l El].
    { destruct (reconnectionStates w !! g) as [l|] eqn:E'; [by eexists|].
      by rewrite (getState_initializeState_new _ _ _ E') in E. }
    rewrite (initializeState_known _ _ _ _ El) in E, Hh, Hs.
    rewrite attemptReconnection_unfold.
    assert (El3 : reconnectionStates w3 !! g = Some l) by by rewrite Hs.
    rewrite (initializeState_known _ _ _ _ El3).
    assert (E3 : getState g w3 = None).
    { unfold getState in *. by rewrite Hs, Hh. }
    by rewrite E3.
Qed.

(** ** State objects are never freed *)

Lemma capturedAlive_mono (w w' : World) x :
  (forall l, is_Some (heap w !! l) -> is_Some (heap w' !! l)) ->
  capturedAlive w x -> capturedAlive w' x.
Proof. unfold capturedAlive. destruct (cb x); auto. Qed.

Lemma wellFormed_emptyWorld : WellFormed emptyWorld.
Proof. split; [by intros g l|]. constructor. Qed.

Lemma wellFormed_initializeState cfg g w :
  WellFormed w -> WellFormed (initializeState cfg g w).
Proof.
  intros [Hs Ht]. unfold initializeState.
  destruct (reconnectionStates w !! g) eqn:E; [done|].
  split; simpl.
  - intros g' l. destruct (decide (g = g')) as [<-|Hne].
    + rewrite lookup_insert_eq. intros [= <-]. by rewrite lookup_insert_eq.
    + rewrite lookup_insert_ne by done. intros Hl.
      apply lookup_insert_is_Some'. right. by apply (Hs g').
  - eapply Forall_impl; [exact Ht|]. intros x. apply capturedAlive_mono.
    intros l Hl. simpl. apply lookup_insert_is_Some'. by right.
Qed.

Lemma wellFormed_getState cfg g w :
  WellFormed w -> is_Some (getState g (initializeState cfg g w)).
Proof.
  intros Hw. apply (wellFormed_initializeState cfg g) in Hw as [Hs _].
  unfold getState.
  destruct (reconnectionStates (initializeState cfg g w) !! g) as [l|] eqn:E.
  - destruct (Hs g l E) as [st ->]. by eexists.
  - exfalso. revert E. unfold initializeState.
    destruct (reconnectionStates w !! g) eqn:E'; [by rewrite E'|].
    simpl. by rewrite lookup_insert_eq.
Qed.

Lemma wellFormed_clientLog lv m w : WellFormed w -> WellFormed (clientLog lv m w).
Proof. done. Qed.

Lemma wellFormed_clearTimeout t w : WellFormed w -> WellFormed (clearTimeout t w).
Proof.
  intros [Hs Ht]. split; [done|]. simpl.
  apply Forall_forall. intros x [_ Hx]%list_elem_of_filter.
  by apply (proj1 (Forall_forall _ _) Ht).
Qed.

Lemma wellFormed_scheduleAttempt cfg g reason params l st w :
  WellFormed w -> WellFormed (scheduleAttempt cfg g reason params l st w).
Proof.
  intros [Hs Ht]. split.
  - intros g' l'. rewrite scheduleAttempt_states, scheduleAttempt_heap.
    intros Hl. apply lookup_insert_is_Some'. right. by apply (Hs g').
  - rewrite scheduleAttempt_timers. apply Forall_app. split.
    + assert (Hp : Forall (capturedAlive w) (pendingAfterClear st w)).
      { unfold pendingAfterClear. destruct (timer st); [|done].
        apply Forall_forall. intros x [_ Hx]%list_elem_of_filter.
        by apply (proj1 (Forall_forall _ _) Ht). }
      eapply Forall_impl; [exact Hp|]. intros x. apply capturedAlive_mono.
      intros l'. rewrite scheduleAttempt_heap. intros Hl.
      apply lookup_insert_is_Some'. by right.
    + constructor; [|constructor]. unfold capturedAlive. simpl.
      rewrite scheduleAttempt_heap, lookup_insert_eq. by eexists.
Qed.

(** The guard always finds the state of the guild, and a request keeps the
    world well formed: the branches marked as not reached are not
    reached. *)
Lemma wellFormed_attemptReconnection cfg g reason params w :
  WellFormed w -> WellFormed (attemptReconnection cfg g reason params w).
Proof.
  intros Hw. rewrite attemptReconnection_unfold.
  pose proof (wellFormed_initializeState cfg g w Hw) as Hi.
  destruct (getState g (initializeState cfg g w)) as [[l st]|]; [|done].
  destruct (isReconnecting st); [done|].
  destruct (retryCount st >=? maxRetries cfg); [done|].
  by apply wellFormed_scheduleAttempt.
Qed.

Lemma wellFormed_resetState g w : WellFormed w -> WellFormed (resetState g w).
Proof.
  intros Hw. unfold resetState.
  destruct (getState g w) as [[l st]|]; [|done].
  assert (Hc : WellFormed match timer st with
                          | Some t => clearTimeout t w
                          | None => w
                          end).
  { destruct (timer st); [by apply wellFormed_clearTimeout|done]. }
  destruct Hc as [Hs Ht]. split; [|done].
  intros g' l'. simpl. intros Hl%lookup_delete_Some. by apply (Hs g'), Hl.
Qed.

Lemma wellFormed_writeState l st w :
  WellFormed w -> WellFormed (writeState l st w).
Proof.
  intros [Hs Ht]. split; simpl.
  - intros g' l' Hl. apply lookup_insert_is_Some'. right. by apply (Hs g').
  - eapply Forall_impl; [exact Ht|]. intros x. apply capturedAlive_mono.
    intros l' Hl. simpl. apply lookup_insert_is_Some'. by right.
Qed.

Lemma wellFormed_setTimeout c d w :
  WellFormed w -> capturedAlive w (mkTimer (nextTimerId w) d (now w + d) c) ->
  WellFormed (snd (setTimeout c d w)).
Proof.
  intros [Hs Ht] Hc. split; [done|]. simpl. apply Forall_app. split; [done|].
  by constructor.
Qed.

Lemma wellFormed_runCallback cfg c o w :
  WellFormed w -> WellFormed (runCallback cfg c o w).
Proof.
  intros Hw. destruct c as [g reason params l|g reason params|g]; simpl.
  - unfold reconnectCallback, performReconnection.
    destruct (getState g w) as [[l' st']|].
    + set (w3 := recordCall _ _).
      assert (H3 : WellFormed w3).
      { unfold w3. by destruct (rustplusInstances _ !! g). }
      destruct o; [done|].
      destruct (heap _ !! l) as [st|]; [|done].
      set (w4 := writeState l _ _).
      assert (H4 : WellFormed w4) by by apply wellFormed_writeState.
      destruct (_ <? _); [|done]. by apply wellFormed_setTimeout.
    + destruct (heap _ !! l) as [st|]; [|done].
      set (w4 := writeState l _ _).
      assert (H4 : WellFormed w4) by by apply wellFormed_writeState.
      destruct (_ <? _); [|done]. by apply wellFormed_setTimeout.
  - by apply wellFormed_attemptReconnection.
  - unfold resetCounterCallback.
    destruct (getState g w) as [[l st]|]; [|done].
    by apply wellFormed_clientLog, wellFormed_writeState.
Qed.

Lemma wellFormed_fireTimer cfg t o w w' :
  WellFormed w -> fireTimer cfg t o w = Some w' -> WellFormed w'.
Proof.
  intros Hw. unfold fireTimer. destruct (findTimer t w) as [x|]; [|done].
  intros [= <-]. apply wellFormed_runCallback.
  by apply (wellFormed_clearTimeout t) in Hw as [Hs Ht].
Qed.

(** ** Restart detection in the enhanced monitor *)

Lemma enhanced_check_restart cfg m g rustplus info w :
  rp_guildId rustplus = g ->
  restartObserved rustplus info = true ->
  Enhanced.checkConnectionHealth cfg m g rustplus (answered info) w
  = handleHealthCheckFailure cfg m g (afterRestart info rustplus)
      "Server restart detected"
      (attemptReconnection cfg g serverRestartDetected (paramsOf rustplus)
         (restartNoticed g w)).
Proof.
  intros Hg Hobs. unfold restartObserved in Hobs.
  apply andb_true_iff in Hobs as [Hid Hch].
  unfold Enhanced.checkConnectionHealth, answered,
    Enhanced.performHealthCheckRequest.
  rewrite Hid.
  destruct (lastServerInfo rustplus) as [last|]; [|done].
  rewrite Hch. simpl. by rewrite Hg.
Qed.

Lemma log_scheduleAttempt cfg g reason params l st w :
  exists new, log (scheduleAttempt cfg g reason params l st w)
              = (new ++ log w)%list.
Proof.
  unfold scheduleAttempt, mathRandom.
  destruct (rand w), (String.eqb reason serverRestartDetected), (timer st);
    simpl; first [by eexists [_] | by eexists [_; _]].
Qed.

Lemma log_initializeState cfg g w : log (initializeState cfg g w) = log w.
Proof. unfold initializeState. by destruct (reconnectionStates w !! g). Qed.

(** A request only adds lines to the log. *)
Lemma log_attemptReconnection cfg g reason params w :
  exists new, log (attemptReconnection cfg g reason params w)
              = (new ++ log w)%list.
Proof.
  rewrite attemptReconnection_unfold.
  destruct (getState g (initializeState cfg g w)) as [[l st]|].
  - destruct (isReconnecting st);
      [|destruct (retryCount st >=? maxRetries cfg)].
    + eexists [_]. simpl. by rewrite log_initializeState.
    + eexists [_]. simpl. by rewrite log_initializeState.
    + destruct (log_scheduleAttempt cfg g reason params l st
                  (initializeState cfg g w)) as [new ->].
      exists new. by rewrite log_initializeState.
  - exists []. by rewrite log_initializeState.
Qed.

Lemma managerPart_handleHealthCheckFailure cfg m g rustplus error reason params w :
  managerPart (snd (handleHealthCheckFailure cfg m g rustplus error
                      (attemptReconnection cfg g reason params w)))
  = managerPart (attemptReconnection cfg g reason params w).
Proof.
  rewrite handleHealthCheckFailure_unfold.
  destruct (_ >=? _); [|done]. simpl.
  set (w3 := resetFailures _ _ _).
  pose proof (second_request_rejected cfg g reason params
                "health_check_failure" (paramsOf rustplus) w w3 eq_refl) as H.
  apply managerPart_fields.
  pose proof (f_equal timers H) as H1. pose proof (f_equal nextTimerId H) as H2.
  pose proof (f_equal rand H) as H3. pose proof (f_equal heap H) as H4.
  pose proof (f_equal reconnectionStates H) as H5.
  simpl in H1, H2, H3, H4, H5. by rewrite H1, H2, H3, H4, H5.
Qed.

Lemma enhanced_restart_manager_part cfg m g rustplus info w :
  rp_guildId rustplus = g ->
  restartObserved rustplus info = true ->
  managerPart (snd (Enhanced.checkConnectionHealth cfg m g rustplus
                      (answered info) w))
  = managerPart (attemptReconnection cfg g serverRestartDetected
                   (paramsOf rustplus) (restartNoticed g w)).
Proof.
  intros Hg Hobs. rewrite (enhanced_check_restart cfg m g rustplus info w Hg Hobs).
  apply managerPart_handleHealthCheckFailure.
Qed.

Lemma shouldAttemptReconnection_congr cfg g reason w w' :
  managerPart w' = managerPart w ->
  fst (shouldAttemptReconnection cfg g reason w')
  = fst (shouldAttemptReconnection cfg g reason w).
Proof.
  intros H. unfold shouldAttemptReconnection.
  rewrite (getState_congr g _ _ (initializeState_congr cfg g w w' H)).
  destruct (getState g (initializeState cfg g w)) as [[l st]|]; [|done].
  destruct (isReconnecting st); [done|].
  by destruct (retryCount st >=? maxRetries cfg).
Qed.

Lemma restartEpisodeScheduled_congr g w w' :
  managerPart w' = managerPart w ->
  restartEpisodeScheduled g w' = restartEpisodeScheduled g w.
Proof.
  intros (Ht & _)%managerPart_fields. unfold restartEpisodeScheduled.
  by rewrite Ht.
Qed.

(** C4, as the code has it: a fingerprint mismatch after a stored
    fingerprint makes a request with reason server_restart_detected; when
    the guard of the manager accepts it (the guild is not reconnecting and
    its retry count is below the ceiling, whatever it is) the attempt is
    scheduled with a delay of zero, and otherwise nothing is scheduled and
    the state of the guild stays as it is. *)
Theorem restart_episode_zero_delay_when_accepted
    (cfg : Config) (m : MonitorConfig) (g : GuildId) (rustplus : Rustplus)
    (info : ServerInfo) (w : World) :
  rp_guildId rustplus = g ->
  restartObserved rustplus info = true ->
  let result :=
    Enhanced.checkConnectionHealth cfg m g rustplus (answered info) w in
  (fst (shouldAttemptReconnection cfg g serverRestartDetected w) = true ->
   restartEpisodeScheduled g (snd result) = true
   /\ exists l old st x,
        getState g (initializeState cfg g w) = Some (l, old)
        /\ retryCount old < maxRetries cfg
        /\ getState g (snd result) = Some (l, st)
        /\ isReconnecting st = true
        /\ retryCount st = retryCount old + 1
        /\ reconnectionReason st = Some serverRestartDetected
        /\ currentDelay st = 0
        /\ last (timers (snd result)) = Some x
        /\ delay x = 0
        /\ cb x = CbReconnect g serverRestartDetected (paramsOf rustplus) l)
  /\ (forall l st,
        reconnectionStates w !! g = Some l ->
        heap w !! l = Some st ->
        isReconnecting st = true \/ maxRetries cfg <= retryCount st ->
        managerPart (snd result) = managerPart w
        /\ restartEpisodeScheduled g (snd result)
           = restartEpisodeScheduled g w).
Proof.
  intros Hg Hobs result.
  pose proof (enhanced_restart_manager_part cfg m g rustplus
                info w Hg Hobs) as Hm.
  fold result in Hm.
  split.
  - intros Hok.
    rewrite <- (shouldAttemptReconnection_congr cfg g serverRestartDetected w
                  (restartNoticed g w) eq_refl) in Hok.
    destruct (attemptReconnection_accepted_state cfg g serverRestartDetected
                (paramsOf rustplus) (restartNoticed g w) Hok)
      as (l & old & x & Hold & Hlt & Hst & Hlast & Hd & Hcb).
    pose proof Hm as (Ht & _)%managerPart_fields.
    rewrite (getState_congr g _ _
               (initializeState_congr cfg g w (restartNoticed g w) eq_refl))
      in Hold.
    split.
    + unfold restartEpisodeScheduled. rewrite Ht.
      apply last_Some in Hlast as [pending ->].
      rewrite existsb_app. apply orb_true_iff. right. simpl.
      unfold isRestartAttempt. rewrite Hcb, Hd, String.eqb_refl.
      reflexivity.
    + exists l, old. eexists. exists x.
      rewrite (getState_congr g _ _ Hm), Ht.
      split; [exact Hold|]. split; [exact Hlt|].
      split; [exact Hst|]. simpl. done.
  - intros l st Hl Hs Hor.
    assert (E : managerPart (snd result) = managerPart w).
    { rewrite Hm.
      rewrite (attemptReconnection_rejected cfg g serverRestartDetected
                 (paramsOf rustplus) (restartNoticed g w) l st Hl Hs Hor).
      by destruct (isReconnecting st). }
    split; [exact E|]. by apply restartEpisodeScheduled_congr.
Qed.

Lemma restart_episode_zero_delay_when_accepted_witness :
  let rustplus := set_lastServerInfo (Some serverInfoOld) rustplusA in
  let result := Enhanced.checkConnectionHealth defaultConfig
                  (Enhanced.monitor None) guildA rustplus
                  (answered serverInfoNew) emptyWorld in
  restartEpisodeScheduled guildA (snd result) = true
  /\ managerPart (snd restartedA) = managerPart (snd capturedA).
Proof.
  split.
  - destruct (restart_episode_zero_delay_when_accepted defaultConfig
                (Enhanced.monitor None) guildA
                (set_lastServerInfo (Some serverInfoOld) rustplusA)
                serverInfoNew emptyWorld) as [H _].
    + reflexivity.
    + reflexivity.
    + apply H. vm_compute. reflexivity.
  - destruct (restart_episode_zero_delay_when_accepted defaultConfig
                (Enhanced.monitor None) guildA (fst capturedA)
                serverInfoNew (snd capturedA)) as [_ H].
    + reflexivity.
    + vm_compute. reflexivity.
    + eapply H.
      * vm_compute. reflexivity.
      * vm_compute. reflexivity.
      * right. vm_compute. discriminate.
Defined.

(** C4 fails as stated: guild A has used up its ten attempts; its
    connection object has a stored fingerprint; the next probe shows another
    seed and wipe time, and no attempt at all is scheduled. *)
Lemma restart_episode_rejected_at_ceiling :
  failedEpisode defaultConfig guildA "connection_lost" paramsA emptyWorld
  = Some exhaustedA
  /\ getReconnectionStatus defaultConfig guildA exhaustedA = (false, 10, 10)
  /\ lastServerInfo (fst capturedA) = Some serverInfoOld
  /\ restartObserved (fst capturedA) serverInfoNew = true
  /\ restartEpisodeScheduled guildA (snd restartedA) = false
  /\ timers (snd restartedA) = []
  /\ getReconnectionStatus defaultConfig guildA (snd restartedA)
     = (false, 10, 10).
Proof. vm_compute. repeat split. Qed.

(** ** The stability window *)

(** C8 fails as stated: the connection of guild A is marked successful at
    15000, fails again during the window (the attempt of 50000 fails, the
    retry count is 3 at 51000), and the timer of the window still sets the
    retry count to 0 at 75000. *)
Lemma stability_window_resets_despite_failure :
  (retryCountOf guildA <$> flappingA) = Some 3
  /\ (now <$> flappingA) = Some 51000
  /\ (failedAttemptsLogged guildA <$> flappingA) = Some 1%nat
  /\ (retryCountOf guildA <$> windowEndA) = Some 0
  /\ (now <$> windowEndA) = Some 75000.
Proof. vm_compute. repeat split. Qed.

(** C8, as the code has it: [markSuccessfulConnection] sets a timer of
    [resetAfterSuccess] milliseconds that nothing cancels; when it fires,
    whatever happened in between, the retry count of the guild becomes 0 and
    its delay [baseDelay] if the guild has a state object, and nothing
    changes if it has none (as after [resetState]). *)
Theorem stability_window_reset_unconditional (cfg : Config) (g : GuildId) :
  (forall w,
     timers (markSuccessfulConnection cfg g w)
     = (timers w ++ [mkTimer (nextTimerId w) (resetAfterSuccess cfg)
                       (now w + resetAfterSuccess cfg) (CbResetCounter g)])%list
     /\ successfulConnections (markSuccessfulConnection cfg g w) !! g
        = Some (now w)
     /\ heap (markSuccessfulConnection cfg g w) = heap w
     /\ reconnectionStates (markSuccessfulConnection cfg g w)
        = reconnectionStates w)
  /\ (forall w x o l st,
        findTimer (tid x) w = Some x ->
        cb x = CbResetCounter g ->
        reconnectionStates w !! g = Some l ->
        heap w !! l = Some st ->
        exists w',
          fireTimer cfg (tid x) o w = Some w'
          /\ getState g w' = Some (l, resetCounter cfg st)
          /\ retryCountOf g w' = 0)
  /\ (forall w x o,
        findTimer (tid x) w = Some x ->
        cb x = CbResetCounter g ->
        reconnectionStates w !! g = None ->
        exists w',
          fireTimer cfg (tid x) o w = Some w'
          /\ heap w' = heap w
          /\ reconnectionStates w' = reconnectionStates w)
  /\ (forall w l st,
        reconnectionStates w !! g = Some l ->
        heap w !! l = Some st ->
        reconnectionStates (resetState g w) !! g = None).
Proof.
  split; [|split; [|split]].
  - intros w. unfold markSuccessfulConnection. simpl.
    by rewrite lookup_insert_eq.
  - intros w x o l st Hf Hcb Hl Hs.
    unfold fireTimer. rewrite Hf, Hcb. eexists. split; [done|].
    simpl. unfold resetCounterCallback, getState. simpl. rewrite Hl, Hs.
    unfold retryCountOf, getState. simpl. by rewrite Hl, lookup_insert_eq.
  - intros w x o Hf Hcb Hl.
    unfold fireTimer. rewrite Hf, Hcb. eexists. split; [done|].
    simpl. unfold resetCounterCallback, getState. simpl. by rewrite Hl.
  - intros w l st Hl Hs. unfold resetState, getState. rewrite Hl, Hs.
    destruct (timer st); simpl; apply lookup_delete_eq.
Qed.

Lemma stability_window_reset_unconditional_witness :
  (exists w',
     fireTimer defaultConfig 1%nat CreateReturns flappingWorldA = Some w'
              /\ retryCountOf guildA w' = 0)
  /\ reconnectionStates (resetState guildA exhaustedA) !! guildA = None.
Proof.
  split.
  - destruct (proj1 (proj2 (stability_window_reset_unconditional
                              defaultConfig guildA))
                flappingWorldA
                (mkTimer 1 60000 75000 (CbResetCounter guildA))
                CreateReturns 0%nat
                (mkState true 3 60000 (Some 4%nat) (Some 51000)
                   (Some "connection_lost")))
      as (w' & Hw' & _ & H0).
    + vm_compute. reflexivity.
    + reflexivity.
    + vm_compute. reflexivity.
    + vm_compute. reflexivity.
    + exists w'. split; [exact Hw' | exact H0].
  - eapply (proj2 (proj2 (proj2 (stability_window_reset_unconditional
                                   defaultConfig guildA)))).
    + vm_compute. reflexivity.
    + vm_compute. reflexivity.
Defined.

(** ** The reconciliation loop *)

Lemma reconnectGuild_effect g instance o w serverId info :
  activeServer instance = Some serverId ->
  serverList instance !! serverId = Some info ->
  createCalls (reconnectGuild g instance o w)
  = createCallFor g info :: createCalls w
  /\ managerPart (reconnectGuild g instance o w) = managerPart w
  /\ rustplusInstances (reconnectGuild g instance o w)
     = delete g (rustplusInstances w)
  /\ rustplusReconnecting (reconnectGuild g instance o w) !! g
     = Some (reconnectingAfter o)
  /\ (is_Some (rustplusInstances w !! g) ->
      CallDisconnect g ∈ calls (reconnectGuild g instance o w))
  /\ (forall g', requestsLogged g' (reconnectGuild g instance o w)
                 = requestsLogged g' w).
Proof.
  intros Ha Hi. unfold reconnectGuild, activeServerInfo. rewrite Ha, Hi.
  simpl.
  destruct (rustplusInstances w !! g) as [r|] eqn:E, o; simpl;
    rewrite ?lookup_insert_eq, ?(delete_id _ _ E);
    (split; [done|]); (split; [done|]); (split; [done|]); (split; [done|]);
    (split; [|done]);
    intros Hs; try (by destruct Hs); set_solver.
Qed.

Lemma checkGuildConnection_skip g o w :
  qualifies g w = false -> checkGuildConnection g o w = w.
Proof.
  unfold qualifies, checkGuildConnection.
  destruct (truthyFlag (rustplusReconnecting w !! g)); [done|].
  destruct (instances w !! g) as [instance|]; [|done]. simpl.
  destruct (truthyOptString (activeServer instance)); [|done].
  destruct (bool_decide (is_Some (activeServerInfo instance))); [|done].
  destruct (isCurrentlyConnected g w); [|done]. simpl.
  by rewrite andb_false_r.
Qed.

Lemma checkGuildConnection_act g o w :
  qualifies g w = true ->
  exists instance serverId info w1,
    instances w !! g = Some instance
    /\ activeServer instance = Some serverId
    /\ serverList instance !! serverId = Some info
    /\ calls w1 = calls w /\ managerPart w1 = managerPart w
    /\ (forall g', requestsLogged g' w1 = requestsLogged g' w)
    /\ checkGuildConnection g o w = reconnectGuild g instance o w1.
Proof.
  unfold qualifies, checkGuildConnection.
  destruct (truthyFlag (rustplusReconnecting w !! g)); [done|].
  destruct (instances w !! g) as [instance|]; [|done]. simpl.
  destruct (activeServer instance) as [serverId|] eqn:Ha; [|done]. simpl.
  destruct (truthyString serverId); [|done].
  unfold activeServerInfo. rewrite Ha.
  destruct (serverList instance !! serverId) as [info|] eqn:Hi;
    [|by rewrite bool_decide_eq_false_2; [|by intros [? ?]]].
  rewrite !bool_decide_eq_true_2 by by eexists.
  destruct (isCurrentlyConnected g w); [done|]. simpl. intros _.
  exists instance, serverId, info. eexists.
  split; [done|]. split; [done|]. split; [done|].
  split; [|split; [|split; [|reflexivity]]];
    by destruct (isLikelyServerRestartTime _ _).
Qed.





(** ** Who calls the connection factory *)

Lemma calls_attemptReconnection cfg g reason params w :
  calls (attemptReconnection cfg g reason params w) = calls w.
Proof.
  pose proof (attemptReconnection_outside cfg g reason params w) as H.
  by injection H as _ ->.
Qed.

Lemma calls_handleHealthCheckFailure cfg m g rustplus error w :
  calls (snd (handleHealthCheckFailure cfg m g rustplus error w)) = calls w.
Proof.
  rewrite handleHealthCheckFailure_unfold.
  destruct (_ >=? _); [|done]. simpl. by rewrite calls_attemptReconnection.
Qed.

Lemma calls_basic_check cfg m g rustplus o w :
  calls (snd (Basic.checkConnectionHealth cfg m g rustplus o w)) = calls w.
Proof.
  unfold Basic.checkConnectionHealth.
  destruct (Basic.race o); [|done].
  by rewrite calls_handleHealthCheckFailure.
Qed.

Lemma createCalls_enhanced_check cfg m g rustplus o w :
  createCalls (snd (Enhanced.checkConnectionHealth cfg m g rustplus o w))
  = createCalls w.
Proof.
  unfold Enhanced.checkConnectionHealth, Enhanced.performHealthCheckRequest,
    Enhanced.triggerServerRestartReconnection, createCalls.
  destruct o as [|[msg| |[info|]]];
    try (by rewrite calls_handleHealthCheckFailure); try done.
  destruct (Enhanced.hasIdentity info); [|done].
  destruct (lastServerInfo rustplus) as [last|]; [|done].
  destruct (Enhanced.serverChanged info last); [|done].
  rewrite calls_handleHealthCheckFailure, calls_attemptReconnection.
  done.
Qed.

Lemma createCalls_reconnectCallback cfg g reason params l o w l' st :
  getState g w = Some (l', st) ->
  createCalls (reconnectCallback cfg g reason params l o w)
  = createCall g params :: createCalls w.
Proof.
  intros Hg. unfold reconnectCallback, performReconnection. rewrite Hg.
  destruct o.
  - by destruct (rustplusInstances _ !! g).
  - simpl. destruct (rustplusInstances w !! g); simpl;
      destruct (heap w !! l); simpl; try done;
      by destruct (_ <? _).
Qed.

(** C6 fails as stated: the reconciliation loop and the forced reconnection
    call the connection factory themselves, and the reconnection manager
    sees no request. *)
Lemma reconciliation_loop_calls_factory :
  createCalls (checkGuildConnection guildA CreateReturns disconnectedA)
  = [CallCreateRustplusInstance guildA "203.0.113.7" 28082
       "76561198000000001" "-1234567"]
  /\ createCalls (forceReconnectGuild guildA CreateReturns disconnectedA)
     = [CallCreateRustplusInstance guildA "203.0.113.7" 28082
          "76561198000000001" "-1234567"]
  /\ requestsLogged guildA
       (checkGuildConnection guildA CreateReturns disconnectedA) = 0%nat
  /\ requestsLogged guildA
       (forceReconnectGuild guildA CreateReturns disconnectedA) = 0%nat
  /\ timers (checkGuildConnection guildA CreateReturns disconnectedA) = []
  /\ timers (forceReconnectGuild guildA CreateReturns disconnectedA) = [].
Proof. vm_compute. repeat split. Qed.

(** C6, as the code has it: the transport error callback and both health
    monitors never call the factory, they go through [attemptReconnection],
    which itself only sets a timer; the manager calls the factory when that
    timer fires.  The reconciliation loop does not go through the manager:
    [reconnectGuild] calls the factory itself and makes no request. *)
Theorem connection_factory_callers (cfg : Config) :
  (forall rustplus reason w,
     (triggerReconnection cfg rustplus reason w = w
      \/ triggerReconnection cfg rustplus reason w
         = attemptReconnection cfg (rp_guildId rustplus) reason
             (paramsOf rustplus) w)
     /\ calls (triggerReconnection cfg rustplus reason w) = calls w)
  /\ (forall m g rustplus o w,
        calls (snd (Basic.checkConnectionHealth cfg m g rustplus o w))
        = calls w)
  /\ (forall m g rustplus o w,
        createCalls (snd (Enhanced.checkConnectionHealth cfg m g rustplus o w))
        = createCalls w)
  /\ (forall g reason params w,
        calls (attemptReconnection cfg g reason params w) = calls w)
  /\ (forall g reason params l o w l' st,
        getState g w = Some (l', st) ->
        createCalls (reconnectCallback cfg g reason params l o w)
        = createCall g params :: createCalls w)
  /\ (forall g instance o w serverId info,
        activeServer instance = Some serverId ->
        serverList instance !! serverId = Some info ->
        createCalls (reconnectGuild g instance o w)
        = createCallFor g info :: createCalls w
        /\ managerPart (reconnectGuild g instance o w) = managerPart w
        /\ requestsLogged g (reconnectGuild g instance o w)
           = requestsLogged g w).
Proof.
  split; [|split; [|split; [|split; [|split]]]].
  - intros rustplus reason w. unfold triggerReconnection.
    destruct (_ || _); [by split; [left|]|].
    split; [by right|]. apply calls_attemptReconnection.
  - apply calls_basic_check.
  - apply createCalls_enhanced_check.
  - apply calls_attemptReconnection.
  - apply createCalls_reconnectCallback.
  - intros g instance o w serverId info Ha Hs.
    destruct (reconnectGuild_effect g instance o w serverId info Ha Hs)
      as (Ec & Em & _ & _ & _ & Er).
    by rewrite Ec, Em, Er.
Qed.

Lemma connection_factory_callers_witness :
  createCalls (reconnectGuild guildA instanceA CreateReturns disconnectedA)
  = [createCallFor guildA serverA]
  /\ managerPart (reconnectGuild guildA instanceA CreateReturns disconnectedA)
     = managerPart disconnectedA.
Proof.
  destruct (proj2 (proj2 (proj2 (proj2 (proj2
              (connection_factory_callers defaultConfig)))))
              guildA instanceA CreateReturns disconnectedA
              "203.0.113.7-28082" serverA) as (H1 & H2 & _).
  - reflexivity.
  - vm_compute. reflexivity.
  - split; [exact H1 | exact H2].
Defined.

(** ** The forced reconnection *)

(** C9 fails as stated: guild A is operational and [forceReconnectGuild]
    tears its connection down and creates another; guild A is marked
    reconnecting and [forceReconnectGuild], also when reached through the
    command, calls the factory again. *)
Lemma force_reconnect_tears_down_operational :
  isCurrentlyConnected guildA operationalA = true
  /\ rustplusInstances (forceReconnectGuild guildA CreateReturns operationalA)
       !! guildA = None
  /\ calls (forceReconnectGuild guildA CreateReturns operationalA)
     = [createCallFor guildA serverA; CallDisconnect guildA;
        CallSetInstance guildA; CallResetRustplusVariables guildA]
  /\ truthyFlag (rustplusReconnecting reconnectingA !! guildA) = true
  /\ createCalls (forceReconnectGuild guildA CreateReturns reconnectingA)
     = [createCallFor guildA serverA]
  /\ createCalls (handleAutoReconnectCommand guildA CreateReturns reconnectingA)
     = [createCallFor guildA serverA].
Proof. vm_compute. repeat split. Qed.

(** C9, as the code has it: [forceReconnectGuild] has no guard of its own;
    for a guild whose instance names an active server with an entry in the
    server list it tears down the registered connection, if any, and calls
    the factory, whether the guild is operational or marked reconnecting.
    The operational test is made by its caller, the auto-reconnect command,
    which forces exactly when the guild is not observed operational. *)
Theorem force_reconnect_has_no_guard
    (g : GuildId) (o : CreateOutcome) (w : World) (instance : Instance)
    (serverId : string) (info : ServerEntry) :
  instances w !! g = Some instance ->
  activeServer instance = Some serverId ->
  truthyString serverId = true ->
  serverList instance !! serverId = Some info ->
  forceReconnectGuild g o w
  = reconnectGuild g instance o (clientLog infoCap (MsgForceReconnecting g) w)
  /\ createCalls (forceReconnectGuild g o w)
     = createCallFor g info :: createCalls w
  /\ rustplusInstances (forceReconnectGuild g o w) !! g = None
  /\ (is_Some (rustplusInstances w !! g) ->
      CallDisconnect g ∈ calls (forceReconnectGuild g o w))
  /\ rustplusReconnecting (forceReconnectGuild g o w) !! g
     = Some (reconnectingAfter o)
  /\ handleAutoReconnectCommand g o w
     = (if isCurrentlyConnected g w then w else forceReconnectGuild g o w).
Proof.
  intros Hi Ha Ht Hs.
  assert (E : forceReconnectGuild g o w
              = reconnectGuild g instance o
                  (clientLog infoCap (MsgForceReconnecting g) w)).
  { unfold forceReconnectGuild. rewrite Hi, Ha. simpl. by rewrite Ht. }
  destruct (reconnectGuild_effect g instance o
              (clientLog infoCap (MsgForceReconnecting g) w) serverId info Ha Hs)
    as (Ec & _ & Ei & Ef & Ed & _).
  split; [exact E|]. rewrite E.
  split; [exact Ec|].
  split; [rewrite Ei; apply lookup_delete_eq|].
  split; [exact Ed|].
  split; [exact Ef|].
  unfold handleAutoReconnectCommand. rewrite Hi, Ha. simpl. rewrite Ht.
  by destruct (isCurrentlyConnected g w).
Qed.

Lemma force_reconnect_has_no_guard_witness :
  createCalls (forceReconnectGuild guildA CreateReturns operationalA)
  = [createCallFor guildA serverA]
  /\ handleAutoReconnectCommand guildA CreateReturns operationalA
     = operationalA.
Proof.
  destruct (force_reconnect_has_no_guard guildA CreateReturns operationalA
              instanceA "203.0.113.7-28082" serverA)
    as (_ & H1 & _ & _ & _ & H2).
  - vm_compute. reflexivity.
  - reflexivity.
  - reflexivity.
  - vm_compute. reflexivity.
  - split; [exact H1|]. rewrite H2. reflexivity.
Defined.

(** ** Consistency of handles, references and counters *)

Lemma consistent_empty cfg n : ConsistentParts cfg [] n ∅ ∅.
Proof.
  split; try done.
  - constructor.
  - intros x Hx. by apply elem_of_nil in Hx.
  - intros x g r p l Hx. by apply elem_of_nil in Hx.
Qed.

Lemma consistent_clear cfg ts n h s t :
  ConsistentParts cfg ts n h s ->
  ConsistentParts cfg (filter (fun x => tid x ≠ t) ts) n h s.
Proof.
  intros [H1 H2 H3 H4 H5 H6 H7 H8]. split; try done.
  - clear -H1. induction ts as [|x ts IH]; [constructor|].
    rewrite filter_cons. apply NoDup_cons in H1 as [Hx Hn].
    destruct (decide (tid x ≠ t)); [|by apply IH].
    simpl. apply NoDup_cons. split; [|by apply IH].
    intros (y & Hy & [_ Hin]%list_elem_of_filter)%list_elem_of_fmap.
    apply Hx, list_elem_of_fmap. by exists y.
  - intros x [_ Hx]%list_elem_of_filter. by apply H2.
  - intros x g r p l [_ Hx]%list_elem_of_filter. by apply H5.
  - intros l st x Hl Ht [_ Hx]%list_elem_of_filter. by apply (H7 l st).
Qed.
Lemma consistent_write cfg ts n h s l old st :
  h !! l = Some old ->
  timer st = timer old ->
  (0 <= maxRetries cfg -> 0 <= retryCount st <= maxRetries cfg) ->
  ConsistentParts cfg ts n h s ->
  ConsistentParts cfg ts n (<[l := st]> h) s.
Proof.
  intros Hold Ht Hc [H1 H2 H3 H4 H5 H6 H7 H8]. split; try done.
  - intros g l' Hl. apply lookup_insert_is_Some'. right. by apply (H3 g).
  - intros x g r p l' Hx Hcb. destruct (H5 x g r p l' Hx Hcb) as (Hs & st' & Hh & Htm).
    split; [done|]. destruct (decide (l = l')) as [<-|Hne].
    + exists st. rewrite lookup_insert_eq. split; [done|]. congruence.
    + exists st'. by rewrite lookup_insert_ne.
  - intros l' st' t. destruct (decide (l = l')) as [<-|Hne].
    + rewrite lookup_insert_eq. intros [= <-]. rewrite Ht. by apply (H6 l old).
    + rewrite lookup_insert_ne by done. apply H6.
  - intros l' st' x. destruct (decide (l = l')) as [<-|Hne].
    + rewrite lookup_insert_eq. intros [= <-]. rewrite Ht. by apply (H7 l old).
    + rewrite lookup_insert_ne by done. apply H7.
  - intros l' st' Hm. destruct (decide (l = l')) as [<-|Hne].
    + rewrite lookup_insert_eq. intros [= <-]. by apply Hc.
    + rewrite lookup_insert_ne by done. by apply H8.
Qed.

Lemma consistent_setTimeout cfg ts n h s d du c :
  isAttempt (mkTimer n d du c) = false ->
  ConsistentParts cfg ts n h s ->
  ConsistentParts cfg (ts ++ [mkTimer n d du c]) (S n) h s.
Proof.
  intros Hc [H1 H2 H3 H4 H5 H6 H7 H8]. split; try done.
  - rewrite fmap_app. apply NoDup_app. split; [done|]. split.
    + intros t (x & -> & Hx)%list_elem_of_fmap. simpl.
      intros Heq%list_elem_of_singleton. specialize (H2 x Hx). lia.
    + simpl. apply NoDup_singleton.
  - intros x [Hx| ->%list_elem_of_singleton]%elem_of_app.
    + specialize (H2 x Hx). lia.
    + simpl. lia.
  - intros x g r p l [Hx| ->%list_elem_of_singleton]%elem_of_app Hcb.
    + by apply (H5 x g r p l).
    + unfold isAttempt in Hc. simpl in *. by rewrite Hcb in Hc.
  - intros l st t Hl Ht. specialize (H6 l st t Hl Ht). lia.
  - intros l st x Hl Ht [Hx| ->%list_elem_of_singleton]%elem_of_app.
    + by apply (H7 l st).
    + simpl in Ht. specialize (H6 l st n Hl Ht). lia.
Qed.

Lemma consistent_initialize cfg ts n h s g st :
  s !! g = None ->
  timer st = None ->
  (0 <= maxRetries cfg -> 0 <= retryCount st <= maxRetries cfg) ->
  ConsistentParts cfg ts n h s ->
  ConsistentParts cfg ts n (<[fresh (dom h) := st]> h)
    (<[g := fresh (dom h)]> s).
Proof.
  intros Hg Ht Hc [H1 H2 H3 H4 H5 H6 H7 H8].
  assert (Hf : h !! fresh (dom h) = None).
  { apply not_elem_of_dom, is_fresh. }
  split; try done.
  - intros g' l. destruct (decide (g = g')) as [<-|Hne].
    + rewrite lookup_insert_eq. intros [= <-]. by rewrite lookup_insert_eq.
    + rewrite lookup_insert_ne by done. intros Hl.
      apply lookup_insert_is_Some'. right. by apply (H3 g').
  - intros g1 g2 l.
    destruct (decide (g = g1)) as [<-|Hne1], (decide (g = g2)) as [<-|Hne2];
      rewrite ?lookup_insert_eq, ?lookup_insert_ne by done; try done.
    + intros [= <-] Hl. destruct (H3 _ _ Hl) as [? Hs]. congruence.
    + intros Hl [= <-]. destruct (H3 _ _ Hl) as [? Hs]. congruence.
    + apply H4.
  - intros x g' r p l Hx Hcb.
    destruct (H5 x g' r p l Hx Hcb) as (Hs & st' & Hh & Htm).
    assert (g ≠ g') by congruence.
    rewrite lookup_insert_ne by done. split; [done|].
    exists st'. rewrite lookup_insert_ne by congruence. done.
  - intros l st' t. destruct (decide (fresh (dom h) = l)) as [<-|Hne].
    + rewrite lookup_insert_eq. intros [= <-]. by rewrite Ht.
    + rewrite lookup_insert_ne by done. apply H6.
  - intros l st' x. destruct (decide (fresh (dom h) = l)) as [<-|Hne].
    + rewrite lookup_insert_eq. intros [= <-]. by rewrite Ht.
    + rewrite lookup_insert_ne by done. apply H7.
  - intros l st' Hm. destruct (decide (fresh (dom h) = l)) as [<-|Hne].
    + rewrite lookup_insert_eq. intros [= <-]. by apply Hc.
    + rewrite lookup_insert_ne by done. by apply H8.
Qed.
Lemma consistent_schedule cfg ts n h s g r p l st st' d du :
  s !! g = Some l ->
  h !! l = Some st ->
  timer st' = Some n ->
  (0 <= maxRetries cfg -> 0 <= retryCount st' <= maxRetries cfg) ->
  ConsistentParts cfg ts n h s ->
  ConsistentParts cfg
    (match timer st with
     | Some t => filter (fun x => tid x ≠ t) ts
     | None => ts
     end ++ [mkTimer n d du (CbReconnect g r p l)]) (S n) (<[l := st']> h) s.
Proof.
  intros Hg Hl Ht' Hc HC.
  set (ts' := match timer st with
              | Some t => filter (fun x => tid x ≠ t) ts
              | None => ts
              end).
  assert (HC' : ConsistentParts cfg ts' n h s).
  { unfold ts'. destruct (timer st); [by apply consistent_clear|done]. }
  assert (Hsub : forall x, x ∈ ts' -> timer st ≠ Some (tid x)).
  { unfold ts'. intros x Hx E. rewrite E in Hx.
    by apply list_elem_of_filter in Hx as [Hx _]. }
  destruct HC' as [H1 H2 H3 H4 H5 H6 H7 H8]. split; try done.
  - rewrite fmap_app. apply NoDup_app. split; [done|]. split.
    + intros t (x & -> & Hx)%list_elem_of_fmap. simpl.
      intros Heq%list_elem_of_singleton. specialize (H2 x Hx). lia.
    + simpl. apply NoDup_singleton.
  - intros x [Hx| ->%list_elem_of_singleton]%elem_of_app.
    + specialize (H2 x Hx). lia.
    + simpl. lia.
  - intros g' l' Hl'. apply lookup_insert_is_Some'. right. by apply (H3 g').
  - intros x g' r' p' l' [Hx| ->%list_elem_of_singleton]%elem_of_app Hcb.
    + destruct (H5 x g' r' p' l' Hx Hcb) as (Hs & st'' & Hh & Htm).
      split; [done|]. exists st''. split; [|done].
      rewrite lookup_insert_ne; [done|]. intros <-.
      apply (Hsub x Hx). congruence.
    + simpl in Hcb. injection Hcb as <- <- <- <-. split; [done|].
      exists st'. by rewrite lookup_insert_eq.
  - intros l' st'' t. destruct (decide (l = l')) as [<-|Hne].
    + rewrite lookup_insert_eq. intros [= <-]. rewrite Ht'. intros [= <-]. lia.
    + rewrite lookup_insert_ne by done. intros Hh Htm.
      specialize (H6 l' st'' t Hh Htm). lia.
  - intros l' st'' x. destruct (decide (l = l')) as [<-|Hne].
    + rewrite lookup_insert_eq. intros [= <-]. rewrite Ht'. intros [= Hn].
      intros [Hx| ->%list_elem_of_singleton]%elem_of_app.
      * specialize (H2 x Hx). lia.
      * by eexists _, _, _.
    + rewrite lookup_insert_ne by done. intros Hh Htm.
      intros [Hx| ->%list_elem_of_singleton]%elem_of_app.
      * by apply (H7 l' st'').
      * simpl in Htm. specialize (H6 l' st'' n Hh Htm). lia.
  - intros l' st'' Hm. destruct (decide (l = l')) as [<-|Hne].
    + rewrite lookup_insert_eq. intros [= <-]. by apply Hc.
    + rewrite lookup_insert_ne by done. by apply H8.
Qed.

Lemma consistent_delete cfg ts n h s g l st :
  s !! g = Some l ->
  h !! l = Some st ->
  ConsistentParts cfg ts n h s ->
  ConsistentParts cfg
    (match timer st with
     | Some t => filter (fun x => tid x ≠ t) ts
     | None => ts
     end) n h (delete g s).
Proof.
  intros Hg Hl HC.
  set (ts' := match timer st with
              | Some t => filter (fun x => tid x ≠ t) ts
              | None => ts
              end).
  assert (HC' : ConsistentParts cfg ts' n h s).
  { unfold ts'. destruct (timer st); [by apply consistent_clear|done]. }
  assert (Hsub : forall x, x ∈ ts' -> timer st ≠ Some (tid x)).
  { unfold ts'. intros x Hx E. rewrite E in Hx.
    by apply list_elem_of_filter in Hx as [Hx _]. }
  destruct HC' as [H1 H2 H3 H4 H5 H6 H7 H8]. split; try done.
  - intros g' l' [_ Hl']%lookup_delete_Some. by apply (H3 g').
  - intros g1 g2 l' [_ Ha]%lookup_delete_Some [_ Hb]%lookup_delete_Some.
    by apply (H4 g1 g2 l').
  - intros x g' r' p' l' Hx Hcb.
    destruct (H5 x g' r' p' l' Hx Hcb) as (Hs & st'' & Hh & Htm).
    split; [|by exists st''].
    apply lookup_delete_Some. split; [|done]. intros <-.
    apply (Hsub x Hx). congruence.
Qed.
Lemma consistent_initializeState cfg g w :
  Consistent cfg w -> Consistent cfg (initializeState cfg g w).
Proof.
  intros HC. unfold initializeState.
  destruct (reconnectionStates w !! g) eqn:E; [done|].
  unfold Consistent. simpl. by apply consistent_initialize.
Qed.

Lemma consistent_scheduleAttempt cfg g reason params l st w :
  reconnectionStates w !! g = Some l ->
  heap w !! l = Some st ->
  retryCount st < maxRetries cfg ->
  Consistent cfg w ->
  Consistent cfg (scheduleAttempt cfg g reason params l st w).
Proof.
  intros Hg Hl Hlt HC. unfold Consistent.
  rewrite scheduleAttempt_timers, scheduleAttempt_heap, scheduleAttempt_states.
  destruct (scheduleAttempt_next cfg g reason params l st w) as (-> & _).
  apply (consistent_schedule cfg _ _ _ _ g reason params l st); try done.
  simpl. intros Hm. pose proof (counts_bounded _ _ _ _ _ HC l st Hm Hl). lia.
Qed.

Lemma consistent_attemptReconnection cfg g reason params w :
  Consistent cfg w -> Consistent cfg (attemptReconnection cfg g reason params w).
Proof.
  intros HC. rewrite attemptReconnection_unfold.
  pose proof (consistent_initializeState cfg g w HC) as Hi.
  destruct (getState g (initializeState cfg g w)) as [[l st]|] eqn:E; [|done].
  destruct (isReconnecting st); [done|].
  destruct (Z.geb_spec (retryCount st) (maxRetries cfg)); [done|].
  apply getState_Some in E as [El Es].
  by apply consistent_scheduleAttempt.
Qed.

Lemma consistent_resetState cfg g w :
  Consistent cfg w -> Consistent cfg (resetState g w).
Proof.
  intros HC. unfold resetState.
  destruct (getState g w) as [[l st]|] eqn:E; [|done].
  apply getState_Some in E as [El Es].
  pose proof (consistent_delete cfg _ _ _ _ g l st El Es HC) as HD.
  unfold Consistent. by destruct (timer st).
Qed.

Lemma consistent_writeState cfg l old st w :
  heap w !! l = Some old ->
  timer st = timer old ->
  (0 <= maxRetries cfg -> 0 <= retryCount st <= maxRetries cfg) ->
  Consistent cfg w -> Consistent cfg (writeState l st w).
Proof. intros Hl Ht Hc HC. by apply (consistent_write cfg _ _ _ _ l old). Qed.

Lemma consistent_stop cfg l st w :
  heap w !! l = Some st ->
  Consistent cfg w -> Consistent cfg (writeState l (stopReconnecting st) w).
Proof.
  intros Hl HC. apply (consistent_writeState cfg l st); try done.
  simpl. intros Hm. by apply (counts_bounded _ _ _ _ _ HC l).
Qed.

Lemma consistent_timeout cfg c d w :
  isAttempt (mkTimer 0 0 0 c) = false ->
  Consistent cfg w -> Consistent cfg (snd (setTimeout c d w)).
Proof. intros Hc HC. by apply consistent_setTimeout. Qed.

Lemma consistent_clearTimeout cfg t w :
  Consistent cfg w -> Consistent cfg (clearTimeout t w).
Proof. apply consistent_clear. Qed.

Lemma consistent_runCallback cfg c o w :
  Consistent cfg w -> Consistent cfg (runCallback cfg c o w).
Proof.
  intros HC. destruct c as [g reason params l|g reason params|g]; simpl.
  - unfold reconnectCallback, performReconnection.
    destruct (getState g w) as [[l' st']|].
    + set (w3 := recordCall _ _).
      assert (H3 : Consistent cfg w3).
      { unfold w3. by destruct (rustplusInstances _ !! g). }
      destruct o; [done|].
      destruct (heap _ !! l) as [st|] eqn:El; [|done].
      set (w4 := writeState l _ _).
      assert (H4 : Consistent cfg w4) by by apply consistent_stop.
      destruct (_ <? _); [|done]. by apply consistent_timeout.
    + destruct (heap _ !! l) as [st|] eqn:El; [|done].
      set (w4 := writeState l _ _).
      assert (H4 : Consistent cfg w4) by by apply consistent_stop.
      destruct (_ <? _); [|done]. by apply consistent_timeout.
  - by apply consistent_attemptReconnection.
  - unfold resetCounterCallback.
    destruct (getState g w) as [[l st]|] eqn:E; [|done].
    apply getState_Some in E as [El Es].
    by apply (consistent_writeState cfg l st).
Qed.

Lemma consistent_fireTimer cfg t o w w' :
  Consistent cfg w -> fireTimer cfg t o w = Some w' -> Consistent cfg w'.
Proof.
  intros HC. unfold fireTimer. destruct (findTimer t w) as [x|]; [|done].
  intros [= <-]. apply consistent_runCallback.
  by apply (consistent_clearTimeout cfg t) in HC.
Qed.

Lemma consistent_markSuccessfulConnection cfg g w :
  Consistent cfg w -> Consistent cfg (markSuccessfulConnection cfg g w).
Proof. intros HC. by apply consistent_setTimeout. Qed.

Lemma consistent_handleSuccessfulReconnection cfg g w :
  Consistent cfg w -> Consistent cfg (handleSuccessfulReconnection cfg g w).
Proof.
  intros HC. unfold handleSuccessfulReconnection.
  destruct (getState g w) as [[l st]|] eqn:E; [|done].
  apply getState_Some in E as [El Es].
  apply consistent_markSuccessfulConnection. by apply consistent_stop.
Qed.

Lemma consistent_handleFailedReconnection cfg g reason w :
  Consistent cfg w -> Consistent cfg (handleFailedReconnection g reason w).
Proof.
  intros HC. unfold handleFailedReconnection.
  destruct (getState g w) as [[l st]|] eqn:E; [|done].
  apply getState_Some in E as [El Es].
  by apply (consistent_stop cfg l st w).
Qed.
Lemma filter_all {A} (P : A -> Prop) `{forall x, Decision (P x)} (l : list A) :
  (forall x, x ∈ l -> P x) -> filter P l = l.
Proof.
  induction l as [|x l IH]; [done|]. intros Hall.
  rewrite filter_cons_True by (apply Hall; left).
  f_equal. apply IH. intros y Hy. apply Hall. by right.
Qed.

Lemma filter_bool {A} (P : A -> Prop) `{forall x, Decision (P x)}
    (f : A -> bool) (l : list A) :
  (forall x, x ∈ l -> (P x <-> f x = true)) -> filter P l = List.filter f l.
Proof.
  induction l as [|x l IH]; [done|]. intros Hall.
  rewrite filter_cons. simpl.
  assert (Hx : P x <-> f x = true) by (apply Hall; left).
  rewrite IH by (intros y Hy; apply Hall; by right).
  destruct (decide (P x)) as [HP|HP], (f x) eqn:E; try done.
  - apply Hx in HP. done.
  - exfalso. by apply HP, Hx.
Qed.

Lemma stopOne_fields w l :
  timers (stopOne w l)
  = filter (fun x => Some (tid x) ≠ storedHandle (heap w) l) (timers w)
  /\ heap (stopOne w l)
     = match heap w !! l with
       | Some st => <[l := stopReconnecting st]> (heap w)
       | None => heap w
       end
  /\ nextTimerId (stopOne w l) = nextTimerId w
  /\ reconnectionStates (stopOne w l) = reconnectionStates w
  /\ rand (stopOne w l) = rand w
  /\ log (stopOne w l) = log w
  /\ outsideManager (stopOne w l) = outsideManager w.
Proof.
  unfold stopOne, storedHandle.
  destruct (heap w !! l) as [st|] eqn:E; simpl.
  - destruct (timer st) as [t|]; simpl; repeat split.
    + apply list_filter_iff. intros x. split; congruence.
    + symmetry. by apply filter_all.
  - repeat split. symmetry. by apply filter_all.
Qed.

Lemma storedHandle_stopOne w l l' :
  storedHandle (heap (stopOne w l)) l' = storedHandle (heap w) l'.
Proof.
  destruct (stopOne_fields w l) as (_ & -> & _). unfold storedHandle.
  destruct (heap w !! l) as [st|] eqn:E; [|done].
  destruct (decide (l = l')) as [<-|Hne].
  - by rewrite lookup_insert_eq, E.
  - by rewrite lookup_insert_ne.
Qed.

Lemma stopFold_fields ls : forall w,
  let w' := fold_left stopOne ls w in
  timers w'
  = filter (fun x => tid x ∉ omap (storedHandle (heap w)) ls) (timers w)
  /\ (forall l, heap w' !! l
                = if decide (l ∈ ls) then stopReconnecting <$> heap w !! l
                  else heap w !! l)
  /\ nextTimerId w' = nextTimerId w
  /\ reconnectionStates w' = reconnectionStates w
  /\ rand w' = rand w
  /\ log w' = log w
  /\ outsideManager w' = outsideManager w.
Proof.
  induction ls as [|l ls IH]; intros w; simpl.
  - repeat split; try done. symmetry. apply filter_all. intros x _.
    apply not_elem_of_nil.
  - destruct (IH (stopOne w l)) as (Ht & Hh & Hn & Hs & Hr & Hl & Ho).
    destruct (stopOne_fields w l) as (Ht1 & Hh1 & Hn1 & Hs1 & Hr1 & Hl1 & Ho1).
    rewrite Ht, Hn, Hs, Hr, Hl, Ho. repeat split; try done.
    + rewrite Ht1, list_filter_filter. apply list_filter_iff. intros x.
      assert (Hom : forall ks : list Loc, omap (storedHandle (heap (stopOne w l))) ks
                               = omap (storedHandle (heap w)) ks).
      { induction ks as [|k ks IHk]; [done|]. simpl.
        rewrite storedHandle_stopOne.
        destruct (storedHandle (heap w) k); [f_equal|]; exact IHk. }
      rewrite Hom. simpl.
      destruct (storedHandle (heap w) l) as [t|] eqn:E.
      * rewrite not_elem_of_cons. split.
        -- intros [H1 H2]. split; [|done]. congruence.
        -- intros [H1 H2]. split; [done|]. congruence.
      * split; [by intros [? _]|]. by intros.
    + intros l'. rewrite Hh, Hh1.
      destruct (decide (l' ∈ ls)) as [Hin|Hin].
      * rewrite decide_True by by right.
        destruct (heap w !! l) as [st|] eqn:E; [|done].
        destruct (decide (l = l')) as [<-|Hne].
        -- by rewrite lookup_insert_eq, E.
        -- by rewrite lookup_insert_ne.
      * destruct (decide (l = l')) as [<-|Hne].
        -- rewrite decide_True by left.
           destruct (heap w !! l) as [st|] eqn:E; [|by rewrite E].
           by rewrite lookup_insert_eq.
        -- rewrite decide_False by (intros [?|?]%elem_of_cons; done).
           destruct (heap w !! l) as [st|] eqn:E; [|done].
           by rewrite lookup_insert_ne.
Qed.
Lemma consistent_filter cfg ts n h s (P : Timer -> Prop)
    `{forall x, Decision (P x)} :
  ConsistentParts cfg ts n h s -> ConsistentParts cfg (filter P ts) n h s.
Proof.
  intros [H1 H2 H3 H4 H5 H6 H7 H8]. split; try done.
  - clear -H1. induction ts as [|x ts IH]; [constructor|].
    rewrite filter_cons. apply NoDup_cons in H1 as [Hx Hn].
    destruct (decide (P x)); [|by apply IH].
    simpl. apply NoDup_cons. split; [|by apply IH].
    intros (y & Hy & [_ Hin]%list_elem_of_filter)%list_elem_of_fmap.
    apply Hx, list_elem_of_fmap. by exists y.
  - intros x [_ Hx]%list_elem_of_filter. by apply H2.
  - intros x g r p l [_ Hx]%list_elem_of_filter. by apply H5.
  - intros l st x Hl Ht [_ Hx]%list_elem_of_filter. by apply (H7 l st).
Qed.

Lemma consistent_heap cfg ts n h h' s :
  (forall l, match h' !! l with
             | Some st' => exists st, h !! l = Some st
                                      /\ timer st' = timer st
                                      /\ retryCount st' = retryCount st
             | None => h !! l = None
             end) ->
  ConsistentParts cfg ts n h s -> ConsistentParts cfg ts n h' s.
Proof.
  intros Hh [H1 H2 H3 H4 H5 H6 H7 H8]. split; try done.
  - intros g l Hl. destruct (H3 g l Hl) as [st Hst].
    specialize (Hh l). destruct (h' !! l); [by eexists|congruence].
  - intros x g r p l Hx Hcb.
    destruct (H5 x g r p l Hx Hcb) as (Hs & st & Hst & Htm).
    split; [done|]. specialize (Hh l).
    destruct (h' !! l) as [st'|]; [|congruence].
    destruct Hh as (st0 & E0 & Et & _). exists st'. split; [done|]. congruence.
  - intros l st' t Hl Ht. specialize (Hh l). rewrite Hl in Hh.
    destruct Hh as (st0 & E0 & Et & _). apply (H6 l st0); congruence.
  - intros l st' x Hl Ht Hx. specialize (Hh l). rewrite Hl in Hh.
    destruct Hh as (st0 & E0 & Et & _). apply (H7 l st0); congruence.
  - intros l st' Hm Hl. specialize (Hh l). rewrite Hl in Hh.
    destruct Hh as (st0 & E0 & _ & Ec). rewrite Ec. by apply (H8 l).
Qed.

Lemma consistent_forget cfg ts n h s :
  (forall x, x ∈ ts -> isAttempt x = false) ->
  ConsistentParts cfg ts n h s -> ConsistentParts cfg ts n h ∅.
Proof.
  intros Hno [H1 H2 H3 H4 H5 H6 H7 H8]. split; try done.
  intros x g r p l Hx Hcb. specialize (Hno x Hx).
  unfold isAttempt in Hno. by rewrite Hcb in Hno.
Qed.

Lemma storedHandles_spec w t :
  t ∈ storedHandles w <->
  exists g l st, reconnectionStates w !! g = Some l /\ heap w !! l = Some st
                 /\ timer st = Some t.
Proof.
  unfold storedHandles, storedHandle. rewrite list_elem_of_omap. split.
  - intros (l & Hl & Ht). apply list_elem_of_fmap in Hl as ([g l'] & -> & Hg).
    apply elem_of_map_to_list in Hg. simpl in Ht.
    destruct (heap w !! l') as [st|] eqn:E; [|done].
    by exists g, l', st.
  - intros (g & l & st & Hg & Hl & Ht). exists l. split.
    + apply list_elem_of_fmap. exists (g, l). split; [done|].
      by apply elem_of_map_to_list.
    + by rewrite Hl.
Qed.

Lemma stopAll_fields w :
  let w' := stopAllReconnections w in
  timers w' = filter (fun x => tid x ∉ storedHandles w) (timers w)
  /\ (forall l, heap w' !! l
                = if decide (l ∈ snd <$> map_to_list (reconnectionStates w))
                  then stopReconnecting <$> heap w !! l
                  else heap w !! l)
  /\ nextTimerId w' = nextTimerId w
  /\ reconnectionStates w' = ∅
  /\ successfulConnections w' = ∅
  /\ rand w' = rand w
  /\ log w' = log w
  /\ calls w' = calls w.
Proof.
  destruct (stopFold_fields (snd <$> map_to_list (reconnectionStates w)) w)
    as (Ht & Hh & Hn & Hs & Hr & Hl & Ho).
  unfold stopAllReconnections. simpl. repeat split; try done.
  by injection Ho.
Qed.

(** With consistent handles, the timers that [stopAllReconnections]
    cancels are the pending attempts. *)
Lemma stopAll_cancels cfg w x :
  Consistent cfg w -> x ∈ timers w ->
  tid x ∉ storedHandles w <-> isAttempt x = false.
Proof.
  intros HC Hx. rewrite storedHandles_spec. unfold isAttempt. split.
  - intros Hno. destruct (cb x) as [g r p l| |] eqn:Hcb; [|done|done].
    destruct (attempt_owned _ _ _ _ _ HC x g r p l Hx Hcb) as (Hg & st & Hl & Ht).
    exfalso. apply Hno. by exists g, l, st.
  - intros Hcb (g & l & st & Hg & Hl & Ht).
    destruct (stored_attempt _ _ _ _ _ HC l st x Hl Ht Hx) as (g' & r & p & E).
    by rewrite E in Hcb.
Qed.

Lemma consistent_stopAllReconnections cfg w :
  Consistent cfg w -> Consistent cfg (stopAllReconnections w).
Proof.
  intros HC. destruct (stopAll_fields w) as (Ht & Hh & Hn & Hs & _).
  unfold Consistent. rewrite Ht, Hn, Hs.
  apply (consistent_forget cfg _ _ _ (reconnectionStates w)).
  { intros x [Hno Hx]%list_elem_of_filter. by apply (stopAll_cancels cfg w). }
  apply (consistent_heap cfg _ _ (heap w)).
  { intros l. rewrite Hh. destruct (decide _).
    - destruct (heap w !! l) as [st|]; [|done]. by exists st.
    - destruct (heap w !! l) as [st|]; [|done]. by exists st. }
  by apply consistent_filter.
Qed.

Lemma consistent_step cfg w e : Consistent cfg w -> Consistent cfg (step cfg w e).
Proof.
  intros HC. destruct e; simpl.
  - by apply consistent_attemptReconnection.
  - destruct (fireTimer cfg t o w) as [w'|] eqn:E; [|done].
    by apply (consistent_fireTimer cfg t o w).
  - unfold advanceClock. by destruct (_ && _).
  - by apply consistent_resetState.
  - by apply consistent_markSuccessfulConnection.
  - by apply consistent_handleSuccessfulReconnection.
  - by apply consistent_handleFailedReconnection.
  - by apply consistent_stopAllReconnections.
Qed.

Lemma consistent_run cfg es : forall w,
  Consistent cfg w -> Consistent cfg (run cfg es w).
Proof.
  induction es as [|e es IH]; intros w HC; [done|].
  simpl. by apply IH, consistent_step.
Qed.
Lemma pendingAttempts_spec g w x :
  x ∈ pendingAttempts g w <->
  x ∈ timers w /\ exists r p l, cb x = CbReconnect g r p l.
Proof.
  unfold pendingAttempts, isAttemptFor.
  rewrite list_elem_of_In, filter_In, <- list_elem_of_In. split.
  - intros [Hx Hcb]. split; [done|].
    destruct (cb x) as [g' r p l| |]; [|done|done].
    apply String.eqb_eq in Hcb as ->. by exists r, p, l.
  - intros [Hx (r & p & l & ->)]. split; [done|]. apply String.eqb_refl.
Qed.

Lemma same_handle_short (ts : list Timer) :
  NoDup (tid <$> ts) ->
  (forall x y, x ∈ ts -> y ∈ ts -> tid x = tid y) ->
  (length ts <= 1)%nat.
Proof.
  intros Hn Hsame. destruct ts as [|x [|y ts]]; simpl; [lia|lia|].
  exfalso. apply NoDup_cons in Hn as [Hx _]. apply Hx.
  rewrite (Hsame x y); [left|left|right; left].
Qed.

Lemma nodup_filter_bool (f : Timer -> bool) (ts : list Timer) :
  NoDup (tid <$> ts) -> NoDup (tid <$> List.filter f ts).
Proof.
  induction ts as [|x ts IH]; [done|]. simpl.
  intros [Hx Hn]%NoDup_cons. destruct (f x); [|by apply IH].
  simpl. apply NoDup_cons. split; [|by apply IH].
  intros (y & Hy & Hin)%list_elem_of_fmap.
  apply list_elem_of_In, filter_In in Hin as [Hin _].
  apply Hx, list_elem_of_fmap. exists y. by rewrite list_elem_of_In.
Qed.

(** X1: in every run of the controller from a consistent world (requests,
    timers firing, time passing, resets, success and failure reports,
    [stopAllReconnections], in any order) a guild has at most one pending
    reconnection attempt, and that attempt belongs to the guild's current
    state object: the closure of the timer holds this object, and the object
    stores the handle of the timer. *)
Theorem one_pending_attempt_per_guild
    (cfg : Config) (es : list Event) (w : World) (g : GuildId) :
  Consistent cfg w ->
  (length (pendingAttempts g (run cfg es w)) <= 1)%nat
  /\ (forall x, x ∈ pendingAttempts g (run cfg es w) ->
        exists reason params l st,
          cb x = CbReconnect g reason params l
          /\ getState g (run cfg es w) = Some (l, st)
          /\ timer st = Some (tid x)).
Proof.
  intros HC. apply (consistent_run cfg es) in HC.
  set (w' := run cfg es w) in *.
  assert (Hown : forall x, x ∈ pendingAttempts g w' ->
            exists reason params l st,
              cb x = CbReconnect g reason params l
              /\ getState g w' = Some (l, st)
              /\ timer st = Some (tid x)).
  { intros x (Hx & r & p & l & Hcb)%pendingAttempts_spec.
    destruct (attempt_owned _ _ _ _ _ HC x g r p l Hx Hcb) as (Hg & st & Hl & Ht).
    exists r, p, l, st. split; [done|]. split; [|done]. by apply getState_Some. }
  split; [|exact Hown].
  apply same_handle_short.
  - apply nodup_filter_bool, (handles_nodup _ _ _ _ _ HC).
  - intros x y (r1 & p1 & l1 & st1 & _ & E1 & T1)%Hown
      (r2 & p2 & l2 & st2 & _ & E2 & T2)%Hown.
    rewrite E1 in E2. injection E2 as <- <-. congruence.
Qed.
Lemma one_pending_attempt_per_guild_witness :
  let w := run defaultConfig
             [EvRequest guildA "connection_lost" paramsA;
              EvFailed guildA "connection_lost";
              EvRequest guildA "health_check_failure" paramsA] emptyWorld in
  (length (pendingAttempts guildA w) <= 1)%nat
  /\ (forall x, x ∈ pendingAttempts guildA w ->
        exists reason params l st,
          cb x = CbReconnect guildA reason params l
          /\ getState guildA w = Some (l, st)
          /\ timer st = Some (tid x)).
Proof.
  apply (one_pending_attempt_per_guild defaultConfig
           [EvRequest guildA "connection_lost" paramsA;
            EvFailed guildA "connection_lost";
            EvRequest guildA "health_check_failure" paramsA] emptyWorld guildA).
  apply consistent_empty.
Defined.

(** X2: whatever the run, the retry count that [getReconnectionStatus]
    reports for a guild lies between 0 and the ceiling it reports, which is
    the configured [maxRetries]: the guard of [shouldAttemptReconnection]
    keeps the counter from ever passing the ceiling. *)
Theorem retry_count_within_ceiling
    (cfg : Config) (es : list Event) (w : World) (g : GuildId) :
  0 <= maxRetries cfg ->
  Consistent cfg w ->
  let status := getReconnectionStatus cfg g (run cfg es w) in
  0 <= snd (fst status) <= snd status /\ snd status = maxRetries cfg.
Proof.
  intros Hm HC. apply (consistent_run cfg es) in HC.
  set (w' := run cfg es w) in *.
  unfold getReconnectionStatus.
  destruct (getState g w') as [[l st]|] eqn:E; simpl; [|split; [lia|done]].
  split; [|done]. apply getState_Some in E as [_ El].
  by apply (counts_bounded _ _ _ _ _ HC l st).
Qed.

Lemma retry_count_within_ceiling_witness :
  let status :=
    getReconnectionStatus defaultConfig guildA
      (run defaultConfig
         [EvRequest guildA "connection_lost" paramsA;
          EvFire 0 CreateThrows; EvFire 1 CreateThrows] emptyWorld) in
  status = (true, 2, 10)
  /\ 0 <= snd (fst status) <= snd status /\ snd status = 10.
Proof.
  split; [vm_compute; reflexivity|].
  apply (retry_count_within_ceiling defaultConfig
           [EvRequest guildA "connection_lost" paramsA;
            EvFire 0 CreateThrows; EvFire 1 CreateThrows] emptyWorld guildA).
  - simpl. lia.
  - apply consistent_empty.
Defined.
(** ** Stopping all reconnections *)

Lemma stopAll_keeps_other_timers cfg w :
  Consistent cfg w ->
  timers (stopAllReconnections w)
  = List.filter (fun x => negb (isAttempt x)) (timers w).
Proof.
  intros HC. destruct (stopAll_fields w) as (Ht & _).
  cbv zeta in Ht. rewrite Ht. apply filter_bool. intros x Hx.
  rewrite (stopAll_cancels cfg w x HC Hx). by destruct (isAttempt x).
Qed.

(** X3: [stopAllReconnections] cancels every pending reconnection attempt
    and nothing else: the timers left are the ones that were no attempts
    (the retry and stability-window timers stay), every guild then reports
    not reconnecting with retry count 0, every state object of the map has
    [isReconnecting] false, the set of successful connections is empty, and
    neither a log line nor a client call is made. *)
Theorem stopAllReconnections_cancels_attempts (cfg : Config) (w : World) :
  Consistent cfg w ->
  let w' := stopAllReconnections w in
  timers w' = List.filter (fun x => negb (isAttempt x)) (timers w)
  /\ (forall g, getReconnectionStatus cfg g w' = (false, 0, maxRetries cfg))
  /\ (forall g l st,
        reconnectionStates w !! g = Some l -> heap w !! l = Some st ->
        heap w' !! l = Some (stopReconnecting st))
  /\ successfulConnections w' = ∅
  /\ log w' = log w /\ calls w' = calls w.
Proof.
  intros HC. destruct (stopAll_fields w) as (Ht & Hh & Hn & Hs & Hc & _ & Hl & Hk).
  cbv zeta. repeat split; try done.
  - exact (stopAll_keeps_other_timers cfg w HC).
  - intros g l st Hg El. rewrite Hh, decide_True, El; [done|].
    apply list_elem_of_fmap. exists (g, l). split; [done|].
    by apply elem_of_map_to_list.
Qed.
Lemma stopAllReconnections_cancels_attempts_witness :
  let w' := stopAllReconnections stoppingAB in
  length (timers stoppingAB) = 2%nat
  /\ timers w' = List.filter (fun x => negb (isAttempt x)) (timers stoppingAB)
  /\ timers w' = [mkTimer 1 1000 16000 (CbRetry guildA "connection_lost" paramsA)]
  /\ getReconnectionStatus defaultConfig guildB w' = (false, 0, 10).
Proof.
  assert (HC : Consistent defaultConfig stoppingAB).
  { apply consistent_run, consistent_empty. }
  destruct (stopAllReconnections_cancels_attempts defaultConfig stoppingAB HC)
    as (H1 & H2 & _).
  split; [reflexivity|]. split; [exact H1|].
  split; [vm_compute; reflexivity | exact (H2 guildB)].
Defined.

Lemma findTimer_pending w x :
  NoDup (tid <$> timers w) -> x ∈ timers w -> findTimer (tid x) w = Some x.
Proof.
  unfold findTimer. induction (timers w) as [|y ts IH]; simpl.
  - by intros _ ?%elem_of_nil.
  - intros [Hy Hn]%NoDup_cons [->|Hx]%elem_of_cons.
    + by rewrite Nat.eqb_refl.
    + destruct (Nat.eqb_spec (tid y) (tid x)) as [E|_]; [|by apply IH].
      exfalso. apply Hy. rewrite E. apply list_elem_of_fmap. by exists x.
Qed.

Lemma no_attempts_filter g (ts : list Timer) :
  (forall x, x ∈ ts -> isAttempt x = false) ->
  List.filter (isAttemptFor g) ts = [].
Proof.
  induction ts as [|x ts IH]; [done|]. intros Hall. simpl.
  rewrite IH by (intros y Hy; apply Hall; by right).
  assert (Hx : isAttempt x = false) by (apply Hall; left).
  unfold isAttempt in Hx. unfold isAttemptFor. by destruct (cb x).
Qed.

(** X4: the retry timer that the closure of a failed attempt sets is not
    cancelled by [stopAllReconnections]; when it fires afterwards it makes a
    new request, which is accepted on a fresh state: the guild has a pending
    attempt again and reports reconnecting with retry count 1. *)
Theorem pending_retry_survives_stopAllReconnections
    (cfg : Config) (w : World) (x : Timer) (g : GuildId) (reason : string)
    (params : ConnectionParams) (o : CreateOutcome) :
  Consistent cfg w ->
  0 < maxRetries cfg ->
  x ∈ timers w ->
  cb x = CbRetry g reason params ->
  x ∈ timers (stopAllReconnections w)
  /\ exists w' y l,
       fireTimer cfg (tid x) o (stopAllReconnections w) = Some w'
       /\ pendingAttempts g w' = [y]
       /\ cb y = CbReconnect g reason params l
       /\ getReconnectionStatus cfg g w' = (true, 1, maxRetries cfg).
Proof.
  intros HC Hm Hx Hcb.
  pose proof (stopAll_keeps_other_timers cfg w HC) as Ht.
  destruct (stopAll_fields w) as (_ & _ & _ & Hs & _).
  pose proof (consistent_stopAllReconnections cfg w HC) as HC1.
  set (w1 := stopAllReconnections w) in *.
  assert (Hx1 : x ∈ timers w1).
  { rewrite Ht. apply list_elem_of_In, filter_In. split.
    - by apply list_elem_of_In.
    - unfold isAttempt. by rewrite Hcb. }
  split; [exact Hx1|].
  unfold fireTimer.
  rewrite (findTimer_pending w1 x (handles_nodup _ _ _ _ _ HC1) Hx1), Hcb.
  simpl. set (w2 := set_now _ _).
  assert (Hs2 : reconnectionStates w2 !! g = None).
  { change (reconnectionStates w1 !! g = None). by rewrite Hs. }
  assert (Ht2 : forall y, y ∈ timers w2 -> isAttempt y = false).
  { intros y. change (timers w2) with (timers (clearTimeout (tid x) w1)).
    unfold clearTimeout at 1.
    change (y ∈ filter (fun z => tid z ≠ tid x) (timers w1) -> isAttempt y = false).
    intros [_ Hy]%list_elem_of_filter.
    rewrite Ht in Hy. apply list_elem_of_In, filter_In in Hy as [_ Hy].
    by destruct (isAttempt y). }
  rewrite attemptReconnection_unfold, (getState_initializeState_new _ _ _ Hs2).
  simpl. destruct (Z.geb_spec 0 (maxRetries cfg)) as [|_]; [lia|].
  eexists _, _, (fresh (dom (heap w2))). split; [reflexivity|].
  unfold pendingAttempts. rewrite scheduleAttempt_timers.
  unfold pendingAfterClear. simpl.
  destruct (initializeState_frame cfg g w2) as (_ & _ & _ & ->).
  rewrite List.filter_app, (no_attempts_filter g _ Ht2). simpl.
  unfold isAttemptFor. simpl. rewrite String.eqb_refl.
  split; [reflexivity|]. split; [reflexivity|].
  unfold getReconnectionStatus, getState.
  rewrite scheduleAttempt_states, scheduleAttempt_heap.
  rewrite (initializeState_new _ _ _ Hs2). simpl.
  by rewrite !lookup_insert_eq.
Qed.

Lemma pending_retry_survives_stopAllReconnections_witness :
  mkTimer 1 1000 16000 (CbRetry guildA "connection_lost" paramsA)
  ∈ timers (stopAllReconnections stoppingAB)
  /\ exists w' y l,
       fireTimer defaultConfig 1 CreateReturns (stopAllReconnections stoppingAB)
       = Some w'
       /\ pendingAttempts guildA w' = [y]
       /\ cb y = CbReconnect guildA "connection_lost" paramsA l
       /\ getReconnectionStatus defaultConfig guildA w' = (true, 1, 10).
Proof.
  apply (pending_retry_survives_stopAllReconnections defaultConfig stoppingAB
           (mkTimer 1 1000 16000 (CbRetry guildA "connection_lost" paramsA))
           guildA "connection_lost" paramsA CreateReturns).
  - apply consistent_run, consistent_empty.
  - simpl. lia.
  - vm_compute. apply list_elem_of_In. left. reflexivity.
  - reflexivity.
Defined.
(** ** Guilds do not disturb each other *)

Lemma filter_dropped (f : Timer -> bool) (P : Timer -> Prop)
    `{forall x, Decision (P x)} (ts : list Timer) :
  (forall x, x ∈ ts -> ~ P x -> f x = false) ->
  List.filter f (filter P ts) = List.filter f ts.
Proof.
  induction ts as [|x ts IH]; [done|]. intros Hall.
  rewrite filter_cons. simpl.
  assert (IH' : List.filter f (filter P ts) = List.filter f ts)
    by (apply IH; intros y Hy; apply Hall; by right).
  destruct (decide (P x)) as [HP|HP]; simpl; rewrite IH'; [done|].
  by rewrite (Hall x) by (done || left).
Qed.

Lemma view_heap_other cfg g g' l' st w w' :
  Consistent cfg w -> g ≠ g' ->
  reconnectionStates w !! g' = Some l' ->
  reconnectionStates w' = reconnectionStates w ->
  heap w' = <[l' := st]> (heap w) ->
  getState g w' = getState g w.
Proof.
  intros HC Hne Hg' Hs Hh. unfold getState. rewrite Hs, Hh.
  destruct (reconnectionStates w !! g) as [l|] eqn:E; [|done].
  rewrite lookup_insert_ne; [done|]. intros <-.
  by apply Hne, (states_inj _ _ _ _ _ HC g g' l').
Qed.

(** Clearing the handle stored in the state object of [g'] removes no
    attempt of another guild. *)
Lemma attempts_clear_other cfg g g' l' st w :
  Consistent cfg w -> g ≠ g' ->
  reconnectionStates w !! g' = Some l' ->
  heap w !! l' = Some st ->
  List.filter (isAttemptFor g) (pendingAfterClear st w)
  = pendingAttempts g w.
Proof.
  intros HC Hne Hg' Hl'. unfold pendingAfterClear, pendingAttempts.
  destruct (timer st) as [t|] eqn:Et; [|done].
  apply filter_dropped. intros x Hx Hid.
  assert (E : tid x = t) by (destruct (decide (tid x = t)); done).
  subst t.
  destruct (stored_attempt _ _ _ _ _ HC l' st x Hl' Et Hx) as (gx & r & p & Hcb).
  destruct (attempt_owned _ _ _ _ _ HC x gx r p l' Hx Hcb) as (Hgx & _).
  unfold isAttemptFor. rewrite Hcb. apply String.eqb_neq. intros ->.
  by apply Hne, (states_inj _ _ _ _ _ HC g g' l').
Qed.

Lemma view_initializeState cfg g g' w :
  Consistent cfg w -> g ≠ g' ->
  guildView g (initializeState cfg g' w) = guildView g w.
Proof.
  intros HC Hne. unfold initializeState.
  destruct (reconnectionStates w !! g') eqn:E; [done|].
  unfold guildView, pendingAttempts, getState. simpl.
  rewrite lookup_insert_ne by done.
  destruct (reconnectionStates w !! g) as [l|] eqn:El; [|done].
  destruct (states_alive _ _ _ _ _ HC g l El) as [st Hst].
  rewrite lookup_insert_ne; [done|]. intros <-.
  pose proof (is_fresh (dom (heap w))) as Hf.
  apply Hf, elem_of_dom. by exists st.
Qed.

Lemma view_scheduleAttempt cfg g g' reason params l' st w :
  Consistent cfg w -> g ≠ g' ->
  reconnectionStates w !! g' = Some l' ->
  heap w !! l' = Some st ->
  guildView g (scheduleAttempt cfg g' reason params l' st w) = guildView g w.
Proof.
  intros HC Hne Hg' Hl'. unfold guildView. f_equal.
  - eapply view_heap_other;
      [exact HC | exact Hne | exact Hg' | apply scheduleAttempt_states
      | apply scheduleAttempt_heap].
  - unfold pendingAttempts at 1. rewrite scheduleAttempt_timers, List.filter_app.
    rewrite (attempts_clear_other cfg g g' l' st w); try done.
    simpl. unfold isAttemptFor at 1. simpl.
    destruct (String.eqb_spec g' g) as [E|_]; [by subst|].
    by rewrite app_nil_r.
Qed.

Lemma view_attemptReconnection cfg g g' reason params w :
  Consistent cfg w -> g ≠ g' ->
  guildView g (attemptReconnection cfg g' reason params w) = guildView g w.
Proof.
  intros HC Hne. rewrite attemptReconnection_unfold.
  pose proof (consistent_initializeState cfg g' w HC) as Hi.
  pose proof (view_initializeState cfg g g' w HC Hne) as Hv.
  destruct (getState g' (initializeState cfg g' w)) as [[l st]|] eqn:E; [|done].
  destruct (isReconnecting st); [done|].
  destruct (retryCount st >=? maxRetries cfg); [done|].
  apply getState_Some in E as [El Es].
  by rewrite (view_scheduleAttempt cfg g g' reason params l st _ Hi Hne El Es).
Qed.

Lemma view_resetState cfg g g' w :
  Consistent cfg w -> g ≠ g' -> guildView g (resetState g' w) = guildView g w.
Proof.
  intros HC Hne. unfold resetState.
  destruct (getState g' w) as [[l st]|] eqn:E; [|done].
  apply getState_Some in E as [El Es].
  pose proof (attempts_clear_other cfg g g' l st w HC Hne El Es) as Ha.
  unfold guildView, getState, pendingAttempts, pendingAfterClear in *.
  destruct (timer st); simpl; rewrite lookup_delete_ne by done; by rewrite ?Ha.
Qed.

Lemma view_writeState cfg g g' l' st w :
  Consistent cfg w -> g ≠ g' ->
  reconnectionStates w !! g' = Some l' ->
  guildView g (writeState l' st w) = guildView g w.
Proof.
  intros HC Hne Hg'. unfold guildView. f_equal.
  by apply (view_heap_other cfg g g' l' st w).
Qed.

Lemma view_setTimeout g c d w :
  isAttemptFor g (mkTimer 0 0 0 c) = false ->
  guildView g (snd (setTimeout c d w)) = guildView g w.
Proof.
  intros Hc. unfold guildView, pendingAttempts. simpl.
  rewrite List.filter_app. simpl.
  unfold isAttemptFor in *. simpl in *. by rewrite Hc, app_nil_r.
Qed.

Lemma view_clearTimeout cfg g g' x w :
  Consistent cfg w -> g ≠ g' ->
  x ∈ timers w -> callbackGuild (cb x) = g' ->
  guildView g (clearTimeout (tid x) w) = guildView g w.
Proof.
  intros HC Hne Hx Hg'. unfold guildView, pendingAttempts. simpl. f_equal.
  apply filter_dropped. intros y Hy Hid.
  assert (E : tid y = tid x) by (destruct (decide (tid y = tid x)); done).
  assert (y = x) as ->.
  { pose proof (handles_nodup _ _ _ _ _ HC) as Hn.
    apply list_elem_of_lookup in Hx as [i Hi].
    apply list_elem_of_lookup in Hy as [j Hj].
    assert (i = j) as ->; [|congruence].
    apply (NoDup_lookup _ i j (tid x) Hn); rewrite list_lookup_fmap.
    - by rewrite Hi.
    - by rewrite Hj, <- E. }
  unfold isAttemptFor. unfold callbackGuild in Hg'.
  destruct (cb x); try done. apply String.eqb_neq. congruence.
Qed.
Lemma view_runCallback cfg g g' c o w :
  Consistent cfg w -> g ≠ g' ->
  callbackGuild c = g' ->
  match c with
  | CbReconnect _ _ _ l => reconnectionStates w !! g' = Some l
  | _ => True
  end ->
  guildView g (runCallback cfg c o w) = guildView g w.
Proof.
  intros HC Hne Hg Hl.
  destruct c as [g0 reason params l|g0 reason params|g0]; simpl in *; subst g0.
  - unfold reconnectCallback, performReconnection.
    destruct (getState g' w) as [[l' st']|].
    + set (w3 := recordCall _ _).
      assert (H3 : Consistent cfg w3 /\ guildView g w3 = guildView g w
                   /\ reconnectionStates w3 !! g' = Some l).
      { unfold w3. by destruct (rustplusInstances _ !! g'). }
      destruct H3 as (HC3 & Hv3 & Hl3).
      destruct o; [done|].
      destruct (heap _ !! l) as [st|] eqn:El; [|done].
      set (w4 := writeState l _ _).
      assert (H4 : guildView g w4 = guildView g w).
      { unfold w4. by rewrite (view_writeState cfg g g' l). }
      destruct (_ <? _); [|done]. by rewrite view_setTimeout.
    + destruct (heap _ !! l) as [st|] eqn:El; [|done].
      set (w4 := writeState l _ _).
      assert (H4 : guildView g w4 = guildView g w).
      { unfold w4. by rewrite (view_writeState cfg g g' l). }
      destruct (_ <? _); [|done]. by rewrite view_setTimeout.
  - by apply view_attemptReconnection.
  - unfold resetCounterCallback.
    destruct (getState g' w) as [[l st]|] eqn:E; [|done].
    apply getState_Some in E as [El Es].
    by apply (view_writeState cfg g g' l).
Qed.

Lemma findTimer_Some t w x :
  findTimer t w = Some x -> x ∈ timers w /\ tid x = t.
Proof.
  unfold findTimer. intros H. apply find_some in H as [Hin Heq].
  split; [by apply list_elem_of_In|]. by apply Nat.eqb_eq.
Qed.

Lemma view_status cfg g w w' :
  guildView g w' = guildView g w ->
  getReconnectionStatus cfg g w' = getReconnectionStatus cfg g w.
Proof. unfold guildView, getReconnectionStatus. by intros [= -> _]. Qed.

Lemma view_step cfg g g' w e :
  Consistent cfg w -> eventGuild w e = Some g' -> g ≠ g' ->
  guildView g (step cfg w e) = guildView g w.
Proof.
  intros HC He Hne.
  destruct e as [g0 reason params|t o|t|g0|g0|g0|g0 reason|]; simpl in *;
    try discriminate; try (injection He as ->).
  - by apply view_attemptReconnection.
  - unfold fireTimer. destruct (findTimer t w) as [x|] eqn:E; [|done].
    simpl in *. injection He as He.
    apply findTimer_Some in E as [Hx <-].
    pose proof (view_clearTimeout cfg g g' x w HC Hne Hx He) as Hc.
    transitivity (guildView g (set_now (Z.max (now w) (due x))
                                 (clearTimeout (tid x) w))); [|exact Hc].
    apply (view_runCallback cfg g g'); try done.
    + exact (consistent_clearTimeout cfg (tid x) w HC).
    + destruct (cb x) as [g0 r p l| |] eqn:Hcb; [|done|done].
      simpl in He. subst g0.
      by destruct (attempt_owned _ _ _ _ _ HC x g' r p l Hx Hcb).
  - by apply (view_resetState cfg).
  - unfold markSuccessfulConnection. by rewrite view_setTimeout.
  - unfold handleSuccessfulReconnection.
    destruct (getState g' w) as [[l st]|] eqn:E; [|done].
    apply getState_Some in E as [El Es].
    unfold markSuccessfulConnection. rewrite view_setTimeout by done.
    exact (view_writeState cfg g g' l (stopReconnecting st)
             (clientLog infoCap (MsgReconnectionSuccessful g' (retryCount st)) w)
             HC Hne El).
  - unfold handleFailedReconnection.
    destruct (getState g' w) as [[l st]|] eqn:E; [|done].
    apply getState_Some in E as [El Es].
    exact (view_writeState cfg g g' l (stopReconnecting st) w HC Hne El).
Qed.

(** X5: a step made for one guild (a request, a reset, a success or failure
    report, or one of its timers firing) leaves every other guild as it was:
    the same state object with the same contents, the same pending attempts
    and the same reported status. *)
Theorem steps_of_a_guild_leave_the_others
    (cfg : Config) (w : World) (e : Event) (g g' : GuildId) :
  Consistent cfg w ->
  eventGuild w e = Some g' ->
  g ≠ g' ->
  getState g (step cfg w e) = getState g w
  /\ pendingAttempts g (step cfg w e) = pendingAttempts g w
  /\ getReconnectionStatus cfg g (step cfg w e)
     = getReconnectionStatus cfg g w.
Proof.
  intros HC He Hne.
  pose proof (view_step cfg g g' w e HC He Hne) as Hv.
  split; [|split].
  - by injection Hv.
  - by injection Hv.
  - by apply view_status.
Qed.
Lemma steps_of_a_guild_leave_the_others_witness :
  let e := EvFire 2 CreateThrows in
  eventGuild stoppingAB e = Some guildB
  /\ getState guildA (step defaultConfig stoppingAB e)
     = getState guildA stoppingAB
  /\ pendingAttempts guildA (step defaultConfig stoppingAB e)
     = pendingAttempts guildA stoppingAB
  /\ getReconnectionStatus defaultConfig guildA (step defaultConfig stoppingAB e)
     = getReconnectionStatus defaultConfig guildA stoppingAB.
Proof.
  split; [reflexivity|].
  apply (steps_of_a_guild_leave_the_others defaultConfig stoppingAB
           (EvFire 2 CreateThrows) guildA guildB).
  - apply consistent_run, consistent_empty.
  - reflexivity.
  - discriminate.
Defined.

(** ** Exhausted episodes in arbitrary runs *)

Lemma failed_log g w w' :
  log w' = log w -> failedAttemptsLogged g w' = failedAttemptsLogged g w.
Proof. unfold failedAttemptsLogged. by intros ->. Qed.

Lemma failed_initializeState cfg g g' w :
  failedAttemptsLogged g (initializeState cfg g' w) = failedAttemptsLogged g w.
Proof. apply failed_log, log_initializeState. Qed.

Lemma failed_scheduleAttempt cfg g g' reason params l st w :
  failedAttemptsLogged g (scheduleAttempt cfg g' reason params l st w)
  = failedAttemptsLogged g w.
Proof.
  unfold failedAttemptsLogged, scheduleAttempt, mathRandom.
  destruct (rand w), (String.eqb reason serverRestartDetected), (timer st);
    reflexivity.
Qed.

Lemma failed_attemptReconnection cfg g g' reason params w :
  failedAttemptsLogged g (attemptReconnection cfg g' reason params w)
  = failedAttemptsLogged g w.
Proof.
  rewrite attemptReconnection_unfold.
  destruct (getState g' (initializeState cfg g' w)) as [[l st]|].
  - destruct (isReconnecting st);
      [|destruct (retryCount st >=? maxRetries cfg)].
    + apply failed_initializeState.
    + apply failed_initializeState.
    + rewrite failed_scheduleAttempt. apply failed_initializeState.
  - apply failed_initializeState.
Qed.

Lemma failed_reconnectCallback cfg g g' reason params l o w :
  (failedAttemptsLogged g (reconnectCallback cfg g' reason params l o w)
   <= failedAttemptsLogged g w + 1)%nat
  /\ (g' ≠ g ->
      failedAttemptsLogged g (reconnectCallback cfg g' reason params l o w)
      = failedAttemptsLogged g w).
Proof.
  unfold failedAttemptsLogged, reconnectCallback, performReconnection.
  destruct (String.eqb_spec g' g) as [->|Hne].
  - split; [|done].
    destruct (getState g w) as [[l' st']|];
      [destruct (rustplusInstances _ !! g), o|];
      simpl; destruct (heap w !! l) as [st|]; simpl;
      try destruct (retryCount st <? maxRetries cfg); simpl;
      rewrite ?String.eqb_refl; simpl; lia.
  - assert (E : String.eqb g' g = false) by by apply String.eqb_neq.
    destruct (getState g' w) as [[l' st']|];
      [destruct (rustplusInstances _ !! g'), o|];
      simpl; destruct (heap w !! l) as [st|]; simpl;
      try destruct (retryCount st <? maxRetries cfg); simpl;
      rewrite ?E; simpl; split; (lia || done).
Qed.

Lemma failed_runCallback cfg g c o w :
  (failedAttemptsLogged g (runCallback cfg c o w)
   <= failedAttemptsLogged g w + 1)%nat
  /\ ((forall r p l, c ≠ CbReconnect g r p l) ->
      failedAttemptsLogged g (runCallback cfg c o w)
      = failedAttemptsLogged g w).
Proof.
  destruct c as [g' reason params l|g' reason params|g']; simpl.
  - destruct (failed_reconnectCallback cfg g g' reason params l o w) as [H1 H2].
    split; [exact H1|]. intros Hc. apply H2. intros ->. by eapply Hc.
  - rewrite failed_attemptReconnection. split; [lia|done].
  - unfold resetCounterCallback.
    destruct (getState g' w) as [[l st]|]; (split; [|done]); simpl;
      unfold failedAttemptsLogged; simpl; lia.
Qed.

Lemma settled_view g w w' :
  guildView g w' = guildView g w ->
  failedAttemptsLogged g w' = failedAttemptsLogged g w ->
  attemptsSettled g w' = attemptsSettled g w.
Proof.
  unfold guildView, attemptsSettled, retryCountOf.
  by intros [= -> ->] ->.
Qed.

Lemma filter_filter_length (f : Timer -> bool) (P : Timer -> Prop)
    `{forall x, Decision (P x)} (ts : list Timer) :
  (length (List.filter f (filter P ts)) <= length (List.filter f ts))%nat.
Proof.
  induction ts as [|x ts IH]; [done|].
  rewrite filter_cons. simpl.
  destruct (decide (P x)); simpl; destruct (f x); simpl; lia.
Qed.

Lemma filter_fired_length (f : Timer -> bool) (x : Timer) (ts : list Timer) :
  x ∈ ts -> f x = true ->
  (length (List.filter f (filter (fun y => tid y ≠ tid x) ts))
   < length (List.filter f ts))%nat.
Proof.
  induction ts as [|y ts IH]; [by intros ?%elem_of_nil|].
  intros Hin Hf. rewrite filter_cons. simpl.
  pose proof (filter_filter_length f (fun y => tid y ≠ tid x) ts) as Hle.
  apply elem_of_cons in Hin as [<-|Hin].
  - destruct (decide (tid x ≠ tid x)); [done|]. rewrite Hf. simpl. lia.
  - specialize (IH Hin Hf).
    destruct (decide (tid y ≠ tid x)); simpl; destruct (f y); simpl; lia.
Qed.

Lemma retryCountOf_initializeState cfg g w :
  retryCountOf g (initializeState cfg g w) = retryCountOf g w.
Proof.
  unfold retryCountOf.
  destruct (reconnectionStates w !! g) as [l|] eqn:E.
  - by rewrite (initializeState_known _ _ _ _ E).
  - rewrite (getState_initializeState_new _ _ _ E).
    unfold getState. by rewrite E.
Qed.

(** A request of the guild itself. *)
Lemma settled_attemptReconnection cfg g reason params w :
  attemptsSettled g w
  <= attemptsSettled g (attemptReconnection cfg g reason params w).
Proof.
  unfold attemptsSettled. rewrite failed_attemptReconnection.
  pose proof (retryCountOf_initializeState cfg g w) as Hrc.
  destruct (initializeState_frame cfg g w) as (_ & _ & _ & Ht).
  rewrite attemptReconnection_unfold.
  set (w0 := initializeState cfg g w) in *.
  assert (Hp : pendingAttempts g w0 = pendingAttempts g w)
    by (unfold pendingAttempts; by rewrite Ht).
  destruct (getState g w0) as [[l st]|] eqn:E.
  - assert (Hst : retryCountOf g w0 = retryCount st)
      by (unfold retryCountOf; by rewrite E).
    destruct (isReconnecting st);
      [|destruct (retryCount st >=? maxRetries cfg)].
    + change (retryCountOf g w - Z.of_nat (length (pendingAttempts g w))
              - Z.of_nat (failedAttemptsLogged g w)
              <= retryCountOf g w0 - Z.of_nat (length (pendingAttempts g w0))
                 - Z.of_nat (failedAttemptsLogged g w)).
      rewrite Hrc, Hp. lia.
    + change (retryCountOf g w - Z.of_nat (length (pendingAttempts g w))
              - Z.of_nat (failedAttemptsLogged g w)
              <= retryCountOf g w0 - Z.of_nat (length (pendingAttempts g w0))
                 - Z.of_nat (failedAttemptsLogged g w)).
      rewrite Hrc, Hp. lia.
    + apply getState_Some in E as [El Es].
      assert (Hrc' : retryCountOf g (scheduleAttempt cfg g reason params l st w0)
                     = retryCount st + 1).
      { unfold retryCountOf, getState.
        by rewrite scheduleAttempt_states, scheduleAttempt_heap, El,
          lookup_insert_eq. }
      rewrite Hrc'. unfold pendingAttempts at 2.
      rewrite scheduleAttempt_timers, List.filter_app, length_app.
      pose proof (filter_filter_length (isAttemptFor g)
                    (fun x => tid x ≠ default 0%nat (timer st)) (timers w0)) as Hle.
      assert (Hle' : (length (List.filter (isAttemptFor g)
                                (pendingAfterClear st w0))
                      <= length (pendingAttempts g w))%nat).
      { rewrite <- Hp. unfold pendingAfterClear, pendingAttempts.
        destruct (timer st); [apply filter_filter_length|lia]. }
      simpl. unfold isAttemptFor at 2. simpl. rewrite String.eqb_refl. simpl.
      rewrite <- Hrc, Hst. lia.
  - unfold retryCountOf in *. rewrite E in Hrc. rewrite E, Hp. lia.
Qed.

Lemma log_resetState g w : log (resetState g w) = log w.
Proof.
  unfold resetState. destruct (getState g w) as [[l st]|]; [|done].
  by destruct (timer st).
Qed.

Lemma failed_step_other cfg g g' w e :
  eventGuild w e = Some g' -> g' ≠ g ->
  failedAttemptsLogged g (step cfg w e) = failedAttemptsLogged g w.
Proof.
  intros He Hne.
  destruct e as [g0 reason params|t o|t|g0|g0|g0|g0 reason|]; simpl in *;
    try discriminate; try (injection He as ->).
  - apply failed_attemptReconnection.
  - unfold fireTimer. destruct (findTimer t w) as [x|] eqn:E; [|done].
    simpl in *. injection He as He.
    destruct (failed_runCallback cfg g (cb x) o
                (set_now (Z.max (now w) (due x)) (clearTimeout t w)))
      as [_ ->]; [done|].
    intros r p l Hcb. rewrite Hcb in He. simpl in He. by subst.
  - apply failed_log, log_resetState.
  - done.
  - unfold handleSuccessfulReconnection.
    by destruct (getState g' w) as [[l st]|].
  - unfold handleFailedReconnection.
    by destruct (getState g' w) as [[l st]|].
Qed.

Lemma retryCountOf_stop g l st w :
  heap w !! l = Some st ->
  retryCountOf g (writeState l (stopReconnecting st) w) = retryCountOf g w.
Proof.
  intros Hl. unfold retryCountOf, getState. simpl.
  destruct (reconnectionStates w !! g) as [l1|]; [|done].
  destruct (decide (l1 = l)) as [->|Hne].
  - by rewrite lookup_insert_eq, Hl.
  - by rewrite lookup_insert_ne.
Qed.

Lemma retryCountOf_reconnectCallback cfg g g' reason params l o w :
  retryCountOf g (reconnectCallback cfg g' reason params l o w)
  = retryCountOf g w
  /\ pendingAttempts g (reconnectCallback cfg g' reason params l o w)
     = pendingAttempts g w.
Proof.
  unfold reconnectCallback, performReconnection.
  destruct (getState g' w) as [[l' st']|].
  - set (w3 := recordCall _ _).
    assert (H3 : retryCountOf g w3 = retryCountOf g w
                 /\ pendingAttempts g w3 = pendingAttempts g w
                 /\ heap w3 = heap w).
    { unfold w3. by destruct (rustplusInstances _ !! g'). }
    destruct H3 as (Hr3 & Hp3 & Hh3). clearbody w3.
    destruct o; [done|].
    change (heap (clientLog errorCap (MsgAttemptFailed g') w3)) with (heap w3).
    destruct (heap w3 !! l) as [st|] eqn:El; [|done].
    set (w4 := writeState l _ _).
    assert (H4 : retryCountOf g w4 = retryCountOf g w
                 /\ pendingAttempts g w4 = pendingAttempts g w).
    { unfold w4. rewrite retryCountOf_stop by done. done. }
    destruct H4 as [Hr4 Hp4]. clearbody w4.
    destruct (_ <? _); [|done].
    split; [by rewrite <- Hr4|].
    rewrite <- Hp4. unfold pendingAttempts. simpl.
    rewrite List.filter_app. simpl. by rewrite app_nil_r.
  - change (heap (clientLog errorCap (MsgAttemptFailed g') w)) with (heap w).
    destruct (heap w !! l) as [st|] eqn:El; [|done].
    set (w4 := writeState l _ _).
    assert (H4 : retryCountOf g w4 = retryCountOf g w
                 /\ pendingAttempts g w4 = pendingAttempts g w).
    { unfold w4. rewrite retryCountOf_stop by done. done. }
    destruct H4 as [Hr4 Hp4]. clearbody w4.
    destruct (_ <? _); [|done].
    split; [by rewrite <- Hr4|].
    rewrite <- Hp4. unfold pendingAttempts. simpl.
    rewrite List.filter_app. simpl. by rewrite app_nil_r.
Qed.

Lemma settled_clear g t v w :
  retryCountOf g (set_now v (clearTimeout t w)) = retryCountOf g w
  /\ (length (pendingAttempts g (set_now v (clearTimeout t w)))
      <= length (pendingAttempts g w))%nat
  /\ failedAttemptsLogged g (set_now v (clearTimeout t w))
     = failedAttemptsLogged g w.
Proof.
  split; [done|]. split; [|done].
  apply filter_filter_length.
Qed.

(** No step but the three that start the count anew lets an accepted
    attempt go unaccounted. *)
Lemma settled_step cfg g w e :
  Consistent cfg w -> resetsCount g w e = false ->
  attemptsSettled g w <= attemptsSettled g (step cfg w e).
Proof.
  intros HC Hk.
  destruct (eventGuild w e) as [g'|] eqn:He.
  - destruct (decide (g' = g)) as [->|Hne].
    + destruct e as [g0 reason params|t o|t|g0|g0|g0|g0 reason|]; simpl in *;
        try discriminate; try (injection He as ->).
      * apply settled_attemptReconnection.
      * unfold fireTimer. destruct (findTimer t w) as [x|] eqn:E; [|done].
        simpl in *. injection He as He.
        apply findTimer_Some in E as [Hx <-].
        destruct (settled_clear g (tid x) (Z.max (now w) (due x)) w)
          as (Hr0 & Hp0 & Hf0).
        set (w0 := set_now _ _) in *.
        destruct (cb x) as [g0 r p l|g0 r p|g0] eqn:Hcb; simpl in He; subst g0.
        -- simpl.
           destruct (retryCountOf_reconnectCallback cfg g g r p l o w0)
             as [Hr Hp].
           destruct (failed_reconnectCallback cfg g g r p l o w0) as [Hf _].
           assert (Hlt : (length (pendingAttempts g w0)
                          < length (pendingAttempts g w))%nat).
           { apply (filter_fired_length (isAttemptFor g) x); [done|].
             unfold isAttemptFor. by rewrite Hcb, String.eqb_refl. }
           unfold attemptsSettled. rewrite Hr, Hp, Hr0. lia.
        -- simpl.
           etransitivity; [|apply settled_attemptReconnection].
           unfold attemptsSettled. rewrite Hr0, Hf0. lia.
        -- by rewrite String.eqb_refl in Hk.
      * by rewrite String.eqb_refl in Hk.
      * apply Z.eq_le_incl. symmetry. apply settled_view; [|done].
        unfold markSuccessfulConnection. by rewrite view_setTimeout.
      * unfold handleSuccessfulReconnection.
        destruct (getState g w) as [[l st]|] eqn:E; [|done].
        apply getState_Some in E as [El Es].
        unfold markSuccessfulConnection, attemptsSettled.
        set (w2 := writeState l _ _).
        assert (H2 : retryCountOf g w2 = retryCountOf g w
                     /\ pendingAttempts g w2 = pendingAttempts g w
                     /\ failedAttemptsLogged g w2 = failedAttemptsLogged g w).
        { unfold w2. split; [|done].
          exact (retryCountOf_stop g l st
                   (clientLog infoCap
                      (MsgReconnectionSuccessful g (retryCount st)) w) Es). }
        destruct H2 as (Hr & Hp & Hf). clearbody w2.
        set (w3 := snd (setTimeout _ _ _)).
        assert (H3 : retryCountOf g w3 = retryCountOf g w2
                     /\ pendingAttempts g w3 = pendingAttempts g w2
                     /\ failedAttemptsLogged g w3 = failedAttemptsLogged g w2).
        { unfold w3. split; [done|]. split; [|done].
          unfold pendingAttempts. simpl.
          rewrite List.filter_app. simpl. by rewrite app_nil_r. }
        destruct H3 as (Hr3 & Hp3 & Hf3). rewrite Hr3, Hp3, Hf3, Hr, Hp, Hf. lia.
      * unfold handleFailedReconnection.
        destruct (getState g w) as [[l st]|] eqn:E; [|done].
        apply getState_Some in E as [El Es].
        unfold attemptsSettled.
        change (retryCountOf g w - Z.of_nat (length (pendingAttempts g w))
                - Z.of_nat (failedAttemptsLogged g w)
                <= retryCountOf g (writeState l (stopReconnecting st) w)
                   - Z.of_nat (length (pendingAttempts g w))
                   - Z.of_nat (failedAttemptsLogged g w)).
        rewrite (retryCountOf_stop g l st w Es). lia.
    + rewrite (settled_view g w (step cfg w e)); [done| |].
      * apply (view_step cfg g g'); [done|done|]. by intros ->.
      * by apply (failed_step_other cfg g g').
  - destruct e as [g0 reason params|t o|t|g0|g0|g0|g0 reason|]; simpl in *;
      try discriminate.
    + unfold fireTimer. by destruct (findTimer t w).
    + unfold advanceClock. by destruct (_ && _).
Qed.

Lemma settled_run cfg g es : forall w,
  Consistent cfg w -> countKept cfg g es w = true ->
  attemptsSettled g w <= attemptsSettled g (run cfg es w).
Proof.
  induction es as [|e es IH]; intros w HC Hk; simpl in *; [lia|].
  apply andb_true_iff in Hk as [Hk1 Hk2].
  apply negb_true_iff in Hk1.
  etransitivity; [apply (settled_step cfg g w e HC Hk1)|].
  apply IH; [by apply consistent_step|done].
Qed.

Lemma failed_runCallback_mono cfg g c o w :
  (failedAttemptsLogged g w
   <= failedAttemptsLogged g (runCallback cfg c o w))%nat.
Proof.
  destruct c as [g' reason params l|g' reason params|g']; simpl.
  - unfold failedAttemptsLogged, reconnectCallback, performReconnection.
    destruct (getState g' w) as [[l' st']|];
      [destruct (rustplusInstances _ !! g'), o|];
      simpl; destruct (heap w !! l) as [st|]; simpl;
      try destruct (retryCount st <? maxRetries cfg); simpl;
      destruct (String.eqb g' g); simpl; lia.
  - by rewrite failed_attemptReconnection.
  - unfold resetCounterCallback.
    destruct (getState g' w) as [[l st]|]; unfold failedAttemptsLogged; simpl; lia.
Qed.

Lemma failed_step_mono cfg g w e :
  (failedAttemptsLogged g w <= failedAttemptsLogged g (step cfg w e))%nat.
Proof.
  destruct e as [g0 reason params|t o|t|g0|g0|g0|g0 reason|]; simpl.
  - by rewrite failed_attemptReconnection.
  - unfold fireTimer. destruct (findTimer t w) as [x|]; [|done]. simpl.
    apply (failed_runCallback_mono cfg g (cb x) o
             (set_now (Z.max (now w) (due x)) (clearTimeout t w))).
  - unfold advanceClock. by destruct (_ && _).
  - by rewrite (failed_log g w (resetState g0 w) (log_resetState g0 w)).
  - done.
  - unfold handleSuccessfulReconnection.
    destruct (getState g0 w) as [[l st]|]; unfold failedAttemptsLogged; simpl; lia.
  - unfold handleFailedReconnection.
    destruct (getState g0 w) as [[l st]|]; unfold failedAttemptsLogged; simpl; lia.
  - destruct (stopAll_fields w) as (_ & _ & _ & _ & _ & _ & Hl & _).
    cbv zeta in Hl. by rewrite (failed_log g w _ Hl).
Qed.

Lemma failed_run_mono cfg g es : forall w,
  (failedAttemptsLogged g w <= failedAttemptsLogged g (run cfg es w))%nat.
Proof.
  induction es as [|e es IH]; intros w; simpl; [done|].
  etransitivity; [apply (failed_step_mono cfg g w e)|apply IH].
Qed.

Lemma run_app cfg es es' w :
  run cfg (es ++ es') w = run cfg es' (run cfg es w).
Proof. apply fold_left_app. Qed.

Lemma retryCountOf_consistent cfg g w :
  0 <= maxRetries cfg -> Consistent cfg w ->
  0 <= retryCountOf g w <= maxRetries cfg.
Proof.
  intros Hm HC. unfold retryCountOf.
  destruct (getState g w) as [[l st]|] eqn:E; [|lia].
  apply getState_Some in E as [_ Es].
  exact (counts_bounded _ _ _ _ _ HC l st Hm Es).
Qed.

(** Once [maxRetries] attempts have failed, the count stands at the
    ceiling. *)
Lemma failures_exhaust cfg g es w :
  0 <= maxRetries cfg -> Consistent cfg w -> pendingAttempts g w = [] ->
  countKept cfg g es w = true ->
  Z.of_nat (failedAttemptsLogged g w) + maxRetries cfg
  <= Z.of_nat (failedAttemptsLogged g (run cfg es w)) ->
  retryCountOf g (run cfg es w) = maxRetries cfg.
Proof.
  intros Hm HC Hp Hk Hf.
  pose proof (settled_run cfg g es w HC Hk) as Hs.
  pose proof (retryCountOf_consistent cfg g w Hm HC) as H0.
  pose proof (retryCountOf_consistent cfg g _ Hm (consistent_run cfg es w HC))
    as H1.
  unfold attemptsSettled in Hs. rewrite Hp in Hs. simpl in Hs. lia.
Qed.

Lemma exhausted_request cfg g reason params w :
  1 <= maxRetries cfg ->
  retryCountOf g w = maxRetries cfg ->
  eraseLog (attemptReconnection cfg g reason params w) = eraseLog w.
Proof.
  intros Hm Hr. unfold retryCountOf in Hr.
  destruct (getState g w) as [[l st]|] eqn:E; [|lia].
  apply getState_Some in E as [El Es].
  rewrite (attemptReconnection_rejected cfg g reason params w l st El Es)
    by lia.
  by destruct (isReconnecting st).
Qed.

Lemma request_after_resetState cfg g reason params w :
  1 <= maxRetries cfg -> Consistent cfg w ->
  getReconnectionStatus cfg g
    (attemptReconnection cfg g reason params (resetState g w))
  = (true, 1, maxRetries cfg).
Proof.
  intros Hm HC.
  assert (Hs : reconnectionStates (resetState g w) !! g = None).
  { unfold resetState.
    destruct (getState g w) as [[l st]|] eqn:E.
    - destruct (timer st); simpl; apply lookup_delete_eq.
    - unfold getState in E.
      destruct (reconnectionStates w !! g) as [l|] eqn:El; [|done].
      destruct (states_alive _ _ _ _ _ HC g l El) as [st Hst].
      by rewrite Hst in E. }
  set (w1 := resetState g w) in *. clearbody w1.
  rewrite attemptReconnection_unfold, (getState_initializeState_new _ _ _ Hs).
  simpl. destruct (Z.geb_spec 0 (maxRetries cfg)) as [|_]; [lia|].
  unfold getReconnectionStatus, getState.
  rewrite scheduleAttempt_states, scheduleAttempt_heap.
  rewrite (initializeState_new _ _ _ Hs). simpl.
  by rewrite !lookup_insert_eq.
Qed.

(** C1 fails as stated.  With a ceiling of three attempts: the stability
    window opened by a success ends while the third attempt of the next episode is pending
    and sets the retry count to 0; the attempt fails, and so does the one
    after it, so that three attempts have failed in a row; no
    [resetState] has been called, and the next request is accepted, as
    attempt 2 of 3. *)
Lemma stability_window_reopens_exhausted_episode :
  exists w0 w,
    lostAgainA = Some w0
    /\ threeFailuresA = Some w
    /\ maxRetries threeRetries = 3
    /\ rev (log w)
       = (rev (log w0)
          ++ [(infoCap, MsgAttempting 2 3 guildA "connection_lost" 30);
              (infoCap, MsgExecuting 2 guildA);
              (errorCap, MsgAttemptFailed guildA);
              (infoCap, MsgAttempting 3 3 guildA "connection_lost" 60);
              (infoCap, MsgRetryCounterReset guildA);
              (infoCap, MsgExecuting 0 guildA);
              (errorCap, MsgAttemptFailed guildA);
              (infoCap, MsgAttempting 1 3 guildA "connection_lost" 15);
              (infoCap, MsgExecuting 1 guildA);
              (errorCap, MsgAttemptFailed guildA)])%list
    /\ reconnectionStates w = reconnectionStates w0
    /\ fst (shouldAttemptReconnection threeRetries guildA "connection_lost" w)
       = true
    /\ getReconnectionStatus threeRetries guildA
         (attemptReconnection threeRetries guildA "connection_lost" paramsA w)
       = (true, 2, 3).
Proof.
  destruct lostAgainA as [w0|] eqn:E0; [|vm_compute in E0; discriminate].
  destruct threeFailuresA as [w|] eqn:E; [|vm_compute in E; discriminate].
  exists w0, w. split; [done|]. split; [done|].
  vm_compute in E0. injection E0 as <-.
  vm_compute in E. injection E as <-.
  vm_compute. repeat split.
Qed.

(** C1, as the code has it: a request for a guild that is reconnecting, or
    whose retry count has reached [maxRetries], changes nothing but the
    log: no phase change, no increment, no timer.  Once [maxRetries]
    attempts of the guild have failed since a moment at which none was
    pending, its retry count stands at [maxRetries] and every further
    request is rejected, as long as no step starts the count anew:
    [resetState] for the guild, [stopAllReconnections], or the timer of a
    stability window of the guild firing; after [resetState] the next
    request is accepted.  From a guild without episode and a world without
    timers, a request followed by [maxRetries] failed attempts ends in that
    situation; for every ceiling [maxRetries >= 1], so for 1, 3 and 10. *)
Theorem reconnection_rejected_when_reconnecting_or_exhausted
    (cfg : Config) (g : GuildId) :
  (forall reason params w l st,
     reconnectionStates w !! g = Some l ->
     heap w !! l = Some st ->
     isReconnecting st = true \/ maxRetries cfg <= retryCount st ->
     attemptReconnection cfg g reason params w
     = (if isReconnecting st
        then clientLog warningCap (MsgAlreadyInProgress g) w
        else clientLog errorCap (MsgMaxAttempts (maxRetries cfg) g) w)
     /\ eraseLog (attemptReconnection cfg g reason params w) = eraseLog w)
  /\ (forall w es es',
        1 <= maxRetries cfg -> Consistent cfg w ->
        pendingAttempts g w = [] ->
        countKept cfg g (es ++ es') w = true ->
        Z.of_nat (failedAttemptsLogged g w) + maxRetries cfg
        <= Z.of_nat (failedAttemptsLogged g (run cfg es w)) ->
        let w' := run cfg (es ++ es') w in
        retryCountOf g w' = maxRetries cfg
        /\ (forall reason params,
              eraseLog (attemptReconnection cfg g reason params w')
              = eraseLog w')
        /\ (forall reason params,
              getReconnectionStatus cfg g
                (attemptReconnection cfg g reason params (resetState g w'))
              = (true, 1, maxRetries cfg)))
  /\ (forall reason params w,
        1 <= maxRetries cfg -> timers w = [] -> Fresh g w ->
        exists w',
          failedEpisode cfg g reason params w = Some w'
          /\ Exhausted cfg g (length (calls w)) w'
          /\ (forall rs, eraseLog (requests cfg g rs w') = eraseLog w')
          /\ (forall rs reason' params',
                Armed g reason' params' (length (calls w')) 1
                  (attemptReconnection cfg g reason' params'
                     (resetState g (requests cfg g rs w'))))).
Proof.
  split; [|split].
  - intros reason params w l st Hl Hs Hor.
    rewrite (attemptReconnection_rejected cfg g reason params w l st Hl Hs Hor).
    split; [done|]. by destruct (isReconnecting st).
  - intros w es es' Hmax HC Hp Hk Hf w'.
    assert (Hr : retryCountOf g w' = maxRetries cfg).
    { apply failures_exhaust; [lia|done|done|done|].
      unfold w'. rewrite run_app.
      pose proof (failed_run_mono cfg g es' (run cfg es w)). lia. }
    split; [exact Hr|]. split.
    + intros reason params. by apply exhausted_request.
    + intros reason params. apply request_after_resetState; [done|].
      by apply consistent_run.
  - intros reason params w Hmax Ht Hf.
    pose proof (fresh_arms cfg g reason params w Hmax Ht Hf) as Ha.
    destruct (armed_exhausts cfg g reason params
                (Z.to_nat (maxRetries cfg) - 1) (length (calls w)) 1 _
                ltac:(lia) ltac:(lia) Ha) as (w' & Hrun & HE).
    exists w'. split; [exact Hrun|]. split; [exact HE|].
    split; [intros rs; by apply (exhausted_rejects cfg g (length (calls w)))|].
    intros rs reason' params'.
    pose proof (exhausted_rejects cfg g (length (calls w)) rs w' HE) as Hrs.
    pose proof (exhausted_eraseLog _ _ _ _ _ HE Hrs) as HE2.
    destruct (resetState_exhausted _ _ _ _ HE2) as (Ht2 & Hf2 & Hc2).
    pose proof (fresh_arms cfg g reason' params' _ Hmax Ht2 Hf2) as Ha2.
    rewrite Hc2 in Ha2.
    pose proof (f_equal calls Hrs) as Hc3. simpl in Hc3.
    by rewrite Hc3 in Ha2.
Qed.

Lemma reconnection_rejected_when_reconnecting_or_exhausted_witness :
  (let w1 := attemptReconnection defaultConfig guildA "connection_lost"
               paramsA emptyWorld in
   eraseLog (attemptReconnection defaultConfig guildA "health_check_failure"
               paramsA w1) = eraseLog w1)
  /\ (let w' := run threeRetries (threeFailedAttempts ++ []) emptyWorld in
      retryCountOf guildA w' = maxRetries threeRetries
      /\ eraseLog (attemptReconnection threeRetries guildA "manual_retry"
                     paramsA w')
         = eraseLog w')
  /\ (exists w', failedEpisode (configWithRetries 1) guildA "connection_lost"
                   paramsA emptyWorld = Some w'
                 /\ Exhausted (configWithRetries 1) guildA 0 w')
  /\ (exists w', failedEpisode (configWithRetries 3) guildA "connection_lost"
                   paramsA emptyWorld = Some w'
                 /\ Exhausted (configWithRetries 3) guildA 0 w')
  /\ (exists w', failedEpisode (configWithRetries 10) guildA "connection_lost"
                   paramsA emptyWorld = Some w'
                 /\ Exhausted (configWithRetries 10) guildA 0 w').
Proof.
  split; [|split; [|split; [|split]]].
  - simpl.
    eapply (proj1 (reconnection_rejected_when_reconnecting_or_exhausted
                     defaultConfig guildA)).
    + vm_compute. reflexivity.
    + vm_compute. reflexivity.
    + left. reflexivity.
  - destruct (proj1 (proj2 (reconnection_rejected_when_reconnecting_or_exhausted
                              threeRetries guildA))
                emptyWorld threeFailedAttempts [])
      as (H1 & H2 & _).
    + simpl. lia.
    + apply consistent_empty.
    + reflexivity.
    + vm_compute. reflexivity.
    + vm_compute. discriminate.
    + split; [exact H1 | exact (H2 "manual_retry" paramsA)].
  - destruct (proj2 (proj2 (reconnection_rejected_when_reconnecting_or_exhausted
                       (configWithRetries 1) guildA))
                "connection_lost" paramsA emptyWorld)
      as (w' & H1 & H2 & _).
    + simpl. lia.
    + reflexivity.
    + left. vm_compute. reflexivity.
    + exists w'. split; [exact H1 | exact H2].
  - destruct (proj2 (proj2 (reconnection_rejected_when_reconnecting_or_exhausted
                       (configWithRetries 3) guildA))
                "connection_lost" paramsA emptyWorld)
      as (w' & H1 & H2 & _).
    + simpl. lia.
    + reflexivity.
    + left. vm_compute. reflexivity.
    + exists w'. split; [exact H1 | exact H2].
  - destruct (proj2 (proj2 (reconnection_rejected_when_reconnecting_or_exhausted
                       (configWithRetries 10) guildA))
                "connection_lost" paramsA emptyWorld)
      as (w' & H1 & H2 & _).
    + simpl. lia.
    + reflexivity.
    + left. vm_compute. reflexivity.
    + exists w'. split; [exact H1 | exact H2].
Defined.

(** ** What a request of a monitor starts *)

Lemma no_attempts_in g (ts : list Timer) :
  (forall x, x ∈ ts -> isAttemptFor g x = true -> False) ->
  List.filter (isAttemptFor g) ts = [].
Proof.
  induction ts as [|x ts IH]; [done|]. intros Hall. simpl.
  rewrite IH by (intros y Hy; apply Hall; by right).
  destruct (isAttemptFor g x) eqn:E; [|done].
  exfalso. apply (Hall x); [left|done].
Qed.

(** An accepted request leaves exactly one attempt of the guild pending:
    the one it has just scheduled. *)
Lemma accepted_request_one_attempt cfg g reason params w :
  Consistent cfg w ->
  fst (shouldAttemptReconnection cfg g reason w) = true ->
  exists x l,
    pendingAttempts g (attemptReconnection cfg g reason params w) = [x]
    /\ cb x = CbReconnect g reason params l
    /\ delay x = delayFor cfg reason (headRandom w) (retryCountOf g w + 1)
    /\ getReconnectionStatus cfg g (attemptReconnection cfg g reason params w)
       = (true, retryCountOf g w + 1, maxRetries cfg).
Proof.
  intros HC Hok.
  destruct (attemptReconnection_guard cfg g reason params w Hok)
    as (l & st & Hg & Hr & Hlt & ->).
  destruct (initializeState_frame cfg g w) as (Hrnd & Hnow & Hnext & Ht).
  pose proof (retryCountOf_initializeState cfg g w) as Hrc.
  pose proof (consistent_initializeState cfg g w HC) as HC0.
  set (w0 := initializeState cfg g w) in *. clearbody w0.
  assert (Hst : retryCountOf g w = retryCount st).
  { rewrite <- Hrc. unfold retryCountOf. by rewrite Hg. }
  apply getState_Some in Hg as [Hl Hs].
  exists (mkTimer (nextTimerId w0)
            (delayFor cfg reason (headRandom w0) (retryCount st + 1))
            (now w0 + delayFor cfg reason (headRandom w0) (retryCount st + 1))
            (CbReconnect g reason params l)), l.
  split; [|split; [done|split]].
  - unfold pendingAttempts. rewrite scheduleAttempt_timers, List.filter_app.
    assert (E : List.filter (isAttemptFor g) (pendingAfterClear st w0) = []).
    { apply no_attempts_in. intros x Hx Hg.
      unfold isAttemptFor in Hg.
      destruct (cb x) as [g0 r p l0| |] eqn:Hcb; [|done|done].
      apply String.eqb_eq in Hg as ->.
      assert (Hin : x ∈ timers w0).
      { unfold pendingAfterClear in Hx. destruct (timer st); [|done].
        by apply list_elem_of_filter in Hx as [_ ?]. }
      destruct (attempt_owned _ _ _ _ _ HC0 x g r p l0 Hin Hcb)
        as (Hl0 & st0 & Hs0 & Ht0).
      rewrite Hl in Hl0. injection Hl0 as <-.
      rewrite Hs in Hs0. injection Hs0 as <-.
      unfold pendingAfterClear in Hx. rewrite Ht0 in Hx.
      by apply list_elem_of_filter in Hx as [? _]. }
    rewrite E. simpl. unfold isAttemptFor. simpl. by rewrite String.eqb_refl.
  - simpl. by rewrite Hrnd, Hst.
  - unfold getReconnectionStatus, getState.
    rewrite scheduleAttempt_states, scheduleAttempt_heap, Hl, lookup_insert_eq.
    simpl. by rewrite Hst.
Qed.

(** A rejected request schedules nothing. *)
Lemma rejected_request_no_attempt cfg g reason params w :
  fst (shouldAttemptReconnection cfg g reason w) = false ->
  timers (attemptReconnection cfg g reason params w) = timers w
  /\ nextTimerId (attemptReconnection cfg g reason params w) = nextTimerId w
  /\ calls (attemptReconnection cfg g reason params w) = calls w
  /\ getReconnectionStatus cfg g (attemptReconnection cfg g reason params w)
     = getReconnectionStatus cfg g w.
Proof.
  intros Hno.
  assert (E : attemptReconnection cfg g reason params w
              = snd (shouldAttemptReconnection cfg g reason w)).
  { unfold attemptReconnection.
    destruct (shouldAttemptReconnection cfg g reason w) as [ok w1].
    simpl in Hno. by subst ok. }
  rewrite E. clear E. revert Hno. unfold shouldAttemptReconnection.
  destruct (initializeState_frame cfg g w) as (_ & _ & Hn & Ht).
  assert (Hc : calls (initializeState cfg g w) = calls w).
  { unfold initializeState. by destruct (reconnectionStates w !! g). }
  assert (Hs : getReconnectionStatus cfg g (initializeState cfg g w)
               = getReconnectionStatus cfg g w).
  { unfold getReconnectionStatus.
    destruct (reconnectionStates w !! g) as [l|] eqn:El.
    - by rewrite (initializeState_known _ _ _ _ El).
    - rewrite (getState_initializeState_new _ _ _ El).
      unfold getState. by rewrite El. }
  destruct (getState g (initializeState cfg g w)) as [[l st]|]; [|done].
  destruct (isReconnecting st); [done|].
  by destruct (retryCount st >=? maxRetries cfg).
Qed.

(** What the request made at the threshold does, in terms of the world
    that was probed. *)
Lemma threshold_request cfg m g params error w :
  Consistent cfg w ->
  let w' := attemptReconnection cfg g "health_check_failure" params
              (resetFailures m g (recordFailure m g error (stampCheck g w))) in
  (fst (shouldAttemptReconnection cfg g "health_check_failure" w) = true ->
   exists x l,
     pendingAttempts g w' = [x]
     /\ cb x = CbReconnect g "health_check_failure" params l
     /\ getReconnectionStatus cfg g w'
        = (true, retryCountOf g w + 1, maxRetries cfg))
  /\ (fst (shouldAttemptReconnection cfg g "health_check_failure" w) = false ->
      timers w' = timers w
      /\ getReconnectionStatus cfg g w' = getReconnectionStatus cfg g w).
Proof.
  intros HC w'.
  set (w4 := resetFailures m g (recordFailure m g error (stampCheck g w))) in *.
  assert (Hm : managerPart w4 = managerPart w) by reflexivity.
  pose proof (shouldAttemptReconnection_congr cfg g "health_check_failure"
                w w4 Hm) as Hg.
  assert (HC4 : Consistent cfg w4) by exact HC.
  assert (Hr4 : retryCountOf g w4 = retryCountOf g w) by reflexivity.
  assert (Ht4 : timers w4 = timers w) by reflexivity.
  assert (Hs4 : getReconnectionStatus cfg g w4 = getReconnectionStatus cfg g w)
    by reflexivity.
  clearbody w4. split.
  - intros Hok. rewrite <- Hg in Hok.
    destruct (accepted_request_one_attempt cfg g "health_check_failure" params
                w4 HC4 Hok) as (x & l & Hp & Hcb & _ & Hst).
    exists x, l. by rewrite <- Hr4.
  - intros Hno. rewrite <- Hg in Hno.
    destruct (rejected_request_no_attempt cfg g "health_check_failure" params
                w4 Hno) as (Ht & _ & _ & Hst).
    unfold w'. by rewrite Ht, Hst.
Qed.

(** C5 fails as stated: with two failures counted and a threshold of 3, a
    probe of guild A times out while the reconnection manager has used up its attempts for
    the guild: the counter is reset to 0, the connection is marked not
    operational, the request is rejected, and no episode starts. *)
Lemma threshold_reached_without_episode :
  let m := Basic.monitor None in
  let w := set_consecutiveFailures {[guildA := 2]}
             (set_activeRustplusInstances {[guildA := true]}
                (set_rustplusInstances {[guildA := rustplusA]} exhaustedA)) in
  let result :=
    Basic.checkConnectionHealth defaultConfig m guildA rustplusA ProbeTimeout w in
  maxConsecutiveFailures m = 3
  /\ failureCount guildA w = 2
  /\ getReconnectionStatus defaultConfig guildA w = (false, 10, 10)
  /\ failureCount guildA (snd result) = 0
  /\ isOperational (fst result) = false
  /\ timers (snd result) = []
  /\ pendingAttempts guildA (snd result) = []
  /\ getReconnectionStatus defaultConfig guildA (snd result) = (false, 10, 10)
  /\ hd_error (log (snd result))
     = Some (errorCap, MsgMaxAttempts 10 guildA).
Proof. vm_compute. repeat split. Qed.

(** C5, as the code has it: a failed probe makes the counter [c + 1] and
    logs that value; a successful probe makes it 0; when [c + 1] reaches the
    threshold the counter is reset to 0, the connection is marked not
    operational and one request with reason health_check_failure is made to
    the reconnection manager, so that after any sequence of probes the
    counter is below the threshold.  The request starts an episode, with
    exactly one attempt of the guild pending, when the guard of the manager
    accepts it, and schedules nothing when the guard rejects it; three
    timeouts with threshold 3 give the counters 1, 2, 0 and, the third
    only, that one request. *)
Theorem consecutive_failures_counter
    (cfg : Config) (m : MonitorConfig) (g : GuildId) (rustplus : Rustplus)
    (w : World) :
  (forall o error,
     Basic.race o = Some error ->
     failureCount g w + 1 < maxConsecutiveFailures m ->
     Basic.checkConnectionHealth cfg m g rustplus o w
     = (rustplus, recordFailure m g error (stampCheck g w))
     /\ failureCount g (snd (Basic.checkConnectionHealth cfg m g rustplus o w))
        = failureCount g w + 1
     /\ managerPart (snd (Basic.checkConnectionHealth cfg m g rustplus o w))
        = managerPart w)
  /\ (forall o error,
        Basic.race o = Some error ->
        maxConsecutiveFailures m <= failureCount g w + 1 ->
        Basic.checkConnectionHealth cfg m g rustplus o w
        = (set_isOperational false rustplus,
           attemptReconnection cfg g "health_check_failure" (paramsOf rustplus)
             (resetFailures m g (recordFailure m g error (stampCheck g w))))
        /\ failureCount g
             (snd (Basic.checkConnectionHealth cfg m g rustplus o w)) = 0)
  /\ (forall o error,
        Basic.race o = Some error ->
        maxConsecutiveFailures m <= failureCount g w + 1 ->
        Consistent cfg w ->
        let w' := snd (Basic.checkConnectionHealth cfg m g rustplus o w) in
        (fst (shouldAttemptReconnection cfg g "health_check_failure" w) = true ->
         exists x l,
           pendingAttempts g w' = [x]
           /\ cb x = CbReconnect g "health_check_failure" (paramsOf rustplus) l
           /\ getReconnectionStatus cfg g w'
              = (true, retryCountOf g w + 1, maxRetries cfg))
        /\ (fst (shouldAttemptReconnection cfg g "health_check_failure" w)
            = false ->
            timers w' = timers w
            /\ getReconnectionStatus cfg g w' = getReconnectionStatus cfg g w))
  /\ (forall o,
        Basic.race o = None ->
        failureCount g
          (snd (Basic.checkConnectionHealth cfg m g rustplus o w)) = 0
        /\ managerPart (snd (Basic.checkConnectionHealth cfg m g rustplus o w))
           = managerPart w)
  /\ (forall os,
        0 <= failureCount g w < maxConsecutiveFailures m ->
        0 <= failureCount g (snd (Basic.probes cfg m g os (rustplus, w)))
          < maxConsecutiveFailures m)
  /\ (maxConsecutiveFailures m = 3 -> failureCount g w = 0 ->
      Consistent cfg w ->
      let s1 := Basic.checkConnectionHealth cfg m g rustplus ProbeTimeout w in
      let s2 :=
        Basic.checkConnectionHealth cfg m g (fst s1) ProbeTimeout (snd s1) in
      let s3 :=
        Basic.checkConnectionHealth cfg m g (fst s2) ProbeTimeout (snd s2) in
      failureCount g (snd s1) = 1 /\ managerPart (snd s1) = managerPart w
      /\ failureCount g (snd s2) = 2 /\ managerPart (snd s2) = managerPart w
      /\ failureCount g (snd s3) = 0
      /\ fst s3 = set_isOperational false rustplus
      /\ (fst (shouldAttemptReconnection cfg g "health_check_failure" w) = true ->
          exists x l,
            pendingAttempts g (snd s3) = [x]
            /\ cb x = CbReconnect g "health_check_failure" (paramsOf rustplus) l
            /\ getReconnectionStatus cfg g (snd s3)
               = (true, retryCountOf g w + 1, maxRetries cfg))).
Proof.
  split; [|split; [|split; [|split; [|split]]]].
  - intros o error Hrace Hlt.
    rewrite (basic_check_below cfg m g rustplus o error w Hrace Hlt).
    split; [done|]. split; [|done].
    simpl. by rewrite failureCount_recordFailure.
  - intros o error Hrace Hge.
    rewrite (basic_check_reached cfg m g rustplus o error w Hrace Hge).
    split; [done|]. simpl.
    by rewrite attemptReconnection_failureCount, failureCount_resetFailures.
  - intros o error Hrace Hge HC.
    rewrite (basic_check_reached cfg m g rustplus o error w Hrace Hge).
    apply (threshold_request cfg m g (paramsOf rustplus) error w HC).
  - intros o Hrace.
    pose proof (basic_check_failureCount cfg m g rustplus o w) as Hc.
    rewrite Hrace in Hc. split; [done|].
    unfold Basic.checkConnectionHealth. by rewrite Hrace.
  - intros os Hc. by apply (basic_probes_below cfg m g os (rustplus, w)).
  - intros Hm Hc HC s1 s2 s3.
    assert (E1 : s1 = (rustplus,
                       recordFailure m g "Health check timeout" (stampCheck g w))).
    { apply basic_check_below; [done|lia]. }
    assert (C1 : failureCount g (snd s1) = 1).
    { rewrite E1. simpl. rewrite failureCount_recordFailure.
      change (failureCount g (stampCheck g w)) with (failureCount g w). lia. }
    assert (E2 : s2 = (rustplus,
                       recordFailure m g "Health check timeout"
                         (stampCheck g (snd s1)))).
    { unfold s2. rewrite E1 at 1. simpl fst.
      apply basic_check_below; [done|lia]. }
    assert (C2 : failureCount g (snd s2) = 2).
    { rewrite E2. simpl. rewrite failureCount_recordFailure.
      change (failureCount g (stampCheck g (snd s1)))
        with (failureCount g (snd s1)). lia. }
    assert (E3 : s3 = (set_isOperational false rustplus,
                       attemptReconnection cfg g "health_check_failure"
                         (paramsOf rustplus)
                         (resetFailures m g
                            (recordFailure m g "Health check timeout"
                               (stampCheck g (snd s2)))))).
    { unfold s3. rewrite E2 at 1. simpl fst.
      apply basic_check_reached; [done|lia]. }
    assert (M1 : managerPart (snd s1) = managerPart w) by by rewrite E1.
    assert (M2 : managerPart (snd s2) = managerPart w) by by rewrite E2, E1.
    split; [done|]. split; [done|].
    split; [done|]. split; [done|].
    split.
    { rewrite E3. simpl.
      by rewrite attemptReconnection_failureCount, failureCount_resetFailures. }
    split; [by rewrite E3|].
    intros Hok. rewrite E3. simpl snd.
    assert (HC2 : Consistent cfg (snd s2)) by (by rewrite E2, E1).
    assert (Hok2 : fst (shouldAttemptReconnection cfg g "health_check_failure"
                          (snd s2)) = true)
      by by rewrite (shouldAttemptReconnection_congr cfg g _ w (snd s2) M2).
    destruct (threshold_request cfg m g (paramsOf rustplus)
                "Health check timeout" (snd s2) HC2) as [Hyes _].
    destruct (Hyes Hok2) as (x & l & Hp & Hcb & Hst).
    exists x, l. split; [done|]. split; [done|].
    rewrite Hst. by rewrite E2, E1.
Qed.

Lemma consecutive_failures_counter_witness :
  let m := Basic.monitor None in
  let s1 := Basic.checkConnectionHealth defaultConfig m guildA rustplusA
              ProbeTimeout emptyWorld in
  let s2 := Basic.checkConnectionHealth defaultConfig m guildA (fst s1)
              ProbeTimeout (snd s1) in
  let s3 := Basic.checkConnectionHealth defaultConfig m guildA (fst s2)
              ProbeTimeout (snd s2) in
  failureCount guildA (snd s1) = 1 /\ timers (snd s1) = []
  /\ failureCount guildA (snd s2) = 2 /\ timers (snd s2) = []
  /\ failureCount guildA (snd s3) = 0
  /\ exists x l,
       pendingAttempts guildA (snd s3) = [x]
       /\ cb x = CbReconnect guildA "health_check_failure" (paramsOf rustplusA) l
       /\ getReconnectionStatus defaultConfig guildA (snd s3) = (true, 1, 10).
Proof.
  intros m s1 s2 s3.
  destruct (proj2 (proj2 (proj2 (proj2 (proj2
              (consecutive_failures_counter defaultConfig (Basic.monitor None)
                 guildA rustplusA emptyWorld))))))
    as (H1 & _ & H2 & _ & H3 & _ & H4).
  - reflexivity.
  - reflexivity.
  - apply consistent_empty.
  - split; [exact H1|]. split; [reflexivity|].
    split; [exact H2|]. split; [reflexivity|].
    split; [exact H3|]. apply H4. reflexivity.
Defined.

(** C10 fails as stated: guild A has used up its ten attempts and its
    connection object has a stored fingerprint; the next probe answers with another seed and wipe
    time: the probe is counted as a failure, 0 becoming 1, and the request
    with reason server_restart_detected is rejected, so that no episode
    starts. *)
Lemma restart_counted_without_episode :
  getReconnectionStatus defaultConfig guildA (snd capturedA) = (false, 10, 10)
  /\ lastServerInfo (fst capturedA) = Some serverInfoOld
  /\ restartObserved (fst capturedA) serverInfoNew = true
  /\ failureCount guildA (snd capturedA) = 0
  /\ failureCount guildA (snd restartedA) = 1
  /\ pendingAttempts guildA (snd restartedA) = []
  /\ timers (snd restartedA) = timers (snd capturedA)
  /\ getReconnectionStatus defaultConfig guildA (snd restartedA)
     = (false, 10, 10)
  /\ CallDisconnect guildA ∈ calls (snd restartedA).
Proof.
  vm_compute. repeat split. apply list_elem_of_In. vm_compute. by left.
Qed.

(** C10, as the code has it: a probe whose round trip succeeds but shows
    another server identity is handled as a failed probe: after the request
    with reason server_restart_detected the error is passed to
    [handleHealthCheckFailure], which records the failure count [c + 1] and
    applies the threshold rule to it.  The request starts an episode, one
    attempt of the guild with a delay of zero, when the guard of the
    manager accepts it, and schedules nothing when the guard rejects it;
    the failure is counted in both cases. *)
Theorem restart_detection_counts_as_failed_probe
    (cfg : Config) (m : MonitorConfig) (g : GuildId) (rustplus : Rustplus)
    (info : ServerInfo) (w : World) :
  rp_guildId rustplus = g ->
  restartObserved rustplus info = true ->
  let requested :=
    attemptReconnection cfg g serverRestartDetected (paramsOf rustplus)
      (restartNoticed g w) in
  let result :=
    Enhanced.checkConnectionHealth cfg m g rustplus (answered info) w in
  result
  = handleHealthCheckFailure cfg m g (afterRestart info rustplus)
      "Server restart detected" requested
  /\ snd result
     = (if failureCount g w + 1 >=? maxConsecutiveFailures m
        then attemptReconnection cfg g "health_check_failure"
               (paramsOf rustplus)
               (resetFailures m g
                  (recordFailure m g "Server restart detected" requested))
        else recordFailure m g "Server restart detected" requested)
  /\ failureCount g (recordFailure m g "Server restart detected" requested)
     = failureCount g w + 1
  /\ (warningCap,
      MsgHealthFailed g (failureCount g w + 1) (maxConsecutiveFailures m)
        "Server restart detected") ∈ log (snd result)
  /\ failureCount g (snd result)
     = (if failureCount g w + 1 >=? maxConsecutiveFailures m then 0
        else failureCount g w + 1)
  /\ managerPart (snd result) = managerPart requested
  /\ (Consistent cfg w ->
      fst (shouldAttemptReconnection cfg g serverRestartDetected w) = true ->
      exists x l,
        pendingAttempts g (snd result) = [x]
        /\ cb x = CbReconnect g serverRestartDetected (paramsOf rustplus) l
        /\ delay x = 0
        /\ getReconnectionStatus cfg g (snd result)
           = (true, retryCountOf g w + 1, maxRetries cfg))
  /\ (fst (shouldAttemptReconnection cfg g serverRestartDetected w) = false ->
      timers (snd result) = timers w
      /\ getReconnectionStatus cfg g (snd result)
         = getReconnectionStatus cfg g w).
Proof.
  intros Hg Hobs requested result.
  assert (Hres : result
                 = handleHealthCheckFailure cfg m g (afterRestart info rustplus)
                     "Server restart detected" requested)
    by by apply enhanced_check_restart.
  assert (Hc : failureCount g requested = failureCount g w)
    by (unfold requested; by rewrite attemptReconnection_failureCount).
  assert (Hm : managerPart (snd result) = managerPart requested).
  { rewrite Hres. apply managerPart_handleHealthCheckFailure. }
  pose proof (shouldAttemptReconnection_congr cfg g serverRestartDetected w
                (restartNoticed g w) eq_refl) as Hguard.
  split; [exact Hres|].
  split.
  { rewrite Hres, handleHealthCheckFailure_unfold, Hc.
    by destruct (_ >=? _). }
  split; [by rewrite failureCount_recordFailure, Hc|].
  split.
  { rewrite Hres, handleHealthCheckFailure_unfold, Hc.
    destruct (_ >=? _); simpl.
    - destruct (log_attemptReconnection cfg g "health_check_failure"
                  (paramsOf (afterRestart info rustplus))
                  (resetFailures m g
                     (recordFailure m g "Server restart detected" requested)))
        as [new ->].
      apply elem_of_app. right. simpl. rewrite Hc.
      apply elem_of_cons. right. apply elem_of_cons. by left.
    - rewrite Hc. apply elem_of_cons. by left. }
  split.
  { rewrite Hres, failureCount_handleHealthCheckFailure. by rewrite Hc. }
  split; [exact Hm|].
  pose proof Hm as (Ht & _ & _ & Hh & Hs)%managerPart_fields.
  assert (Hst : getReconnectionStatus cfg g (snd result)
                = getReconnectionStatus cfg g requested).
  { unfold getReconnectionStatus. by rewrite (getState_congr g _ _ Hm). }
  assert (Hp : pendingAttempts g (snd result) = pendingAttempts g requested)
    by (unfold pendingAttempts; by rewrite Ht).
  split.
  - intros HC Hok. rewrite <- Hguard in Hok.
    assert (HC1 : Consistent cfg (restartNoticed g w)) by exact HC.
    destruct (accepted_request_one_attempt cfg g serverRestartDetected
                (paramsOf rustplus) (restartNoticed g w) HC1 Hok)
      as (x & l & Hx & Hcb & Hd & Hstatus).
    exists x, l. rewrite Hp, Hst. fold requested in Hx, Hstatus.
    split; [exact Hx|]. split; [exact Hcb|]. split; [exact Hd|].
    exact Hstatus.
  - intros Hno. rewrite <- Hguard in Hno.
    destruct (rejected_request_no_attempt cfg g serverRestartDetected
                (paramsOf rustplus) (restartNoticed g w) Hno)
      as (Ht' & _ & _ & Hst').
    fold requested in Ht', Hst'. rewrite Ht, Hst. by rewrite Ht', Hst'.
Qed.

Lemma restart_detection_counts_as_failed_probe_witness :
  let rustplus := set_lastServerInfo (Some serverInfoOld) rustplusA in
  let result := Enhanced.checkConnectionHealth defaultConfig
                  (Enhanced.monitor None) guildA rustplus
                  (answered serverInfoNew) emptyWorld in
  failureCount guildA (snd result) = 1
  /\ exists x l,
       pendingAttempts guildA (snd result) = [x]
       /\ cb x = CbReconnect guildA serverRestartDetected (paramsOf rustplus) l
       /\ delay x = 0
       /\ getReconnectionStatus defaultConfig guildA (snd result) = (true, 1, 10).
Proof.
  intros rustplus result.
  destruct (restart_detection_counts_as_failed_probe defaultConfig
              (Enhanced.monitor None) guildA rustplus serverInfoNew emptyWorld)
    as (_ & _ & _ & _ & H & _ & Hyes & _).
  - reflexivity.
  - reflexivity.
  - split; [exact H|]. apply Hyes; [apply consistent_empty|].
    vm_compute. reflexivity.
Defined.

(** ** The jitter *)

Lemma addJitter_lower rnd d : (0 <= rnd)%Q -> 0 <= d -> d <= addJitter rnd d.
Proof.
  intros Hr Hd. unfold addJitter.
  rewrite <- (Qfloor_Z d) at 1. apply Qfloor_resp_le.
  rewrite <- (Qplus_0_r (inject_Z d)) at 1.
  apply Qplus_le_r. apply Qmult_le_0_compat.
  - apply Qmult_le_0_compat; [done|discriminate].
  - change 0%Q with (inject_Z 0). by rewrite <- Zle_Qle.
Qed.

Lemma addJitter_upper rnd d :
  (rnd <= 1)%Q -> 0 <= d -> addJitter rnd d <= d + d / 4.
Proof.
  intros Hr Hd. unfold addJitter.
  assert (E : d + d / 4 = Qfloor (5 * d # 4)).
  { unfold Qfloor. replace (5 * d) with (d * 4 + d) by lia.
    rewrite Z.div_add_l by lia. done. }
  rewrite E. apply Qfloor_resp_le.
  assert (Hj : (rnd * (1 # 4) * inject_Z d <= 1 * (1 # 4) * inject_Z d)%Q).
  { apply Qmult_le_compat_r.
    - apply Qmult_le_compat_r; [done|discriminate].
    - change 0%Q with (inject_Z 0). by rewrite <- Zle_Qle. }
  eapply Qle_trans; [apply Qplus_le_r, Hj|].
  unfold Qle, Qplus, Qmult, inject_Z. simpl. lia.
Qed.
Lemma calculateDelay_nonneg cfg n :
  0 <= baseDelay cfg -> 0 <= backoffMultiplier cfg -> 0 <= maxDelay cfg ->
  0 <= calculateDelay cfg n.
Proof.
  intros Hb Hm Hx. unfold calculateDelay. apply Z.min_glb; [|done].
  apply Z.mul_nonneg_nonneg; [done|]. by apply Z.pow_nonneg.
Qed.

(** X6: [addJitter] only ever lengthens a delay, by at most a quarter:
    for a random number in [0, 1) and a delay d >= 0 the result lies in
    [d, d + d/4].  So the delay of an accepted request, which is the one
    stored in the state and handed to [setTimeout], is at most
    maxDelay + maxDelay/4, and, unless the reason is a detected server
    restart, lies between the raw backoff delay of the attempt and a quarter
    more. *)
Theorem scheduled_delay_within_jitter_band :
  (forall rnd d,
     (0 <= rnd)%Q -> (rnd < 1)%Q -> 0 <= d ->
     d <= addJitter rnd d <= d + d / 4)
  /\ (forall cfg g reason params w,
        0 <= baseDelay cfg -> 0 <= backoffMultiplier cfg ->
        0 <= maxDelay cfg ->
        (0 <= headRandom w)%Q -> (headRandom w < 1)%Q ->
        fst (shouldAttemptReconnection cfg g reason w) = true ->
        exists l st x,
          getState g (attemptReconnection cfg g reason params w) = Some (l, st)
          /\ last (timers (attemptReconnection cfg g reason params w)) = Some x
          /\ delay x = currentDelay st
          /\ 0 <= delay x <= maxDelay cfg + maxDelay cfg / 4
          /\ (reason ≠ serverRestartDetected ->
              rawDelay cfg (retryCount st) <= delay x
              <= rawDelay cfg (retryCount st)
                 + rawDelay cfg (retryCount st) / 4)).
Proof.
  split.
  - intros rnd d H0 H1 Hd. split.
    + by apply addJitter_lower.
    + apply addJitter_upper; [by apply Qlt_le_weak|done].
  - intros cfg g reason params w Hb Hm Hx H0 H1 Hok.
    destruct (attemptReconnection_accepted_state cfg g reason params w Hok)
      as (l & old & x & _ & _ & Hst & Hlast & Hd & _).
    eexists l, _, x. split; [exact Hst|]. split; [exact Hlast|].
    simpl. split; [exact Hd|]. rewrite Hd. unfold delayFor, rawDelay.
    replace (retryCount old + 1 - 1) with (retryCount old) by lia.
    pose proof (calculateDelay_nonneg cfg (retryCount old) Hb Hm Hx) as Hc.
    pose proof (calculateDelay_le_maxDelay cfg (retryCount old)) as Hle.
    pose proof (addJitter_lower (headRandom w) _ H0 Hc) as Hlo.
    pose proof (addJitter_upper (headRandom w) _ (Qlt_le_weak _ _ H1) Hc) as Hup.
    assert (Hdiv : calculateDelay cfg (retryCount old) / 4 <= maxDelay cfg / 4)
      by (apply Z.div_le_mono; lia).
    assert (Hq : 0 <= maxDelay cfg / 4) by (apply Z.div_pos; lia).
    destruct (String.eqb_spec reason serverRestartDetected) as [->|Hne].
    + split; [lia|]. by intros [].
    + split; [lia|]. intros _. lia.
Qed.

Lemma scheduled_delay_within_jitter_band_witness :
  let w := set_rand [3 # 5]%Q emptyWorld in
  (15000 <= addJitter (3 # 5) 15000 <= 18750)
  /\ exists l st x,
       getState guildA (attemptReconnection defaultConfig guildA
                          "connection_lost" paramsA w) = Some (l, st)
       /\ last (timers (attemptReconnection defaultConfig guildA
                          "connection_lost" paramsA w)) = Some x
       /\ delay x = currentDelay st
       /\ 0 <= delay x <= 375000.
Proof.
  split.
  - apply (proj1 scheduled_delay_within_jitter_band (3 # 5)%Q 15000);
      [discriminate | reflexivity | lia].
  - destruct (proj2 scheduled_delay_within_jitter_band defaultConfig guildA
                "connection_lost" paramsA (set_rand [3 # 5]%Q emptyWorld))
      as (l & st & x & H1 & H2 & H3 & H4 & _).
    + simpl. lia.
    + simpl. lia.
    + simpl. lia.
    + discriminate.
    + reflexivity.
    + vm_compute. reflexivity.
    + exists l, st, x. split; [exact H1|]. split; [exact H2|].
      split; [exact H3 | exact H4].
Defined.
(** ** The error event of a connection *)

Lemma errorReason_cases err :
  errorReason err = None
  \/ exists reason, errorReason err = Some reason /\ reason ∈ transportReasons.
Proof.
  unfold errorReason, errorTimedOut, errorNotFound, errorConnRefused,
    errorOther, transportReasons.
  destruct (code err) as [c|].
  - destruct (String.eqb c "ETIMEDOUT").
    { destruct (bool_decide _); [right|by left].
      eexists. split; [done|]. set_solver. }
    destruct (String.eqb c "ENOTFOUND").
    { destruct (bool_decide _); [right|by left].
      eexists. split; [done|]. set_solver. }
    destruct (String.eqb c "ECONNREFUSED").
    { right. eexists. split; [done|]. set_solver. }
    right. destruct (String.eqb _ _).
    { eexists. split; [done|]. set_solver. }
    destruct (_ || _); eexists; (split; [done|]); set_solver.
  - right. destruct (String.eqb _ _).
    { eexists. split; [done|]. set_solver. }
    destruct (_ || _); eexists; (split; [done|]); set_solver.
Qed.
Lemma errorReason_none err :
  errorReason err = None <->
  (code err = Some "ETIMEDOUT" /\ syscall err ≠ Some "connect")
  \/ (code err = Some "ENOTFOUND" /\ syscall err ≠ Some "getaddrinfo").
Proof.
  unfold errorReason, errorTimedOut, errorNotFound, errorConnRefused,
    errorOther.
  destruct (code err) as [c|].
  - destruct (String.eqb_spec c "ETIMEDOUT") as [->|H1].
    { destruct (bool_decide_reflect (syscall err = Some "connect")).
      - split; [done|]. intros [[_ ?]|[[=] _]]. done.
      - split; [by left|done]. }
    destruct (String.eqb_spec c "ENOTFOUND") as [->|H2].
    { destruct (bool_decide_reflect (syscall err = Some "getaddrinfo")).
      - split; [done|]. intros [[[=] _]|[_ ?]]. done.
      - split; [by right|done]. }
    assert (Hno : ~ ((Some c = Some "ETIMEDOUT" /\ syscall err ≠ Some "connect")
                     \/ (Some c = Some "ENOTFOUND"
                         /\ syscall err ≠ Some "getaddrinfo"))).
    { intros [[[= ->] _]|[[= ->] _]]; done. }
    destruct (String.eqb c "ECONNREFUSED"); [done|].
    destruct (String.eqb _ _); [done|]. by destruct (_ || _).
  - assert (Hno : ~ ((@None string = Some "ETIMEDOUT"
                      /\ syscall err ≠ Some "connect")
                     \/ (@None string = Some "ENOTFOUND"
                         /\ syscall err ≠ Some "getaddrinfo"))).
    { intros [[[=] _]|[[=] _]]. }
    destruct (String.eqb _ _); [done|]. by destruct (_ || _).
Qed.

Lemma status_initializeState cfg g w l old :
  getState g (initializeState cfg g w) = Some (l, old) ->
  retryCount old = snd (fst (getReconnectionStatus cfg g w)).
Proof.
  intros Hg. unfold getReconnectionStatus.
  destruct (reconnectionStates w !! g) as [l0|] eqn:E.
  - rewrite (initializeState_known _ _ _ _ E) in Hg. by rewrite Hg.
  - rewrite (getState_initializeState_new _ _ _ E) in Hg.
    injection Hg as <- <-. unfold getState. by rewrite E.
Qed.

(** X7: the error event of a connection.  When the server is not
    available the handler leaves everything to
    [deleteThisRustplusInstance] and makes no request.  Otherwise it makes a
    request to the reconnection manager exactly when the error is not one
    of the two that it ignores (ETIMEDOUT whose syscall is not connect,
    ENOTFOUND whose syscall is not getaddrinfo), the connection object is
    not deleted and its guild is active; in every other case the world
    stays as it is.  The reason is one of six, never the server-restart
    reason, so that an accepted request from this handler is scheduled with
    the jittered backoff delay of the guild's retry count and never with
    the zero delay of a restart. *)
Theorem transport_errors_request_with_backoff
    (cfg : Config) (rustplus : Rustplus) (serverAvailable : bool)
    (err : TransportError) (w : World) :
  (errorReason err = None <->
   (code err = Some "ETIMEDOUT" /\ syscall err ≠ Some "connect")
   \/ (code err = Some "ENOTFOUND" /\ syscall err ≠ Some "getaddrinfo"))
  /\ (serverAvailable = false ->
      execute cfg rustplus serverAvailable err w = None)
  /\ (serverAvailable = true ->
      errorReason err = None \/ isDeleted rustplus = true
      \/ truthyFlag (activeRustplusInstances w !! rp_guildId rustplus) = false ->
      execute cfg rustplus serverAvailable err w = Some w)
  /\ (forall reason,
        errorReason err = Some reason ->
        reason ∈ transportReasons
        /\ reason ≠ serverRestartDetected
        /\ (serverAvailable = true ->
            isDeleted rustplus = false ->
            truthyFlag (activeRustplusInstances w !! rp_guildId rustplus)
            = true ->
            execute cfg rustplus serverAvailable err w
            = Some (attemptReconnection cfg (rp_guildId rustplus) reason
                      (paramsOf rustplus) w)
            /\ (fst (shouldAttemptReconnection cfg (rp_guildId rustplus)
                       reason w) = true ->
                exists w' x l,
                  execute cfg rustplus serverAvailable err w = Some w'
                  /\ last (timers w') = Some x
                  /\ cb x = CbReconnect (rp_guildId rustplus) reason
                              (paramsOf rustplus) l
                  /\ delay x
                     = addJitter (headRandom w)
                         (calculateDelay cfg
                            (snd (fst (getReconnectionStatus cfg
                                         (rp_guildId rustplus) w))))))).
Proof.
  split; [apply errorReason_none|].
  split; [by intros ->|].
  split.
  { intros -> Hor. unfold execute. simpl.
    destruct (errorReason err) as [reason|] eqn:Hr; [|done].
    unfold triggerReconnection.
    destruct Hor as [?|[-> | ->]]; [done|done|].
    by rewrite orb_true_r. }
  intros reason Hr.
  assert (Hin : reason ∈ transportReasons).
  { destruct (errorReason_cases err) as [E|(r & E & Hin)]; congruence. }
  assert (Hne : reason ≠ serverRestartDetected).
  { intros ->. apply list_elem_of_In in Hin.
    by destruct Hin as [?|[?|[?|[?|[?|[?|[]]]]]]]. }
  split; [done|]. split; [done|].
  intros -> Hd Ha.
  assert (Hex : execute cfg rustplus true err w
                = Some (attemptReconnection cfg (rp_guildId rustplus) reason
                          (paramsOf rustplus) w)).
  { unfold execute. rewrite Hr. unfold triggerReconnection.
    by rewrite Hd, Ha. }
  split; [exact Hex|].
  intros Hok. rewrite Hex.
  destruct (attemptReconnection_accepted_state cfg (rp_guildId rustplus)
              reason (paramsOf rustplus) w Hok)
    as (l & old & x & Hg & _ & _ & Hlast & Hdl & Hcb).
  eexists _, x, l. split; [reflexivity|]. split; [done|]. split; [done|].
  rewrite Hdl. unfold delayFor.
  destruct (String.eqb_spec reason serverRestartDetected) as [E|_]; [done|].
  rewrite <- (status_initializeState cfg _ w l old Hg).
  by replace (retryCount old + 1 - 1) with (retryCount old) by lia.
Qed.

Lemma transport_errors_request_with_backoff_witness :
  errorReason errorResetA = Some "connection_lost"
  /\ execute defaultConfig rustplusA false errorResetA operationalA = None
  /\ execute defaultConfig (deletedA) true errorResetA operationalA
     = Some operationalA
  /\ execute defaultConfig rustplusA true errorResetA disconnectedA
     = Some disconnectedA
  /\ exists w' x l,
       execute defaultConfig rustplusA true errorResetA operationalA = Some w'
       /\ last (timers w') = Some x
       /\ cb x = CbReconnect guildA "connection_lost" paramsA l
       /\ delay x = 15000.
Proof.
  split; [reflexivity|].
  split.
  { by apply (proj1 (proj2 (transport_errors_request_with_backoff defaultConfig
                              rustplusA false errorResetA operationalA))). }
  split.
  { apply (proj1 (proj2 (proj2 (transport_errors_request_with_backoff
                                  defaultConfig deletedA true errorResetA
                                  operationalA)))); [reflexivity|].
    right. left. reflexivity. }
  split.
  { apply (proj1 (proj2 (proj2 (transport_errors_request_with_backoff
                                  defaultConfig rustplusA true errorResetA
                                  disconnectedA)))); [reflexivity|].
    right. right. reflexivity. }
  destruct (transport_errors_request_with_backoff defaultConfig rustplusA true
              errorResetA operationalA) as (_ & _ & _ & H).
  destruct (H "connection_lost" eq_refl) as (_ & _ & H').
  destruct H' as [_ H']; [reflexivity|reflexivity|reflexivity|].
  destruct H' as (w' & x & l & H1 & H2 & H3 & H4); [reflexivity|].
  exists w', x, l. split; [exact H1|]. split; [exact H2|].
  split; [exact H3|]. rewrite H4. reflexivity.
Defined.

Lemma prefix_spec n : forall h,
  String.prefix n h = true <-> exists b, h = (n ++ b)%string.
Proof.
  induction n as [|c n IH]; intros h.
  - destruct h; (split; [intros _; by eexists|done]).
  - destruct h as [|d h]; [split; [done|by intros [b [=]]]|].
    change (String.prefix (String c n) (String d h))
      with (match Ascii.ascii_dec c d with
            | left _ => String.prefix n h
            | right _ => false
            end).
    destruct (Ascii.ascii_dec c d) as [->|Hne].
    + split.
      * intros Hp. apply IH in Hp as [b ->]. by exists b.
      * intros [b [= ->]]. apply IH. by exists b.
    + split; [done|]. intros [b [= ? ?]]. done.
Qed.

(** [includes] is the substring test. *)
Lemma includes_spec n h :
  includes n h = true <-> exists a b, h = (a ++ n ++ b)%string.
Proof.
  induction h as [|d h IH].
  - change (includes n "") with (String.prefix n "" || false).
    rewrite orb_false_r, prefix_spec. split.
    + intros [b Hb]. by exists "", b.
    + intros (a & b & Hab). destruct a; [by exists b|done].
  - change (includes n (String d h))
      with (String.prefix n (String d h) || includes n h).
    rewrite orb_true_iff, prefix_spec, IH. split.
    + intros [[b Hb]|(a & b & Hab)].
      * by exists "", b.
      * exists (String d a), b. simpl. by rewrite Hab.
    + intros (a & b & Hab). destruct a as [|c a].
      * left. by exists b.
      * right. exists a, b. simpl in Hab. by injection Hab.
Qed.
(** ** The sweeps of the health monitors *)

Lemma basic_sweep_skip cfg m probe w g :
  probed g w = false -> BasicSweep.healthCheckGuild cfg m probe w g = w.
Proof.
  unfold probed, BasicSweep.healthCheckGuild.
  destruct (truthyFlag (activeRustplusInstances w !! g)); [|done].
  destruct (rustplusInstances w !! g) as [r|]; [|done].
  destruct (isOperational r); [|done].
  by destruct (truthyFlag (rustplusReconnecting w !! g)).
Qed.

Lemma registry_attemptReconnection cfg g reason params w :
  rustplusInstances (attemptReconnection cfg g reason params w)
  = rustplusInstances w
  /\ activeRustplusInstances (attemptReconnection cfg g reason params w)
     = activeRustplusInstances w
  /\ rustplusReconnecting (attemptReconnection cfg g reason params w)
     = rustplusReconnecting w.
Proof.
  pose proof (attemptReconnection_outside cfg g reason params w) as H.
  by injection H as _ _ -> -> -> _ _ _ _ _.
Qed.

Lemma registry_handleHealthCheckFailure cfg m g rustplus error w :
  let w1 := snd (handleHealthCheckFailure cfg m g rustplus error w) in
  rustplusInstances w1 = rustplusInstances w
  /\ activeRustplusInstances w1 = activeRustplusInstances w
  /\ rustplusReconnecting w1 = rustplusReconnecting w.
Proof.
  rewrite handleHealthCheckFailure_unfold.
  destruct (_ >=? _); [|done]. cbv zeta. unfold snd.
  set (w0 := resetFailures m g (recordFailure m g error w)).
  destruct (registry_attemptReconnection cfg g "health_check_failure"
              (paramsOf rustplus) w0) as (-> & -> & ->).
  done.
Qed.

Lemma basic_check_registry cfg m g rustplus o w :
  let w1 := snd (Basic.checkConnectionHealth cfg m g rustplus o w) in
  rustplusInstances w1 = rustplusInstances w
  /\ activeRustplusInstances w1 = activeRustplusInstances w
  /\ rustplusReconnecting w1 = rustplusReconnecting w.
Proof.
  unfold Basic.checkConnectionHealth.
  destruct (Basic.race o) as [error|]; [|done].
  exact (registry_handleHealthCheckFailure cfg m g rustplus error
           (set_lastHealthCheck (<[g:=now w]> (lastHealthCheck w)) w)).
Qed.

Lemma probed_stored g r (reg : gmap GuildId Rustplus) w :
  probed g (set_rustplusInstances (<[g := r]> reg) w)
  = truthyFlag (activeRustplusInstances w !! g)
    && (isOperational r && negb (truthyFlag (rustplusReconnecting w !! g))).
Proof. unfold probed. simpl. by rewrite lookup_insert_eq. Qed.

Lemma basic_sweep_probe cfg m probe w g rustplus :
  probed g w = true ->
  rustplusInstances w !! g = Some rustplus ->
  let s := Basic.checkConnectionHealth cfg m g rustplus (probe g) w in
  BasicSweep.healthCheckGuild cfg m probe w g
  = set_rustplusInstances (<[g := fst s]> (rustplusInstances w)) (snd s).
Proof.
  intros Hp Hr. unfold probed in Hp. unfold BasicSweep.healthCheckGuild.
  rewrite Hr in *.
  destruct (truthyFlag (activeRustplusInstances w !! g)); [|done].
  destruct (isOperational rustplus); [|done].
  destruct (truthyFlag (rustplusReconnecting w !! g)); [done|].
  simpl.
  destruct (basic_check_registry cfg m g rustplus (probe g) w) as (Hreg & _).
  destruct (Basic.checkConnectionHealth cfg m g rustplus (probe g) w)
    as [r1 w1]. simpl in *. by rewrite Hreg, Hr.
Qed.
Lemma basic_sweep_idle cfg m probe keys : forall w,
  (forall k, k ∈ keys -> probed k w = false) ->
  BasicSweep.performHealthChecks cfg m probe keys w = w.
Proof.
  induction keys as [|k keys IH]; intros w Hall; [done|].
  unfold BasicSweep.performHealthChecks. simpl.
  rewrite basic_sweep_skip by (apply Hall; left).
  apply IH. intros k' Hk'. apply Hall. by right.
Qed.

(** X8: the health sweep of the monitor probes a guild only while it is
    active, registered, operational and not marked reconnecting.  When a
    failed probe reaches the failure threshold, the sweep marks the
    registered connection not operational and requests a reconnection with
    reason health_check_failure; from then on the guild is not probed: every
    later sweep over it changes nothing, whatever the probe would answer.
    A probe that succeeds, or fails below the threshold, leaves the
    connection registered and probed and does not touch the reconnection
    manager. *)
Theorem health_sweep_pauses_after_request
    (cfg : Config) (m : MonitorConfig) (probe : GuildId -> ProbeOutcome)
    (w : World) (g : GuildId) :
  (probed g w = false -> BasicSweep.healthCheckGuild cfg m probe w g = w)
  /\ (forall keys,
        (forall k, k ∈ keys -> probed k w = false) ->
        BasicSweep.performHealthChecks cfg m probe keys w = w)
  /\ (forall rustplus error,
        probed g w = true ->
        rustplusInstances w !! g = Some rustplus ->
        Basic.race (probe g) = Some error ->
        maxConsecutiveFailures m <= failureCount g w + 1 ->
        let w' := BasicSweep.healthCheckGuild cfg m probe w g in
        w' = set_rustplusInstances
               (<[g := set_isOperational false rustplus]> (rustplusInstances w))
               (attemptReconnection cfg g "health_check_failure"
                  (paramsOf rustplus)
                  (resetFailures m g
                     (recordFailure m g error (stampCheck g w))))
        /\ probed g w' = false
        /\ (forall probe' n,
              BasicSweep.performHealthChecks cfg m probe' (replicate n g) w'
              = w'))
  /\ (forall rustplus,
        probed g w = true ->
        rustplusInstances w !! g = Some rustplus ->
        Basic.race (probe g) = None
        \/ failureCount g w + 1 < maxConsecutiveFailures m ->
        let w' := BasicSweep.healthCheckGuild cfg m probe w g in
        rustplusInstances w' !! g = Some rustplus
        /\ probed g w' = true
        /\ managerPart w' = managerPart w).
Proof.
  split; [apply basic_sweep_skip|].
  split; [intros keys; apply basic_sweep_idle|]. split.
  - intros rustplus error Hp Hr Hrace Hge.
    pose proof (basic_sweep_probe cfg m probe w g rustplus Hp Hr) as Hs.
    rewrite (basic_check_reached cfg m g rustplus (probe g) error w Hrace Hge)
      in Hs.
    cbv zeta in *. unfold fst, snd in Hs. rewrite Hs.
    set (w1 := attemptReconnection _ _ _ _ _).
    assert (Hq : probed g
                   (set_rustplusInstances
                      (<[g:=set_isOperational false rustplus]>
                         (rustplusInstances w)) w1) = false).
    { rewrite probed_stored. apply andb_false_r. }
    split; [done|]. split; [exact Hq|].
    intros probe' n. apply basic_sweep_idle.
    intros k Hk. apply elem_of_replicate in Hk as [-> _]. exact Hq.
  - intros rustplus Hp Hr Hor.
    pose proof (basic_sweep_probe cfg m probe w g rustplus Hp Hr) as Hs.
    cbv zeta in *. rewrite Hs. clear Hs.
    assert (E : exists w1,
              Basic.checkConnectionHealth cfg m g rustplus (probe g) w
              = (rustplus, w1)
              /\ managerPart w1 = managerPart w
              /\ activeRustplusInstances w1 = activeRustplusInstances w
              /\ rustplusReconnecting w1 = rustplusReconnecting w).
    { destruct (Basic.race (probe g)) as [error|] eqn:Hrace.
      - destruct Hor as [|Hlt]; [done|].
        rewrite (basic_check_below cfg m g rustplus (probe g) error w Hrace Hlt).
        by eexists.
      - unfold Basic.checkConnectionHealth. rewrite Hrace. by eexists. }
    destruct E as (w1 & -> & Hm & Ha & Hf). unfold fst, snd.
    rewrite probed_stored, Ha, Hf.
    split; [|split; [|exact Hm]].
    + unfold set_rustplusInstances, rustplusInstances at 1.
      apply lookup_insert_eq.
    + unfold probed in Hp. by rewrite Hr in Hp.
Qed.

Lemma health_sweep_pauses_after_request_witness :
  let m := Basic.monitor None in
  let probe := fun _ : GuildId => ProbeTimeout in
  let w' := BasicSweep.healthCheckGuild defaultConfig m probe failingA guildA in
  probed guildA failingA = true
  /\ probed guildA w' = false
  /\ failureCount guildA w' = 0
  /\ length (pendingAttempts guildA w') = 1%nat
  /\ BasicSweep.performHealthChecks defaultConfig m probe
       (replicate 3 guildA) w' = w'.
Proof.
  destruct (health_sweep_pauses_after_request defaultConfig (Basic.monitor None)
              (fun _ => ProbeTimeout) failingA guildA) as (_ & _ & H & _).
  destruct (H rustplusA "Health check timeout") as (H1 & H2 & H3).
  - reflexivity.
  - reflexivity.
  - reflexivity.
  - vm_compute. discriminate.
  - split; [reflexivity|]. split; [exact H2|].
    split; [vm_compute; reflexivity|]. split; [vm_compute; reflexivity|].
    exact (H3 (fun _ => ProbeTimeout) 3%nat).
Defined.

Lemma enhanced_sweep_skip cfg m probe w g :
  probed g w = false -> Enhanced.healthCheckGuild cfg m probe w g = w.
Proof.
  unfold probed, Enhanced.healthCheckGuild.
  destruct (truthyFlag (activeRustplusInstances w !! g)); [|done].
  destruct (rustplusInstances w !! g) as [r|]; [|done].
  destruct (isOperational r); [|done].
  by destruct (truthyFlag (rustplusReconnecting w !! g)).
Qed.

Lemma enhanced_sweep_idle cfg m probe keys : forall w,
  (forall k, k ∈ keys -> probed k w = false) ->
  Enhanced.performHealthChecks cfg m probe keys w = w.
Proof.
  induction keys as [|k keys IH]; intros w Hall; [done|].
  unfold Enhanced.performHealthChecks. simpl.
  rewrite enhanced_sweep_skip by (apply Hall; left).
  apply IH. intros k' Hk'. apply Hall. by right.
Qed.

Lemma enhanced_check_registry cfg m g rustplus o w :
  let w1 := snd (Enhanced.checkConnectionHealth cfg m g rustplus o w) in
  rustplusInstances w1 = rustplusInstances w
  /\ activeRustplusInstances w1 = activeRustplusInstances w
  /\ rustplusReconnecting w1 = rustplusReconnecting w.
Proof.
  unfold Enhanced.checkConnectionHealth.
  set (w0 := set_lastHealthCheck _ w).
  assert (H0 : rustplusInstances w0 = rustplusInstances w
               /\ activeRustplusInstances w0 = activeRustplusInstances w
               /\ rustplusReconnecting w0 = rustplusReconnecting w) by done.
  destruct H0 as (<- & <- & <-).
  destruct o as [|r].
  { apply registry_handleHealthCheckFailure. }
  unfold Enhanced.performHealthCheckRequest.
  destruct r as [msg| |[info|]]; try done;
    try apply registry_handleHealthCheckFailure.
  destruct (Enhanced.hasIdentity info); [|done].
  destruct (lastServerInfo rustplus) as [last|]; [|done].
  destruct (Enhanced.serverChanged info last); [|done].
  unfold Enhanced.triggerServerRestartReconnection.
  set (w2 := attemptReconnection _ _ _ _ _).
  assert (H2 : rustplusInstances w2 = rustplusInstances w0
               /\ activeRustplusInstances w2 = activeRustplusInstances w0
               /\ rustplusReconnecting w2 = rustplusReconnecting w0)
    by exact (registry_attemptReconnection _ _ _ _ _).
  destruct H2 as (<- & <- & <-).
  apply registry_handleHealthCheckFailure.
Qed.

Lemma enhanced_sweep_probe cfg m probe w g rustplus :
  probed g w = true ->
  rustplusInstances w !! g = Some rustplus ->
  let s := Enhanced.checkConnectionHealth cfg m g rustplus (probe g) w in
  Enhanced.healthCheckGuild cfg m probe w g
  = set_rustplusInstances (<[g := fst s]> (rustplusInstances w)) (snd s).
Proof.
  intros Hp Hr. unfold probed in Hp. unfold Enhanced.healthCheckGuild.
  rewrite Hr in *.
  destruct (truthyFlag (activeRustplusInstances w !! g)); [|done].
  destruct (isOperational rustplus); [|done].
  destruct (truthyFlag (rustplusReconnecting w !! g)); [done|].
  simpl.
  destruct (enhanced_check_registry cfg m g rustplus (probe g) w) as (Hreg & _).
  destruct (Enhanced.checkConnectionHealth cfg m g rustplus (probe g) w)
    as [r1 w1]. simpl in *. by rewrite Hreg, Hr.
Qed.
(** X9: the health sweep of the enhanced monitor, on a probe answered with
    server information.  When the answer shows a restart, the connection is
    marked not operational and disconnected, and later sweeps over the guild
    change nothing.  Otherwise the answer is remembered as the server's
    identity when none was, the guild stays probed with failure count 0, and
    neither the reconnection manager nor the client is called. *)
Theorem enhanced_sweep_pauses_after_restart
    (cfg : Config) (m : MonitorConfig) (probe : GuildId -> ProbeOutcome)
    (w : World) (g : GuildId) (rustplus : Rustplus) (info : ServerInfo) :
  probed g w = true ->
  rustplusInstances w !! g = Some rustplus ->
  rp_guildId rustplus = g ->
  probe g = answered info ->
  let w' := Enhanced.healthCheckGuild cfg m probe w g in
  (restartObserved rustplus info = true ->
   rustplusInstances w' !! g = Some (afterRestart info rustplus)
   /\ probed g w' = false
   /\ calls w' = CallDisconnect g :: calls w
   /\ (forall probe' n,
         Enhanced.performHealthChecks cfg m probe' (replicate n g) w' = w'))
  /\ (restartObserved rustplus info = false ->
      rustplusInstances w' !! g
      = Some (if Enhanced.hasIdentity info
                 && bool_decide (lastServerInfo rustplus = None)
              then set_lastServerInfo (Some info) rustplus else rustplus)
      /\ probed g w' = true
      /\ failureCount g w' = 0
      /\ managerPart w' = managerPart w
      /\ calls w' = calls w).
Proof.
  intros Hp Hr Hg Hprobe.
  pose proof (enhanced_sweep_probe cfg m probe w g rustplus Hp Hr) as Hs.
  cbv zeta in *. rewrite Hs, Hprobe. clear Hs. split.
  - intros Hobs.
    rewrite (enhanced_check_restart cfg m g rustplus info w Hg Hobs).
    set (w1 := attemptReconnection _ _ _ _ _).
    assert (Hc1 : calls w1 = CallDisconnect g :: calls w).
    { unfold w1. by rewrite calls_attemptReconnection. }
    pose proof (calls_handleHealthCheckFailure cfg m g
                  (afterRestart info rustplus) "Server restart detected" w1)
      as Hc2.
    assert (Hf : fst (handleHealthCheckFailure cfg m g
                        (afterRestart info rustplus)
                        "Server restart detected" w1)
                 = afterRestart info rustplus).
    { rewrite handleHealthCheckFailure_unfold. by destruct (_ >=? _). }
    destruct (handleHealthCheckFailure cfg m g (afterRestart info rustplus)
                "Server restart detected" w1) as [r2 w2].
    unfold fst, snd in *. subst r2.
    assert (Hq : probed g
                   (set_rustplusInstances
                      (<[g:=afterRestart info rustplus]> (rustplusInstances w))
                      w2) = false).
    { rewrite probed_stored. apply andb_false_r. }
    split; [apply lookup_insert_eq|]. split; [exact Hq|].
    split; [by rewrite <- Hc1|].
    intros probe' n. apply enhanced_sweep_idle.
    intros k Hk. apply elem_of_replicate in Hk as [-> _]. exact Hq.
  - intros Hobs. unfold restartObserved in Hobs.
    assert (E : exists w1,
              Enhanced.checkConnectionHealth cfg m g rustplus (answered info) w
              = (if Enhanced.hasIdentity info
                    && bool_decide (lastServerInfo rustplus = None)
                 then set_lastServerInfo (Some info) rustplus else rustplus, w1)
              /\ managerPart w1 = managerPart w
              /\ calls w1 = calls w
              /\ failureCount g w1 = 0
              /\ activeRustplusInstances w1 = activeRustplusInstances w
              /\ rustplusReconnecting w1 = rustplusReconnecting w).
    { unfold Enhanced.checkConnectionHealth, answered,
        Enhanced.performHealthCheckRequest.
      destruct (Enhanced.hasIdentity info); simpl in Hobs |- *.
      - destruct (lastServerInfo rustplus) as [last|] eqn:El.
        + rewrite Hobs. eexists. split; [reflexivity|].
          unfold failureCount. simpl. by rewrite lookup_insert_eq.
        + eexists. split; [reflexivity|].
          unfold failureCount. simpl. by rewrite lookup_insert_eq.
      - eexists. split; [reflexivity|].
        unfold failureCount. simpl. by rewrite lookup_insert_eq. }
    destruct E as (w1 & -> & Hm & Hc & Hfc & Ha & Hf). unfold fst, snd.
    rewrite probed_stored, Ha, Hf.
    split; [apply lookup_insert_eq|]. split; [|done].
    unfold probed in Hp. rewrite Hr in Hp.
    destruct (Enhanced.hasIdentity info
              && bool_decide (lastServerInfo rustplus = None)); simpl; exact Hp.
Qed.

Lemma enhanced_sweep_pauses_after_restart_witness :
  let probe := fun _ : GuildId => answered serverInfoNew in
  let w' := Enhanced.healthCheckGuild defaultConfig (Enhanced.monitor None)
              probe identifiedA guildA in
  probed guildA identifiedA = true
  /\ rustplusInstances w' !! guildA
     = Some (afterRestart serverInfoNew
               (set_lastServerInfo (Some serverInfoOld) rustplusA))
  /\ probed guildA w' = false
  /\ calls w' = CallDisconnect guildA :: calls identifiedA
  /\ (forall probe' n,
        Enhanced.performHealthChecks defaultConfig (Enhanced.monitor None)
          probe' (replicate n guildA) w' = w').
Proof.
  split; [reflexivity|].
  apply (enhanced_sweep_pauses_after_restart defaultConfig
           (Enhanced.monitor None) (fun _ => answered serverInfoNew)
           identifiedA guildA
           (set_lastServerInfo (Some serverInfoOld) rustplusA) serverInfoNew).
  - reflexivity.
  - reflexivity.
  - reflexivity.
  - reflexivity.
  - reflexivity.
Defined.
(** ** The reconciliation sweep over all guilds *)

Lemma reconnectGuild_other g g' instance o w :
  g ≠ g' ->
  rustplusReconnecting (reconnectGuild g' instance o w) !! g
  = rustplusReconnecting w !! g
  /\ (instances w !! g' = Some instance ->
      instances (reconnectGuild g' instance o w) = instances w)
  /\ activeRustplusInstances (reconnectGuild g' instance o w)
     = activeRustplusInstances w
  /\ rustplusInstances (reconnectGuild g' instance o w) !! g
     = rustplusInstances w !! g.
Proof.
  intros Hne. unfold reconnectGuild.
  destruct (activeServer instance) as [serverId|]; [|done].
  destruct (activeServerInfo instance) as [info|]; [|done].
  destruct (rustplusInstances _ !! g') as [r|], o; simpl;
    rewrite ?lookup_insert_ne, ?lookup_delete_ne by done;
    (split; [done|]); (split; [|done]); intros Hi; by apply insert_id.
Qed.

Lemma checkGuildConnection_other g g' o w :
  g ≠ g' -> qualifies g (checkGuildConnection g' o w) = qualifies g w.
Proof.
  intros Hne. unfold checkGuildConnection.
  destruct (truthyFlag (rustplusReconnecting w !! g')); [done|].
  destruct (instances w !! g') as [instance|] eqn:Hi; [|done].
  destruct (_ || _); [done|].
  destruct (_ && _); [|done].
  set (w2 := clientLog _ _ _).
  assert (H2 : qualifies g w2 = qualifies g w
               /\ instances w2 !! g' = Some instance).
  { unfold w2. by destruct (isLikelyServerRestartTime _ _). }
  destruct H2 as [<- Hi2].
  destruct (reconnectGuild_other g g' instance o w2 Hne) as (Hf & Hin & Ha & Hr).
  unfold qualifies, isCurrentlyConnected. by rewrite Hf, (Hin Hi2), Ha, Hr.
Qed.

Lemma checkGuildConnection_manager g o w :
  managerPart (checkGuildConnection g o w) = managerPart w.
Proof.
  destruct (qualifies g w) eqn:Hq.
  - destruct (checkGuildConnection_act g o w Hq)
      as (instance & serverId & info & w1 & Hi & Ha & Hs & _ & Hm & _ & ->).
    destruct (reconnectGuild_effect g instance o w1 serverId info Ha Hs)
      as (_ & -> & _). done.
  - by rewrite (checkGuildConnection_skip g o w Hq).
Qed.

Lemma checkGuildConnection_instances g o w :
  instances (checkGuildConnection g o w) = instances w.
Proof.
  unfold checkGuildConnection.
  destruct (truthyFlag (rustplusReconnecting w !! g)); [done|].
  destruct (instances w !! g) as [instance|] eqn:Hi; [|done].
  destruct (_ || _); [done|].
  destruct (_ && _); [|done].
  set (w2 := clientLog _ _ _).
  assert (H2 : instances w2 = instances w) by
    (unfold w2; by destruct (isLikelyServerRestartTime _ _)).
  rewrite <- H2. rewrite <- H2 in Hi. clearbody w2.
  unfold reconnectGuild.
  destruct (activeServer instance) as [serverId|]; [|done].
  destruct (activeServerInfo instance) as [info|]; [|done].
  destruct (rustplusInstances _ !! g) as [r|], (o); simpl;
    by apply insert_id.
Qed.

Lemma checkGuildConnection_mark_other g g' o w :
  g ≠ g' ->
  rustplusReconnecting (checkGuildConnection g' o w) !! g
  = rustplusReconnecting w !! g.
Proof.
  intros Hne. unfold checkGuildConnection.
  destruct (truthyFlag (rustplusReconnecting w !! g')); [done|].
  destruct (instances w !! g') as [instance|] eqn:Hi; [|done].
  destruct (_ || _); [done|].
  destruct (_ && _); [|done].
  set (w2 := clientLog _ _ _).
  assert (H2 : rustplusReconnecting w2 = rustplusReconnecting w) by
    (unfold w2; by destruct (isLikelyServerRestartTime _ _)).
  rewrite <- H2.
  by destruct (reconnectGuild_other g g' instance o w2 Hne) as (-> & _).
Qed.

Lemma sweepCall_other g g' o w :
  g ≠ g' -> sweepCall (checkGuildConnection g' o w) g = sweepCall w g.
Proof.
  intros Hne. unfold sweepCall.
  by rewrite (checkGuildConnection_other g g' o w Hne),
    checkGuildConnection_instances.
Qed.

(** What one check does for its guild: the factory call and the mark. *)
Lemma checkGuildConnection_sweepCall g o w :
  createCalls (checkGuildConnection g o w)
  = match sweepCall w g with
    | Some c => c :: createCalls w
    | None => createCalls w
    end
  /\ (is_Some (sweepCall w g) <-> qualifies g w = true)
  /\ rustplusReconnecting (checkGuildConnection g o w) !! g
     = (if qualifies g w then Some (reconnectingAfter o)
        else rustplusReconnecting w !! g).
Proof.
  unfold sweepCall.
  destruct (qualifies g w) eqn:Hq.
  - destruct (checkGuildConnection_act g o w Hq)
      as (instance & serverId & info & w1 & Hi & Ha & Hs & Hc & _ & _ & E).
    destruct (reconnectGuild_effect g instance o w1 serverId info Ha Hs)
      as (Hcalls & _ & _ & Hmark & _).
    rewrite Hi. simpl. unfold activeServerInfo. rewrite Ha, Hs. simpl.
    rewrite E. split; [|split].
    + rewrite Hcalls. unfold createCalls. by rewrite Hc.
    + split; [done|by eexists].
    + exact Hmark.
  - rewrite (checkGuildConnection_skip g o w Hq).
    split; [done|]. split; [|done].
    split; [by intros [? ?]|intros; discriminate].
Qed.

(** The sweep over the guilds of the cache. *)
Lemma sweep_calls o guilds : forall w,
  NoDup guilds ->
  let w' := fold_left (fun w g => checkGuildConnection g (o g) w) guilds w in
  createCalls w' = (rev (omap (sweepCall w) guilds) ++ createCalls w)%list
  /\ (forall g,
        rustplusReconnecting w' !! g
        = if bool_decide (g ∈ guilds) && qualifies g w
          then Some (reconnectingAfter (o g))
          else rustplusReconnecting w !! g).
Proof.
  induction guilds as [|g0 gs IH]; intros w Hn; simpl; [done|].
  apply NoDup_cons in Hn as [Hg Hn].
  destruct (IH (checkGuildConnection g0 (o g0) w) Hn) as [Hc Hm].
  cbv zeta in Hc, Hm.
  destruct (checkGuildConnection_sweepCall g0 (o g0) w) as (Hc0 & _ & Hm0).
  assert (E : omap (sweepCall (checkGuildConnection g0 (o g0) w)) gs
              = omap (sweepCall w) gs).
  { clear -Hg. induction gs as [|g gs IH]; [done|]. simpl.
    rewrite sweepCall_other by (intros ->; apply Hg; by left).
    assert (Hgs : g0 ∉ gs) by (intros Hin; apply Hg; by right).
    destruct (sweepCall w g); [f_equal|]; exact (IH Hgs). }
  split.
  - rewrite Hc, E, Hc0.
    destruct (sweepCall w g0) as [c|]; simpl; [|done].
    by rewrite <- app_assoc.
  - intros g. rewrite Hm.
    destruct (decide (g = g0)) as [->|Hne].
    + rewrite (bool_decide_eq_false_2 (g0 ∈ gs)) by done.
      rewrite bool_decide_eq_true_2 by by left. simpl. exact Hm0.
    + rewrite (checkGuildConnection_other g g0 (o g0) w Hne).
      rewrite (checkGuildConnection_mark_other g g0 (o g0) w Hne).
      destruct (decide (g ∈ gs)) as [Hin|Hin].
      * rewrite !bool_decide_eq_true_2; [done|by right|done].
      * rewrite !bool_decide_eq_false_2; [done| |done].
        by intros [?|?]%elem_of_cons.
Qed.

Lemma sweepCalls_length w guilds :
  length (omap (sweepCall w) guilds)
  = length (List.filter (fun g => qualifies g w) guilds).
Proof.
  induction guilds as [|g gs IH]; [done|]. simpl.
  destruct (checkGuildConnection_sweepCall g CreateReturns w) as (_ & Hq & _).
  destruct (qualifies g w) eqn:E.
  - destruct (proj2 Hq eq_refl) as [c ->]. simpl. f_equal. exact IH.
  - destruct (sweepCall w g) as [c|] eqn:Ec; [|exact IH].
    assert (Hs : is_Some (Some c)) by by eexists.
    apply Hq in Hs. discriminate.
Qed.

(** X10: the reconciliation sweep of the auto-reconnect manager does
    nothing when the manager is not running and never touches the
    reconnection manager.  Over a cache of distinct guilds whose server
    lookups are answered by their own server lists, it calls the connection
    factory for the guilds that qualify (not marked reconnecting, active
    server with an entry, not observed operational), once each, in the
    order of the cache and with the entry of the guild's own active server,
    and for no other guild; the guilds that qualify, and only they, are
    left marked reconnecting when the factory returns and unmarked when it
    throws. *)
Theorem reconciliation_sweep_one_call_per_qualifying_guild
    (o : GuildId -> CreateOutcome) (guilds : list GuildId) (w : World) :
  checkAndReconnect false o guilds w = w
  /\ managerPart (checkAndReconnect true o guilds w) = managerPart w
  /\ (NoDup guilds ->
      (forall g instance,
         g ∈ guilds -> instances w !! g = Some instance ->
         ownServerLookup instance = true) ->
      createCalls (checkAndReconnect true o guilds w)
      = (rev (omap (sweepCall w) guilds) ++ createCalls w)%list
      /\ (forall g, is_Some (sweepCall w g) <-> qualifies g w = true)
      /\ (forall g instance info,
            qualifies g w = true -> instances w !! g = Some instance ->
            activeServerInfo instance = Some info ->
            sweepCall w g = Some (createCallFor g info))
      /\ length (createCalls (checkAndReconnect true o guilds w))
         = (length (createCalls w)
            + length (List.filter (fun g => qualifies g w) guilds))%nat
      /\ (forall g,
            rustplusReconnecting (checkAndReconnect true o guilds w) !! g
            = if bool_decide (g ∈ guilds) && qualifies g w
              then Some (reconnectingAfter (o g))
              else rustplusReconnecting w !! g)).
Proof.
  split; [done|]. unfold checkAndReconnect. simpl. split.
  - revert w. induction guilds as [|g gs IH]; intros w; [done|].
    simpl. by rewrite IH, checkGuildConnection_manager.
  - intros Hn _. destruct (sweep_calls o guilds w Hn) as [Hc Hm].
    cbv zeta in Hc, Hm.
    split; [exact Hc|]. split.
    { intros g. by destruct (checkGuildConnection_sweepCall g CreateReturns w)
        as (_ & ? & _). }
    split.
    { intros g instance info Hq Hi Ha. unfold sweepCall.
      rewrite Hq, Hi. simpl. by rewrite Ha. }
    split; [|exact Hm].
    rewrite Hc, length_app, length_rev, sweepCalls_length. lia.
Qed.

Lemma reconciliation_sweep_one_call_per_qualifying_guild_witness :
  let o := fun _ : GuildId => CreateReturns in
  qualifies guildA twoGuildsAB = true
  /\ qualifies guildB twoGuildsAB = false
  /\ createCalls (checkAndReconnect true o [guildA; guildB] twoGuildsAB)
     = [createCallFor guildA serverA]
  /\ rustplusReconnecting
       (checkAndReconnect true o [guildA; guildB] twoGuildsAB) !! guildA
     = Some true
  /\ rustplusReconnecting
       (checkAndReconnect true o [guildA; guildB] twoGuildsAB) !! guildB
     = None.
Proof.
  split; [reflexivity|]. split; [reflexivity|].
  destruct (proj2 (proj2 (reconciliation_sweep_one_call_per_qualifying_guild
                            (fun _ => CreateReturns) [guildA; guildB]
                            twoGuildsAB))) as (H1 & _ & _ & _ & H2).
  - apply NoDup_cons. split; [|apply NoDup_singleton].
    intros H%list_elem_of_singleton. discriminate.
  - intros g instance Hg Hi.
    apply elem_of_cons in Hg as [->|Hg%list_elem_of_singleton].
    + vm_compute in Hi. injection Hi as <-. reflexivity.
    + subst g. vm_compute in Hi. injection Hi as <-. reflexivity.
  - split; [exact H1|]. split; [exact (H2 guildA)|exact (H2 guildB)].
Defined.

(** ** The restart-time heuristic *)

Lemma reconnectGuild_clock g instance o w t lg :
  eraseLog (reconnectGuild g instance o (set_now t (set_log lg w)))
  = set_now t (eraseLog (reconnectGuild g instance o w))
  /\ exists new,
       withoutRestartTimeLines new = new
       /\ log (reconnectGuild g instance o (set_now t (set_log lg w)))
          = (new ++ lg)%list
       /\ log (reconnectGuild g instance o w) = (new ++ log w)%list.
Proof.
  unfold reconnectGuild.
  destruct (activeServer instance) as [serverId|];
    [|split; [done|];
      eexists [_]; (split; [|split; reflexivity]); reflexivity].
  destruct (activeServerInfo instance) as [info|];
    [|split; [done|];
      eexists [_]; (split; [|split; reflexivity]); reflexivity].
  simpl. destruct (rustplusInstances w !! g) as [r|], o; simpl;
    (split; [done|]);
    eexists [_; _]; (split; [|split; reflexivity]); reflexivity.
Qed.

(** X11: [isLikelyServerRestartTime] is true exactly when the hour is at most
    6 or the minute is at most 5, and the clock decides nothing in the
    reconciliation check but one log line: two checks of a guild at different
    times reach the same world up to the log, and the same log up to the
    restart-time line. *)
Theorem restart_time_heuristic_only_logs
    (g : GuildId) (o : CreateOutcome) (w : World) (t : Z) :
  (forall hour minute,
     0 <= hour -> 0 <= minute ->
     isLikelyServerRestartTime hour minute = (hour <=? 6) || (minute <=? 5))
  /\ eraseLog (checkGuildConnection g o (set_now t w))
     = set_now t (eraseLog (checkGuildConnection g o w))
  /\ withoutRestartTimeLines (log (checkGuildConnection g o (set_now t w)))
     = withoutRestartTimeLines (log (checkGuildConnection g o w)).
Proof.
  split.
  { intros hour minute Hh Hm. unfold isLikelyServerRestartTime.
    destruct (Z.leb_spec 0 hour); [|lia].
    by destruct (Z.leb_spec 0 minute); [|lia]. }
  unfold checkGuildConnection.
  change (rustplusReconnecting (set_now t w)) with (rustplusReconnecting w).
  change (instances (set_now t w)) with (instances w).
  change (isCurrentlyConnected g (set_now t w))
    with (isCurrentlyConnected g w).
  destruct (truthyFlag (rustplusReconnecting w !! g)); [done|].
  destruct (instances w !! g) as [instance|]; [|done].
  destruct (_ || _); [done|].
  destruct (_ && _); [|done].
  set (m2 := (infoCap, MsgAutoReconnecting g (default "" (activeServer instance)))).
  set (m1 := (infoCap, MsgLikelyRestartTime g)).
  assert (E : forall (b : bool) (w0 : World),
            clientLog infoCap
              (MsgAutoReconnecting g (default "" (activeServer instance)))
              (if b then clientLog infoCap (MsgLikelyRestartTime g) w0 else w0)
            = set_now (now w0)
                (set_log (m2 :: (if b then [m1] else []) ++ log w0) w0)).
  { intros b w0. by destruct b, w0. }
  rewrite !E. clear E.
  change (now (set_now t w)) with t. change (log (set_now t w)) with (log w).
  set (b1 := isLikelyServerRestartTime _ _).
  set (b2 := isLikelyServerRestartTime _ _).
  change (set_log ?l (set_now t w)) with (set_now t (set_log l w)).
  assert (Hn : forall l, set_now t (set_now t (set_log l w))
                         = set_now t (set_log l w)) by done.
  rewrite Hn. clear Hn.
  assert (Hw : forall l, set_now (now w) (set_log l w)
                         = set_log l w) by (intros l; by destruct w).
  rewrite Hw. clear Hw.
  destruct (reconnectGuild_clock g instance o w t
              (m2 :: (if b1 then [m1] else []) ++ log w))
    as (E1 & new & Hnew & L1 & L0).
  destruct (reconnectGuild_clock g instance o w (now w)
              (m2 :: (if b2 then [m1] else []) ++ log w))
    as (E2 & new' & Hnew' & L2 & L0').
  assert (new' = new) as ->.
  { rewrite L0 in L0'. by apply app_inv_tail in L0'. }
  split.
  - rewrite E1.
    assert (Hw : forall l, set_now (now w) (set_log l w) = set_log l w)
      by (intros l; by destruct w).
    rewrite Hw in E2. rewrite E2. reflexivity.
  - assert (Hw : forall l, set_now (now w) (set_log l w) = set_log l w)
      by (intros l; by destruct w).
    rewrite Hw in L2. rewrite L1, L2.
    unfold withoutRestartTimeLines. rewrite !List.filter_app. simpl.
    by destruct b1, b2.
Qed.
Lemma restart_time_heuristic_only_logs_witness :
  let t := 25380000 in
  hourOf t = 7 /\ minuteOf t = 3
  /\ isLikelyServerRestartTime 7 3 = true
  /\ isLikelyServerRestartTime 7 30 = false
  /\ eraseLog (checkGuildConnection guildA CreateReturns
                 (set_now t disconnectedA))
     = set_now t (eraseLog (checkGuildConnection guildA CreateReturns
                              disconnectedA)).
Proof.
  destruct (restart_time_heuristic_only_logs guildA CreateReturns
              disconnectedA 25380000) as (H1 & H2 & _).
  split; [reflexivity|]. split; [reflexivity|].
  split; [rewrite H1; [reflexivity|lia|lia]|].
  split; [rewrite H1; [reflexivity|lia|lia]|].
  exact H2.
Defined.

(** ** A server that is missing from the server list *)

(** X12: a guild whose instance names an active server that has no entry
    in its server list, and whose name [Object.prototype] does not answer
    either, is never connected: the reconciliation check skips it, a forced
    reconnection only logs that the server information is missing (no call
    of the factory, no mark), and the retry command resets the guild's
    reconnection state and its mark and then stops at the missing entry
    without a request to the reconnection manager. *)
Theorem missing_server_entry_is_never_connected
    (cfg : Config) (g : GuildId) (o : CreateOutcome) (w : World)
    (instance : Instance) :
  instances w !! g = Some instance ->
  truthyOptString (activeServer instance) = true ->
  activeServerInfo instance = None ->
  ownServerLookup instance = true ->
  checkGuildConnection g o w = w
  /\ forceReconnectGuild g o w
     = clientLog errorCap (MsgNoServerInfo (activeServer instance) g)
         (clientLog infoCap (MsgForceReconnecting g) w)
  /\ handleAutoReconnectCommand g o w
     = (if isCurrentlyConnected g w then w else forceReconnectGuild g o w)
  /\ handleRetryCommand cfg g w
     = set_rustplusReconnecting (<[g := false]> (rustplusReconnecting w))
         (resetState g w)
  /\ getReconnectionStatus cfg g (handleRetryCommand cfg g w)
     = (false, 0, maxRetries cfg)
  /\ requestsLogged g (handleRetryCommand cfg g w) = requestsLogged g w.
Proof.
  intros Hi Ha Hs _.
  split.
  { apply checkGuildConnection_skip. unfold qualifies.
    rewrite Hi, Hs, Ha. simpl. apply andb_false_r. }
  assert (Hf : forceReconnectGuild g o w
               = clientLog errorCap (MsgNoServerInfo (activeServer instance) g)
                   (clientLog infoCap (MsgForceReconnecting g) w)).
  { unfold forceReconnectGuild, reconnectGuild. rewrite Hi, Ha, Hs.
    by destruct (activeServer instance). }
  split; [exact Hf|].
  split.
  { unfold handleAutoReconnectCommand. rewrite Hi, Ha.
    by destruct (isCurrentlyConnected g w). }
  assert (Hr : handleRetryCommand cfg g w
               = set_rustplusReconnecting
                   (<[g := false]> (rustplusReconnecting w)) (resetState g w)).
  { unfold handleRetryCommand. rewrite Hi, Ha, Hs. simpl.
    f_equal. unfold resetState.
    destruct (getState g w) as [[l st]|]; [|done]. by destruct (timer st). }
  split; [exact Hr|]. rewrite Hr. split.
  - unfold getReconnectionStatus, resetState.
    destruct (getState g w) as [[l st]|] eqn:E.
    + unfold getState. simpl.
      destruct (timer st); simpl; by rewrite lookup_delete_eq.
    + change (getState g (set_rustplusReconnecting _ w)) with (getState g w).
      by rewrite E.
  - unfold requestsLogged, resetState.
    destruct (getState g w) as [[l st]|]; [|done]. by destruct (timer st).
Qed.

Lemma missing_server_entry_is_never_connected_witness :
  checkGuildConnection guildA CreateReturns noEntryA = noEntryA
  /\ forceReconnectGuild guildA CreateReturns noEntryA
     = clientLog errorCap (MsgNoServerInfo (Some "203.0.113.7-28082") guildA)
         (clientLog infoCap (MsgForceReconnecting guildA) noEntryA)
  /\ getReconnectionStatus defaultConfig guildA noEntryA = (false, 10, 10)
  /\ getReconnectionStatus defaultConfig guildA
       (handleRetryCommand defaultConfig guildA noEntryA) = (false, 0, 10).
Proof.
  destruct (missing_server_entry_is_never_connected defaultConfig guildA
              CreateReturns noEntryA instanceNoEntry)
    as (H1 & H2 & _ & _ & H5 & _).
  - reflexivity.
  - reflexivity.
  - reflexivity.
  - reflexivity.
  - split; [exact H1|]. split; [exact H2|].
    split; [vm_compute; reflexivity | exact H5].
Defined.

Lemma list_filter_all {A} (f : A -> bool) (l : list A) :
  (forall x, x ∈ l -> f x = true) -> List.filter f l = l.
Proof.
  induction l as [|x l IH]; [done|]. intros Hall. simpl.
  rewrite (Hall x) by left. f_equal. apply IH. intros y Hy. apply Hall. by right.
Qed.

(** X13: [resetState] cancels the guild's pending attempt and only that:
    in a consistent world the timers left are exactly those that are no
    attempt of this guild, the guild then reports not reconnecting with
    retry count 0, and neither the state objects nor the log change. *)
Theorem resetState_cancels_the_pending_attempt
    (cfg : Config) (g : GuildId) (w : World) :
  Consistent cfg w ->
  timers (resetState g w)
  = List.filter (fun x => negb (isAttemptFor g x)) (timers w)
  /\ pendingAttempts g (resetState g w) = []
  /\ getReconnectionStatus cfg g (resetState g w) = (false, 0, maxRetries cfg)
  /\ heap (resetState g w) = heap w
  /\ log (resetState g w) = log w.
Proof.
  intros HC.
  assert (Ht : timers (resetState g w)
               = List.filter (fun x => negb (isAttemptFor g x)) (timers w)).
  { unfold resetState.
    destruct (getState g w) as [[l st]|] eqn:E.
    - apply getState_Some in E as [El Es].
      assert (Hiff : forall x, x ∈ timers w ->
                (timer st ≠ Some (tid x) <-> negb (isAttemptFor g x) = true)).
      { intros x Hx. split.
        - intros Hne. apply negb_true_iff. unfold isAttemptFor.
          destruct (cb x) as [g' r p l'| |] eqn:Hcb; [|done|done].
          apply String.eqb_neq. intros ->.
          destruct (attempt_owned _ _ _ _ _ HC x g r p l' Hx Hcb)
            as (Hg & st' & Hl' & Ht').
          congruence.
        - intros Hno Ht. apply negb_true_iff in Hno.
          destruct (stored_attempt _ _ _ _ _ HC l st x Es Ht Hx)
            as (g' & r & p & Hcb).
          destruct (attempt_owned _ _ _ _ _ HC x g' r p l Hx Hcb) as (Hg' & _).
          assert (g' = g) as -> by by apply (states_inj _ _ _ _ _ HC g' g l).
          unfold isAttemptFor in Hno. rewrite Hcb in Hno.
          by rewrite String.eqb_refl in Hno. }
      destruct (timer st) as [t|] eqn:Et; simpl.
      + apply filter_bool. intros x Hx. rewrite <- (Hiff x Hx).
        split; congruence.
      + symmetry. apply list_filter_all. intros x Hx. by apply Hiff.
    - symmetry. apply list_filter_all. intros x Hx.
      apply negb_true_iff. unfold isAttemptFor.
      destruct (cb x) as [g' r p l'| |] eqn:Hcb; [|done|done].
      apply String.eqb_neq. intros ->.
      destruct (attempt_owned _ _ _ _ _ HC x g r p l' Hx Hcb)
        as (Hg & st' & Hl' & Ht').
      unfold getState in E. by rewrite Hg, Hl' in E. }
  split; [exact Ht|]. split.
  { unfold pendingAttempts. rewrite Ht. clear Ht.
    induction (timers w) as [|x ts IH]; [done|]. simpl.
    destruct (isAttemptFor g x) eqn:Hx; simpl; [exact IH|]. by rewrite Hx. }
  unfold getReconnectionStatus, resetState.
  destruct (getState g w) as [[l st]|] eqn:E.
  - unfold getState. destruct (timer st); simpl; by rewrite lookup_delete_eq.
  - by rewrite E.
Qed.
Lemma resetState_cancels_the_pending_attempt_witness :
  length (pendingAttempts guildB stoppingAB) = 1%nat
  /\ timers (resetState guildB stoppingAB)
     = List.filter (fun x => negb (isAttemptFor guildB x)) (timers stoppingAB)
  /\ pendingAttempts guildB (resetState guildB stoppingAB) = []
  /\ getReconnectionStatus defaultConfig guildB (resetState guildB stoppingAB)
     = (false, 0, 10).
Proof.
  split; [reflexivity|].
  destruct (resetState_cancels_the_pending_attempt defaultConfig guildB
              stoppingAB) as (H1 & H2 & H3 & _).
  - apply consistent_run, consistent_empty.
  - split; [exact H1|]. split; [exact H2 | exact H3].
Defined.
(** ** The text of the uptime *)

(** X14: the uptime text of the status command never overstates: for a
    start time in the past the shown amount is at most the uptime and
    misses it by less than the last unit shown (a minute when days or
    hours are shown, a second otherwise), with hours below 24 and minutes
    and seconds below 60.  For a start time in the future the text has
    the minutes-seconds form with negative minutes and, since % keeps the
    sign, seconds in (-60, 0]. *)
Theorem uptime_text_never_overstates (now startTime : Z) :
  let u := uptimeText now startTime in
  let uptime := now - startTime in
  (0 <= uptime ->
   shownMillis u <= uptime < shownMillis u + lastUnit u
   /\ match u with
      | DaysHoursMinutes d h m => 1 <= d /\ 0 <= h < 24 /\ 0 <= m < 60
      | HoursMinutes h m => 1 <= h < 24 /\ 0 <= m < 60
      | MinutesSeconds m s => 0 <= m < 60 /\ 0 <= s < 60
      end)
  /\ (uptime < 0 -> exists m s, u = MinutesSeconds m s /\ m < 0 /\ -60 < s <= 0).
Proof.
  cbv zeta. unfold uptimeText.
  set (uptime := now - startTime).
  set (seconds := uptime / 1000).
  set (minutes := seconds / 60).
  set (hours := minutes / 60).
  set (days := hours / 24).
  pose proof (Z.div_mod uptime 1000 ltac:(lia)) as E1.
  pose proof (Z.mod_pos_bound uptime 1000 ltac:(lia)) as B1.
  pose proof (Z.div_mod seconds 60 ltac:(lia)) as E2.
  pose proof (Z.mod_pos_bound seconds 60 ltac:(lia)) as B2.
  pose proof (Z.div_mod minutes 60 ltac:(lia)) as E3.
  pose proof (Z.mod_pos_bound minutes 60 ltac:(lia)) as B3.
  pose proof (Z.div_mod hours 24 ltac:(lia)) as E4.
  pose proof (Z.mod_pos_bound hours 24 ltac:(lia)) as B4.
  fold seconds in E1. fold minutes in E2. fold hours in E3. fold days in E4.
  split.
  - intros Hu.
    assert (Hs : 0 <= seconds) by (apply Z.div_pos; lia).
    assert (Hm : 0 <= minutes) by (apply Z.div_pos; lia).
    assert (Hh : 0 <= hours) by (apply Z.div_pos; lia).
    assert (Hd : 0 <= days) by (apply Z.div_pos; lia).
    rewrite !Z.rem_mod_nonneg by lia.
    destruct (Z.gtb_spec days 0); [simpl; lia|].
    destruct (Z.gtb_spec hours 0); simpl; lia.
  - intros Hu.
    assert (Hs : seconds < 0) by (apply Z.div_lt_upper_bound; lia).
    assert (Hm : minutes < 0) by (apply Z.div_lt_upper_bound; lia).
    assert (Hh : hours < 0) by (apply Z.div_lt_upper_bound; lia).
    assert (Hd : days < 0) by (apply Z.div_lt_upper_bound; lia).
    destruct (Z.gtb_spec days 0); [lia|].
    destruct (Z.gtb_spec hours 0); [lia|].
    eexists _, _. split; [reflexivity|]. split; [lia|].
    pose proof (Z.rem_bound_pos_neg seconds 60 ltac:(lia) ltac:(lia)). lia.
Qed.

Lemma uptime_text_never_overstates_witness :
  let u := uptimeText 1700093784000 1700000000000 in
  u = DaysHoursMinutes 1 2 3
  /\ formatUptime 1700093784000 1700000000000 = "1d 2h 3m"
  /\ shownMillis u <= 93784000 < shownMillis u + lastUnit u
  /\ formatUptime 1700000000000 1700000000001 = "-1m -1s".
Proof.
  split; [vm_compute; reflexivity|]. split; [vm_compute; reflexivity|].
  split; [|vm_compute; reflexivity].
  destruct (proj1 (uptime_text_never_overstates 1700093784000 1700000000000))
    as [H _]; [lia|exact H].
Defined.
(** ** The status command *)

Lemma handleStatusCommand_cases cfg g w :
  handleStatusCommand cfg g w
  = if isCurrentlyConnected g w
    then match rustplusInstances w !! g with
         | Some rustplus =>
             ReportConnected (rp_server rustplus) (rp_port rustplus)
               (if retryCountOf g w >? 0 then Some (retryCountOf g w) else None)
         | None => ReportDisconnected false
         end
    else if truthyFlag (rustplusReconnecting w !! g)
    then ReportReconnecting (retryCountOf g w) (maxRetries cfg)
           (match statusCurrentDelay g w with
            | Some d => if d =? 0 then None else Some (d / 1000)
            | None => None
            end)
           (match statusReason g w with
            | Some r => if truthyString r then Some r else None
            | None => None
            end)
    else ReportDisconnected (retryCountOf g w >=? maxRetries cfg).
Proof.
  unfold handleStatusCommand, isCurrentlyConnected, getReconnectionStatus,
    retryCountOf.
  destruct (getState g w) as [[l st]|];
    destruct (rustplusInstances w !! g) as [r|];
    destruct (truthyFlag (activeRustplusInstances w !! g)); simpl; try done;
    by destruct (isOperational r).
Qed.

(** X15: the status command reports Connected exactly when the guild is
    observed operational; otherwise it reports Reconnecting exactly when the
    client's reconnecting mark of the guild is set, and Disconnected when it
    is not.  The state of the reconnection manager does not enter this
    choice: right after the manager accepted a request for an unmarked guild
    (it then reports isReconnecting), the command still reports
    Disconnected. *)
Theorem status_report_follows_the_reconciliation_flag
    (cfg : Config) (g : GuildId) (w : World) :
  (isCurrentlyConnected g w = true ->
   exists rustplus,
     rustplusInstances w !! g = Some rustplus
     /\ handleStatusCommand cfg g w
        = ReportConnected (rp_server rustplus) (rp_port rustplus)
            (if retryCountOf g w >? 0 then Some (retryCountOf g w) else None))
  /\ (isCurrentlyConnected g w = false ->
      truthyFlag (rustplusReconnecting w !! g) = true ->
      exists next reason,
        handleStatusCommand cfg g w
        = ReportReconnecting (retryCountOf g w) (maxRetries cfg) next reason)
  /\ (isCurrentlyConnected g w = false ->
      truthyFlag (rustplusReconnecting w !! g) = false ->
      handleStatusCommand cfg g w
      = ReportDisconnected (retryCountOf g w >=? maxRetries cfg)
      /\ forall reason params,
           fst (shouldAttemptReconnection cfg g reason w) = true ->
           let w' := attemptReconnection cfg g reason params w in
           fst (fst (getReconnectionStatus cfg g w')) = true
           /\ handleStatusCommand cfg g w'
              = ReportDisconnected (retryCountOf g w + 1 >=? maxRetries cfg)).
Proof.
  rewrite handleStatusCommand_cases. split; [|split].
  - intros Hc. rewrite Hc. unfold isCurrentlyConnected in Hc.
    destruct (rustplusInstances w !! g) as [r|]; [by exists r|].
    by rewrite andb_false_r in Hc.
  - intros Hc Hf. rewrite Hc, Hf. by eexists _, _.
  - intros Hc Hf. rewrite Hc, Hf. split; [done|].
    intros reason params Hok. cbv zeta.
    destruct (attemptReconnection_accepted_state cfg g reason params w Hok)
      as (l & old & x & Hg & _ & Hst & _).
    rewrite handleStatusCommand_cases.
    destruct (registry_attemptReconnection cfg g reason params w)
      as (Hr & Ha & Hfl).
    unfold isCurrentlyConnected in *. rewrite Hr, Ha, Hfl, Hc, Hf.
    unfold getReconnectionStatus, retryCountOf. rewrite Hst. simpl.
    split; [done|]. do 3 f_equal.
    pose proof (status_initializeState cfg g w l old Hg) as Hs.
    unfold getReconnectionStatus in Hs.
    destruct (getState g w) as [[l0 st0]|]; simpl in Hs; by rewrite Hs.
Qed.

Lemma status_report_follows_the_reconciliation_flag_witness :
  let w' := attemptReconnection defaultConfig guildA "connection_lost" paramsA
              disconnectedA in
  handleStatusCommand defaultConfig guildA disconnectedA
  = ReportDisconnected false
  /\ fst (fst (getReconnectionStatus defaultConfig guildA w')) = true
  /\ handleStatusCommand defaultConfig guildA w' = ReportDisconnected false
  /\ reportColor (handleStatusCommand defaultConfig guildA w') = 16711680.
Proof.
  destruct (status_report_follows_the_reconciliation_flag defaultConfig guildA
              disconnectedA) as (_ & _ & H).
  destruct H as [H1 H2]; [reflexivity|reflexivity|].
  destruct (H2 "connection_lost" paramsA) as [H3 H4]; [reflexivity|].
  split; [exact H1|]. split; [exact H3|]. split; [exact H4|].
  rewrite H4. reflexivity.
Defined.
(** ** The periodic sweeps *)

Lemma filter_comm {A} (f g : A -> bool) (l : list A) :
  List.filter f (List.filter g l) = List.filter g (List.filter f l).
Proof.
  induction l as [|x l IH]; [done|]. simpl.
  destruct (f x) eqn:Hf, (g x) eqn:Hg; simpl; rewrite ?Hf, ?Hg, IH; done.
Qed.

Lemma handle_inj (l : list Interval) a b :
  NoDup (map handle l) -> In a l -> In b l -> handle a = handle b -> a = b.
Proof.
  induction l as [|x l IH]; [done|]. simpl.
  intros [Hx Hn]%NoDup_cons [->|Ha] [->|Hb] E; try done.
  - exfalso. apply Hx. rewrite E. apply list_elem_of_In. by apply in_map.
  - exfalso. apply Hx. rewrite <- E. apply list_elem_of_In. by apply in_map.
  - by apply IH.
Qed.

Lemma nodup_clearInterval i l :
  NoDup (map handle l) -> NoDup (map handle (clearInterval i l)).
Proof.
  induction l as [|x l IH]; [done|]. simpl.
  intros [Hx Hn]%NoDup_cons. destruct (negb _); [|by apply IH].
  simpl. apply NoDup_cons. split; [|by apply IH].
  intros Hin%list_elem_of_In%in_map_iff. destruct Hin as (y & Hy & Hin).
  apply filter_In in Hin as [Hin _].
  apply Hx, list_elem_of_In. rewrite <- Hy. by apply in_map.
Qed.

Lemma liveSweeps_clear s i (ivs : list Interval) :
  List.filter (runsSweep s) (clearInterval i ivs)
  = clearInterval i (List.filter (runsSweep s) ivs).
Proof. unfold clearInterval. apply filter_comm. Qed.

Lemma liveSweeps_In s h iv :
  In iv (liveSweeps s h) -> In iv (intervals h) /\ callback iv = s.
Proof.
  unfold liveSweeps, runsSweep. intros [Hin Hc]%filter_In. split; [done|].
  by destruct (callback iv), s.
Qed.

(** Clearing the interval that one object holds leaves the interval of the
    other object alone. *)
Lemma tidy_clear_other h i j p q s s' :
  NoDup (map handle (intervals h)) ->
  liveSweeps s h = [mkInterval i p s] ->
  liveSweeps s' h = [mkInterval j q s'] ->
  s ≠ s' ->
  clearInterval i (liveSweeps s' h) = liveSweeps s' h
  /\ clearInterval i (liveSweeps s h) = [].
Proof.
  intros Hn Hs Hs' Hne. rewrite Hs, Hs'. unfold clearInterval. simpl.
  rewrite Nat.eqb_refl. simpl. split; [|done].
  destruct (Nat.eqb_spec j i) as [->|_]; [|done]. exfalso.
  assert (Ha : In (mkInterval i p s) (liveSweeps s h)) by (rewrite Hs; by left).
  assert (Hb : In (mkInterval i q s') (liveSweeps s' h))
    by (rewrite Hs'; by left).
  apply liveSweeps_In in Ha as [Ha _]. apply liveSweeps_In in Hb as [Hb _].
  pose proof (handle_inj _ _ _ Hn Ha Hb eq_refl) as E. congruence.
Qed.
Lemma tidy_newHost m : Tidy (newHost m).
Proof. repeat split; try done. constructor. Qed.

Lemma liveSweeps_single_In s h i p :
  liveSweeps s h = [mkInterval i p s] -> In (mkInterval i p s) (intervals h).
Proof.
  intros E. assert (H : In (mkInterval i p s) (liveSweeps s h))
    by (rewrite E; by left).
  by apply liveSweeps_In in H as [H _].
Qed.

Lemma clear_absent i (l : list Interval) :
  (forall iv, In iv l -> handle iv ≠ i) -> clearInterval i l = l.
Proof.
  intros Hall. apply list_filter_all. intros iv Hin%list_elem_of_In.
  apply negb_true_iff, Nat.eqb_neq. by apply Hall.
Qed.

(** Clearing the interval held for the sweep [s]. *)
Lemma tidy_clear h i p s s' :
  NoDup (map handle (intervals h)) ->
  liveSweeps s h = [mkInterval i p s] ->
  s ≠ s' ->
  List.filter (runsSweep s) (clearInterval i (intervals h)) = []
  /\ List.filter (runsSweep s') (clearInterval i (intervals h))
     = liveSweeps s' h.
Proof.
  intros Hn Hs Hne. rewrite !liveSweeps_clear.
  fold (liveSweeps s h). fold (liveSweeps s' h). split.
  - rewrite Hs. unfold clearInterval. simpl. by rewrite Nat.eqb_refl.
  - apply clear_absent. intros iv Hin E.
    apply liveSweeps_In in Hin as [Hin Hc].
    pose proof (liveSweeps_single_In s h i p Hs) as Hi.
    pose proof (handle_inj _ _ _ Hn Hin Hi E) as ->. simpl in Hc. congruence.
Qed.

Lemma tidy_monitor_stop h : Tidy h -> Tidy (MonitorLifecycle.stop h).
Proof.
  intros HT. unfold MonitorLifecycle.stop.
  destruct (monitorIntervalId h) as [i|] eqn:E; [|exact HT].
  destruct HT as (Hb & Hn & Hh & Hr & Hrun). rewrite E in Hh.
  destruct (tidy_clear h i _ HealthSweep ReconcileSweep Hn Hh) as [H1 H2];
    [done|].
  repeat split; simpl; try done.
  - intros iv [Hin _]%filter_In. by apply Hb.
  - by apply nodup_clearInterval.
  - unfold liveSweeps. simpl. by rewrite H2.
Qed.

Lemma tidy_auto_stop h : Tidy h -> Tidy (AutoReconnectLifecycle.stop h).
Proof.
  intros HT. unfold AutoReconnectLifecycle.stop.
  destruct (autoIntervalId h) as [i|] eqn:E; [|exact HT].
  destruct HT as (Hb & Hn & Hh & Hr & Hrun). rewrite E in Hr.
  destruct (tidy_clear h i _ ReconcileSweep HealthSweep Hn Hr) as [H1 H2];
    [done|].
  repeat split; simpl; try done.
  - intros iv [Hin _]%filter_In. by apply Hb.
  - by apply nodup_clearInterval.
  - unfold liveSweeps. simpl. by rewrite H2.
Qed.

Lemma nodup_snoc_handle (l : list Interval) n p s :
  (forall iv, In iv l -> (handle iv < n)%nat) ->
  NoDup (map handle l) -> NoDup (map handle (l ++ [mkInterval n p s])).
Proof.
  intros Hb Hn. rewrite map_app. apply NoDup_app. split; [done|]. split.
  - intros t Hin%list_elem_of_In%in_map_iff Heq%list_elem_of_singleton.
    destruct Hin as (iv & <- & Hin). specialize (Hb iv Hin). simpl in Heq. lia.
  - simpl. apply NoDup_singleton.
Qed.

(** Setting the interval of an object that holds none. *)
Lemma tidy_monitor_set h :
  Tidy h -> monitorIntervalId h = None ->
  Tidy (mkHost (monitorSettings h) (Some (nextIntervalId h))
          (autoCheckInterval h) (autoIntervalId h) (autoIsRunning h)
          (intervals h
           ++ [mkInterval (nextIntervalId h)
                 (checkInterval (monitorSettings h)) HealthSweep])
          (S (nextIntervalId h))
          (MonitorStarted (checkInterval (monitorSettings h))
           :: lifecycleLog h)).
Proof.
  intros (Hb & Hn & Hh & Hr & Hrun) E. rewrite E in Hh.
  unfold Tidy, liveSweeps in *. simpl. rewrite !List.filter_app, Hh, Hr. simpl.
  repeat split; try done.
  - intros iv [Hin|[<-|[]]]%in_app_iff; [|simpl; lia].
    specialize (Hb iv Hin). lia.
  - by apply nodup_snoc_handle.
  - by rewrite app_nil_r.
Qed.

Lemma tidy_auto_set h :
  Tidy h -> autoIntervalId h = None ->
  Tidy (mkHost (monitorSettings h) (monitorIntervalId h)
          (autoCheckInterval h) (Some (nextIntervalId h)) true
          (intervals h
           ++ [mkInterval (nextIntervalId h) (autoCheckInterval h)
                 ReconcileSweep])
          (S (nextIntervalId h))
          (AutoReconnectStarted (autoCheckInterval h) :: lifecycleLog h)).
Proof.
  intros (Hb & Hn & Hh & Hr & Hrun) E. rewrite E in Hr.
  unfold Tidy, liveSweeps in *. simpl. rewrite !List.filter_app, Hh, Hr. simpl.
  repeat split; try done.
  - intros iv [Hin|[<-|[]]]%in_app_iff; [|simpl; lia].
    specialize (Hb iv Hin). lia.
  - by apply nodup_snoc_handle.
  - by rewrite app_nil_r.
Qed.

Lemma tidy_monitor_start h : Tidy h -> Tidy (MonitorLifecycle.start h).
Proof.
  intros HT. unfold MonitorLifecycle.start.
  destruct (monitorIntervalId h) as [i|] eqn:E.
  - apply tidy_monitor_set; [by apply tidy_monitor_stop|].
    unfold MonitorLifecycle.stop. by rewrite E.
  - by apply tidy_monitor_set.
Qed.

Lemma tidy_auto_start h : Tidy h -> Tidy (AutoReconnectLifecycle.start h).
Proof.
  intros HT. unfold AutoReconnectLifecycle.start.
  destruct (autoIntervalId h) as [i|] eqn:E.
  - apply tidy_auto_set; [by apply tidy_auto_stop|].
    unfold AutoReconnectLifecycle.stop. by rewrite E.
  - by apply tidy_auto_set.
Qed.

Lemma tidy_updateConfig config h :
  Tidy h -> Tidy (MonitorLifecycle.updateConfig config h).
Proof.
  intros HT. unfold MonitorLifecycle.updateConfig. simpl.
  destruct (monitorIntervalId h) as [i|] eqn:E.
  - set (h1 := mkHost _ _ _ _ _ _ _ _).
    assert (H1 : Tidy (MonitorLifecycle.stop h1)).
    { pose proof (tidy_monitor_stop h HT) as HS.
      unfold MonitorLifecycle.stop in *. unfold h1. simpl. by rewrite E in HS. }
    by apply tidy_monitor_start.
  - destruct HT as (Hb & Hn & Hh & Hr & Hrun). rewrite E in Hh.
    unfold Tidy, liveSweeps in *. simpl. by repeat split.
Qed.

Lemma tidy_run cs : forall h, Tidy h -> Tidy (lifecycleRun cs h).
Proof.
  induction cs as [|c cs IH]; intros h HT; [done|].
  simpl. apply IH. destruct c; simpl.
  - by apply tidy_monitor_start.
  - by apply tidy_monitor_stop.
  - by apply tidy_updateConfig.
  - by apply tidy_auto_start.
  - by apply tidy_auto_stop.
Qed.
(** X16: however [start], [stop] and [updateConfig] of the health monitor
    and [start] and [stop] of the auto-reconnect manager are interleaved,
    each of the two sweeps runs on at most one interval, every interval has
    the period that is configured now, and the reports agree with the
    intervals: [activeMonitoring], [isRunning] and a non-null [nextCheck]
    hold exactly when the sweep's interval is live. *)
Theorem sweeps_run_on_one_interval_each
    (m : MonitorConfig) (cs : list LifecycleCall) (now : Z) :
  let h := lifecycleRun cs (newHost m) in
  (length (liveSweeps HealthSweep h) <= 1)%nat
  /\ (length (liveSweeps ReconcileSweep h) <= 1)%nat
  /\ (forall iv, In iv (intervals h) ->
        period iv
        = match callback iv with
          | HealthSweep => checkInterval (monitorSettings h)
          | ReconcileSweep => autoCheckInterval h
          end)
  /\ (MonitorLifecycle.activeMonitoring h = true
      <-> liveSweeps HealthSweep h ≠ [])
  /\ (fst (fst (AutoReconnectLifecycle.getStats now h)) = true
      <-> liveSweeps ReconcileSweep h ≠ [])
  /\ (is_Some (snd (AutoReconnectLifecycle.getStats now h))
      <-> liveSweeps ReconcileSweep h ≠ []).
Proof.
  cbv zeta. pose proof (tidy_run cs (newHost m) (tidy_newHost m)) as HT.
  set (h := lifecycleRun cs (newHost m)) in *.
  destruct HT as (Hb & Hn & Hh & Hr & Hrun).
  split; [rewrite Hh; destruct (monitorIntervalId h); simpl; lia|].
  split; [rewrite Hr; destruct (autoIntervalId h); simpl; lia|].
  split.
  { intros iv Hin. destruct (callback iv) eqn:Hc.
    - assert (Hl : In iv (liveSweeps HealthSweep h)).
      { apply filter_In. split; [done|]. unfold runsSweep. by rewrite Hc. }
      rewrite Hh in Hl. destruct (monitorIntervalId h); [|done].
      by destruct Hl as [<-|[]].
    - assert (Hl : In iv (liveSweeps ReconcileSweep h)).
      { apply filter_In. split; [done|]. unfold runsSweep. by rewrite Hc. }
      rewrite Hr in Hl. destruct (autoIntervalId h); [|done].
      by destruct Hl as [<-|[]]. }
  unfold MonitorLifecycle.activeMonitoring, AutoReconnectLifecycle.getStats.
  simpl. rewrite Hh, Hr, Hrun.
  destruct (monitorIntervalId h), (autoIntervalId h); simpl;
    repeat split; try done; intros; try done; by eexists.
Qed.
(** X17: [updateConfig] of the health monitor.  A missing entry and an
    entry 0 keep the old setting; any other entry replaces it.  A monitor
    that is not running is not started; a running one is stopped and
    started again, so that afterwards exactly one health interval runs, a
    new one with the new period, the interval of the other sweep is
    untouched, and the log gains a stopped and a started line. *)
Theorem updateConfig_restarts_an_active_monitor
    (config : MonitorUpdate) (h : Host) :
  Tidy h ->
  let h' := MonitorLifecycle.updateConfig config h in
  let old := monitorSettings h in
  let new := monitorSettings h' in
  (newCheckInterval config = None \/ newCheckInterval config = Some 0 ->
   checkInterval new = checkInterval old)
  /\ (newMaxConsecutiveFailures config = None
      \/ newMaxConsecutiveFailures config = Some 0 ->
      maxConsecutiveFailures new = maxConsecutiveFailures old)
  /\ (forall v, newMaxConsecutiveFailures config = Some v -> v ≠ 0 ->
        maxConsecutiveFailures new = v)
  /\ (forall v, newCheckInterval config = Some v -> v ≠ 0 ->
        checkInterval new = v)
  /\ (monitorIntervalId h = None ->
      intervals h' = intervals h /\ lifecycleLog h' = lifecycleLog h
      /\ monitorIntervalId h' = None)
  /\ (forall i, monitorIntervalId h = Some i ->
        liveSweeps HealthSweep h'
        = [mkInterval (nextIntervalId h) (checkInterval new) HealthSweep]
        /\ liveSweeps ReconcileSweep h' = liveSweeps ReconcileSweep h
        /\ lifecycleLog h'
           = MonitorStarted (checkInterval new) :: MonitorStopped
             :: lifecycleLog h).
Proof.
  intros HT. cbv zeta.
  assert (Hset : monitorSettings (MonitorLifecycle.updateConfig config h)
                 = mkMonitor
                     (orDefault (newCheckInterval config)
                        (checkInterval (monitorSettings h)))
                     (orDefault (newMaxConsecutiveFailures config)
                        (maxConsecutiveFailures (monitorSettings h)))
                     (orDefault (newHealthCheckTimeout config)
                        (healthCheckTimeout (monitorSettings h)))).
  { unfold MonitorLifecycle.updateConfig. simpl.
    by destruct (monitorIntervalId h). }
  rewrite Hset. simpl.
  split; [by intros [->| ->]|]. split; [by intros [->| ->]|].
  split. { intros v -> Hv. simpl. by destruct (Z.eqb_spec v 0). }
  split. { intros v -> Hv. simpl. by destruct (Z.eqb_spec v 0). }
  destruct HT as (Hb & Hn & Hh & Hr & Hrun).
  unfold MonitorLifecycle.updateConfig. simpl. split.
  - intros E. by rewrite E.
  - intros i E. rewrite E in *. simpl.
    destruct (tidy_clear h i _ HealthSweep ReconcileSweep Hn Hh) as [H1 H2];
      [done|].
    unfold liveSweeps. simpl. rewrite !List.filter_app, H1, H2. simpl.
    split; [done|]. split; [|done]. apply app_nil_r.
Qed.

Lemma updateConfig_restarts_an_active_monitor_witness :
  let h := lifecycleRun [AutoReconnectStart; MonitorStart]
             (newHost (Basic.monitor None)) in
  let h' := MonitorLifecycle.updateConfig
              (mkUpdate (Some 5000) (Some 0) None) h in
  monitorSettings h' = mkMonitor 5000 3 10000
  /\ liveSweeps HealthSweep h' = [mkInterval 2 5000 HealthSweep]
  /\ liveSweeps ReconcileSweep h' = [mkInterval 0 30000 ReconcileSweep]
  /\ lifecycleLog h'
     = [MonitorStarted 5000; MonitorStopped; MonitorStarted 60000;
        AutoReconnectStarted 30000].
Proof.
  split; [reflexivity|].
  destruct (updateConfig_restarts_an_active_monitor
              (mkUpdate (Some 5000) (Some 0) None)
              (lifecycleRun [AutoReconnectStart; MonitorStart]
                 (newHost (Basic.monitor None))))
    as (_ & _ & _ & _ & _ & H).
  - apply tidy_run, tidy_newHost.
  - destruct (H 1%nat eq_refl) as (H1 & H2 & H3).
    split; [exact H1|]. split; [exact H2 | exact H3].
Defined.
(** ** The configuration read by the constructor *)

Lemma orDefault_nonzero x d : d ≠ 0 -> orDefault x d ≠ 0.
Proof.
  intros Hd. unfold orDefault. destruct x as [v|]; [|done].
  by destruct (Z.eqb_spec v 0).
Qed.

Lemma orDefault_positive x d : 0 < d -> nonNegative x -> 0 < orDefault x d.
Proof.
  intros Hd Hx. unfold orDefault. destruct x as [v|]; [|done].
  simpl in Hx. destruct (Z.eqb_spec v 0); lia.
Qed.

(** X18: the configuration read by the constructor of the reconnection
    manager has no entry equal to 0, whatever the settings hold: a setting
    that is missing or 0 is replaced by its default, so
    maxReconnectRetries = 0 gives a ceiling of 10 and not of 0.  With
    settings that are missing or positive (multiplier at least 1) every
    entry is positive and the first request for a guild without state is
    accepted. *)
Theorem configuration_has_no_zero_entry (general : GeneralConfig) :
  let cfg := newConfig general in
  (baseDelay cfg ≠ 0 /\ maxDelay cfg ≠ 0 /\ maxRetries cfg ≠ 0
   /\ backoffMultiplier cfg ≠ 0 /\ resetAfterSuccess cfg ≠ 0)
  /\ (maxReconnectRetries general = Some 0 -> maxRetries cfg = 10)
  /\ (SensibleGeneral general ->
      0 < baseDelay cfg /\ 0 < maxDelay cfg /\ 1 <= maxRetries cfg
      /\ 1 <= backoffMultiplier cfg /\ 0 < resetAfterSuccess cfg
      /\ forall g reason params w,
           Fresh g w ->
           fst (shouldAttemptReconnection cfg g reason w) = true
           /\ fst (fst (getReconnectionStatus cfg g
                          (attemptReconnection cfg g reason params w)))
              = true).
Proof.
  cbv zeta. split.
  { unfold newConfig. simpl. repeat split; by apply orDefault_nonzero. }
  split. { intros E. unfold newConfig. simpl. by rewrite E. }
  intros (H1 & H2 & H3 & H4 & H5).
  assert (Hm : 0 < maxRetries (newConfig general))
    by (by apply orDefault_positive).
  split; [by apply orDefault_positive|]. split; [by apply orDefault_positive|].
  split; [lia|].
  split; [pose proof (orDefault_positive _ 2 ltac:(lia) H4); simpl; lia|].
  split; [by apply orDefault_positive|].
  intros g reason params w Hf.
  revert Hm. generalize (newConfig general). intros cfg Hm.
  assert (Hok : fst (shouldAttemptReconnection cfg g reason w) = true).
  { unfold shouldAttemptReconnection.
    destruct Hf as [E|(l & st & El & Es & Hc & Hr)].
    - rewrite (getState_initializeState_new _ _ _ E). simpl.
      by destruct (Z.geb_spec 0 (maxRetries cfg)); [lia|].
    - rewrite (initializeState_known _ _ _ _ El).
      unfold getState. rewrite El, Es, Hr, Hc.
      by destruct (Z.geb_spec 0 (maxRetries cfg)); [lia|]. }
  split; [exact Hok|].
  destruct (attemptReconnection_accepted_state _ g reason params w Hok)
    as (l & old & x & _ & _ & Hst & _).
  unfold getReconnectionStatus. by rewrite Hst.
Qed.

Lemma configuration_has_no_zero_entry_witness :
  let general := mkGeneral (Some 0) (Some 120000) (Some 0) None None in
  let cfg := newConfig general in
  cfg = mkConfig 15000 120000 10 2 60000
  /\ fst (shouldAttemptReconnection cfg guildA "connection_lost" emptyWorld)
     = true.
Proof.
  split; [reflexivity|].
  destruct (configuration_has_no_zero_entry
              (mkGeneral (Some 0) (Some 120000) (Some 0) None None))
    as (_ & _ & H).
  destruct H as (_ & _ & _ & _ & _ & H).
  - repeat split; simpl; lia.
  - apply (H guildA "connection_lost" paramsA emptyWorld). by left.
Defined.
(** ** The crafting helper *)

Lemma fold_left_rel {A A' B} (R : A -> A' -> Prop) (f : A -> B -> A)
    (g : A' -> B -> A') (l : list B) : forall a a',
  R a a' ->
  (forall a a' e, In e l -> R a a' -> R (f a e) (g a' e)) ->
  R (fold_left f l a) (fold_left g l a').
Proof.
  induction l as [|e l IH]; intros a a' Ha Hstep; [done|]. simpl.
  apply IH.
  - apply Hstep; [by left|done].
  - intros b b' e' Hin. apply Hstep. by right.
Qed.

Lemma jsGet_In {V} k (o : JsObject V) v : jsGet k o = Some v -> In k (map fst o).
Proof.
  unfold jsGet. destruct (List.find _ o) as [[k' v']|] eqn:E; [|done].
  apply find_some in E as [Hin Hk]. simpl in Hk. apply Z.eqb_eq in Hk as ->.
  intros _. apply in_map_iff. by exists (k, v').
Qed.

Lemma getName_In items id name :
  getName items id = Some name -> In id (map fst items).
Proof.
  unfold getName. destruct (jsGet id items) as [d|] eqn:E; [|done].
  intros _. by apply (jsGet_In id items d).
Qed.

Lemma isVisited_cons id k visited :
  isVisited k (id :: visited) = (k =? id) || isVisited k visited.
Proof. reflexivity. Qed.

(** Visiting a named item that is not yet visited leaves fewer items. *)
Lemma unvisited_shrinks items id name visited :
  getName items id = Some name ->
  isVisited id visited = false ->
  (length (unvisited items (id :: visited)) < length (unvisited items visited))%nat.
Proof.
  intros Hn Hv. apply getName_In in Hn.
  assert (Hin : In id (nodup Z.eq_dec (map fst items))) by by apply nodup_In.
  unfold unvisited. revert Hin.
  induction (nodup Z.eq_dec (map fst items)) as [|k ks IH]; [done|].
  intros [->|Hin]; simpl.
  - rewrite Z.eqb_refl, Hv. simpl.
    pose proof (filter_length_le
                  (fun k => negb ((k =? id) || isVisited k visited)) ks) as H1.
    assert (H2 : forall l : list Z,
              (length (List.filter
                         (fun k => negb (Z.eqb k id || isVisited k visited)) l)
               <= length (List.filter (fun k => negb (isVisited k visited)) l))%nat).
    { induction l as [|x l IHl]; [done|]. simpl.
      destruct (x =? id), (isVisited x visited); simpl; lia. }
    specialize (H2 ks). lia.
  - specialize (IH Hin).
    destruct (k =? id), (isVisited k visited); simpl in *; lia.
Qed.

Section CraftingFacts.
Variable items : JsObject ItemData.
Variable getCraftDetailsById : ItemId -> option (list (ItemId * Z)).
Variable fetch : string -> FetchOutcome.

Lemma body_ext self1 self2 id q visited :
  (forall name, isVisited id visited = false ->
     getName items id = Some name ->
     forall mid mq, self1 mid mq (id :: visited) = self2 mid mq (id :: visited)) ->
  getBaseMaterialsBody items getCraftDetailsById fetch self1 id q visited
  = getBaseMaterialsBody items getCraftDetailsById fetch self2 id q visited.
Proof.
  intros Hself. unfold getBaseMaterialsBody.
  destruct (isVisited id visited) eqn:Hv; [done|].
  destruct (getName items id) as [name|] eqn:Hn; [|done].
  specialize (Hself name eq_refl eq_refl).
  destruct (negb (truthyString name)); [done|].
  destruct (isBaseMaterial name); [done|].
  destruct (scrapeRawMaterials items fetch name) as [[materials|] lines].
  - f_equal. apply (fold_left_rel eq); [done|].
    intros a a' e _ <-. destruct a as [[b ls]|]; [|done].
    destruct (isBaseMaterial _); [done|]. by rewrite Hself.
  - destruct (getCraftDetailsById id) as [ingredients|]; [|done].
    f_equal. apply (fold_left_rel eq); [done|].
    intros a a' e _ <-. destruct a as [[b ls]|]; [|done].
    destruct (isBaseName _); [done|]. by rewrite Hself.
Qed.

Lemma body_some self id q visited :
  (forall name, isVisited id visited = false ->
     getName items id = Some name ->
     forall mid mq, is_Some (self mid mq (id :: visited))) ->
  is_Some (getBaseMaterialsBody items getCraftDetailsById fetch self id q
             visited).
Proof.
  intros Hself. unfold getBaseMaterialsBody.
  destruct (isVisited id visited) eqn:Hv; [by eexists|].
  destruct (getName items id) as [name|] eqn:Hn; [|by eexists].
  specialize (Hself name eq_refl eq_refl).
  destruct (negb (truthyString name)); [by eexists|].
  destruct (isBaseMaterial name); [by eexists|].
  destruct (scrapeRawMaterials items fetch name) as [[materials|] lines].
  - apply fmap_is_Some.
    apply (fold_left_rel (fun a _ => is_Some a) _
             (fun (u : unit) _ => u) _ _ tt); [by eexists|].
    intros a _ e _ [[b ls] ->].
    destruct (isBaseMaterial _); [by eexists|].
    destruct (Hself (fst e) (snd (snd e) * q)) as [[[sub|] ls'] ->];
      by eexists.
  - destruct (getCraftDetailsById id) as [ingredients|]; [|by eexists].
    apply fmap_is_Some.
    apply (fold_left_rel (fun a _ => is_Some a) _
             (fun (u : unit) _ => u) _ _ tt); [by eexists|].
    intros a _ e _ [[b ls] ->].
    destruct (isBaseName _); [by eexists|].
    destruct (Hself (fst e) (snd e * q)) as [[[sub|] ls'] ->]; by eexists.
Qed.

(** With more fuel than items the recursion ends before the fuel does, and
    the result does not depend on the fuel. *)
Lemma getBaseMaterials_fuel fuel1 : forall fuel2 id q visited,
  (length (unvisited items visited) < fuel1)%nat ->
  (length (unvisited items visited) < fuel2)%nat ->
  getBaseMaterials items getCraftDetailsById fetch fuel1 id q visited
  = getBaseMaterials items getCraftDetailsById fetch fuel2 id q visited
  /\ is_Some (getBaseMaterials items getCraftDetailsById fetch fuel1 id q
                visited).
Proof.
  induction fuel1 as [|fuel1 IH]; intros fuel2 id q visited H1 H2; [lia|].
  destruct fuel2 as [|fuel2]; [lia|]. simpl. split.
  - apply body_ext. intros name Hv Hn mid mq.
    pose proof (unvisited_shrinks items id name visited Hn Hv) as Hlt.
    apply IH; lia.
  - apply body_some. intros name Hv Hn mid mq.
    pose proof (unvisited_shrinks items id name visited Hn Hv) as Hlt.
    apply (IH fuel1); lia.
Qed.

End CraftingFacts.

Lemma nodup_length_le (l : list Z) : (length (nodup Z.eq_dec l) <= length l)%nat.
Proof.
  induction l as [|x l IH]; [done|]. simpl.
  destruct (in_dec Z.eq_dec x l); simpl; lia.
Qed.

Lemma unvisited_length items visited :
  (length (unvisited items visited) <= length items)%nat.
Proof.
  unfold unvisited.
  pose proof (filter_length_le (fun k => negb (isVisited k visited))
                (nodup Z.eq_dec (map fst items))) as H1.
  pose proof (nodup_length_le (map fst items)) as H2.
  rewrite length_map in H2. lia.
Qed.

(** X19: [getBaseMaterials] returns for every table of items, recipes and
    rust.help answers, also for recipes that refer to each other in a
    cycle: the recursion is cut by the visited set, so a depth of one more
    than the number of items is enough and any greater depth gives the same
    result.  An item that is already visited gives no materials, an item
    without a name gives null and the item-not-found line. *)
Theorem getBaseMaterials_returns
    (items : JsObject ItemData)
    (getCraftDetailsById : ItemId -> option (list (ItemId * Z)))
    (fetch : string -> FetchOutcome)
    (itemId : ItemId) (quantity : Z) (visited : list ItemId) :
  exists result,
    getBaseMaterials items getCraftDetailsById fetch (S (length items))
      itemId quantity visited = Some result
    /\ (forall fuel,
          (length items < fuel)%nat ->
          getBaseMaterials items getCraftDetailsById fetch fuel itemId quantity
            visited = Some result)
    /\ (isVisited itemId visited = true -> result = (Some [], []))
    /\ (isVisited itemId visited = false -> getName items itemId = None ->
        result = (None, [LineItemNotFound itemId])).
Proof.
  pose proof (unvisited_length items visited) as Hlen.
  destruct (getBaseMaterials_fuel items getCraftDetailsById fetch
              (S (length items)) (S (length items)) itemId quantity visited)
    as [_ [result Hr]]; [lia|lia|].
  exists result. split; [exact Hr|]. split.
  - intros fuel Hf. rewrite <- Hr. symmetry.
    apply getBaseMaterials_fuel; lia.
  - simpl in Hr. unfold getBaseMaterialsBody in Hr. split.
    + intros Hv. rewrite Hv in Hr. by injection Hr.
    + intros Hv Hn. rewrite Hv, Hn in Hr. by injection Hr.
Qed.
Lemma getBaseMaterials_returns_witness :
  exists result,
    getBaseMaterials cyclicItems cyclicCraft offline 4 1 1 [] = Some result
    /\ fst result = Some [(3, ("Wood", 7))]
    /\ (forall fuel,
          (3 < fuel)%nat ->
          getBaseMaterials cyclicItems cyclicCraft offline fuel 1 1 []
          = Some result).
Proof.
  destruct (getBaseMaterials_returns cyclicItems cyclicCraft offline 1 1 [])
    as (result & H1 & H2 & _).
  exists result. split; [exact H1|]. split; [|exact H2].
  assert (E : Some (fst result) = Some (Some [(3, ("Wood", 7))])).
  { change (Some (fst result)) with (fst <$> Some result).
    rewrite <- H1. vm_compute. reflexivity. }
  by injection E.
Defined.

(** *** Quantities *)

Lemma jsGet_scale k id (o : JsObject Material) :
  jsGet id (scaleMaterials k o)
  = (fun m => (fst m, snd m * k)) <$> jsGet id o.
Proof.
  unfold jsGet, scaleMaterials.
  induction o as [|[id' [n q]] o IH]; [done|]. simpl.
  destruct (id' =? id); [done|]. exact IH.
Qed.

Lemma jsSet_scale k id n q (o : JsObject Material) :
  jsSet id (n, q * k) (scaleMaterials k o) = scaleMaterials k (jsSet id (n, q) o).
Proof.
  unfold scaleMaterials.
  induction o as [|[id' [n' q']] o IH]; [done|]. simpl.
  destruct (id' =? id); [done|]. simpl. by rewrite IH.
Qed.

Lemma addMaterial_scale k id n q (o : JsObject Material) :
  addMaterial id (n, q * k) (scaleMaterials k o)
  = scaleMaterials k (addMaterial id (n, q) o).
Proof.
  unfold addMaterial. rewrite jsGet_scale.
  destruct (jsGet id o) as [[n0 q0]|]; simpl.
  - rewrite <- jsSet_scale. do 2 f_equal. lia.
  - apply jsSet_scale.
Qed.

Lemma insertEntry_scale k e (l : JsObject Material) :
  insertEntry (fst e, (fst (snd e), snd (snd e) * k)) (scaleMaterials k l)
  = scaleMaterials k (insertEntry e l).
Proof.
  unfold scaleMaterials. induction l as [|e' l IH]; [done|]. simpl.
  destruct (fst e <=? fst e'); [done|]. simpl. by rewrite IH.
Qed.

Lemma jsEntries_scale k (o : JsObject Material) :
  jsEntries (scaleMaterials k o) = scaleMaterials k (jsEntries o).
Proof.
  unfold jsEntries, scaleMaterials. rewrite map_app. f_equal.
  - induction o as [|e o IH]; [done|]. simpl.
    destruct (isArrayIndex (fst e)); [|exact IH]. simpl.
    rewrite IH. apply insertEntry_scale.
  - induction o as [|e o IH]; [done|]. simpl.
    destruct (isArrayIndex (fst e)); simpl; by rewrite IH.
Qed.

Lemma mergeMaterials_scale k (sub o : JsObject Material) :
  mergeMaterials (scaleMaterials k sub) (scaleMaterials k o)
  = scaleMaterials k (mergeMaterials sub o).
Proof.
  unfold mergeMaterials. rewrite jsEntries_scale.
  generalize (jsEntries sub). intros l. revert o.
  induction l as [|[id [n q]] l IH]; intros o; [done|]. simpl.
  rewrite addMaterial_scale. apply IH.
Qed.
Lemma absorb_scale k sub (b : JsObject Material) ls :
  absorb (scaleResult k <$> sub) (scaleMaterials k b) ls
  = (fun r => (scaleMaterials k (fst r), snd r)) <$> absorb sub b ls.
Proof.
  destruct sub as [[[s|] ls']|]; simpl; [|done|done].
  by rewrite mergeMaterials_scale.
Qed.

Lemma body_scale items getCraftDetailsById fetch self id q k visited :
  (forall mid mq,
     self mid (mq * k) (id :: visited)
     = scaleResult k <$> self mid mq (id :: visited)) ->
  getBaseMaterialsBody items getCraftDetailsById fetch self id (q * k) visited
  = scaleResult k
      <$> getBaseMaterialsBody items getCraftDetailsById fetch self id q
            visited.
Proof.
  intros Hself. unfold getBaseMaterialsBody.
  destruct (isVisited id visited); [done|].
  destruct (getName items id) as [name|]; [|done].
  destruct (negb (truthyString name)); [done|].
  destruct (isBaseMaterial name); [done|].
  destruct (scrapeRawMaterials items fetch name) as [[materials|] lines].
  - set (R := fun (a a' : option (JsObject Material * list CraftLine)) =>
                a' = (fun r => (scaleMaterials k (fst r), snd r)) <$> a).
    match goal with
    | |- _ <$> fold_left ?f ?l ?a = _ <$> (_ <$> fold_left ?g ?l ?a) =>
        assert (HR : R (fold_left g l a) (fold_left f l a))
    end.
    { apply fold_left_rel; [done|].
      intros a a' e _ ->. unfold R. destruct a as [[b ls]|]; [|done]. simpl.
      rewrite Z.mul_assoc.
      destruct (isBaseMaterial _); [by rewrite jsSet_scale|].
      rewrite Hself. apply absorb_scale. }
    unfold R in HR. rewrite HR. clear HR.
    destruct (fold_left _ _ _) as [[b ls]|]; reflexivity.
  - destruct (getCraftDetailsById id) as [ingredients|]; [|done].
    set (R := fun (a a' : option (JsObject Material * list CraftLine)) =>
                a' = (fun r => (scaleMaterials k (fst r), snd r)) <$> a).
    match goal with
    | |- _ <$> fold_left ?f ?l ?a = _ <$> (_ <$> fold_left ?g ?l ?a) =>
        assert (HR : R (fold_left g l a) (fold_left f l a))
    end.
    { apply fold_left_rel; [done|].
      intros a a' e _ ->. unfold R. destruct a as [[b ls]|]; [|done]. simpl.
      rewrite Z.mul_assoc.
      destruct (isBaseName _); [by rewrite addMaterial_scale|].
      rewrite Hself. apply absorb_scale. }
    unfold R in HR. rewrite HR. clear HR.
    destruct (fold_left _ _ _) as [[b ls]|]; reflexivity.
Qed.

(** In the exact arithmetic of the embedding the amounts follow the
    requested quantity. *)
Lemma getBaseMaterials_scale
    (items : JsObject ItemData)
    (getCraftDetailsById : ItemId -> option (list (ItemId * Z)))
    (fetch : string -> FetchOutcome)
    (fuel : nat) (itemId : ItemId) (quantity k : Z) (visited : list ItemId) :
  getBaseMaterials items getCraftDetailsById fetch fuel itemId (quantity * k)
    visited
  = scaleResult k
      <$> getBaseMaterials items getCraftDetailsById fetch fuel itemId quantity
            visited.
Proof.
  revert itemId quantity visited.
  induction fuel as [|fuel IH]; intros itemId quantity visited; [done|].
  simpl. apply body_scale. intros mid mq. apply IH.
Qed.

Lemma listedBy_scale k r : listedBy (scaleResult k r) = listedBy r.
Proof.
  destruct r as [[o|] ls]; [|done].
  unfold listedBy, scaleResult, materialNames, scaleMaterials. simpl.
  by rewrite map_map.
Qed.

(** X20: what [getBaseMaterials] lists does not depend on the requested
    quantity: two quantities give the same materials, under the same ids
    and names and in the same order, and the same lines in the log; only
    the amounts differ.  No test of the code reads an amount. *)
Theorem materials_listed_whatever_the_quantity
    (items : JsObject ItemData)
    (getCraftDetailsById : ItemId -> option (list (ItemId * Z)))
    (fetch : string -> FetchOutcome)
    (fuel : nat) (itemId : ItemId) (quantity quantity' : Z)
    (visited : list ItemId) :
  listedBy <$> getBaseMaterials items getCraftDetailsById fetch fuel itemId
                 quantity visited
  = listedBy <$> getBaseMaterials items getCraftDetailsById fetch fuel itemId
                   quantity' visited.
Proof.
  assert (H : forall q,
            listedBy <$> getBaseMaterials items getCraftDetailsById fetch fuel
                           itemId q visited
            = listedBy <$> getBaseMaterials items getCraftDetailsById fetch
                             fuel itemId (q * 0) visited).
  { intros q. rewrite getBaseMaterials_scale.
    destruct (getBaseMaterials _ _ _ _ _ q _) as [r|]; [|done].
    simpl. by rewrite listedBy_scale. }
  rewrite (H quantity), (H quantity'). by rewrite !Z.mul_0_r.
Qed.

(** *** The request to rusthelp.com *)

Lemma scrapeRawMaterials_fetch items fetch1 fetch2 name :
  fst (scrapeRawMaterials items fetch1 name)
  = fst (scrapeRawMaterials items fetch2 name)
  /\ (getKnownRawMaterials name = None ->
      fst (scrapeRawMaterials items fetch1 name) = None).
Proof.
  unfold scrapeRawMaterials.
  destruct (getKnownRawMaterials name) as [known|].
  - split; [|done]. by destruct (collectKnown items known).
  - destruct (fetch1 name) as [s1|m1], (fetch2 name) as [s2|m2];
      try destruct (s1 =? 200); try destruct (s2 =? 200); done.
Qed.

Lemma absorb_fetch sub1 sub2 (b : JsObject Material) ls1 ls2 :
  fst <$> sub1 = fst <$> sub2 ->
  fst <$> absorb sub1 b ls1 = fst <$> absorb sub2 b ls2.
Proof.
  destruct sub1 as [[[s1|] l1]|], sub2 as [[[s2|] l2]|]; simpl; try done.
  by intros [= ->].
Qed.

Lemma body_fetch items getCraftDetailsById fetch1 fetch2 self1 self2 id q
    visited :
  (forall mid mq,
     fst <$> self1 mid mq (id :: visited)
     = fst <$> self2 mid mq (id :: visited)) ->
  fst <$> getBaseMaterialsBody items getCraftDetailsById fetch1 self1 id q
            visited
  = fst <$> getBaseMaterialsBody items getCraftDetailsById fetch2 self2 id q
              visited.
Proof.
  intros Hself. unfold getBaseMaterialsBody.
  destruct (isVisited id visited); [done|].
  destruct (getName items id) as [name|]; [|done].
  destruct (negb (truthyString name)); [done|].
  destruct (isBaseMaterial name); [done|].
  destruct (scrapeRawMaterials_fetch items fetch1 fetch2 name) as [Hs _].
  destruct (scrapeRawMaterials items fetch1 name) as [m1 lines1].
  destruct (scrapeRawMaterials items fetch2 name) as [m2 lines2].
  simpl in Hs. subst m2.
  set (R := fun (a a' : option (JsObject Material * list CraftLine)) =>
              fst <$> a = fst <$> a').
  destruct m1 as [materials|].
  - match goal with
    | |- _ <$> (_ <$> fold_left ?f ?l ?a) = _ <$> (_ <$> fold_left ?g ?l ?a') =>
        assert (HR : R (fold_left f l a) (fold_left g l a'))
    end.
    { apply fold_left_rel; [done|].
      intros a a' e _ Ha. unfold R in *.
      destruct a as [[b ls]|], a' as [[b' ls']|]; try done.
      simpl in Ha. injection Ha as <-.
      destruct (isBaseMaterial _); [done|]. by apply absorb_fetch. }
    unfold R in HR. revert HR.
    generalize (fold_left
      (fun (acc : option (JsObject Material * list CraftLine))
           (e : ItemId * Material) =>
         match acc with
         | Some (baseMaterials, ls) =>
             if isBaseMaterial (fst (snd e))
             then Some (jsSet (fst e) (fst (snd e), snd (snd e) * q)
                          baseMaterials, ls)
             else absorb (self1 (fst e) (snd (snd e) * q) (id :: visited))
                    baseMaterials ls
         | None => None
         end) (jsEntries materials) (Some ([], lines1))).
    intros x. generalize (fold_left
      (fun (acc : option (JsObject Material * list CraftLine))
           (e : ItemId * Material) =>
         match acc with
         | Some (baseMaterials, ls) =>
             if isBaseMaterial (fst (snd e))
             then Some (jsSet (fst e) (fst (snd e), snd (snd e) * q)
                          baseMaterials, ls)
             else absorb (self2 (fst e) (snd (snd e) * q) (id :: visited))
                    baseMaterials ls
         | None => None
         end) (jsEntries materials) (Some ([], lines2))).
    intros y Hxy. destruct x as [[b ls]|], y as [[b' ls']|]; try done.
    simpl in *. by injection Hxy as ->.
  - destruct (getCraftDetailsById id) as [ingredients|]; [|done].
    match goal with
    | |- _ <$> (_ <$> fold_left ?f ?l ?a) = _ <$> (_ <$> fold_left ?g ?l ?a') =>
        assert (HR : R (fold_left f l a) (fold_left g l a'));
        [|revert HR; generalize (fold_left f l a);
          generalize (fold_left g l a')]
    end.
    { apply fold_left_rel; [done|].
      intros a a' e _ Ha. unfold R in *.
      destruct a as [[b ls]|], a' as [[b' ls']|]; try done.
      simpl in Ha. injection Ha as <-.
      destruct (isBaseName _); [done|]. by apply absorb_fetch. }
    intros y x Hxy. unfold R in Hxy.
    destruct x as [[b ls]|], y as [[b' ls']|]; try done.
    simpl in *. by injection Hxy as ->.
Qed.

(** X21: the request to rust.help adds nothing to the result: what
    [scrapeRawMaterials] and [getBaseMaterials] return does not depend on
    the answer of the request (only the log lines do), and an item without
    known data gets null from [scrapeRawMaterials]. *)
Theorem request_to_rusthelp_adds_no_material
    (items : JsObject ItemData)
    (getCraftDetailsById : ItemId -> option (list (ItemId * Z)))
    (fetch1 fetch2 : string -> FetchOutcome) :
  (forall name,
     fst (scrapeRawMaterials items fetch1 name)
     = fst (scrapeRawMaterials items fetch2 name)
     /\ (getKnownRawMaterials name = None ->
         fst (scrapeRawMaterials items fetch1 name) = None))
  /\ (forall fuel itemId quantity visited,
        fst <$> getBaseMaterials items getCraftDetailsById fetch1 fuel itemId
                  quantity visited
        = fst <$> getBaseMaterials items getCraftDetailsById fetch2 fuel itemId
                    quantity visited).
Proof.
  split; [intros name; apply scrapeRawMaterials_fetch|].
  induction fuel as [|fuel IH]; intros itemId quantity visited; [done|].
  simpl. apply body_fetch. intros mid mq. apply IH.
Qed.
Lemma request_to_rusthelp_adds_no_material_witness :
  getKnownRawMaterials "Alpha" = None
  /\ fst (scrapeRawMaterials cyclicItems offline "Alpha") = None
  /\ fst <$> getBaseMaterials cyclicItems cyclicCraft offline 4 1 1 []
     = fst <$> getBaseMaterials cyclicItems cyclicCraft
                 (fun _ => FetchResponse 200) 4 1 1 [].
Proof.
  destruct (request_to_rusthelp_adds_no_material cyclicItems cyclicCraft
              offline (fun _ => FetchResponse 200)) as [H1 H2].
  split; [reflexivity|]. split.
  - apply (H1 "Alpha"). reflexivity.
  - apply H2.
Defined.

(** *** Assignment and accumulation *)

Lemma jsGet_jsSet_eq {V} k (v : V) (o : JsObject V) :
  jsGet k (jsSet k v o) = Some v.
Proof.
  unfold jsGet. induction o as [|[k' v'] o IH]; simpl.
  - by rewrite Z.eqb_refl.
  - destruct (k' =? k) eqn:E; simpl; [by rewrite Z.eqb_refl|].
    by rewrite E.
Qed.

Lemma jsGet_jsSet_ne {V} k k' (v : V) (o : JsObject V) :
  k ≠ k' -> jsGet k (jsSet k' v o) = jsGet k o.
Proof.
  intros Hne. unfold jsGet. induction o as [|[k0 v0] o IH]; simpl.
  - by destruct (Z.eqb_spec k' k) as [->|_].
  - destruct (Z.eqb_spec k0 k') as [->|Hn0]; simpl.
    + destruct (Z.eqb_spec k' k) as [->|_]; [done|]. done.
    + destruct (k0 =? k); [done|]. exact IH.
Qed.

Lemma fold_left_None {A B} (f : option A -> B -> option A) (l : list B) :
  (forall e, f None e = None) -> fold_left f l None = None.
Proof. intros Hf. induction l as [|e l IH]; [done|]. simpl. by rewrite Hf. Qed.

(** X22: in the known-data branch of [getBaseMaterials] a base material is
    written with `=`, not added: when an entry of a base material is
    followed only by entries of other base materials, the result holds for
    it exactly the entry's amount times the requested quantity, whatever
    the entries before it, merged from sub-recipes, had put under the same
    id. *)
Theorem base_material_entry_overwrites
    (items : JsObject ItemData)
    (getCraftDetailsById : ItemId -> option (list (ItemId * Z)))
    (fetch : string -> FetchOutcome)
    (self : ItemId -> Z -> list ItemId
            -> option (option (JsObject Material) * list CraftLine))
    (itemId : ItemId) (quantity : Z) (visited : list ItemId) (name : string)
    (materials : JsObject Material) (lines : list CraftLine)
    (before after : list (ItemId * Material)) (s : ItemId) (sn : string)
    (sq : Z) (r : JsObject Material) (ls : list CraftLine) :
  isVisited itemId visited = false ->
  getName items itemId = Some name ->
  truthyString name = true ->
  isBaseMaterial name = false ->
  scrapeRawMaterials items fetch name = (Some materials, lines) ->
  jsEntries materials = (before ++ (s, (sn, sq)) :: after)%list ->
  isBaseMaterial sn = true ->
  Forall (fun e => isBaseMaterial (fst (snd e)) = true /\ fst e ≠ s) after ->
  getBaseMaterialsBody items getCraftDetailsById fetch self itemId quantity
    visited = Some (Some r, ls) ->
  jsGet s r = Some (sn, sq * quantity).
Proof.
  intros Hv Hn Ht Hb Hs He Hsn Hafter. unfold getBaseMaterialsBody.
  rewrite Hv, Hn, Ht, Hb, Hs, He. clear He. simpl.
  rewrite fold_left_app. simpl.
  match goal with
  | |- context [fold_left ?f before ?a] =>
      set (step := f); destruct (fold_left step before a) as [[b0 l0]|]
  end.
  - cbv iota beta. rewrite Hsn.
    assert (Hfold : forall acc l1,
              jsGet s acc = Some (sn, sq * quantity) ->
              exists acc', fold_left step after (Some (acc, l1))
                           = Some (acc', l1)
                           /\ jsGet s acc' = Some (sn, sq * quantity)).
    { induction Hafter as [|e post [Hbase Hne] _ IH]; intros acc l1 Hacc.
      - by exists acc.
      - simpl. rewrite Hbase. apply IH. by rewrite jsGet_jsSet_ne. }
    destruct (Hfold (jsSet s (sn, sq * quantity) b0) l0
                (jsGet_jsSet_eq _ _ _)) as (acc' & -> & Hacc).
    simpl. by intros [= <- _].
  - rewrite fold_left_None; [done|]. by intros e.
Qed.
Lemma base_material_entry_overwrites_witness :
  exists r ls,
    getBaseMaterials explosiveItems noRecipes offline 3 (-592016202) 1 []
    = Some (Some r, ls)
    /\ jsGet (-1938052175) r = Some ("Charcoal", 150)
    /\ jsGet (-1581843485) r = Some ("Sulfur", 10 * 1).
Proof.
  exists [(69511070, ("Metal Fragments", 10)); (-1938052175, ("Charcoal", 150));
          (-1581843485, ("Sulfur", 10)); (-946369541, ("Low Grade Fuel", 3))].
  exists [].
  split; [vm_compute; reflexivity|]. split; [reflexivity|].
  apply (base_material_entry_overwrites explosiveItems noRecipes offline
           (getBaseMaterials explosiveItems noRecipes offline 2)
           (-592016202) 1 [] "Explosives"
           [(-265876753, ("Gun Powder", 50));
            (-946369541, ("Low Grade Fuel", 3));
            (-1581843485, ("Sulfur", 10));
            (69511070, ("Metal Fragments", 10))]
           []
           [(69511070, ("Metal Fragments", 10));
            (-265876753, ("Gun Powder", 50));
            (-946369541, ("Low Grade Fuel", 3))]
           [] (-1581843485) "Sulfur" 10 _ []).
  - reflexivity.
  - reflexivity.
  - reflexivity.
  - reflexivity.
  - vm_compute. reflexivity.
  - vm_compute. reflexivity.
  - reflexivity.
  - constructor.
  - vm_compute. reflexivity.
Defined.
(** *** Names and ids *)

Lemma insertEntry_In {V} (e x : ItemId * V) l :
  In x (insertEntry e l) <-> x = e \/ In x l.
Proof.
  induction l as [|e' l IH]; simpl; [intuition|].
  destruct (fst e <=? fst e'); simpl; [intuition|].
  rewrite IH. intuition.
Qed.

Lemma sortEntries_In {V} (x : ItemId * V) l : In x (sortEntries l) <-> In x l.
Proof.
  induction l as [|e l IH]; simpl; [done|].
  rewrite insertEntry_In, IH. intuition.
Qed.

Lemma jsEntries_In {V} (x : ItemId * V) (o : JsObject V) :
  In x (jsEntries o) <-> In x o.
Proof.
  unfold jsEntries. rewrite in_app_iff, sortEntries_In, !filter_In.
  destruct (isArrayIndex (fst x)); simpl; intuition discriminate.
Qed.

Lemma jsGet_unique {V} k (v : V) (o : JsObject V) :
  NoDup (map fst o) -> In (k, v) o -> jsGet k o = Some v.
Proof.
  unfold jsGet. induction o as [|[k' v'] o IH]; [done|]. simpl.
  intros [Hk Hn]%NoDup_cons [[= -> ->]|Hin].
  - by rewrite Z.eqb_refl.
  - destruct (Z.eqb_spec k' k) as [->|_]; [|by apply IH].
    exfalso. apply Hk, list_elem_of_In, in_map_iff. by exists (k, v).
Qed.

(** X23: names and ids of the item table, an object, in which no id
    occurs twice: the id that [getItemId] finds for a name carries this name; every name
    that an id carries is found by [getItemId] and by [getItemShortname],
    and the id found carries the same name; and the two searches fail on the
    same names. *)
Theorem item_names_and_ids_round_trip (items : JsObject ItemData) :
  NoDup (map fst items) ->
  (forall name id,
     getItemId items name = Some id -> getName items id = Some name)
  /\ (forall name id,
        getName items id = Some name ->
        exists id' short,
          getItemId items name = Some id'
          /\ getItemShortname items name = Some short
          /\ getName items id' = Some name)
  /\ (forall name,
        getItemId items name = None <-> getItemShortname items name = None).
Proof.
  intros Hn.
  assert (H1 : forall name id,
            getItemId items name = Some id -> getName items id = Some name).
  { intros name id. unfold getItemId, getName.
    destruct (List.find _ _) as [[k d]|] eqn:E; [|done].
    intros [= <-]. apply find_some in E as [Hin Hname].
    apply (proj1 (jsEntries_In _ _)) in Hin. simpl in *.
    rewrite (jsGet_unique k d items Hn Hin). simpl.
    by apply String.eqb_eq in Hname as ->. }
  split; [exact H1|]. split.
  - intros name id. unfold getName.
    destruct (jsGet id items) as [d|] eqn:E; [|done]. intros [= <-].
    assert (Hin : In (id, d) (jsEntries items)).
    { apply jsEntries_In. unfold jsGet in E.
      destruct (List.find _ items) as [[k d']|] eqn:F; [|done].
      apply find_some in F as [Hin Hk]. simpl in *.
      apply Z.eqb_eq in Hk as ->. by injection E as ->. }
    destruct (List.find (fun e => String.eqb (itemName (snd e)) (itemName d))
                (jsEntries items)) as [[k d']|] eqn:F.
    + exists k, (shortname d'). unfold getItemId, getItemShortname.
      rewrite F. split; [done|]. split; [done|].
      apply H1. unfold getItemId. by rewrite F.
    + exfalso. pose proof (find_none _ _ F (id, d) Hin) as Hno. simpl in Hno.
      by rewrite String.eqb_refl in Hno.
  - intros name. unfold getItemId, getItemShortname.
    by destruct (List.find _ _).
Qed.

Lemma item_names_and_ids_round_trip_witness :
  getItemId explosiveItems "Metal Fragments" = Some 69511070
  /\ getName explosiveItems 69511070 = Some "Metal Fragments"
  /\ getItemShortname explosiveItems "Metal Fragments" = Some "metal.fragments".
Proof.
  split; [reflexivity|]. split; [|reflexivity].
  apply (proj1 (item_names_and_ids_round_trip explosiveItems
                  ltac:(vm_compute; repeat constructor; rewrite ?elem_of_cons, elem_of_nil; intuition discriminate))).
  reflexivity.
Defined.
